(** * The I/O log writer of the log server (logsrvd/iolog_writer.c)

    A shallow embedding of [iolog_writer.c]: the session-open decoder
    [iolog_details_fill], the directory builder [create_iolog_dir], the
    stream writer [iolog_open] / [iolog_write], the append engine
    [store_iobuf] / [store_suspend] / [store_winsize] and the restart engine
    [read_timing_record] / [iolog_restart], over an executable model of the
    POSIX calls they make.

    Conventions.  C integers are [Z] with the wrap-around of their width
    written out (an LP64 platform: [int] is 32 bits; [long], [time_t],
    [off_t], [long long] are 64 bits, [size_t] is 64 bits unsigned).  Byte
    buffers and file contents are [list ascii]; C strings that are never
    cut are [string].  The operating system is a record [world]; every
    system call is a function on it, consults the next entry of a fault
    script and appends to a trace. *)

From Stdlib Require Import ZArith Lia Ascii String List.
From stdpp Require Import gmap strings list fin_maps.

Local Open Scope Z_scope.

(** ** Machine integers *)

Module CInt.

Definition swrap (w x : Z) : Z := (x + 2 ^ (w - 1)) mod 2 ^ w - 2 ^ (w - 1).
Definition uwrap (w x : Z) : Z := x mod 2 ^ w.

Definition int32 (x : Z) : Z := swrap 32 x.
Definition int64 (x : Z) : Z := swrap 64 x.
Definition size_t (x : Z) : Z := uwrap 64 x.

Definition INT_MAX : Z := 2147483647.

Definition in_int32 (x : Z) : Prop := - 2147483648 <= x <= 2147483647.
Definition in_int64 (x : Z) : Prop :=
  - 9223372036854775808 <= x <= 9223372036854775807.
Definition in_size_t (x : Z) : Prop := 0 <= x <= 18446744073709551615.

End CInt.
Import CInt.

(** ** Time values *)

(** [struct timespec]: [time_t tv_sec; long tv_nsec]. *)
Record timespec := mk_timespec { tv_sec : Z; tv_nsec : Z }.

(** The protobuf [TimeSpec] message: [int64 tv_sec; int32 tv_nsec]. *)
Record TimeSpec := mk_TimeSpec { msg_tv_sec : Z; msg_tv_nsec : Z }.

Definition wf_TimeSpec (d : TimeSpec) : Prop :=
  in_int64 (msg_tv_sec d) /\ in_int32 (msg_tv_nsec d).

Definition NSEC_PER_SEC : Z := 1000000000.

(** The loop [while (ts->tv_nsec >= 1000000000) { ts->tv_sec++;
    ts->tv_nsec -= 1000000000; }], shared by [update_elapsed_time] and the
    [sudo_timespecadd] macro.  [fuel] bounds the number of iterations. *)
Fixpoint carry_loop (fuel : nat) (ts : timespec) : timespec :=
  match fuel with
  | O => ts
  | S k =>
      if NSEC_PER_SEC <=? tv_nsec ts
      then carry_loop k {| tv_sec := int64 (tv_sec ts + 1);
                           tv_nsec := int64 (tv_nsec ts - NSEC_PER_SEC) |}
      else ts
  end.

(** The number of iterations the loop makes from [ts]: one per whole second
    held in [tv_nsec]. *)
Definition carry_fuel (ts : timespec) : nat :=
  Z.to_nat (tv_nsec ts / NSEC_PER_SEC).

(** [update_elapsed_time(delta, elapsed)], lines 582-596. *)
Definition update_elapsed_time (delta : TimeSpec) (elapsed : timespec)
  : timespec :=
  let e := {| tv_sec := int64 (tv_sec elapsed + msg_tv_sec delta);
              tv_nsec := int64 (tv_nsec elapsed + msg_tv_nsec delta) |} in
  carry_loop (carry_fuel e) e.

(** Modelled from the spec: the macro [sudo_timespecadd] of sudo_util.h,
    which is not part of the sources at hand.  "add component-wise, then
    while nsec >= 10^9 carry one second". *)
Definition sudo_timespecadd (ts1 ts2 : timespec) : timespec :=
  let e := {| tv_sec := int64 (tv_sec ts1 + tv_sec ts2);
              tv_nsec := int64 (tv_nsec ts1 + tv_nsec ts2) |} in
  carry_loop (carry_fuel e) e.

(** Modelled from the spec: the macro [sudo_timespeccmp] of sudo_util.h,
    instantiated at the two operators [iolog_restart] uses: compare the
    seconds, and the nanoseconds when the seconds agree. *)
Definition sudo_timespeccmp_ge (a b : timespec) : bool :=
  if tv_sec a =? tv_sec b then tv_nsec b <=? tv_nsec a
  else tv_sec b <=? tv_sec a.

Definition sudo_timespeccmp_eq (a b : timespec) : bool :=
  if tv_sec a =? tv_sec b then tv_nsec a =? tv_nsec b
  else tv_sec a =? tv_sec b.


(** The claim's reading of the elapsed time: the component-wise sum of
    the delays on top of the starting value [e0], normalised so that the
    nanoseconds lie in [0, 10^9). *)
Definition sum_sec (ds : list TimeSpec) : Z := foldr Z.add 0 (map msg_tv_sec ds).
Definition sum_nsec (ds : list TimeSpec) : Z := foldr Z.add 0 (map msg_tv_nsec ds).

Definition normalised_sum (e0 : timespec) (ds : list TimeSpec) : timespec :=
  let n := tv_nsec e0 + sum_nsec ds in
  {| tv_sec := tv_sec e0 + sum_sec ds + n / NSEC_PER_SEC;
     tv_nsec := n mod NSEC_PER_SEC |}.

(** ** Text: characters, C strings and the printf conversions *)

Definition NUL : ascii := "000"%char.
Definition NL : ascii := "010"%char.
Definition SP : ascii := " "%char.

Definition chars (s : string) : list ascii := list_ascii_of_string s.

(** The C string held in a buffer: the characters before the first NUL. *)
Fixpoint c_str (buf : list ascii) : list ascii :=
  match buf with
  | [] => []
  | c :: rest => if Ascii.eqb c NUL then [] else c :: c_str rest
  end.

(** [strcspn(s, reject)] for a one-character [reject]: the length of the
    initial segment of [s] free of that character. *)
Fixpoint strcspn (s : list ascii) (reject : ascii) : nat :=
  match s with
  | [] => O
  | c :: rest => if Ascii.eqb c reject then O else S (strcspn rest reject)
  end.

Definition digit_char (d : Z) : ascii := ascii_of_nat (Z.to_nat (48 + d)).

(** The decimal digits of [n >= 0], most significant first, in front of
    [acc]; [fuel] bounds the number of digits produced. *)
Fixpoint digits_of (fuel : nat) (n : Z) (acc : list ascii) : list ascii :=
  match fuel with
  | O => acc
  | S k =>
      let acc' := digit_char (n mod 10) :: acc in
      if n <? 10 then acc' else digits_of k (n / 10) acc'
  end.

(** [%zu] and the digits of the signed conversions: a 64-bit value has at
    most 20 decimal digits. *)
Definition fmt_u (n : Z) : list ascii := digits_of 20 n [].

(** [%d] and [%lld]. *)
Definition fmt_d (n : Z) : list ascii :=
  if n <? 0 then "-"%char :: fmt_u (- n) else fmt_u n.

Definition zero_pad (width : nat) (ds : list ascii) : list ascii :=
  replicate (width - length ds) "0"%char ++ ds.

(** [%09d]: at least nine characters, the sign included, padded with
    zeros after the sign. *)
Definition fmt_09d (n : Z) : list ascii :=
  if n <? 0 then "-"%char :: zero_pad 8 (fmt_u (- n))
  else zero_pad 9 (fmt_u n).

(** The value of a run of decimal digits. *)
Definition digit_value (c : ascii) : Z := Z.of_nat (nat_of_ascii c) - 48.

Definition dec_value (ds : list ascii) : Z :=
  fold_left (fun a c => 10 * a + digit_value c) ds 0.

Definition is_digit (c : ascii) : bool :=
  (0 <=? digit_value c) && (digit_value c <=? 9).

(** ** Messages from the client (log_server.proto) *)

Record IoBuffer := mk_IoBuffer {
  ib_delay : TimeSpec;
  ib_data : list ascii          (* ProtobufCBinaryData: data.len = length *)
}.

Record CommandSuspend := mk_CommandSuspend {
  cs_delay : TimeSpec;
  cs_signal : string
}.

Record ChangeWindowSize := mk_ChangeWindowSize {
  cw_delay : TimeSpec;
  cw_rows : Z;                  (* int32 *)
  cw_cols : Z                   (* int32 *)
}.

Record RestartMessage := mk_RestartMessage {
  log_id : string;
  resume_point : TimeSpec
}.

(** The [value] oneof of an [InfoMessage]; [numval] is an int64. *)
Inductive info_value :=
| VALUE_NOT_SET
| NUMVAL (numval : Z)
| STRVAL (strval : string)
| STRLISTVAL (strings : list string).

Record InfoMessage := mk_InfoMessage {
  key : string;
  value : info_value
}.

Record ExecMessage := mk_ExecMessage {
  start_time : TimeSpec;
  info_msgs : list InfoMessage
}.

(** [struct iolog_details]; a [char *] that may be NULL is an [option]. *)
Record iolog_details := mk_iolog_details {
  d_start_time : Z;
  d_command : option string;
  d_cwd : option string;
  d_rungroup : option string;
  d_runuser : option string;
  d_submithost : option string;
  d_submituser : option string;
  d_ttyname : option string;
  d_argv : list string;
  d_argc : Z;
  d_lines : Z;
  d_columns : Z
}.

Definition has_numval (info : InfoMessage) : bool :=
  match value info with NUMVAL _ => true | _ => false end.

Definition has_strval (info : InfoMessage) : bool :=
  match value info with STRVAL _ => true | _ => false end.

Definition has_strlistval (info : InfoMessage) : bool :=
  match value info with STRLISTVAL _ => true | _ => false end.

Module Details.

Definition set_lines (v : Z) (d : iolog_details) : iolog_details :=
  mk_iolog_details (d_start_time d) (d_command d) (d_cwd d) (d_rungroup d)
    (d_runuser d) (d_submithost d) (d_submituser d) (d_ttyname d)
    (d_argv d) (d_argc d) v (d_columns d).

Definition set_columns (v : Z) (d : iolog_details) : iolog_details :=
  mk_iolog_details (d_start_time d) (d_command d) (d_cwd d) (d_rungroup d)
    (d_runuser d) (d_submithost d) (d_submituser d) (d_ttyname d)
    (d_argv d) (d_argc d) (d_lines d) v.

Definition set_command (v : string) (d : iolog_details) : iolog_details :=
  mk_iolog_details (d_start_time d) (Some v) (d_cwd d) (d_rungroup d)
    (d_runuser d) (d_submithost d) (d_submituser d) (d_ttyname d)
    (d_argv d) (d_argc d) (d_lines d) (d_columns d).

Definition set_cwd (v : string) (d : iolog_details) : iolog_details :=
  mk_iolog_details (d_start_time d) (d_command d) (Some v) (d_rungroup d)
    (d_runuser d) (d_submithost d) (d_submituser d) (d_ttyname d)
    (d_argv d) (d_argc d) (d_lines d) (d_columns d).

Definition set_rungroup (v : string) (d : iolog_details) : iolog_details :=
  mk_iolog_details (d_start_time d) (d_command d) (d_cwd d) (Some v)
    (d_runuser d) (d_submithost d) (d_submituser d) (d_ttyname d)
    (d_argv d) (d_argc d) (d_lines d) (d_columns d).

Definition set_runuser (v : string) (d : iolog_details) : iolog_details :=
  mk_iolog_details (d_start_time d) (d_command d) (d_cwd d) (d_rungroup d)
    (Some v) (d_submithost d) (d_submituser d) (d_ttyname d)
    (d_argv d) (d_argc d) (d_lines d) (d_columns d).

Definition set_submithost (v : string) (d : iolog_details) : iolog_details :=
  mk_iolog_details (d_start_time d) (d_command d) (d_cwd d) (d_rungroup d)
    (d_runuser d) (Some v) (d_submituser d) (d_ttyname d)
    (d_argv d) (d_argc d) (d_lines d) (d_columns d).

Definition set_submituser (v : string) (d : iolog_details) : iolog_details :=
  mk_iolog_details (d_start_time d) (d_command d) (d_cwd d) (d_rungroup d)
    (d_runuser d) (d_submithost d) (Some v) (d_ttyname d)
    (d_argv d) (d_argc d) (d_lines d) (d_columns d).

Definition set_ttyname (v : string) (d : iolog_details) : iolog_details :=
  mk_iolog_details (d_start_time d) (d_command d) (d_cwd d) (d_rungroup d)
    (d_runuser d) (d_submithost d) (d_submituser d) (Some v)
    (d_argv d) (d_argc d) (d_lines d) (d_columns d).

(** [details->argv = strings; details->argc = n_strings]: the count is a
    [size_t] stored in an [int]. *)
Definition set_argv (v : list string) (d : iolog_details) : iolog_details :=
  mk_iolog_details (d_start_time d) (d_command d) (d_cwd d) (d_rungroup d)
    (d_runuser d) (d_submithost d) (d_submituser d) (d_ttyname d)
    v (int32 (size_t (Z.of_nat (length v)))) (d_lines d) (d_columns d).

End Details.

(** [key[0]]: the first character of a C string, NUL when it is empty. *)
Definition key0 (k : string) : ascii :=
  match k with String c _ => c | EmptyString => NUL end.

(** The body of the [for] loop of [iolog_details_fill] (lines 98-210) for
    one entry of the info array: a [switch] on the first character of the
    key, then [strcmp] against each known key.  An entry that is not of
    the expected kind, or whose number is out of range, only produces a
    debug message and leaves [details] as it was. *)
Definition fill_one (details : iolog_details) (info : InfoMessage)
  : iolog_details :=
  let k := key info in
  if Ascii.eqb (key0 k) "c" then
    if String.eqb k "columns" then
      match value info with
      | NUMVAL numval =>
          if (numval <=? 0) || (INT_MAX <? numval) then details
          else Details.set_columns numval details
      | _ => details
      end
    else if String.eqb k "command" then
      match value info with
      | STRVAL s => Details.set_command s details
      | _ => details
      end
    else if String.eqb k "cwd" then
      match value info with
      | STRVAL s => Details.set_cwd s details
      | _ => details
      end
    else details
  else if Ascii.eqb (key0 k) "l" then
    if String.eqb k "lines" then
      match value info with
      | NUMVAL numval =>
          if (numval <=? 0) || (INT_MAX <? numval) then details
          else Details.set_lines numval details
      | _ => details
      end
    else details
  else if Ascii.eqb (key0 k) "r" then
    if String.eqb k "runargv" then
      match value info with
      | STRLISTVAL l => Details.set_argv l details
      | _ => details
      end
    else if String.eqb k "rungroup" then
      match value info with
      | STRVAL s => Details.set_rungroup s details
      | _ => details
      end
    else if String.eqb k "runuser" then
      match value info with
      | STRVAL s => Details.set_runuser s details
      | _ => details
      end
    else details
  else if Ascii.eqb (key0 k) "s" then
    if String.eqb k "submithost" then
      match value info with
      | STRVAL s => Details.set_submithost s details
      | _ => details
      end
    else if String.eqb k "submituser" then
      match value info with
      | STRVAL s => Details.set_submituser s details
      | _ => details
      end
    else details
  else if Ascii.eqb (key0 k) "t" then
    if String.eqb k "ttyname" then
      match value info with
      | STRVAL s => Details.set_ttyname s details
      | _ => details
      end
    else details
  else details.

(** [details] after the [memset], the start time and the two defaults
    (lines 88-95). *)
Definition details_init (msg : ExecMessage) : iolog_details :=
  mk_iolog_details (msg_tv_sec (start_time msg)) None None None None None None
    None [] 0 24 80.

(** [iolog_details_fill(details, msg)], lines 81-230: the filled details
    and the returned [ret]. *)
Definition iolog_details_fill (msg : ExecMessage) : iolog_details * bool :=
  let details := fold_left fill_one (info_msgs msg) (details_init msg) in
  let ret := true in
  let ret := if d_submituser details is None then false else ret in
  let ret := if d_submithost details is None then false else ret in
  let ret := if d_command details is None then false else ret in
  (details, ret).

(** An entry that [iolog_details_fill] takes as the number of [lines] or
    [columns]: the key [k] with a number in [1, INT_MAX]. *)
Definition accepted (k : string) (info : InfoMessage) : bool :=
  String.eqb (key info) k &&
  match value info with
  | NUMVAL v => (1 <=? v) && (v <=? INT_MAX)
  | _ => false
  end.

(** ** The operating system *)

(** An open file description: the file it refers to, the shared offset,
    the access mode, and whether it is a directory. *)
Record ofd := mk_ofd {
  ofd_path : string;
  ofd_off : Z;
  ofd_rd : bool;
  ofd_wr : bool;
  ofd_dir : bool
}.

(** What the environment has in store for the next call: a healthy call,
    a failure with an [errno], a short [write], or the name [mkdtemp]
    picks. An exhausted script means healthy calls. *)
Inductive outcome :=
| Proceed
| Fault (errno : Z)
| Partial (n : Z)
| Suffix (s : string).

Inductive whence := SEEK_SET | SEEK_CUR.

(** The calls made, with their arguments and results, in order. *)
Inductive syscall :=
| Mkdir (path : string) (mode : Z) (ret : Z)
| Mkdtemp (template : string) (ret : option string)
| Strdup (s : string) (ret : option string)
| Open (path : string) (flags : Z) (ret : Z)
| Openat (dirfd : Z) (name : string) (flags mode : Z) (ret : Z)
| Fdopen (fd : Z) (ok : bool)
| Dup (fd ret : Z)
| Close (fd ret : Z)
| Write (fd : Z) (buf : list ascii) (ret : Z)
| Read (fd : Z) (got : list ascii)
| Lseek (fd off : Z) (wh : whence) (ret : Z)
| Ftruncate (fd len ret : Z).

(** The messages [sudo_debug_printf] hands to the debug sink. *)
Inductive debug_msg :=
| dbg_invalid_iofd (iofd : Z)             (* "invalid iofd %d" *)
| dbg_not_open (iofd : Z)                 (* "iofd %d referenced but not open" *)
| dbg_resume_mismatch (target have : timespec)
                                          (* "resume point mismatch, ..." *)
| dbg_text (s : string).                  (* the other messages *)

Record world := mk_world {
  w_dirs : gset string;                   (* directories, by path *)
  w_files : gmap string (list ascii);     (* regular files, by path *)
  w_fds : gmap nat nat;                   (* descriptor -> description *)
  w_ofds : gmap nat ofd;                  (* open file descriptions *)
  w_errno : Z;
  w_script : list outcome;
  w_trace : list syscall;
  w_debug : list debug_msg;
  w_freed : list string                   (* the blocks handed to free(3) *)
}.

Module Sys.

Definition EEXIST : Z := 17.
Definition ENOENT : Z := 2.
Definition EBADF : Z := 9.
Definition EINVAL : Z := 22.
Definition ENOTDIR : Z := 20.
Definition EISDIR : Z := 21.
Definition EMFILE : Z := 24.

Definition O_RDONLY : Z := 0.
Definition O_WRONLY : Z := 1.
Definition O_RDWR : Z := 2.
Definition O_ACCMODE : Z := 3.
Definition O_CREAT : Z := 64.
Definition O_EXCL : Z := 128.

Definition PATH_MAX : Z := 4096.
Definition LINE_MAX : Z := 2048.

Definition set_dirs (v : gset string) (w : world) : world :=
  mk_world v (w_files w) (w_fds w) (w_ofds w) (w_errno w) (w_script w)
    (w_trace w) (w_debug w) (w_freed w).
Definition set_files (v : gmap string (list ascii)) (w : world) : world :=
  mk_world (w_dirs w) v (w_fds w) (w_ofds w) (w_errno w) (w_script w)
    (w_trace w) (w_debug w) (w_freed w).
Definition set_fds (v : gmap nat nat) (w : world) : world :=
  mk_world (w_dirs w) (w_files w) v (w_ofds w) (w_errno w) (w_script w)
    (w_trace w) (w_debug w) (w_freed w).
Definition set_ofds (v : gmap nat ofd) (w : world) : world :=
  mk_world (w_dirs w) (w_files w) (w_fds w) v (w_errno w) (w_script w)
    (w_trace w) (w_debug w) (w_freed w).
Definition set_errno (v : Z) (w : world) : world :=
  mk_world (w_dirs w) (w_files w) (w_fds w) (w_ofds w) v (w_script w)
    (w_trace w) (w_debug w) (w_freed w).
Definition set_script (v : list outcome) (w : world) : world :=
  mk_world (w_dirs w) (w_files w) (w_fds w) (w_ofds w) (w_errno w) v
    (w_trace w) (w_debug w) (w_freed w).
Definition emit (e : syscall) (w : world) : world :=
  mk_world (w_dirs w) (w_files w) (w_fds w) (w_ofds w) (w_errno w)
    (w_script w) (w_trace w ++ [e]) (w_debug w) (w_freed w).
Definition debug (m : debug_msg) (w : world) : world :=
  mk_world (w_dirs w) (w_files w) (w_fds w) (w_ofds w) (w_errno w)
    (w_script w) (w_trace w) (w_debug w ++ [m]) (w_freed w).

(** [free(p)]: nothing for a NULL pointer; otherwise the block is
    released.  The pointer itself is left as it is where it is stored. *)
Definition free (p : option string) (w : world) : world :=
  match p with
  | None => w
  | Some block =>
      mk_world (w_dirs w) (w_files w) (w_fds w) (w_ofds w) (w_errno w)
        (w_script w) (w_trace w) (w_debug w) (w_freed w ++ [block])
  end.

Definition next_outcome (w : world) : outcome * world :=
  match w_script w with
  | [] => (Proceed, w)
  | o :: rest => (o, set_script rest w)
  end.

Definition failed (e : Z) (w : world) : Z * world := (-1, set_errno e w).

Definition set_off (off : Z) (d : ofd) : ofd :=
  mk_ofd (ofd_path d) off (ofd_rd d) (ofd_wr d) (ofd_dir d).

(** The description behind a descriptor. *)
Definition fd_lookup (w : world) (fd : Z) : option (nat * ofd) :=
  if fd <? 0 then None
  else match w_fds w !! Z.to_nat fd with
       | None => None
       | Some i => match w_ofds w !! i with
                   | None => None
                   | Some d => Some (i, d)
                   end
       end.

(** A new description under a new descriptor. *)
Definition install (d : ofd) (w : world) : Z * world :=
  let i := fresh (dom (w_ofds w)) in
  let fd := fresh (dom (w_fds w)) in
  (Z.of_nat fd, set_fds (<[fd:=i]> (w_fds w)) (set_ofds (<[i:=d]> (w_ofds w)) w)).

(** *** Paths *)

Fixpoint has_slash (p : string) : bool :=
  match p with
  | EmptyString => false
  | String c rest => Ascii.eqb c "/"%char || has_slash rest
  end.

Fixpoint before_last_slash (p : string) : string :=
  match p with
  | EmptyString => EmptyString
  | String c rest =>
      if has_slash rest then String c (before_last_slash rest)
      else EmptyString
  end.

(** The directory a path lies in. *)
Definition dirname (p : string) : string :=
  match before_last_slash p, p with
  | EmptyString, String "/" _ => "/"
  | EmptyString, _ => "."
  | d, _ => d
  end.

Definition exists_path (w : world) (p : string) : bool :=
  bool_decide (p ∈ w_dirs w) || bool_decide (is_Some (w_files w !! p)).

(** The template without its final [XXXXXX], if it ends so. *)
Definition template_prefix (template : string) : option string :=
  let n := String.length template in
  if (6 <=? n)%nat && String.eqb (substring (n - 6) 6 template) "XXXXXX"
  then Some (substring 0 (n - 6) template)
  else None.

Definition valid_suffix (s : string) : bool :=
  (String.length s =? 6)%nat && negb (has_slash s).

(** *** File contents *)

(** The contents after writing [data] at offset [off]: a gap past the end
    reads as zero bytes. *)
Definition write_at (content : list ascii) (off : Z) (data : list ascii)
  : list ascii :=
  resize (Z.to_nat off) NUL content ++ data
    ++ drop (Z.to_nat off + length data) content.

(** The characters [fgets] stores from [l]: up to and including the first
    newline, at most [n] of them. *)
Fixpoint line_prefix (n : nat) (l : list ascii) : list ascii :=
  match n, l with
  | S k, c :: rest => if Ascii.eqb c NL then [c] else c :: line_prefix k rest
  | _, _ => []
  end.

(** *** System calls *)

Definition mkdir (path : string) (mode : Z) (w0 : world) : Z * world :=
  let '(o, w) := next_outcome w0 in
  let '(r, w) :=
    match o with
    | Fault e => failed e w
    | _ =>
        if exists_path w path then failed EEXIST w
        else if negb (bool_decide (dirname path ∈ w_dirs w))
        then failed ENOENT w
        else (0, set_dirs ({[path]} ∪ w_dirs w) w)
    end in
  (r, emit (Mkdir path mode r) w).

Definition mkdtemp (template : string) (w0 : world) : option string * world :=
  let '(o, w) := next_outcome w0 in
  let '(r, w) :=
    match o with
    | Fault e => (None, set_errno e w)
    | _ =>
        match template_prefix template with
        | None => (None, set_errno EINVAL w)
        | Some prefix =>
            let suffix := match o with
                          | Suffix s => if valid_suffix s then s else "aaaaaa"
                          | _ => "aaaaaa"
                          end in
            let path := prefix +:+ suffix in
            if exists_path w path then (None, set_errno EEXIST w)
            else if negb (bool_decide (dirname path ∈ w_dirs w))
            then (None, set_errno ENOENT w)
            else (Some path, set_dirs ({[path]} ∪ w_dirs w) w)
        end
    end in
  (r, emit (Mkdtemp template r) w).

(** [strdup] fails when memory is short. *)
Definition strdup (s : string) (w0 : world) : option string * world :=
  let '(o, w) := next_outcome w0 in
  let '(r, w) :=
    match o with
    | Fault e => (None, set_errno e w)
    | _ => (Some s, w)
    end in
  (r, emit (Strdup s r) w).

Definition readable (flags : Z) : bool :=
  negb (Z.land flags O_ACCMODE =? O_WRONLY).
Definition writable (flags : Z) : bool :=
  negb (Z.land flags O_ACCMODE =? O_RDONLY).
Definition has_flag (flags f : Z) : bool := negb (Z.land flags f =? 0).

(** Opening the object at [path], shared by [open] and [openat]. *)
Definition open_path (path : string) (flags : Z) (w : world) : Z * world :=
  if bool_decide (path ∈ w_dirs w) then
    if writable flags || (has_flag flags O_CREAT && has_flag flags O_EXCL)
    then failed (if writable flags then EISDIR else EEXIST) w
    else install (mk_ofd path 0 true false true) w
  else match w_files w !! path with
       | Some _ =>
           if has_flag flags O_CREAT && has_flag flags O_EXCL
           then failed EEXIST w
           else install (mk_ofd path 0 (readable flags) (writable flags) false) w
       | None =>
           if has_flag flags O_CREAT then
             if bool_decide (dirname path ∈ w_dirs w) then
               install (mk_ofd path 0 (readable flags) (writable flags) false)
                 (set_files (<[path:=[]]> (w_files w)) w)
             else failed ENOENT w
           else failed ENOENT w
       end.

Definition open (path : string) (flags : Z) (w0 : world) : Z * world :=
  let '(o, w) := next_outcome w0 in
  let '(r, w) :=
    match o with
    | Fault e => failed e w
    | _ => open_path path flags w
    end in
  (r, emit (Open path flags r) w).

Definition openat (dirfd : Z) (name : string) (flags mode : Z) (w0 : world)
  : Z * world :=
  let '(o, w) := next_outcome w0 in
  let '(r, w) :=
    match o with
    | Fault e => failed e w
    | _ =>
        match fd_lookup w dirfd with
        | None => failed EBADF w
        | Some (_, d) =>
            if ofd_dir d then open_path (ofd_path d +:+ "/" +:+ name) flags w
            else failed ENOTDIR w
        end
    end in
  (r, emit (Openat dirfd name flags mode r) w).

(** The new descriptor shares the description, hence the offset. *)
Definition dup (fd : Z) (w0 : world) : Z * world :=
  let '(o, w) := next_outcome w0 in
  let '(r, w) :=
    match o with
    | Fault e => failed e w
    | _ =>
        match fd_lookup w fd with
        | None => failed EBADF w
        | Some (i, _) =>
            let fd' := fresh (dom (w_fds w)) in
            (Z.of_nat fd', set_fds (<[fd':=i]> (w_fds w)) w)
        end
    end in
  (r, emit (Dup fd r) w).

Definition close (fd : Z) (w : world) : Z * world :=
  let '(r, w) :=
    match fd_lookup w fd with
    | None => failed EBADF w
    | Some _ => (0, set_fds (delete (Z.to_nat fd) (w_fds w)) w)
    end in
  (r, emit (Close fd r) w).

Definition write (fd : Z) (buf : list ascii) (w0 : world) : Z * world :=
  let '(o, w) := next_outcome w0 in
  let '(r, w) :=
    match o with
    | Fault e => failed e w
    | _ =>
        match fd_lookup w fd with
        | None => failed EBADF w
        | Some (i, d) =>
            if negb (ofd_wr d) then failed EBADF w else
            match w_files w !! ofd_path d with
            | None => failed EBADF w
            | Some content =>
                let k := match o with
                         | Partial n => Z.to_nat n
                         | _ => length buf
                         end in
                let chunk := take k buf in
                let off' := ofd_off d + Z.of_nat (length chunk) in
                (Z.of_nat (length chunk),
                 set_files (<[ofd_path d := write_at content (ofd_off d) chunk]>
                              (w_files w))
                   (set_ofds (<[i := set_off off' d]> (w_ofds w)) w))
            end
        end
    end in
  (r, emit (Write fd buf r) w).

Definition lseek (fd off : Z) (wh : whence) (w0 : world) : Z * world :=
  let '(o, w) := next_outcome w0 in
  let '(r, w) :=
    match o with
    | Fault e => failed e w
    | _ =>
        match fd_lookup w fd with
        | None => failed EBADF w
        | Some (i, d) =>
            let pos := match wh with
                       | SEEK_SET => off
                       | SEEK_CUR => ofd_off d + off
                       end in
            if (pos <? 0) || (9223372036854775807 <? pos) then failed EINVAL w
            else (pos, set_ofds (<[i := set_off pos d]> (w_ofds w)) w)
        end
    end in
  (r, emit (Lseek fd off wh r) w).

(** The file is cut or extended with zero bytes to [len]; the offset
    stays. *)
Definition ftruncate (fd len : Z) (w0 : world) : Z * world :=
  let '(o, w) := next_outcome w0 in
  let '(r, w) :=
    match o with
    | Fault e => failed e w
    | _ =>
        match fd_lookup w fd with
        | None => failed EBADF w
        | Some (i, d) =>
            if negb (ofd_wr d) || (len <? 0) then failed EINVAL w else
            match w_files w !! ofd_path d with
            | None => failed EBADF w
            | Some content =>
                (0, set_files (<[ofd_path d := resize (Z.to_nat len) NUL content]>
                                 (w_files w)) w)
            end
        end
    end in
  (r, emit (Ftruncate fd len r) w).

(** *** Standard I/O streams

    A [FILE] over a descriptor.  Input is modelled without read-ahead, so
    the position of the stream is the offset of its descriptor; output is
    collected in the buffer and written by [fflush]. *)
Record FILE := mk_FILE {
  fp_fd : Z;
  fp_eof : bool;
  fp_error : bool;
  fp_buf : list ascii
}.

Definition fdopen (fd : Z) (w0 : world) : option FILE * world :=
  let '(o, w) := next_outcome w0 in
  let '(r, w) :=
    match o with
    | Fault e => (None, set_errno e w)
    | _ =>
        match fd_lookup w fd with
        | None => (None, set_errno EBADF w)
        | Some _ => (Some (mk_FILE fd false false []), w)
        end
    end in
  (r, emit (Fdopen fd (if r is Some _ then true else false)) w).

(** [fgets(line, size, fp)]: [None] is the NULL return. *)
Definition fgets (size : Z) (fp : FILE) (w0 : world)
  : option (list ascii) * FILE * world :=
  let '(o, w) := next_outcome w0 in
  let err := (None, mk_FILE (fp_fd fp) (fp_eof fp) true (fp_buf fp)) in
  match o with
  | Fault e => (err, emit (Read (fp_fd fp) []) (set_errno e w))
  | _ =>
      match fd_lookup w (fp_fd fp) with
      | None => (err, emit (Read (fp_fd fp) []) (set_errno EBADF w))
      | Some (i, d) =>
          match (if ofd_rd d then w_files w !! ofd_path d else None) with
          | None => (err, emit (Read (fp_fd fp) []) (set_errno EBADF w))
          | Some content =>
              let got := line_prefix (Z.to_nat (size - 1))
                           (drop (Z.to_nat (ofd_off d)) content) in
              match got with
              | [] =>
                  (None, mk_FILE (fp_fd fp) true (fp_error fp) (fp_buf fp),
                   emit (Read (fp_fd fp) []) w)
              | _ =>
                  let off' := ofd_off d + Z.of_nat (length got) in
                  (Some got, fp,
                   emit (Read (fp_fd fp) got)
                     (set_ofds (<[i := set_off off' d]> (w_ofds w)) w))
              end
          end
      end
  end.

Definition feof (fp : FILE) : bool := fp_eof fp.
Definition ferror (fp : FILE) : bool := fp_error fp.

(** [ftello(fp)] on an input stream. *)
Definition ftello (fp : FILE) (w0 : world) : Z * world :=
  let '(o, w) := next_outcome w0 in
  match o with
  | Fault e => failed e w
  | _ =>
      match fd_lookup w (fp_fd fp) with
      | None => failed EBADF w
      | Some (_, d) => (ofd_off d, w)
      end
  end.

(** [fprintf], [fputs] and [fputc] on an output stream. *)
Definition fputs (s : list ascii) (fp : FILE) : FILE :=
  mk_FILE (fp_fd fp) (fp_eof fp) (fp_error fp) (fp_buf fp ++ s).

Definition fflush (fp : FILE) (w : world) : FILE * world :=
  match fp_buf fp with
  | [] => (fp, w)
  | buf =>
      let '(n, w) := write (fp_fd fp) buf w in
      (mk_FILE (fp_fd fp) (fp_eof fp)
         (fp_error fp || negb (n =? Z.of_nat (length buf))) [], w)
  end.

Definition fclose (fp : FILE) (w : world) : world :=
  let '(fp, w) := fflush fp w in
  snd (close (fp_fd fp) w).

End Sys.

(** ** The session descriptor *)

Definition IOFD_STDIN : Z := 0.
Definition IOFD_STDOUT : Z := 1.
Definition IOFD_STDERR : Z := 2.
Definition IOFD_TTYIN : Z := 3.
Definition IOFD_TTYOUT : Z := 4.
Definition IOFD_TIMING : Z := 5.
Definition IOFD_MAX : Z := 6.

(** Modelled from the spec: the event kinds of iolog.h, which is not part
    of the sources at hand.  "5 encodes control events", suspend and
    window size alike. *)
Definition IO_EVENT_WINSIZE : Z := 5.
Definition IO_EVENT_SUSPEND : Z := 5.

(** Modelled from the spec: the configured default of [runuser], "root". *)
Definition RUNAS_DEFAULT : string := "root".

(** I/O log file names relative to iolog_dir (lines 49-57). *)
Definition iolog_names : list string :=
  ["stdin"; "stdout"; "stderr"; "ttyin"; "ttyout"; "timing"].

(** [struct connection_closure], the fields the writer uses.  [adjacent]
    is the memory around [io_fds]: what [io_fds[i]] reads when [i] is out
    of bounds, which C leaves undefined and the model leaves arbitrary. *)
Record connection_closure := mk_closure {
  iolog_dir : option string;
  iolog_dir_fd : Z;
  io_fds : list Z;
  elapsed_time : timespec;
  adjacent : Z -> Z
}.

Record state := mk_state { closure : connection_closure; sys : world }.

Module Closure.

Definition set_iolog_dir (v : option string) (c : connection_closure) :=
  mk_closure v (iolog_dir_fd c) (io_fds c) (elapsed_time c) (adjacent c).
Definition set_iolog_dir_fd (v : Z) (c : connection_closure) :=
  mk_closure (iolog_dir c) v (io_fds c) (elapsed_time c) (adjacent c).
Definition set_io_fds (v : list Z) (c : connection_closure) :=
  mk_closure (iolog_dir c) (iolog_dir_fd c) v (elapsed_time c) (adjacent c).
Definition set_elapsed_time (v : timespec) (c : connection_closure) :=
  mk_closure (iolog_dir c) (iolog_dir_fd c) (io_fds c) v (adjacent c).

(** [closure->io_fds[i]] as an rvalue. *)
Definition io_fd (c : connection_closure) (i : Z) : Z :=
  if (0 <=? i) && (i <? IOFD_MAX)
  then default (adjacent c i) (io_fds c !! Z.to_nat i)
  else adjacent c i.

End Closure.

Definition with_sys (w : world) (s : state) : state := mk_state (closure s) w.
Definition with_closure (f : connection_closure -> connection_closure)
  (s : state) : state := mk_state (f (closure s)) (sys s).
Definition say (m : debug_msg) (s : state) : state :=
  with_sys (Sys.debug m (sys s)) s.

(** What [%s] prints for a pointer: glibc prints "(null)" for NULL. *)
Definition str (p : option string) : string := default "(null)" p.

(** ** The log directory builder *)

(** [create_iolog_dir(details, closure)], lines 237-306.  [IOLOG_DIR] is
    the configured root of the logs.  493 is 0755. *)
Definition create_iolog_dir (IOLOG_DIR : string) (details : iolog_details)
  (s : state) : bool * state :=
  (* bad: free(closure->iolog_dir); return false *)
  let bad (s : state) : bool * state :=
    (false, with_sys (Sys.free (iolog_dir (closure s)) (sys s)) s) in
  let '(r, w) := Sys.mkdir IOLOG_DIR 493 (sys s) in
  let s := with_sys w s in
  if (r =? -1) && negb (w_errno w =? Sys.EEXIST)
  then bad (say (dbg_text "mkdir %s") s) else
  let path := IOLOG_DIR +:+ "/" +:+ str (d_submithost details) in
  if Sys.PATH_MAX <=? Z.of_nat (String.length path)
  then bad (say (dbg_text "failed to snprintf I/O log path") s) else
  let '(r, w) := Sys.mkdir path 493 (sys s) in
  let s := with_sys w s in
  if (r =? -1) && negb (w_errno w =? Sys.EEXIST)
  then bad (say (dbg_text "mkdir %s") s) else
  let path := IOLOG_DIR +:+ "/" +:+ str (d_submithost details)
                +:+ "/" +:+ str (d_submituser details) in
  if Sys.PATH_MAX <=? Z.of_nat (String.length path)
  then bad (say (dbg_text "failed to snprintf I/O log path") s) else
  let '(r, w) := Sys.mkdir path 493 (sys s) in
  let s := with_sys w s in
  if (r =? -1) && negb (w_errno w =? Sys.EEXIST)
  then bad (say (dbg_text "mkdir %s") s) else
  let path := IOLOG_DIR +:+ "/" +:+ str (d_submithost details)
                +:+ "/" +:+ str (d_submituser details) +:+ "/XXXXXX" in
  if Sys.PATH_MAX <=? Z.of_nat (String.length path)
  then bad (say (dbg_text "failed to snprintf I/O log path") s) else
  let '(made, w) := Sys.mkdtemp path (sys s) in
  let s := with_sys w s in
  match made with
  | None => bad (say (dbg_text "mkdtemp %s") s)
  | Some path =>
      (* Make a copy of iolog_dir for error messages. *)
      let '(copy, w) := Sys.strdup path (sys s) in
      let s := with_closure (Closure.set_iolog_dir copy) (with_sys w s) in
      match copy with
      | None => bad (say (dbg_text "strdup") s)
      | Some dir =>
          (* We use iolog_dir_fd in calls to openat(2) *)
          let '(fd, w) := Sys.open dir Sys.O_RDONLY (sys s) in
          let s := with_closure (Closure.set_iolog_dir_fd fd) (with_sys w s) in
          if fd =? -1 then bad (say (dbg_text "%s") s)
          else (true, s)
      end
  end.

(** ** The session metadata writer *)

(** What lines 328-340 print to the [log] file.  The loop of lines
    336-339 prints [argv[1]] to [argv[argc - 1]]; the strings past the end
    of the list, which the code would read when [argc] exceeds it, are
    not modelled, and neither is the [fputs] of a NULL [command] (line
    335), which is undefined: the text is what the code prints for
    details that have a command and an [argc] within the list. *)
Definition log_text (details : iolog_details) : list ascii :=
  fmt_d (int64 (d_start_time details)) ++ chars ":"
    ++ chars (str (d_submituser details)) ++ chars ":"
    ++ chars (default RUNAS_DEFAULT (d_runuser details)) ++ chars ":"
    ++ chars (default "" (d_rungroup details)) ++ chars ":"
    ++ chars (default "unknown" (d_ttyname details)) ++ chars ":"
    ++ fmt_d (d_lines details) ++ chars ":"
    ++ fmt_d (d_columns details) ++ [NL]
    ++ chars (default "unknown" (d_cwd details)) ++ [NL]
    ++ chars (str (d_command details))
    ++ concat (map (fun a => SP :: chars a)
                 (take (Z.to_nat (d_argc details - 1))
                    (drop 1 (d_argv details))))
    ++ [NL].

(** 193 is O_CREAT|O_EXCL|O_WRONLY, 384 is 0600. *)
Definition O_CREAT_EXCL_WRONLY : Z :=
  Z.lor Sys.O_CREAT (Z.lor Sys.O_EXCL Sys.O_WRONLY).

(** [iolog_details_write(details, closure)], lines 311-349. *)
Definition iolog_details_write (details : iolog_details) (s : state)
  : bool * state :=
  let '(fd, w) := Sys.openat (iolog_dir_fd (closure s)) "log"
                    O_CREAT_EXCL_WRONLY 384 (sys s) in
  let '(fp, w) := if fd =? -1 then (None, w) else Sys.fdopen fd w in
  match fp with
  | None =>
      let s := say (dbg_text "unable to open %s") (with_sys w s) in
      let w := if fd =? -1 then sys s else snd (Sys.close fd (sys s)) in
      (false, with_sys w s)
  | Some fp =>
      let fp := Sys.fputs (log_text details) fp in
      let '(fp, w) := Sys.fflush fp w in
      let error := Sys.ferror fp in
      let s := with_sys w s in
      let s := if error
               then say (dbg_text "unable to write to I/O log file %s") s
               else s in
      (negb error, with_sys (Sys.fclose fp (sys s)) s)
  end.

(** ** The stream writer *)

(** [iolog_open(iofd, closure)], lines 351-365. *)
Definition iolog_open (iofd : Z) (s : state) : bool * state :=
  if (iofd <? 0) || (IOFD_MAX <=? iofd)
  then (false, say (dbg_invalid_iofd iofd) s) else
  let '(fd, w) := Sys.openat (iolog_dir_fd (closure s))
                    (default "" (iolog_names !! Z.to_nat iofd))
                    O_CREAT_EXCL_WRONLY 384 (sys s) in
  let s := with_closure
             (fun c => Closure.set_io_fds (<[Z.to_nat iofd := fd]> (io_fds c)) c)
             (with_sys w s) in
  (negb (Closure.io_fd (closure s) iofd =? -1), s).

(** [iolog_close(closure)], lines 367-382. *)
Definition iolog_close (s : state) : state :=
  let w := fold_left
             (fun w fd => if fd =? -1 then w else snd (Sys.close fd w))
             (io_fds (closure s)) (sys s) in
  let w := if iolog_dir_fd (closure s) =? -1 then w
           else snd (Sys.close (iolog_dir_fd (closure s)) w) in
  with_sys w s.

(** [iolog_init(msg, closure)], lines 384-416. *)
Definition iolog_init (IOLOG_DIR : string) (msg : ExecMessage) (s : state)
  : bool * state :=
  (* Init io_fds in closure. *)
  let s := with_closure
             (Closure.set_io_fds (replicate (Z.to_nat IOFD_MAX) (-1))) s in
  (* Fill in iolog_details *)
  let '(details, ok) := iolog_details_fill msg in
  if negb ok then (false, s) else
  (* Create I/O log dir *)
  let '(ok, s) := create_iolog_dir IOLOG_DIR details s in
  if negb ok then (false, s) else
  (* Write sudo I/O log info file *)
  let '(ok, s) := iolog_details_write details s in
  if negb ok then (false, s) else
  (* Create timing, stdout, stderr and ttyout files for sudoreplay. *)
  let '(ok, s) := iolog_open IOFD_TIMING s in
  if negb ok then (false, s) else
  let '(ok, s) := iolog_open IOFD_STDOUT s in
  if negb ok then (false, s) else
  let '(ok, s) := iolog_open IOFD_STDERR s in
  if negb ok then (false, s) else
  let '(ok, s) := iolog_open IOFD_TTYOUT s in
  if negb ok then (false, s) else
  (* Ready to log I/O buffers. *)
  (true, s).

(** [iolog_write(iofd, buf, len, closure)], lines 563-576; [len] is the
    length of [buf]. *)
Definition iolog_write (iofd : Z) (buf : list ascii) (s : state)
  : bool * state :=
  if (iofd <? 0) || (IOFD_MAX <=? iofd)
  then (false, say (dbg_invalid_iofd iofd) s) else
  let '(nread, w) := Sys.write (Closure.io_fd (closure s) iofd) buf (sys s) in
  (size_t nread =? size_t (Z.of_nat (length buf)), with_sys w s).

(** ** The append engine *)

(** The [delay] part of a timing line: ["%lld.%09d"]. *)
Definition fmt_delay (delay : TimeSpec) : list ascii :=
  fmt_d (int64 (msg_tv_sec delay)) ++ chars "."
    ++ fmt_09d (int32 (msg_tv_nsec delay)).

(** ["%d %lld.%09d %zu\n"] *)
Definition iobuf_line (iofd : Z) (msg : IoBuffer) : list ascii :=
  fmt_d (int32 iofd) ++ [SP] ++ fmt_delay (ib_delay msg) ++ [SP]
    ++ fmt_u (size_t (Z.of_nat (length (ib_data msg)))) ++ [NL].

(** ["%d %lld.%09d %s\n"] *)
Definition suspend_line (msg : CommandSuspend) : list ascii :=
  fmt_d IO_EVENT_SUSPEND ++ [SP] ++ fmt_delay (cs_delay msg) ++ [SP]
    ++ chars (cs_signal msg) ++ [NL].

(** ["%d %lld.%09d %d %d\n"] *)
Definition winsize_line (msg : ChangeWindowSize) : list ascii :=
  fmt_d IO_EVENT_WINSIZE ++ [SP] ++ fmt_delay (cw_delay msg) ++ [SP]
    ++ fmt_d (int32 (cw_rows msg)) ++ [SP] ++ fmt_d (int32 (cw_cols msg))
    ++ [NL].

Definition sizeof_tbuf : Z := 1024.

Definition add_elapsed (delta : TimeSpec) (s : state) : state :=
  with_closure
    (fun c => Closure.set_elapsed_time
                (update_elapsed_time delta (elapsed_time c)) c) s.

(** [store_iobuf(iofd, msg, closure)], lines 598-633. *)
Definition store_iobuf (iofd : Z) (msg : IoBuffer) (s : state) : Z * state :=
  (* Open log file as needed. *)
  let '(ok, s) := if Closure.io_fd (closure s) iofd =? -1
                  then iolog_open iofd s else (true, s) in
  if negb ok then (-1, s) else
  (* Format timing data. *)
  let tbuf := iobuf_line iofd msg in
  let len := Z.of_nat (length tbuf) in
  if (len <? 0) || (sizeof_tbuf <=? len)
  then (-1, say (dbg_text "unable to format timing buffer") s) else
  (* Write to specified I/O log file. *)
  let '(ok, s) := iolog_write iofd (ib_data msg) s in
  if negb ok then (-1, s) else
  (* Write timing data. *)
  let '(ok, s) := iolog_write IOFD_TIMING tbuf s in
  if negb ok then (-1, s) else
  (0, add_elapsed (ib_delay msg) s).

(** [store_suspend(msg, closure)], lines 635-659. *)
Definition store_suspend (msg : CommandSuspend) (s : state) : Z * state :=
  let tbuf := suspend_line msg in
  let len := Z.of_nat (length tbuf) in
  if (len <? 0) || (sizeof_tbuf <=? len)
  then (-1, say (dbg_text "unable to format timing buffer") s) else
  let '(ok, s) := iolog_write IOFD_TIMING tbuf s in
  if negb ok then (-1, s) else
  (0, add_elapsed (cs_delay msg) s).

(** [store_winsize(msg, closure)], lines 661-685. *)
Definition store_winsize (msg : ChangeWindowSize) (s : state) : Z * state :=
  let tbuf := winsize_line msg in
  let len := Z.of_nat (length tbuf) in
  if (len <? 0) || (sizeof_tbuf <=? len)
  then (-1, say (dbg_text "unable to format timing buffer") s) else
  let '(ok, s) := iolog_write IOFD_TIMING tbuf s in
  if negb ok then (-1, s) else
  (0, add_elapsed (cw_delay msg) s).

(** ** Well-formed sessions *)

(** The descriptor of stream [iofd] is open for writing on the file
    [path], which holds [content], and is positioned at its end. *)
Definition stream_at_end (s : state) (iofd : Z) (path : string)
  (content : list ascii) : Prop :=
  exists i d,
    Sys.fd_lookup (sys s) (Closure.io_fd (closure s) iofd) = Some (i, d)
    /\ ofd_wr d = true
    /\ ofd_path d = path
    /\ ofd_off d = Z.of_nat (length content)
    /\ w_files (sys s) !! path = Some content.

(** The environment lets the next call through. *)
Definition healthy (w : world) : Prop :=
  match w_script w with
  | Fault _ :: _ | Partial _ :: _ => False
  | _ => True
  end.

Definition wf_IoBuffer (msg : IoBuffer) : Prop :=
  wf_TimeSpec (ib_delay msg)
  /\ Z.of_nat (length (ib_data msg)) < 18446744073709551615.

Definition wf_ChangeWindowSize (msg : ChangeWindowSize) : Prop :=
  wf_TimeSpec (cw_delay msg) /\ in_int32 (cw_rows msg) /\ in_int32 (cw_cols msg).

(** ** The timing codec, reading side *)

(** The payload of a timing record, by kind. *)
Inductive payload :=
| Bytes (nbytes : Z)
| SuspendSignal (signal : list ascii)
| WinSize (rows cols : Z).

(** [struct timing_closure]: the event kind, the delay and the payload
    union [u]. *)
Record timing_closure := mk_timing {
  event : Z;
  delay : timespec;
  u : payload
}.

(** [timing.u.nbytes], a [size_t]. *)
Definition u_nbytes (t : timing_closure) : Z :=
  match u t with Bytes n => n | _ => 0 end.

Module Codec.

Fixpoint span_digits (l : list ascii) : list ascii * list ascii :=
  match l with
  | [] => ([], [])
  | c :: rest =>
      if is_digit c
      then let '(ds, r) := span_digits rest in (c :: ds, r)
      else ([], l)
  end.

(** A decimal integer without leading zeros, and what follows it. *)
Definition scan_number (l : list ascii) : option (Z * list ascii) :=
  match span_digits l with
  | ([], _) => None
  | ("0"%char :: _ :: _, _) => None
  | (ds, rest) => Some (dec_value ds, rest)
  end.

(** Exactly nine digits of nanoseconds. *)
Definition scan_nsec (l : list ascii) : option (Z * list ascii) :=
  let '(ds, rest) := span_digits l in
  if (length ds =? 9)%nat then Some (dec_value ds, rest) else None.

Definition expect (c : ascii) (l : list ascii) : option (list ascii) :=
  match l with
  | c' :: rest => if Ascii.eqb c c' then Some rest else None
  | [] => None
  end.

Definition strip_newline (l : list ascii) : list ascii :=
  match reverse l with
  | c :: rest => if Ascii.eqb c NL then reverse rest else l
  | [] => l
  end.

Definition scan_payload (ev : Z) (l : list ascii) : option payload :=
  if ev <? IOFD_TIMING then
    match scan_number l with
    | Some (n, []) => if n <=? 18446744073709551615 then Some (Bytes n) else None
    | _ => None
    end
  else
    match scan_number l with
    | Some (rows, c :: l') =>
        match scan_number l' with
        | Some (cols, []) =>
            if Ascii.eqb c SP && (rows <=? INT_MAX) && (cols <=? INT_MAX)
            then Some (WinSize rows cols) else Some (SuspendSignal l)
        | _ => Some (SuspendSignal l)
        end
    | _ => if l is [] then None else Some (SuspendSignal l)
    end.

End Codec.

(** Modelled from the spec: [parse_timing] of iolog_util.c, which is not
    part of the sources at hand.  "decode(line) -> {event_kind, delay,
    payload_view}": [event_kind SP seconds.nanoseconds SP payload] with
    event kinds 0 to 5, decimal integers without leading zeros, exactly
    nine digits of nanoseconds, single spaces; a trailing newline is
    stripped; anything else is invalid.  A byte-stream record carries a
    byte count, a control record a signal name or [rows SP cols]. *)
Definition parse_timing (line : list ascii) : option timing_closure :=
  let l := Codec.strip_newline line in
  match Codec.scan_number l with
  | None => None
  | Some (ev, l) =>
      if IOFD_TIMING <? ev then None else
      match Codec.expect SP l with
      | None => None
      | Some l =>
          match Codec.scan_number l with
          | None => None
          | Some (sec, l) =>
              if 9223372036854775807 <? sec then None else
              match Codec.expect "."%char l with
              | None => None
              | Some l =>
                  match Codec.scan_nsec l with
                  | None => None
                  | Some (nsec, l) =>
                      match Codec.expect SP l with
                      | None => None
                      | Some l =>
                          match Codec.scan_payload ev l with
                          | None => None
                          | Some p => Some (mk_timing ev (mk_timespec sec nsec) p)
                          end
                      end
                  end
              end
          end
      end
  end.

(** ** The restart engine *)

(** [read_timing_record(fp, timing)], lines 418-447: 0 and the record on
    success, 1 on EOF and -1 on error. *)
Definition read_timing_record (fp : Sys.FILE) (w : world)
  : Z * option timing_closure * Sys.FILE * world :=
  (* Read next record from timing file. *)
  let '(got, fp, w) := Sys.fgets Sys.LINE_MAX fp w in
  match got with
  | None =>
      (* EOF or error reading timing file, we are done. *)
      if Sys.feof fp then (1, None, fp, w)
      else (-1, None, fp, Sys.debug (dbg_text "error reading timing file") w)
  | Some buf =>
      (* Parse timing file record. *)
      let line := c_str buf in
      let line := take (strcspn line NL) line in
      match parse_timing line with
      | None =>
          (-1, None, fp,
           Sys.debug (dbg_text "invalid timing file line: %s") w)
      | Some timing => (0, Some timing, fp, w)
      end
  end.

(** How the [for (;;)] loop of [iolog_restart] is left. *)
Inductive replay_exit := Reached | Bad | OutOfFuel.

(** The seek-and-truncate of one byte-stream record, lines 502-523. *)
Definition seek_and_truncate (timing : timing_closure) (s : state)
  : bool * state :=
  if event timing <? IOFD_TIMING then
    let fd := Closure.io_fd (closure s) (event timing) in
    if fd =? -1 then
      (* Missing log file. *)
      (false, say (dbg_not_open (event timing)) s)
    else
      let '(length, w) := Sys.lseek fd (int64 (u_nbytes timing)) SEEK_CUR
                            (sys s) in
      let s := with_sys w s in
      if length =? -1 then (false, say (dbg_text "lseek(%d, %lld, SEEK_CUR") s)
      else
        let '(r, w) := Sys.ftruncate fd length (sys s) in
        let s := with_sys w s in
        if r =? -1 then (false, say (dbg_text "ftruncate(%d, %lld)") s)
        else (true, s)
  else (true, s).

(** The loop of lines 497-536; every round reads at least one character
    of the timing file, and [fuel] bounds the number of rounds. *)
Fixpoint replay (fuel : nat) (target : timespec) (fp : Sys.FILE) (s : state)
  : replay_exit * Sys.FILE * state :=
  match fuel with
  | O => (OutOfFuel, fp, s)
  | S k =>
      let '(rc, timing, fp, w) := read_timing_record fp (sys s) in
      let s := with_sys w s in
      match rc =? 0, timing with
      | true, Some timing =>
          let s := with_closure
                     (fun c => Closure.set_elapsed_time
                                 (sudo_timespecadd (delay timing)
                                    (elapsed_time c)) c) s in
          let '(ok, s) := seek_and_truncate timing s in
          if negb ok then (Bad, fp, s) else
          if sudo_timespeccmp_ge (elapsed_time (closure s)) target then
            if sudo_timespeccmp_eq (elapsed_time (closure s)) target
            then (Reached, fp, s)
            else
              (* Mismatch between resume point and stored log. *)
              (Bad, fp,
               say (dbg_resume_mismatch target (elapsed_time (closure s))) s)
          else replay k target fp s
      | _, _ => (Bad, fp, s)
      end
  end.

(** The number of characters of the file behind [fd], plus one: more
    rounds than the timing file has characters. *)
Definition replay_fuel (fd : Z) (w : world) : nat :=
  match Sys.fd_lookup w fd with
  | Some (_, d) => S (length (default [] (w_files w !! ofd_path d)))
  | None => 1%nat
  end.

(** The [for] loop of lines 476-479, over the names in order. *)
Fixpoint open_existing (names : list string) (dirfd : Z) (w : world)
  : list Z * world :=
  match names with
  | [] => ([], w)
  | name :: rest =>
      let '(fd, w) := Sys.openat dirfd name Sys.O_RDWR 384 w in
      let '(fds, w) := open_existing rest dirfd w in
      (fd :: fds, w)
  end.

(** [iolog_restart(msg, closure)], lines 449-561. *)
Definition iolog_restart (msg : RestartMessage) (s : state) : bool * state :=
  let target := mk_timespec (msg_tv_sec (resume_point msg))
                  (msg_tv_nsec (resume_point msg)) in
  (* bad: if (fp != NULL) fclose(fp); return false *)
  let bad (fp : option Sys.FILE) (s : state) : bool * state :=
    (false, match fp with
            | Some fp => with_sys (Sys.fclose fp (sys s)) s
            | None => s
            end) in
  (* We use iolog_dir_fd in calls to openat(2) *)
  let '(copy, w) := Sys.strdup (log_id msg) (sys s) in
  let s := with_closure (Closure.set_iolog_dir copy) (with_sys w s) in
  match copy with
  | None => bad None (say (dbg_text "strdup") s)
  | Some dir =>
      let '(fd, w) := Sys.open dir Sys.O_RDONLY (sys s) in
      let s := with_closure (Closure.set_iolog_dir_fd fd) (with_sys w s) in
      if fd =? -1 then bad None (say (dbg_text "%s") s) else
      (* Open existing I/O log files. *)
      let '(fds, w) := open_existing iolog_names (iolog_dir_fd (closure s))
                         (sys s) in
      let s := with_closure (Closure.set_io_fds fds) (with_sys w s) in
      (* Dup IOFD_TIMING to a stream for easier processing. *)
      if Closure.io_fd (closure s) IOFD_TIMING =? -1 then bad None s else
      let '(fd, w) := Sys.dup (Closure.io_fd (closure s) IOFD_TIMING) (sys s) in
      let s := with_sys w s in
      if fd =? -1 then bad None (say (dbg_text "dup") s) else
      let '(fp, w) := Sys.fdopen fd (sys s) in
      let s := with_sys w s in
      match fp with
      | None => bad None (say (dbg_text "fdopen") s)
      | Some fp =>
          (* Parse timing file until we reach the target point. *)
          let '(exit, fp, s) := replay (replay_fuel fd (sys s)) target fp s in
          match exit with
          | Reached =>
              (* Update timing file position after determining resume point. *)
              let '(length, w) := Sys.ftello fp (sys s) in
              let w := Sys.fclose fp w in
              let tfd := Closure.io_fd (closure s) IOFD_TIMING in
              let '(r, w) := Sys.lseek tfd length SEEK_SET w in
              let s := with_sys w s in
              if r =? -1
              then bad (Some fp) (say (dbg_text "lseek(%d, %lld, SEEK_SET") s)
              else
                let '(r, w) := Sys.ftruncate tfd length (sys s) in
                let s := with_sys w s in
                if r =? -1
                then bad (Some fp) (say (dbg_text "ftruncate(%d, %lld)") s)
                else
                  (* Ready to log I/O buffers. *)
                  (true, s)
          | _ => bad (Some fp) s
          end
      end
  end.

(** *** What a restart preserves *)

(** The first [k] records of a timing file and the offset just past
    them, split and decoded as [read_timing_record] does. *)
Fixpoint read_records (k : nat) (content : list ascii)
  : option (list timing_closure * nat) :=
  match k with
  | O => Some ([], O)
  | S k' =>
      match Sys.line_prefix 2047 content with
      | [] => None
      | got =>
          match parse_timing (take (strcspn (c_str got) NL) (c_str got)) with
          | None => None
          | Some r =>
              match read_records k' (drop (length got) content) with
              | None => None
              | Some (rs, n) => Some (r :: rs, (length got + n)%nat)
              end
          end
      end
  end.

(** The byte counts of the records of stream [iofd], as [lseek] receives
    them: a [size_t] converted to [off_t]. *)
Definition stream_bytes (iofd : Z) (recs : list timing_closure) : Z :=
  foldr Z.add 0
    (map (fun r => int64 (u_nbytes r))
       (filter (fun r => event r = iofd) recs)).

Definition referenced (iofd : Z) (recs : list timing_closure) : bool :=
  existsb (fun r => event r =? iofd) recs.

(** The elapsed time after replaying [recs] on top of [e0]. *)
Definition elapsed_after (e0 : timespec) (recs : list timing_closure)
  : timespec :=
  fold_left (fun e r => sudo_timespecadd (delay r) e) recs e0.

(** The state of the replay loop after the records [recs], which end at
    offset [pos] of the timing file [timing]: the stream [fp] and the
    timing descriptor share one description, at [pos]; every stream that
    is open stands at the sum of its byte counts; the file of a stream
    some record refers to has that length, the others are as in
    [files0]. *)
Record replaying (dir : string) (timing : list ascii)
    (files0 : gmap string (list ascii)) (e0 : timespec)
    (fp : Sys.FILE) (s : state) (recs : list timing_closure) (pos : nat)
  : Prop := mk_replaying {
  rp_fds : length (io_fds (closure s)) = 6%nat;
  rp_buf : Sys.fp_buf fp = [];
  rp_timing : w_files (sys s) !! (dir +:+ "/timing") = Some timing;
  rp_tfd :
    exists i,
      Sys.fd_lookup (sys s) (Closure.io_fd (closure s) IOFD_TIMING)
      = Some (i, mk_ofd (dir +:+ "/timing") (Z.of_nat pos) true true false)
      /\ Sys.fd_lookup (sys s) (Sys.fp_fd fp)
         = Some (i, mk_ofd (dir +:+ "/timing") (Z.of_nat pos) true true false)
      /\ Sys.fp_fd fp <> Closure.io_fd (closure s) IOFD_TIMING;
  rp_pos : (pos <= length timing)%nat;
  rp_recs : read_records (length recs) timing = Some (recs, pos);
  rp_elapsed : elapsed_time (closure s) = elapsed_after e0 recs;
  rp_streams :
    forall n name, (n < 5)%nat -> iolog_names !! n = Some name ->
      (Closure.io_fd (closure s) (Z.of_nat n) = -1
       \/ exists i,
            Sys.fd_lookup (sys s) (Closure.io_fd (closure s) (Z.of_nat n))
            = Some (i, mk_ofd (dir +:+ "/" +:+ name)
                         (stream_bytes (Z.of_nat n) recs) true true false))
      /\ if referenced (Z.of_nat n) recs
         then exists c,
                w_files (sys s) !! (dir +:+ "/" +:+ name) = Some c
                /\ Z.of_nat (length c) = stream_bytes (Z.of_nat n) recs
         else w_files (sys s) !! (dir +:+ "/" +:+ name)
              = files0 !! (dir +:+ "/" +:+ name)
}.

(** The elapsed time stays short of [target] after each of the first
    records of [recs], up to [upto] of them excluded. *)
Definition below_target (e0 target : timespec) (recs : list timing_closure)
    (upto : nat) : Prop :=
  forall k, (0 < k < upto)%nat ->
    sudo_timespeccmp_ge (elapsed_after e0 (take k recs)) target = false.

(** The byte counts of the records of stream [iofd], as written in the
    timing file. *)
Definition payload_sum (iofd : Z) (recs : list timing_closure) : Z :=
  foldr Z.add 0 (map u_nbytes (filter (fun r => event r = iofd) recs)).

(** The files of the session directory [dir] after a restart that
    replayed the records [recs], the first of the timing file [timing],
    up to offset [pos]: the timing file is cut at [pos] when the restart
    [committed] and is as it was otherwise; the file of a stream that
    some record refers to has the length its records add up to; the file
    of any other stream is as it was. *)
Definition reconciled (dir : string) (committed : bool) (s s' : state)
    (timing : list ascii) (recs : list timing_closure) (pos : nat) : Prop :=
  w_files (sys s) !! (dir +:+ "/timing") = Some timing
  /\ read_records (length recs) timing = Some (recs, pos)
  /\ w_files (sys s') !! (dir +:+ "/timing")
     = Some (if committed then take pos timing else timing)
  /\ elapsed_time (closure s') = elapsed_after (elapsed_time (closure s)) recs
  /\ forall n name, (n < 5)%nat -> iolog_names !! n = Some name ->
       if referenced (Z.of_nat n) recs
       then exists c,
              w_files (sys s') !! (dir +:+ "/" +:+ name) = Some c
              /\ Z.of_nat (length c) = stream_bytes (Z.of_nat n) recs
       else w_files (sys s') !! (dir +:+ "/" +:+ name)
            = w_files (sys s) !! (dir +:+ "/" +:+ name).

(** From [w] to [w'] nothing was removed: the directories of [w] are
    still there, the files are the same, and every directory that a
    [mkdir] or [mkdtemp] of the calls in between made is still there. *)
Definition nothing_removed (w w' : world) : Prop :=
  w_dirs w ⊆ w_dirs w'
  /\ w_files w' = w_files w
  /\ exists calls,
       w_trace w' = w_trace w ++ calls
       /\ (forall p m, Mkdir p m 0 ∈ calls -> p ∈ w_dirs w')
       /\ (forall t p, Mkdtemp t (Some p) ∈ calls -> p ∈ w_dirs w').

(** Every file lies in a directory that exists. *)
Definition fs_wf (w : world) : Prop :=
  forall p, is_Some (w_files w !! p) -> Sys.dirname p ∈ w_dirs w.

(** ** Sessions: sequences of client events *)

Inductive client_event :=
| Data (iofd : Z) (msg : IoBuffer)
| Suspend (msg : CommandSuspend)
| Winsize (msg : ChangeWindowSize).

Definition event_delay (ev : client_event) : TimeSpec :=
  match ev with
  | Data _ msg => ib_delay msg
  | Suspend msg => cs_delay msg
  | Winsize msg => cw_delay msg
  end.

Definition store_event (ev : client_event) (s : state) : Z * state :=
  match ev with
  | Data iofd msg => store_iobuf iofd msg s
  | Suspend msg => store_suspend msg s
  | Winsize msg => store_winsize msg s
  end.

(** The state after handling the events in order, as long as every call
    returns 0. *)
Fixpoint store_all (evs : list client_event) (s : state) : option state :=
  match evs with
  | [] => Some s
  | ev :: rest =>
      let '(r, s) := store_event ev s in
      if r =? 0 then store_all rest s else None
  end.

(** ** Worked sessions *)

Module Example.

Definition root : string := "/var/log/sudo-io".

(** A machine with the log root's parent in place and nothing open. *)
Definition world0 (script : list outcome) : world :=
  mk_world ({["/"]} ∪ {["/var"]} ∪ {["/var/log"]}) ∅ ∅ ∅ 0 script [] [] [].

(** A connection closure as [calloc] leaves it. *)
Definition closure0 : connection_closure :=
  mk_closure None 0 (replicate 6 0) (mk_timespec 0 0) (fun _ => 0).

Definition state0 (script : list outcome) : state :=
  mk_state closure0 (world0 script).

Definition exec_msg : ExecMessage :=
  mk_ExecMessage (mk_TimeSpec 1000 0)
    [mk_InfoMessage "submituser" (STRVAL "alice");
     mk_InfoMessage "submithost" (STRVAL "h1");
     mk_InfoMessage "command" (STRVAL "/bin/ls");
     mk_InfoMessage "runargv" (STRLISTVAL ["ls"; "-l"])].

Definition session_dir : string := "/var/log/sudo-io/h1/alice/aaaaaa".

(** The session of the message above, just opened. *)
Definition opened : state := snd (iolog_init root exec_msg (state0 [])).

Definition file (s : state) (name : string) : option (list ascii) :=
  w_files (sys s) !! (session_dir +:+ "/" +:+ name).

(** The restart scenarios of the specification: three chunks of 4, 8
    and 16 bytes on stdout, 0.1 s, 0.2 s and 0.3 s apart. *)
Definition chunk (nsec : Z) (n : nat) : IoBuffer :=
  mk_IoBuffer (mk_TimeSpec 0 nsec) (replicate n "x"%char).

Definition three_chunks : state :=
  default opened
    (store_all [Data 1 (chunk 100000000 4); Data 1 (chunk 200000000 8);
                Data 1 (chunk 300000000 16)] opened).

(** The machine after the connection is dropped. *)
Definition logged : world := sys (iolog_close three_chunks).

(** The same with 100 more bytes on stdout, written behind the back of
    the engine before the connection is dropped. *)
Definition logged_excess : world :=
  sys (iolog_close
         (with_sys
            (snd (Sys.write (Closure.io_fd (closure three_chunks) IOFD_STDOUT)
                    (replicate 100 "y"%char) (sys three_chunks)))
            three_chunks)).

(** A chunk of 8 bytes on stdout, then one of 3 bytes on stdin. *)
Definition two_streams : world :=
  sys (iolog_close
         (default opened
            (store_all [Data 1 (chunk 500000000 8);
                        Data 0 (chunk 500000000 3)] opened))).

(** A restart of the session on a new connection. *)
Definition restart_at (w : world) (nsec : Z) : bool * state :=
  iolog_restart (mk_RestartMessage session_dir (mk_TimeSpec 0 nsec))
    (mk_state closure0 w).

(** A session directory whose timing file ends in a line that lacks its
    newline, as a crash in the middle of a write leaves it. *)
Definition unterminated : world :=
  mk_world ({["/"]} ∪ {["/log"]})
    (<["/log/timing" := chars "1 0.500000000 8"]>
       (<["/log/stdout" := chars "total 0" ++ [NL]]> ∅))
    ∅ ∅ 0 [] [] [] [].

(** The same directory with the timing file open for reading. *)
Definition unterminated_open : option Sys.FILE * world :=
  let '(fd, w) := Sys.open "/log/timing" Sys.O_RDONLY unterminated in
  Sys.fdopen fd w.

Definition timing_stream : Sys.FILE :=
  default (Sys.mk_FILE (-1) false false []) (fst unterminated_open).
Definition timing_world : world := snd unterminated_open.

(** The session open of [opened] on a machine that runs out of
    descriptors when the builder opens the leaf it has just made. *)
Definition leaf_unopened : bool * state :=
  create_iolog_dir root (fst (iolog_details_fill exec_msg))
    (state0 [Proceed; Proceed; Proceed; Proceed; Proceed;
             Fault Sys.EMFILE]).

(** The session directory of [opened], just made by [create_iolog_dir]. *)
Definition dir_made : state :=
  snd (create_iolog_dir root (fst (iolog_details_fill exec_msg)) (state0 [])).

End Example.

(** ** Reading aids for the properties of the writer *)

(** The seven keys that take a string, each with the field it fills
    (lines 115-207). *)
Definition string_fields : list (string * (iolog_details -> option string)) :=
  [("command", d_command); ("cwd", d_cwd); ("rungroup", d_rungroup);
   ("runuser", d_runuser); ("submithost", d_submithost);
   ("submituser", d_submituser); ("ttyname", d_ttyname)]%string.

(** The entry has the key [k] and a string for it. *)
Definition supplies (k : string) (info : InfoMessage) : bool :=
  String.eqb (key info) k
  && match value info with STRVAL _ => true | _ => false end.

(** The entries that [iolog_details_fill] stores: a known key with a
    value of the kind the key takes, the numbers within [1, INT_MAX]. *)
Definition stored (info : InfoMessage) : bool :=
  match value info with
  | NUMVAL v =>
      (String.eqb (key info) "columns" || String.eqb (key info) "lines")
      && (1 <=? v) && (v <=? INT_MAX)
  | STRVAL _ => existsb (fun kp => String.eqb (key info) (fst kp)) string_fields
  | STRLISTVAL _ => String.eqb (key info) "runargv"
  | VALUE_NOT_SET => false
  end.

(** *** The log of a sequence of events *)

(** The timing line of an event, as the [snprintf] of its handler
    formats it. *)
Definition event_line (ev : client_event) : list ascii :=
  match ev with
  | Data iofd msg => iobuf_line iofd msg
  | Suspend msg => suspend_line msg
  | Winsize msg => winsize_line msg
  end.

(** The contents of the six files of a session, by index into
    [iolog_names]; [None] for a file that does not exist yet. *)
Definition session_files : Type := nat -> option (list ascii).

Definition set_file (n : nat) (c : list ascii) (f : session_files)
  : session_files :=
  fun m => if (m =? n)%nat then Some c else f m.

(** The files after an event was stored: the bytes of a data event go to
    the end of its stream, which is created if need be, and the line of
    the event goes to the end of the timing file. *)
Definition after_event (ev : client_event) (f : session_files)
  : session_files :=
  let f := match ev with
           | Data iofd msg =>
               set_file (Z.to_nat iofd)
                 (default [] (f (Z.to_nat iofd)) ++ ib_data msg) f
           | _ => f
           end in
  set_file 5 (default [] (f 5%nat) ++ event_line ev) f.

Definition after_events (evs : list client_event) (f : session_files)
  : session_files :=
  fold_left (fun f ev => after_event ev f) evs f.

(** An event the append engine can store: a data event names one of the
    five byte streams and its length fits a [size_t]; the line of a
    suspend event fits the timing buffer. *)
Definition storable (ev : client_event) : Prop :=
  match ev with
  | Data iofd msg => 0 <= iofd < IOFD_TIMING
      /\ Z.of_nat (length (ib_data msg)) < 18446744073709551615
  | Suspend msg => Z.of_nat (length (suspend_line msg)) < sizeof_tbuf
  | Winsize _ => True
  end.

(** A session that is ready to log in the directory [dir], with the
    files [f]: the environment lets every call through, the directory is
    there with its descriptor open, the timing file is open, and every
    file that exists has its descriptor open for writing and positioned
    at its end, while a stream without a file has no descriptor. *)
Record logging (dir : string) (s : state) (f : session_files) : Prop :=
  mk_logging {
  lg_calm : w_script (sys s) = [];
  lg_fds : length (io_fds (closure s)) = 6%nat;
  lg_dir_ne : dir <> ""%string;
  lg_dir_in : dir ∈ w_dirs (sys s);
  lg_dir :
    exists j dd,
      Sys.fd_lookup (sys s) (iolog_dir_fd (closure s)) = Some (j, dd)
      /\ ofd_path dd = dir /\ ofd_dir dd = true;
  lg_timing : is_Some (f 5%nat);
  lg_files :
    forall n name, iolog_names !! n = Some name ->
      match f n with
      | None =>
          Closure.io_fd (closure s) (Z.of_nat n) = -1
          /\ w_files (sys s) !! (dir +:+ "/" +:+ name) = None
          /\ (dir +:+ "/" +:+ name ∉ w_dirs (sys s))
      | Some c =>
          stream_at_end s (Z.of_nat n) (dir +:+ "/" +:+ name) c
      end
}.

(** The bytes a data event carries for the stream [n], and whether the
    event is a data event for it. *)
Definition event_data (n : nat) (ev : client_event) : list ascii :=
  match ev with
  | Data iofd msg => if Z.to_nat iofd =? n then ib_data msg else []
  | _ => []
  end%nat.

Definition touches (n : nat) (ev : client_event) : bool :=
  match ev with
  | Data iofd _ => (Z.to_nat iofd =? n)%nat
  | _ => false
  end.

(** The directories form a tree: the parent of every directory exists. *)
Definition dirs_wf (w : world) : Prop :=
  forall p, p ∈ w_dirs w -> Sys.dirname p ∈ w_dirs w.

(** The files of a session that was just opened by [iolog_init]. *)
Definition opened_files : session_files :=
  fun n => match iolog_names !! n with
           | Some name =>
               if bool_decide (name ∈ ["timing"; "stdout"; "stderr"; "ttyout"]%string)
               then Some [] else None
           | None => None
           end.

(** A path that is none of the six files of the session in [dir]. *)
Definition outside (dir p : string) : Prop :=
  forall name, name ∈ iolog_names -> p <> dir +:+ "/" +:+ name.

(** From [w] to [w'] no file or directory was created or removed: the
    directories are the same and so are the names of the files. *)
Definition same_names (w w' : world) : Prop :=
  w_dirs w' = w_dirs w /\ dom (w_files w') = dom (w_files w).
Lemma int64_id x : in_int64 x -> int64 x = x.
Proof.
  unfold in_int64, int64, swrap. intros H.
  change (2 ^ (64 - 1)) with 9223372036854775808.
  change (2 ^ 64) with 18446744073709551616.
  rewrite Z.mod_small by lia. lia.
Qed.

Lemma int32_id x : in_int32 x -> int32 x = x.
Proof.
  unfold in_int32, int32, swrap. intros H.
  change (2 ^ (32 - 1)) with 2147483648.
  change (2 ^ 32) with 4294967296.
  rewrite Z.mod_small by lia. lia.
Qed.

Lemma size_t_id x : in_size_t x -> size_t x = x.
Proof.
  unfold in_size_t, size_t, uwrap. intros H.
  change (2 ^ 64) with 18446744073709551616.
  apply Z.mod_small. lia.
Qed.

Lemma int64_range x : in_int64 (int64 x).
Proof.
  unfold in_int64, int64, swrap.
  change (2 ^ (64 - 1)) with 9223372036854775808.
  change (2 ^ 64) with 18446744073709551616.
  pose proof (Z.mod_pos_bound (x + 9223372036854775808) 18446744073709551616).
  lia.
Qed.

(** The sum of two wrapped values wraps like the sum itself. *)
Lemma int64_add_l x y : int64 (int64 x + y) = int64 (x + y).
Proof.
  unfold int64, swrap.
  change (2 ^ (64 - 1)) with 9223372036854775808.
  change (2 ^ 64) with 18446744073709551616.
  f_equal.
  replace ((x + 9223372036854775808) mod 18446744073709551616
           - 9223372036854775808 + y + 9223372036854775808)
    with ((x + 9223372036854775808) mod 18446744073709551616 + y) by lia.
  rewrite Zplus_mod_idemp_l. f_equal. lia.
Qed.

(** *** The carry loop *)

Lemma carry_loop_exact (fuel : nat) :
  forall ts,
    in_int64 (tv_sec ts) -> in_int64 (tv_nsec ts) -> 0 <= tv_nsec ts ->
    fuel = carry_fuel ts ->
    carry_loop fuel ts =
      {| tv_sec := int64 (tv_sec ts + tv_nsec ts / NSEC_PER_SEC);
         tv_nsec := tv_nsec ts mod NSEC_PER_SEC |}.
Proof.
  unfold carry_fuel, NSEC_PER_SEC.
  induction fuel as [|k IH]; intros [s n] Hs Hr Hn Hf; simpl in *.
  - assert (n / 1000000000 = 0) as Hq.
    { pose proof (Z.div_pos n 1000000000 Hn ltac:(lia)). lia. }
    apply Z.div_small_iff in Hq; [|lia].
    destruct Hq as [Hq|Hq]; [|lia].
    rewrite Z.div_small, Z.mod_small by lia.
    rewrite Z.add_0_r, int64_id by done. done.
  - assert (1 <= n / 1000000000) as Hq by lia.
    assert (1000000000 <= n) as Hge.
    { destruct (Z.le_gt_cases 1000000000 n) as [|Hlt]; [done|].
      rewrite Z.div_small in Hq by lia. lia. }
    apply Z.leb_le in Hge as Hb. unfold NSEC_PER_SEC. rewrite Hb.
    assert (in_int64 (n - 1000000000)) as Hr' by (unfold in_int64 in *; lia).
    assert ((n - 1000000000) / 1000000000 = n / 1000000000 - 1) as Hd.
    { replace (n - 1000000000) with (n + (-1) * 1000000000) by lia.
      rewrite Z.div_add by lia. lia. }
    assert ((n - 1000000000) mod 1000000000 = n mod 1000000000) as Hm.
    { replace (n - 1000000000) with (n + (-1) * 1000000000) by lia.
      apply Z.mod_add. lia. }
    rewrite IH; simpl.
    + rewrite (int64_id (n - 1000000000)) by done.
      rewrite Hd, Hm, int64_add_l. do 2 f_equal. lia.
    + apply int64_range.
    + by rewrite int64_id.
    + rewrite int64_id by done. lia.
    + rewrite int64_id by done. rewrite Hd. lia.
Qed.

(** On return from the loop the nanoseconds are below one second: the
    fuel computed from the entry value is always enough. *)
Lemma carry_loop_exit ts :
  in_int64 (tv_nsec ts) ->
  tv_nsec (carry_loop (carry_fuel ts) ts) < NSEC_PER_SEC.
Proof.
  intros Hr. destruct (Z.le_gt_cases 0 (tv_nsec ts)) as [Hn|Hn].
  - assert (forall fuel t, in_int64 (tv_nsec t) -> 0 <= tv_nsec t ->
              fuel = carry_fuel t ->
              tv_nsec (carry_loop fuel t) < NSEC_PER_SEC) as Hgen.
    { unfold carry_fuel, NSEC_PER_SEC.
      induction fuel as [|k IH]; intros [s n] Hr' Hn' Hf; simpl in *.
      - destruct (Z.le_gt_cases 1000000000 n) as [Hge|]; [|done].
        pose proof (Z.div_le_mono 1000000000 n 1000000000 ltac:(lia) Hge) as Hd.
        rewrite Z.div_same in Hd by lia. lia.
      - unfold NSEC_PER_SEC. destruct (1000000000 <=? n) eqn:Hb; simpl.
        + apply Z.leb_le in Hb.
          assert (in_int64 (n - 1000000000)) by (unfold in_int64 in *; lia).
          apply IH; simpl; rewrite ?int64_id by done; try done; try lia.
          replace (n - 1000000000) with (n + (-1) * 1000000000) by lia.
          rewrite Z.div_add by lia. lia.
        + apply Z.leb_gt in Hb. done. }
    by apply Hgen.
  - unfold carry_fuel.
    assert (tv_nsec ts / NSEC_PER_SEC < 0) as Hq
      by (apply Z.div_lt_upper_bound; unfold NSEC_PER_SEC; lia).
    replace (Z.to_nat (tv_nsec ts / NSEC_PER_SEC)) with O by lia.
    simpl. unfold NSEC_PER_SEC. lia.
Qed.

Lemma sudo_timespeccmp_eq_spec a b :
  sudo_timespeccmp_eq a b = true <-> a = b.
Proof.
  unfold sudo_timespeccmp_eq. destruct a as [s1 n1], b as [s2 n2]; simpl.
  destruct (s1 =? s2) eqn:Hs.
  - apply Z.eqb_eq in Hs. rewrite Z.eqb_eq. split.
    + intros ->. by subst.
    + by intros [= _ ->].
  - apply Z.eqb_neq in Hs. split; [done|]. by intros [= -> _].
Qed.

(** *** Elapsed time *)

Lemma update_elapsed_time_exact delta e :
  0 <= tv_nsec e < NSEC_PER_SEC ->
  0 <= msg_tv_nsec delta <= 2147483647 ->
  update_elapsed_time delta e =
    {| tv_sec := int64 (tv_sec e + msg_tv_sec delta
                        + (tv_nsec e + msg_tv_nsec delta) / NSEC_PER_SEC);
       tv_nsec := (tv_nsec e + msg_tv_nsec delta) mod NSEC_PER_SEC |}.
Proof.
  unfold NSEC_PER_SEC. intros He Hd. unfold update_elapsed_time.
  assert (in_int64 (tv_nsec e + msg_tv_nsec delta)) as Hr
    by (unfold in_int64; lia).
  rewrite (carry_loop_exact _ _); simpl;
    rewrite ?(int64_id _ Hr); try done; try apply int64_range; try lia.
  by rewrite int64_add_l.
Qed.

Lemma carry_merge a b :
  (a mod NSEC_PER_SEC + b) / NSEC_PER_SEC + a / NSEC_PER_SEC
  = (a + b) / NSEC_PER_SEC.
Proof.
  unfold NSEC_PER_SEC.
  rewrite (Z.div_mod a 1000000000) at 3 by lia.
  replace (1000000000 * (a / 1000000000) + a mod 1000000000 + b)
    with ((a mod 1000000000 + b) + (a / 1000000000) * 1000000000) by lia.
  rewrite Z.div_add by lia. lia.
Qed.

(** Folding [update_elapsed_time] over delays with non-negative
    nanoseconds gives the normalised sum, the seconds wrapped. *)
Lemma fold_update_elapsed ds :
  forall e,
    in_int64 (tv_sec e) ->
    0 <= tv_nsec e < NSEC_PER_SEC ->
    Forall (fun d => 0 <= msg_tv_nsec d <= 2147483647) ds ->
    fold_left (fun e d => update_elapsed_time d e) ds e =
      {| tv_sec := int64 (tv_sec (normalised_sum e ds));
         tv_nsec := tv_nsec (normalised_sum e ds) |}.
Proof.
  induction ds as [|d ds IH]; intros e Hs He Hds.
  - unfold normalised_sum, sum_sec, sum_nsec; simpl.
    rewrite !Z.add_0_r. destruct He as [He He'].
    rewrite Z.div_small, Z.mod_small, Z.add_0_r, int64_id by done.
    by destruct e.
  - inversion Hds as [|? ? Hd Hds']; subst. simpl fold_left.
    rewrite update_elapsed_time_exact by done.
    set (e1 := {| tv_sec := _; tv_nsec := _ |}).
    assert (0 <= tv_nsec e1 < NSEC_PER_SEC) as He1.
    { subst e1; simpl. apply Z.mod_pos_bound. unfold NSEC_PER_SEC. lia. }
    rewrite IH; [|subst e1; simpl; apply int64_range|done|done].
    unfold normalised_sum, sum_sec, sum_nsec; subst e1; simpl.
    f_equal.
    + rewrite <- Z.add_assoc, int64_add_l. f_equal.
      pose proof (carry_merge (tv_nsec e + msg_tv_nsec d)
                    (foldr Z.add 0 (map msg_tv_nsec ds))) as Hm.
      rewrite Z.add_assoc. rewrite <- Z.add_assoc in Hm.
      unfold NSEC_PER_SEC in *. lia.
    + unfold NSEC_PER_SEC. rewrite Zplus_mod_idemp_l. f_equal. lia.
Qed.

(** ** Session-open attributes *)

Lemma fill_one_lines d i :
  d_lines (fill_one d i) =
    if accepted "lines" i
    then match value i with NUMVAL v => v | _ => d_lines d end
    else d_lines d.
Proof.
  unfold fill_one, accepted. destruct i as [k v]; simpl.
  destruct (Ascii.eqb (key0 k) "l") eqn:Hl.
  - assert (Ascii.eqb (key0 k) "c" = false) as ->.
    { apply Ascii.eqb_eq in Hl. rewrite Hl. done. }
    destruct (String.eqb k "lines") eqn:Hk; simpl; [|done].
    destruct v as [|n| |]; try done.
    unfold INT_MAX.
    destruct (n <=? 0) eqn:H1, (2147483647 <? n) eqn:H2,
      (1 <=? n) eqn:H3, (n <=? 2147483647) eqn:H4; simpl; try done; lia.
  - assert (String.eqb k "lines" = false) as ->.
    { destruct (String.eqb k "lines") eqn:Hk; [|done].
      apply String.eqb_eq in Hk. subst k. done. }
    simpl.
    repeat match goal with
           | |- context [if ?b then _ else _] => destruct b
           | |- context [match ?x with _ => _ end] => destruct x
           end; done.
Qed.

Lemma fill_one_columns d i :
  d_columns (fill_one d i) =
    if accepted "columns" i
    then match value i with NUMVAL v => v | _ => d_columns d end
    else d_columns d.
Proof.
  unfold fill_one, accepted. destruct i as [k v]; simpl.
  destruct (String.eqb k "columns") eqn:Hk; simpl.
  - apply String.eqb_eq in Hk. subst k. simpl.
    destruct v as [|n| |]; try done.
    unfold INT_MAX.
    destruct (n <=? 0) eqn:H1, (2147483647 <? n) eqn:H2,
      (1 <=? n) eqn:H3, (n <=? 2147483647) eqn:H4; simpl; try done; lia.
  - repeat match goal with
           | |- context [if ?b then _ else _] => destruct b
           | |- context [match ?x with _ => _ end] => destruct x
           end; done.
Qed.

(** Entries that are not accepted leave the two numbers alone. *)
Lemma fill_rejected k (proj : iolog_details -> Z) l :
  (forall d i, proj (fill_one d i) =
     if accepted k i
     then match value i with NUMVAL v => v | _ => proj d end
     else proj d) ->
  Forall (fun i => accepted k i = false) l ->
  forall d, proj (fold_left fill_one l d) = proj d.
Proof.
  intros Hone. induction 1 as [|i l Hi _ IH]; intros d; simpl; [done|].
  rewrite IH, Hone, Hi. done.
Qed.

(** What the loop leaves in a number field: the value of the last
    accepted entry, or what the field held when none is accepted. *)
Lemma fill_last_accepted k (proj : iolog_details -> Z) :
  (forall d i, proj (fill_one d i) =
     if accepted k i
     then match value i with NUMVAL v => v | _ => proj d end
     else proj d) ->
  forall l d,
    (Forall (fun i => accepted k i = false) l ->
     proj (fold_left fill_one l d) = proj d)
    /\ (forall pre v post,
          l = pre ++ mk_InfoMessage k (NUMVAL v) :: post ->
          1 <= v <= INT_MAX ->
          Forall (fun i => accepted k i = false) post ->
          proj (fold_left fill_one l d) = v).
Proof.
  intros Hone l d. split.
  - intros Hl. by apply (fill_rejected k proj l Hone).
  - intros pre v post -> Hv Hpost. rewrite fold_left_app. simpl.
    rewrite (fill_rejected k proj post Hone) by done.
    rewrite Hone. unfold accepted. simpl. rewrite String.eqb_refl. simpl.
    destruct (Z.leb_spec 1 v); [|lia].
    destruct (Z.leb_spec v INT_MAX); [done|lia].
Qed.

(** An entry that has the key and a number carries one out of range. *)
Lemma out_of_range_rejected k l :
  Forall (fun i => key i = k ->
                   forall v, value i = NUMVAL v -> v <= 0 \/ INT_MAX < v) l ->
  Forall (fun i => accepted k i = false) l.
Proof.
  intros Hl. eapply Forall_impl; [exact Hl|]. intros i Hi. simpl in Hi.
  unfold accepted.
  destruct (String.eqb_spec (key i) k) as [Hk|Hk]; [|done]. simpl.
  destruct (value i) as [|v| |] eqn:Hv; try done.
  destruct (Hi Hk v eq_refl).
  - destruct (Z.leb_spec 1 v); [lia|done].
  - destruct (Z.leb_spec v INT_MAX); [lia|apply andb_false_r].
Qed.

(** C8, as the code has it.  Every entry of a session-open record is
    checked on its own.  A [lines] or [columns] number that is zero,
    negative or above 2^31-1 is rejected and leaves the field as it was;
    a number within [1, INT_MAX] replaces what the field held.  So when
    every number the record supplies for the key is out of range, however
    many there are, the field keeps the default (24 lines, 80 columns);
    and when the record supplies a number within the range and every
    number it supplies for the key after that one is out of range, the
    field holds that number, whatever came before. *)
Theorem fill_lines_columns_range (msg : ExecMessage) :
  (Forall (fun i => key i = "lines"%string ->
                    forall v, value i = NUMVAL v -> v <= 0 \/ INT_MAX < v)
     (info_msgs msg) ->
   d_lines (fst (iolog_details_fill msg)) = 24)
  /\ (forall pre v post,
        info_msgs msg = pre ++ mk_InfoMessage "lines" (NUMVAL v) :: post ->
        1 <= v <= INT_MAX ->
        Forall (fun i => key i = "lines"%string ->
                         forall v, value i = NUMVAL v -> v <= 0 \/ INT_MAX < v)
          post ->
        d_lines (fst (iolog_details_fill msg)) = v)
  /\ (Forall (fun i => key i = "columns"%string ->
                       forall v, value i = NUMVAL v -> v <= 0 \/ INT_MAX < v)
        (info_msgs msg) ->
      d_columns (fst (iolog_details_fill msg)) = 80)
  /\ (forall pre v post,
        info_msgs msg = pre ++ mk_InfoMessage "columns" (NUMVAL v) :: post ->
        1 <= v <= INT_MAX ->
        Forall (fun i => key i = "columns"%string ->
                         forall v, value i = NUMVAL v -> v <= 0 \/ INT_MAX < v)
          post ->
        d_columns (fst (iolog_details_fill msg)) = v).
Proof.
  unfold iolog_details_fill. simpl fst.
  destruct (fill_last_accepted "lines" d_lines fill_one_lines
              (info_msgs msg) (details_init msg)) as [Hl0 Hl1].
  destruct (fill_last_accepted "columns" d_columns fill_one_columns
              (info_msgs msg) (details_init msg)) as [Hc0 Hc1].
  split_and!.
  - intros Hall. by apply Hl0, out_of_range_rejected.
  - intros pre v post Hm Hv Hpost.
    by apply (Hl1 pre v post Hm Hv), out_of_range_rejected.
  - intros Hall. by apply Hc0, out_of_range_rejected.
  - intros pre v post Hm Hv Hpost.
    by apply (Hc1 pre v post Hm Hv), out_of_range_rejected.
Qed.

(** A record asking for 50 lines, then 0 lines, and for 132 columns,
    then -1 columns, gets 50 lines and 132 columns; one asking for 0
    lines alone keeps 24. *)
Lemma fill_lines_columns_range_witness :
  d_lines (fst (iolog_details_fill
     (mk_ExecMessage (mk_TimeSpec 1000 0)
        [mk_InfoMessage "lines" (NUMVAL 50);
         mk_InfoMessage "lines" (NUMVAL 0);
         mk_InfoMessage "columns" (NUMVAL 132);
         mk_InfoMessage "columns" (NUMVAL (-1))]))) = 50
  /\
  d_lines (fst (iolog_details_fill
     (mk_ExecMessage (mk_TimeSpec 1000 0)
        [mk_InfoMessage "submituser" (STRVAL "alice");
         mk_InfoMessage "lines" (NUMVAL 0)]))) = 24.
Proof.
  split.
  - apply (proj1 (proj2 (fill_lines_columns_range _)) [] 50
             [mk_InfoMessage "lines" (NUMVAL 0);
              mk_InfoMessage "columns" (NUMVAL 132);
              mk_InfoMessage "columns" (NUMVAL (-1))]).
    + reflexivity.
    + unfold INT_MAX. lia.
    + constructor; [intros _ v [= <-]; left; lia|].
      constructor; [discriminate|]. constructor; [discriminate|].
      constructor.
  - apply (proj1 (fill_lines_columns_range _)).
    constructor; [discriminate|].
    constructor; [intros _ v [= <-]; left; lia|]. constructor.
Defined.

(** C8, as stated, fails for a record that supplies a key more than
    once: the 0 lines and the -1 columns are rejected, yet what is
    retained is not the default but the 50 lines and 132 columns accepted
    before them. *)
Lemma fill_rejected_keeps_earlier :
  d_lines (fst (iolog_details_fill
     (mk_ExecMessage (mk_TimeSpec 1000 0)
        [mk_InfoMessage "lines" (NUMVAL 50);
         mk_InfoMessage "lines" (NUMVAL 0);
         mk_InfoMessage "columns" (NUMVAL 132);
         mk_InfoMessage "columns" (NUMVAL (-1))]))) = 50
  /\
  d_columns (fst (iolog_details_fill
     (mk_ExecMessage (mk_TimeSpec 1000 0)
        [mk_InfoMessage "lines" (NUMVAL 50);
         mk_InfoMessage "lines" (NUMVAL 0);
         mk_InfoMessage "columns" (NUMVAL 132);
         mk_InfoMessage "columns" (NUMVAL (-1))]))) = 132.
Proof. split; reflexivity. Qed.

(** ** Text *)

Lemma digits_of_length fuel : forall n acc,
  (length (digits_of fuel n acc) <= fuel + length acc)%nat.
Proof.
  induction fuel as [|k IH]; intros n acc; simpl; [lia|].
  destruct (n <? 10); simpl; [lia|].
  etrans; [apply IH|]. simpl. lia.
Qed.

Lemma fmt_u_length n : (length (fmt_u n) <= 20)%nat.
Proof. unfold fmt_u. etrans; [apply digits_of_length|]. simpl. lia. Qed.

Lemma fmt_d_length n : (length (fmt_d n) <= 21)%nat.
Proof.
  unfold fmt_d. destruct (n <? 0); simpl.
  - pose proof (fmt_u_length (- n)). lia.
  - pose proof (fmt_u_length n). lia.
Qed.

Lemma zero_pad_length w ds : (length (zero_pad w ds) <= Nat.max w (length ds))%nat.
Proof. unfold zero_pad. rewrite length_app, length_replicate. lia. Qed.

Lemma fmt_09d_length n : (length (fmt_09d n) <= 21)%nat.
Proof.
  unfold fmt_09d. destruct (n <? 0); simpl.
  - pose proof (zero_pad_length 8 (fmt_u (- n))).
    pose proof (fmt_u_length (- n)). lia.
  - pose proof (zero_pad_length 9 (fmt_u n)).
    pose proof (fmt_u_length n). lia.
Qed.

Lemma fmt_delay_length d : (length (fmt_delay d) <= 43)%nat.
Proof.
  unfold fmt_delay. rewrite !length_app. simpl.
  pose proof (fmt_d_length (int64 (msg_tv_sec d))).
  pose proof (fmt_09d_length (int32 (msg_tv_nsec d))). lia.
Qed.

(** The timing line of a data chunk or of a window size always fits the
    1024 bytes of [tbuf]. *)
Lemma iobuf_line_fits iofd msg :
  (Z.of_nat (length (iobuf_line iofd msg)) <? 0)
  || (sizeof_tbuf <=? Z.of_nat (length (iobuf_line iofd msg))) = false.
Proof.
  apply orb_false_iff. split; [apply Z.ltb_ge; lia|apply Z.leb_gt].
  unfold iobuf_line, sizeof_tbuf. rewrite !length_app.
  pose proof (fmt_d_length (int32 iofd)).
  pose proof (fmt_delay_length (ib_delay msg)).
  pose proof (fmt_u_length (size_t (Z.of_nat (length (ib_data msg))))).
  simpl length. lia.
Qed.

Lemma winsize_line_fits msg :
  (Z.of_nat (length (winsize_line msg)) <? 0)
  || (sizeof_tbuf <=? Z.of_nat (length (winsize_line msg))) = false.
Proof.
  apply orb_false_iff. split; [apply Z.ltb_ge; lia|apply Z.leb_gt].
  unfold winsize_line, sizeof_tbuf. rewrite !length_app.
  pose proof (fmt_d_length IO_EVENT_WINSIZE).
  pose proof (fmt_delay_length (cw_delay msg)).
  pose proof (fmt_d_length (int32 (cw_rows msg))).
  pose proof (fmt_d_length (int32 (cw_cols msg))).
  simpl length. lia.
Qed.

(** *** The decimal conversions print the value *)

Lemma digit_value_char d : 0 <= d <= 9 -> digit_value (digit_char d) = d.
Proof.
  intros Hd. unfold digit_value, digit_char.
  rewrite nat_ascii_embedding by lia. lia.
Qed.

Lemma dec_value_snoc ds c :
  dec_value (ds ++ [c]) = 10 * dec_value ds + digit_value c.
Proof. unfold dec_value. by rewrite fold_left_app. Qed.

Lemma digits_of_acc fuel : forall n acc,
  digits_of fuel n acc = digits_of fuel n [] ++ acc.
Proof.
  induction fuel as [|k IH]; intros n acc; simpl; [done|].
  destruct (n <? 10); [done|].
  rewrite IH, (IH _ [_]), <- app_assoc. done.
Qed.

Lemma digits_of_value fuel : forall n,
  0 <= n < 10 ^ Z.of_nat fuel -> dec_value (digits_of fuel n []) = n.
Proof.
  induction fuel as [|k IH]; intros n Hn.
  - simpl in Hn. assert (n = 0) as -> by lia. done.
  - simpl digits_of. destruct (n <? 10) eqn:Hlt.
    + apply Z.ltb_lt in Hlt. unfold dec_value; simpl.
      rewrite Z.mod_small by lia. rewrite digit_value_char; lia.
    + apply Z.ltb_ge in Hlt. rewrite digits_of_acc, dec_value_snoc.
      rewrite digit_value_char
        by (pose proof (Z.mod_pos_bound n 10); lia).
      rewrite IH.
      * pose proof (Z.div_mod n 10). lia.
      * split; [apply Z.div_pos; lia|].
        apply Z.div_lt_upper_bound; [lia|].
        rewrite Nat2Z.inj_succ, Z.pow_succ_r in Hn by lia. lia.
Qed.

Lemma fmt_u_value n : in_size_t n -> dec_value (fmt_u n) = n.
Proof.
  unfold in_size_t. intros Hn. apply digits_of_value.
  change (10 ^ Z.of_nat 20) with 100000000000000000000. lia.
Qed.

(** *** Machine integers *)


(** ** System calls *)

Lemma take_length_take {A} (k : nat) (l : list A) :
  take (length (take k l)) l = take k l.
Proof.
  rewrite <- (take_drop k l) at 2. by rewrite take_app_length.
Qed.

Lemma write_at_end content data :
  Sys.write_at content (Z.of_nat (length content)) data = content ++ data.
Proof.
  unfold Sys.write_at. rewrite Nat2Z.id, resize_all.
  rewrite drop_ge by lia. by rewrite app_nil_r.
Qed.

Lemma size_t_neg1 : size_t (-1) = 18446744073709551615.
Proof. reflexivity. Qed.

(** What a [write] does: it is logged, and either fails and changes no
    file, or stores a prefix of the buffer at the offset and advances the
    offset by its length. *)
Lemma write_inv fd buf w r w' :
  Sys.write fd buf w = (r, w') ->
  w_trace w' = w_trace w ++ [Write fd buf r]
  /\ w_debug w' = w_debug w /\ w_dirs w' = w_dirs w /\ w_fds w' = w_fds w
  /\ ((r = -1 /\ w_files w' = w_files w /\ w_ofds w' = w_ofds w)
      \/ exists i d content,
           Sys.fd_lookup w fd = Some (i, d) /\ ofd_wr d = true
           /\ w_files w !! ofd_path d = Some content
           /\ 0 <= r <= Z.of_nat (length buf)
           /\ w_files w' =
                <[ofd_path d :=
                    Sys.write_at content (ofd_off d) (take (Z.to_nat r) buf)]>
                  (w_files w)
           /\ w_ofds w' = <[i := Sys.set_off (ofd_off d + r) d]> (w_ofds w)).
Proof.
  unfold Sys.write, Sys.next_outcome, Sys.failed.
  assert (forall v, Sys.fd_lookup (Sys.set_script v w) fd = Sys.fd_lookup w fd)
    as Hl by done.
  destruct (w_script w) as [|o rest]; [|rewrite (surjective_pairing (_ o))];
    simpl; rewrite ?Hl.
  all: try destruct o as [|e|n|sf]; simpl.
  all: destruct (Sys.fd_lookup w fd) as [[i d]|] eqn:Hfd; simpl;
    try (intros [= <- <-]; simpl; split_and!; try done; by left).
  all: destruct (ofd_wr d) eqn:Hwr; simpl;
    try (intros [= <- <-]; simpl; split_and!; try done; by left).
  all: destruct (w_files w !! ofd_path d) as [content|] eqn:Hf; simpl;
    try (intros [= <- <-]; simpl; split_and!; try done; by left).
  all: intros [= <- <-]; simpl; split_and!; try done; right;
    exists i, d, content; rewrite Nat2Z.id, ?take_length_take;
    split_and!; try done; try lia.
  all: rewrite length_take; lia.
Qed.

(** A [write] the environment lets through transfers the whole buffer. *)
Lemma write_healthy fd buf w i d content :
  healthy w ->
  Sys.fd_lookup w fd = Some (i, d) -> ofd_wr d = true ->
  w_files w !! ofd_path d = Some content ->
  exists w',
    Sys.write fd buf w = (Z.of_nat (length buf), w')
    /\ w_trace w' = w_trace w ++ [Write fd buf (Z.of_nat (length buf))]
    /\ w_debug w' = w_debug w /\ w_dirs w' = w_dirs w /\ w_fds w' = w_fds w
    /\ w_files w' =
         <[ofd_path d := Sys.write_at content (ofd_off d) buf]> (w_files w)
    /\ w_ofds w' =
         <[i := Sys.set_off (ofd_off d + Z.of_nat (length buf)) d]> (w_ofds w).
Proof.
  unfold healthy, Sys.write, Sys.next_outcome. intros Hh Hfd Hwr Hf.
  assert (forall v, Sys.fd_lookup (Sys.set_script v w) fd = Sys.fd_lookup w fd)
    as Hl by done.
  destruct (w_script w) as [|[|e|n|sf] rest]; try done; simpl;
    rewrite ?Hl, Hfd, Hwr; simpl; rewrite Hf, firstn_all;
    eexists; split_and!; done.
Qed.

(** ** The stream writer *)

Lemma iolog_write_closure iofd buf s :
  closure (snd (iolog_write iofd buf s)) = closure s.
Proof.
  unfold iolog_write. destruct ((iofd <? 0) || (IOFD_MAX <=? iofd)); [done|].
  by destruct (Sys.write _ _ _).
Qed.

(** A successful [iolog_write] is one complete [write] on the descriptor
    of the stream. *)
Lemma iolog_write_inv iofd buf s s' :
  Z.of_nat (length buf) < 18446744073709551615 ->
  iolog_write iofd buf s = (true, s') ->
  0 <= iofd < IOFD_MAX
  /\ closure s' = closure s
  /\ Sys.write (Closure.io_fd (closure s) iofd) buf (sys s)
     = (Z.of_nat (length buf), sys s').
Proof.
  unfold iolog_write. intros Hlen.
  destruct ((iofd <? 0) || (IOFD_MAX <=? iofd)) eqn:Hg; [done|].
  apply orb_false_iff in Hg as [Hg1%Z.ltb_ge Hg2%Z.leb_gt].
  destruct (Sys.write _ _ _) as [r w'] eqn:Hw. intros [= Hr <-].
  split_and!; try done. f_equal.
  apply Z.eqb_eq in Hr.
  apply write_inv in Hw as (_ & _ & _ & _ & [(-> & _)|(i & d & c & _ & _ & _ & Hr' & _)]).
  - rewrite size_t_neg1, size_t_id in Hr by (unfold in_size_t; lia). lia.
  - rewrite !size_t_id in Hr by (unfold in_size_t; lia). done.
Qed.

(** C6, as the code has it.  A data chunk for a stream id below 0 or
    from [IOFD_MAX] = 6 on is refused by the "invalid iofd" guard:
    [store_iobuf] returns -1 and the only effect is the debug message, so
    no system call is made and no file changes, whatever lies next to
    [io_fds] in memory. *)
Theorem store_iobuf_invalid_iofd iofd msg s :
  iofd < 0 \/ IOFD_MAX <= iofd ->
  store_iobuf iofd msg s = (-1, say (dbg_invalid_iofd iofd) s)
  /\ w_files (sys (snd (store_iobuf iofd msg s))) = w_files (sys s)
  /\ w_trace (sys (snd (store_iobuf iofd msg s))) = w_trace (sys s).
Proof.
  intros Hout.
  assert ((iofd <? 0) || (IOFD_MAX <=? iofd) = true) as Hg.
  { apply orb_true_iff. destruct Hout; [left; by apply Z.ltb_lt|right; by apply Z.leb_le]. }
  assert (store_iobuf iofd msg s = (-1, say (dbg_invalid_iofd iofd) s)) as Heq.
  { unfold store_iobuf.
    destruct (Closure.io_fd (closure s) iofd =? -1).
    - unfold iolog_open. rewrite Hg. done.
    - simpl. rewrite iobuf_line_fits. unfold iolog_write. rewrite Hg. done. }
  by rewrite Heq.
Qed.

Lemma store_iobuf_invalid_iofd_witness :
  store_iobuf 7 (mk_IoBuffer (mk_TimeSpec 0 0) (chars "x")) Example.opened
  = (-1, say (dbg_invalid_iofd 7) Example.opened).
Proof.
  apply (store_iobuf_invalid_iofd 7 _ Example.opened).
  right. unfold IOFD_MAX. lia.
Defined.

(** C6, as stated, fails at stream id 5: the guard of [iolog_write] is
    [iofd >= IOFD_MAX], and slot 5 holds the timing file.  The call
    succeeds and the payload lands in the timing file, followed by its
    timing line. *)
Lemma store_iobuf_timing_slot :
  fst (store_iobuf 5 (mk_IoBuffer (mk_TimeSpec 0 0) (chars "abc"))
         Example.opened) = 0
  /\ Example.file
       (snd (store_iobuf 5 (mk_IoBuffer (mk_TimeSpec 0 0) (chars "abc"))
               Example.opened)) "timing"
     = Some (chars "abc5 0.000000000 3" ++ [NL]).
Proof. split; vm_compute; reflexivity. Qed.

(** What opening a path does: it fails and changes nothing, or installs
    a new description at offset 0 under a new descriptor, on a directory,
    on an existing file, or on a file it creates empty. *)
Lemma open_path_inv path flags w r w' :
  Sys.open_path path flags w = (r, w') ->
  w_trace w' = w_trace w /\ w_debug w' = w_debug w /\ w_dirs w' = w_dirs w
  /\ w_script w' = w_script w
  /\ ((r = -1 /\ w_files w' = w_files w /\ w_fds w' = w_fds w
       /\ w_ofds w' = w_ofds w)
      \/ exists d,
           r = Z.of_nat (fresh (dom (w_fds w)))
           /\ ofd_path d = path /\ ofd_off d = 0
           /\ w_fds w' =
                <[fresh (dom (w_fds w)) := fresh (dom (w_ofds w))]> (w_fds w)
           /\ w_ofds w' = <[fresh (dom (w_ofds w)) := d]> (w_ofds w)
           /\ ((path ∈ w_dirs w /\ ofd_dir d = true /\ ofd_wr d = false
                /\ Sys.writable flags = false /\ w_files w' = w_files w)
               \/ ((path ∉ w_dirs w) /\ ofd_dir d = false
                   /\ ofd_rd d = Sys.readable flags
                   /\ ofd_wr d = Sys.writable flags
                   /\ ((is_Some (w_files w !! path)
                        /\ (Sys.has_flag flags Sys.O_CREAT
                            && Sys.has_flag flags Sys.O_EXCL) = false
                        /\ w_files w' = w_files w)
                       \/ (w_files w !! path = None
                           /\ Sys.has_flag flags Sys.O_CREAT = true
                           /\ Sys.dirname path ∈ w_dirs w
                           /\ w_files w' = <[path := []]> (w_files w)))))).
Proof.
  unfold Sys.open_path, Sys.failed, Sys.install.
  destruct (bool_decide (path ∈ w_dirs w)) eqn:Hdir.
  - apply bool_decide_eq_true in Hdir.
    destruct (Sys.writable flags
              || Sys.has_flag flags Sys.O_CREAT && Sys.has_flag flags Sys.O_EXCL)
      eqn:Hw; intros [= <- <-]; simpl; (split_and!; [done..|]).
    + by left.
    + apply orb_false_iff in Hw as [Hw _].
      right. exists (mk_ofd path 0 true false true).
      split_and!; try done. left. done.
  - apply bool_decide_eq_false in Hdir.
    destruct (w_files w !! path) as [c|] eqn:Hf.
    + destruct (Sys.has_flag flags Sys.O_CREAT && Sys.has_flag flags Sys.O_EXCL)
        eqn:Hx; intros [= <- <-]; simpl; (split_and!; [done..|]).
      * by left.
      * right.
        exists (mk_ofd path 0 (Sys.readable flags) (Sys.writable flags) false).
        split_and!; try done. right. split_and!; try done.
        left. done.
    + destruct (Sys.has_flag flags Sys.O_CREAT) eqn:Hc;
        [destruct (bool_decide (Sys.dirname path ∈ w_dirs w)) eqn:Hp|];
        intros [= <- <-]; simpl; (split_and!; [done..|]).
      * apply bool_decide_eq_true in Hp.
        right.
        exists (mk_ofd path 0 (Sys.readable flags) (Sys.writable flags) false).
        split_and!; try done. right. split_and!; try done.
        right. done.
      * by left.
      * by left.
Qed.

Lemma openat_trace dirfd name flags mode w r w' :
  Sys.openat dirfd name flags mode w = (r, w') ->
  w_trace w' = w_trace w ++ [Openat dirfd name flags mode r]
  /\ w_debug w' = w_debug w.
Proof.
  unfold Sys.openat.
  destruct (Sys.next_outcome w) as [o w1] eqn:Hn.
  assert (w_trace w1 = w_trace w /\ w_debug w1 = w_debug w) as [Ht Hd].
  { unfold Sys.next_outcome in Hn.
    destruct (w_script w); injection Hn as <- <-; done. }
  match goal with
  | |- (let '(_, _) := ?c in _) = _ -> _ => destruct c as [r0 w0] eqn:Hcore
  end.
  intros [= <- <-]; simpl.
  assert (w_trace w0 = w_trace w1 /\ w_debug w0 = w_debug w1) as [Ht0 Hd0].
  { unfold Sys.failed in Hcore.
    destruct o; try (by injection Hcore as <- <-);
      (destruct (Sys.fd_lookup w1 dirfd) as [[j dd]|];
       [destruct (ofd_dir dd);
        [by apply open_path_inv in Hcore as (? & ? & _)|]|];
       by injection Hcore as <- <-). }
  by rewrite Ht0, Hd0, Ht, Hd.
Qed.

(** [iolog_open] leaves the elapsed time and the directory descriptor
    alone; when it succeeds it has made one [openat] with
    [O_CREAT|O_EXCL|O_WRONLY] and mode 0600. *)
Lemma iolog_open_inv iofd s ok s' :
  iolog_open iofd s = (ok, s') ->
  elapsed_time (closure s') = elapsed_time (closure s)
  /\ iolog_dir_fd (closure s') = iolog_dir_fd (closure s)
  /\ iolog_dir (closure s') = iolog_dir (closure s)
  /\ (ok = true ->
      0 <= iofd < IOFD_MAX
      /\ exists fd,
           Sys.openat (iolog_dir_fd (closure s))
             (default "" (iolog_names !! Z.to_nat iofd))
             O_CREAT_EXCL_WRONLY 384 (sys s) = (fd, sys s')
           /\ io_fds (closure s') = <[Z.to_nat iofd := fd]> (io_fds (closure s))
           /\ Closure.io_fd (closure s') iofd <> -1).
Proof.
  unfold iolog_open.
  destruct ((iofd <? 0) || (IOFD_MAX <=? iofd)) eqn:Hg.
  { intros [= <- <-]. done. }
  apply orb_false_iff in Hg as [Hg1%Z.ltb_ge Hg2%Z.leb_gt].
  destruct (Sys.openat _ _ _ _ _) as [fd w'] eqn:Ho.
  intros [= Hok <-]. simpl. split_and!; try done.
  intros ->. split; [lia|]. exists fd. split_and!; try done.
  apply negb_true_iff, Z.eqb_neq in Hok. done.
Qed.

(** The elapsed time moves only when [store_iobuf] returns 0, and then
    by [update_elapsed_time]. *)
Lemma store_iobuf_elapsed iofd msg s r s' :
  store_iobuf iofd msg s = (r, s') ->
  elapsed_time (closure s') =
    if r =? 0
    then update_elapsed_time (ib_delay msg) (elapsed_time (closure s))
    else elapsed_time (closure s).
Proof.
  unfold store_iobuf.
  destruct (if Closure.io_fd (closure s) iofd =? -1 then iolog_open iofd s
            else (true, s)) as [ok s1] eqn:Hopen.
  assert (elapsed_time (closure s1) = elapsed_time (closure s)) as He1.
  { destruct (Closure.io_fd (closure s) iofd =? -1).
    - by apply iolog_open_inv in Hopen as (? & _).
    - by injection Hopen as _ <-. }
  destruct ok; simpl; [|by intros [= <- <-]].
  rewrite iobuf_line_fits.
  destruct (iolog_write iofd (ib_data msg) s1) as [ok s2] eqn:Hw1.
  pose proof (iolog_write_closure iofd (ib_data msg) s1) as Hc2.
  rewrite Hw1 in Hc2; simpl in Hc2.
  destruct ok; simpl; [|intros [= <- <-]; simpl; by rewrite Hc2].
  destruct (iolog_write IOFD_TIMING _ s2) as [ok s3] eqn:Hw2.
  pose proof (iolog_write_closure IOFD_TIMING (iobuf_line iofd msg) s2) as Hc3.
  rewrite Hw2 in Hc3; simpl in Hc3.
  destruct ok; simpl; intros [= <- <-]; simpl; by rewrite Hc3, Hc2, ?He1.
Qed.

Lemma store_suspend_elapsed msg s r s' :
  store_suspend msg s = (r, s') ->
  elapsed_time (closure s') =
    if r =? 0
    then update_elapsed_time (cs_delay msg) (elapsed_time (closure s))
    else elapsed_time (closure s).
Proof.
  unfold store_suspend.
  destruct (_ || _); [by intros [= <- <-]|].
  destruct (iolog_write IOFD_TIMING _ s) as [ok s1] eqn:Hw.
  pose proof (iolog_write_closure IOFD_TIMING (suspend_line msg) s) as Hc.
  rewrite Hw in Hc; simpl in Hc.
  destruct ok; simpl; intros [= <- <-]; simpl; by rewrite Hc.
Qed.

Lemma store_winsize_elapsed msg s r s' :
  store_winsize msg s = (r, s') ->
  elapsed_time (closure s') =
    if r =? 0
    then update_elapsed_time (cw_delay msg) (elapsed_time (closure s))
    else elapsed_time (closure s).
Proof.
  unfold store_winsize.
  destruct (_ || _); [by intros [= <- <-]|].
  destruct (iolog_write IOFD_TIMING _ s) as [ok s1] eqn:Hw.
  pose proof (iolog_write_closure IOFD_TIMING (winsize_line msg) s) as Hc.
  rewrite Hw in Hc; simpl in Hc.
  destruct ok; simpl; intros [= <- <-]; simpl; by rewrite Hc.
Qed.

Lemma store_all_elapsed evs : forall s s',
  store_all evs s = Some s' ->
  elapsed_time (closure s') =
    fold_left (fun e d => update_elapsed_time d e) (map event_delay evs)
      (elapsed_time (closure s)).
Proof.
  induction evs as [|ev evs IH]; intros s s'; simpl.
  { by intros [= <-]. }
  destruct (store_event ev s) as [r s1] eqn:Hev.
  destruct (r =? 0) eqn:Hr; [|done].
  intros Hrest. rewrite (IH _ _ Hrest). f_equal.
  destruct ev as [iofd msg|msg|msg]; simpl in *.
  - apply store_iobuf_elapsed in Hev. by rewrite Hr in Hev.
  - apply store_suspend_elapsed in Hev. by rewrite Hr in Hev.
  - apply store_winsize_elapsed in Hev. by rewrite Hr in Hev.
Qed.

(** C7, as the code has it.  After a sequence of data, suspend and
    window-size events that were all stored, on top of a normalised
    elapsed time, the elapsed time is the component-wise sum of the
    delays normalised so that the nanoseconds lie in [0, 10^9), provided
    the delays have non-negative nanoseconds (they need not be below one
    second) and the seconds of the result fit 64 bits. *)
Theorem elapsed_time_normalised_sum evs s s' :
  store_all evs s = Some s' ->
  in_int64 (tv_sec (elapsed_time (closure s))) ->
  0 <= tv_nsec (elapsed_time (closure s)) < NSEC_PER_SEC ->
  Forall (fun ev => 0 <= msg_tv_nsec (event_delay ev) <= 2147483647) evs ->
  in_int64 (tv_sec (normalised_sum (elapsed_time (closure s))
                      (map event_delay evs))) ->
  elapsed_time (closure s') =
    normalised_sum (elapsed_time (closure s)) (map event_delay evs).
Proof.
  intros Hall Hs Hn Hds Hfit.
  rewrite (store_all_elapsed _ _ _ Hall).
  rewrite fold_update_elapsed; [|done|done|].
  - rewrite int64_id by done. by destruct (normalised_sum _ _).
  - apply Forall_map. done.
Qed.

(** The carry of the specification: 0.999999999 s twice is
    1.999999998 s. *)
Lemma elapsed_time_normalised_sum_witness :
  option_map (fun s => elapsed_time (closure s))
    (store_all
       [Winsize (mk_ChangeWindowSize (mk_TimeSpec 0 999999999) 24 80);
        Data 1 (mk_IoBuffer (mk_TimeSpec 0 999999999) (chars "x"))]
       Example.opened)
  = Some (mk_timespec 1 999999998).
Proof.
  destruct (store_all
       [Winsize (mk_ChangeWindowSize (mk_TimeSpec 0 999999999) 24 80);
        Data 1 (mk_IoBuffer (mk_TimeSpec 0 999999999) (chars "x"))]
       Example.opened) as [s'|] eqn:Hall; [|by vm_compute in Hall].
  simpl. f_equal.
  rewrite (elapsed_time_normalised_sum _ _ _ Hall).
  - reflexivity.
  - vm_compute. split; discriminate.
  - vm_compute. split; [discriminate|reflexivity].
  - repeat constructor; simpl; lia.
  - vm_compute. split; discriminate.
Defined.

(** C7, as stated, fails for a delay with negative nanoseconds, which
    the int32 field of the message admits: the loop only carries, so
    after delays of 1.5 s and -1 s of nanoseconds the elapsed time is
    (1, -500000000), not the normalised sum (0, 500000000). *)
Lemma elapsed_time_negative_nanoseconds :
  option_map (fun s => elapsed_time (closure s))
    (store_all
       [Winsize (mk_ChangeWindowSize (mk_TimeSpec 0 1500000000) 24 80);
        Winsize (mk_ChangeWindowSize (mk_TimeSpec 0 (-1000000000)) 24 80)]
       Example.opened)
  = Some (mk_timespec 1 (-500000000))
  /\ normalised_sum (mk_timespec 0 0)
       [mk_TimeSpec 0 1500000000; mk_TimeSpec 0 (-1000000000)]
     = mk_timespec 0 500000000.
Proof. split; vm_compute; reflexivity. Qed.

(** ** Descriptors *)

Lemma fd_lookup_Some w fd i d :
  Sys.fd_lookup w fd = Some (i, d) <->
  0 <= fd /\ w_fds w !! Z.to_nat fd = Some i /\ w_ofds w !! i = Some d.
Proof.
  unfold Sys.fd_lookup. destruct (fd <? 0) eqn:Hfd.
  - apply Z.ltb_lt in Hfd. split; [done|lia].
  - apply Z.ltb_ge in Hfd.
    destruct (w_fds w !! Z.to_nat fd) as [j|].
    + destruct (w_ofds w !! j) as [e|] eqn:He.
      * split; [by intros [= <- <-]|]. intros (_ & [= <-] & Hd).
        rewrite He in Hd. by injection Hd as <-.
      * split; [done|]. intros (_ & [= <-] & Hd). by rewrite He in Hd.
    + split; [done|]. by intros (_ & ? & _).
Qed.

(** The append engine *)

Lemma winsize_line_form msg :
  wf_ChangeWindowSize msg ->
  winsize_line msg =
    chars "5 " ++ fmt_d (msg_tv_sec (cw_delay msg)) ++ chars "."
      ++ fmt_09d (msg_tv_nsec (cw_delay msg)) ++ [SP]
      ++ fmt_d (cw_rows msg) ++ [SP] ++ fmt_d (cw_cols msg) ++ [NL].
Proof.
  intros ([Hs Hn] & Hr & Hc). unfold winsize_line, fmt_delay.
  rewrite int64_id, !int32_id by done. simpl. by rewrite <- !app_assoc.
Qed.

Lemma iobuf_line_form iofd msg :
  in_int32 iofd -> wf_IoBuffer msg ->
  iobuf_line iofd msg =
    fmt_d iofd ++ [SP] ++ fmt_d (msg_tv_sec (ib_delay msg)) ++ chars "."
      ++ fmt_09d (msg_tv_nsec (ib_delay msg)) ++ [SP]
      ++ fmt_u (Z.of_nat (length (ib_data msg))) ++ [NL].
Proof.
  intros Hi ([Hs Hn] & Hl). unfold iobuf_line, fmt_delay.
  rewrite int64_id, !int32_id, size_t_id by (try done; unfold in_size_t; lia).
  simpl. by rewrite <- !app_assoc.
Qed.

(** Nanoseconds below one second are printed on exactly nine digits. *)
Lemma fmt_09d_nine n : 0 <= n < NSEC_PER_SEC -> length (fmt_09d n) = 9%nat.
Proof.
  unfold NSEC_PER_SEC. intros Hn. unfold fmt_09d.
  destruct (n <? 0) eqn:Hneg; [apply Z.ltb_lt in Hneg; lia|].
  unfold zero_pad. rewrite length_app, length_replicate.
  assert (length (fmt_u n) <= 9)%nat; [|lia].
  unfold fmt_u.
  assert (forall fuel m acc, 0 <= m < 10 ^ Z.of_nat (S fuel) ->
            (length (digits_of (S fuel + 11) m acc) <= S fuel + length acc)%nat)
    as Hgen.
  { induction fuel as [|k IH]; intros m acc Hm.
    - change (10 ^ Z.of_nat 1) with 10 in Hm. simpl digits_of.
      assert ((m <? 10) = true) as -> by (apply Z.ltb_lt; lia). simpl. lia.
    - change (S (S k) + 11)%nat with (S (S k + 11)). simpl digits_of.
      destruct (m <? 10) eqn:Hlt; [simpl; lia|].
      apply Z.ltb_ge in Hlt.
      etrans; [apply IH|simpl; lia].
      split; [apply Z.div_pos; lia|].
      apply Z.div_lt_upper_bound; [lia|].
      rewrite (Nat2Z.inj_succ (S k)), Z.pow_succ_r in Hm by lia. lia. }
  specialize (Hgen 8%nat n []). simpl in Hgen. apply Hgen.
  change (10 ^ Z.of_nat 9) with 1000000000. lia.
Qed.

(** C10.  [store_winsize] checks neither [rows] nor [cols]: for any two
    32-bit values, zero and negative ones included, on a session whose
    timing file is open and an environment that lets the write through,
    it returns 0, appends the line [5 SP sec.nsec SP rows SP cols NL]
    with the two values as given, and advances the elapsed time: from a
    normalised elapsed time and a delay with non-negative nanoseconds,
    the new nanoseconds are the sum of the two modulo 10^9 and the new
    seconds the sum of the two plus the whole seconds carried, in 64
    bits.  Its only system call is that write on the timing descriptor,
    and the only file that changes is the one behind it: no byte stream
    is touched. *)
Theorem store_winsize_unchecked msg s path content :
  wf_ChangeWindowSize msg ->
  stream_at_end s IOFD_TIMING path content ->
  healthy (sys s) ->
  exists s',
    store_winsize msg s = (0, s')
    /\ w_files (sys s') =
         <[path := content ++ chars "5 "
                     ++ fmt_d (msg_tv_sec (cw_delay msg)) ++ chars "."
                     ++ fmt_09d (msg_tv_nsec (cw_delay msg)) ++ [SP]
                     ++ fmt_d (cw_rows msg) ++ [SP] ++ fmt_d (cw_cols msg)
                     ++ [NL]]> (w_files (sys s))
    /\ elapsed_time (closure s') =
         update_elapsed_time (cw_delay msg) (elapsed_time (closure s))
    /\ w_trace (sys s') =
         w_trace (sys s)
           ++ [Write (Closure.io_fd (closure s) IOFD_TIMING) (winsize_line msg)
                 (Z.of_nat (length (winsize_line msg)))]
    /\ (0 <= tv_nsec (elapsed_time (closure s)) < NSEC_PER_SEC ->
        0 <= msg_tv_nsec (cw_delay msg) ->
        tv_sec (elapsed_time (closure s'))
        = int64 (tv_sec (elapsed_time (closure s))
                 + msg_tv_sec (cw_delay msg)
                 + (tv_nsec (elapsed_time (closure s))
                    + msg_tv_nsec (cw_delay msg)) / NSEC_PER_SEC)
        /\ tv_nsec (elapsed_time (closure s'))
           = (tv_nsec (elapsed_time (closure s))
              + msg_tv_nsec (cw_delay msg)) mod NSEC_PER_SEC).
Proof.
  intros Hmsg (i & d & Hfd & Hwr & Hpath & Hoff & Hfile) Hh.
  subst path.
  destruct (write_healthy _ (winsize_line msg) _ _ _ _ Hh Hfd Hwr Hfile)
    as (w' & Hw & Htr & _ & _ & _ & Hfiles & _).
  unfold store_winsize. rewrite winsize_line_fits.
  unfold iolog_write. simpl ((_ <? _) || _). cbv iota. rewrite Hw.
  rewrite Z.eqb_refl. simpl.
  eexists. split; [reflexivity|]. simpl. split_and!; try done.
  - rewrite Hfiles, Hoff, write_at_end, winsize_line_form by done. done.
  - intros Hn Hd.
    rewrite update_elapsed_time_exact; [done|done|].
    split; [done|]. apply Hmsg.
Qed.

(** A window of 0 rows and -5 columns on the session just opened. *)
Lemma store_winsize_unchecked_witness :
  exists s',
    store_winsize (mk_ChangeWindowSize (mk_TimeSpec 1 0) 0 (-5)) Example.opened
    = (0, s')
    /\ w_files (sys s') !! (Example.session_dir +:+ "/timing")
       = Some (chars "5 1.000000000 0 -5" ++ [NL])
    /\ tv_sec (elapsed_time (closure s'))
       = int64 (tv_sec (elapsed_time (closure Example.opened)) + 1
                + (tv_nsec (elapsed_time (closure Example.opened)) + 0)
                  / NSEC_PER_SEC).
Proof.
  destruct (store_winsize_unchecked
              (mk_ChangeWindowSize (mk_TimeSpec 1 0) 0 (-5)) Example.opened
              (Example.session_dir +:+ "/timing") [])
    as (s' & Hr & Hf & _ & _ & Hel).
  - vm_compute. repeat split; discriminate.
  - eexists _, _. vm_compute. split_and!; reflexivity.
  - vm_compute. exact I.
  - exists s'. split; [exact Hr|]. split.
    + rewrite Hf, lookup_insert_eq. reflexivity.
    + apply Hel.
      * vm_compute. split; [discriminate|reflexivity].
      * vm_compute. discriminate.
Defined.

(** C2.  A [store_iobuf] that returns 0 has written the bytes to the
    stream first and then one timing line
    [stream_id SP seconds.nanoseconds SP byte_count NL] to the timing
    file: these are the last two system calls of the trace, in this
    order, both complete, preceded only by the [openat] that creates a
    stream not yet open.  The elapsed time is advanced by the delay after
    them, and is left alone when the call fails: from a normalised
    elapsed time and a delay with non-negative nanoseconds, the new
    nanoseconds are the sum of the two modulo 10^9 and the new seconds
    the sum of the two plus the whole seconds carried, in 64 bits.  On a
    session whose stream and timing descriptors stand at the end of two
    different files, the bytes and the line are appended to them.
    Nanoseconds below one second take exactly nine digits. *)
Theorem store_iobuf_order iofd msg s r s' :
  in_int32 iofd -> wf_IoBuffer msg ->
  store_iobuf iofd msg s = (r, s') ->
  let line :=
    fmt_d iofd ++ [SP] ++ fmt_d (msg_tv_sec (ib_delay msg)) ++ chars "."
      ++ fmt_09d (msg_tv_nsec (ib_delay msg)) ++ [SP]
      ++ fmt_u (Z.of_nat (length (ib_data msg))) ++ [NL] in
  (r = 0 ->
     (exists opens,
        w_trace (sys s') =
          w_trace (sys s) ++ opens
            ++ [Write (Closure.io_fd (closure s') iofd) (ib_data msg)
                  (Z.of_nat (length (ib_data msg)));
                Write (Closure.io_fd (closure s') IOFD_TIMING) line
                  (Z.of_nat (length line))]
        /\ if Closure.io_fd (closure s) iofd =? -1
           then exists name fd,
                  opens = [Openat (iolog_dir_fd (closure s)) name
                             O_CREAT_EXCL_WRONLY 384 fd]
           else opens = [])
     /\ elapsed_time (closure s') =
          update_elapsed_time (ib_delay msg) (elapsed_time (closure s))
     /\ (forall p c pt ct,
           Closure.io_fd (closure s) iofd <> -1 ->
           stream_at_end s iofd p c -> stream_at_end s IOFD_TIMING pt ct ->
           p <> pt ->
           w_files (sys s') =
             <[pt := ct ++ line]> (<[p := c ++ ib_data msg]> (w_files (sys s))))
     /\ (0 <= tv_nsec (elapsed_time (closure s)) < NSEC_PER_SEC ->
         0 <= msg_tv_nsec (ib_delay msg) ->
         tv_sec (elapsed_time (closure s'))
         = int64 (tv_sec (elapsed_time (closure s))
                  + msg_tv_sec (ib_delay msg)
                  + (tv_nsec (elapsed_time (closure s))
                     + msg_tv_nsec (ib_delay msg)) / NSEC_PER_SEC)
         /\ tv_nsec (elapsed_time (closure s'))
            = (tv_nsec (elapsed_time (closure s))
               + msg_tv_nsec (ib_delay msg)) mod NSEC_PER_SEC))
  /\ (r <> 0 -> elapsed_time (closure s') = elapsed_time (closure s))
  /\ (0 <= msg_tv_nsec (ib_delay msg) < NSEC_PER_SEC ->
      length (fmt_09d (msg_tv_nsec (ib_delay msg))) = 9%nat).
Proof.
  intros Hiofd Hmsg Hrun line.
  assert (iobuf_line iofd msg = line) as Hline by by apply iobuf_line_form.
  pose proof (store_iobuf_elapsed _ _ _ _ _ Hrun) as Hel.
  split; [|split].
  2: { intros Hr. apply Z.eqb_neq in Hr. by rewrite Hr in Hel. }
  2: { apply fmt_09d_nine. }
  intros ->. split; [|split; [done|split]].
  3: { intros Hn Hd. rewrite Hel. simpl (0 =? 0). cbv iota.
       rewrite update_elapsed_time_exact; [done|done|].
       split; [done|]. apply Hmsg. }
  - revert Hrun. unfold store_iobuf.
    destruct (if Closure.io_fd (closure s) iofd =? -1 then iolog_open iofd s
              else (true, s)) as [ok s1] eqn:Hopen.
    destruct ok; simpl; [|done]. rewrite iobuf_line_fits, Hline.
    destruct (iolog_write iofd (ib_data msg) s1) as [ok s2] eqn:Hw1.
    destruct ok; simpl; [|done].
    destruct (iolog_write IOFD_TIMING line s2) as [ok s3] eqn:Hw2.
    destruct ok; simpl; [|done]. intros [= <-]. simpl.
    apply iolog_write_inv in Hw1 as (_ & Hc2 & Hw1); [|apply Hmsg].
    apply iolog_write_inv in Hw2 as (_ & Hc3 & Hw2).
    2: { pose proof (iobuf_line_fits iofd msg) as Hfit.
         apply orb_false_iff in Hfit as [_ Hfit%Z.leb_gt].
         rewrite Hline in Hfit. unfold sizeof_tbuf in Hfit. lia. }
    apply write_inv in Hw1 as (Ht1 & _). apply write_inv in Hw2 as (Ht2 & _).
    rewrite Hc2 in Ht2.
    assert (forall i, Closure.io_fd
              (Closure.set_elapsed_time
                 (update_elapsed_time (ib_delay msg) (elapsed_time (closure s3)))
                 (closure s3)) i = Closure.io_fd (closure s1) i) as Hio.
    { intros i. rewrite Hc3, Hc2. done. }
    rewrite !Hio, Ht2, Ht1.
    destruct (Closure.io_fd (closure s) iofd =? -1) eqn:Hfd.
    + apply iolog_open_inv in Hopen as (_ & _ & _ & Hok).
      destruct (Hok eq_refl) as (_ & fd & Ho & Hfds & _).
      apply openat_trace in Ho as [Ho _].
      exists [Openat (iolog_dir_fd (closure s))
                (default "" (iolog_names !! Z.to_nat iofd))
                O_CREAT_EXCL_WRONLY 384 fd].
      split; [|eexists _, _; reflexivity].
      rewrite Ho, <- !app_assoc. reflexivity.
    + injection Hopen as <-. exists []. split; [|done].
      rewrite <- app_assoc. reflexivity.
  - intros p c pt ct Hfd (i & d & Hl & Hwr & Hp & Hoff & Hf)
      (it & dt & Hlt & Hwrt & Hpt & Hofft & Hft) Hne.
    revert Hrun. unfold store_iobuf.
    apply Z.eqb_neq in Hfd. rewrite Hfd. simpl.
    rewrite iobuf_line_fits, Hline.
    destruct (iolog_write iofd (ib_data msg) s) as [ok s2] eqn:Hw1.
    destruct ok; simpl; [|done].
    destruct (iolog_write IOFD_TIMING line s2) as [ok s3] eqn:Hw2.
    destruct ok; simpl; [|done]. intros [= <-]. simpl.
    apply iolog_write_inv in Hw1 as (_ & Hc2 & Hw1); [|apply Hmsg].
    apply iolog_write_inv in Hw2 as (_ & Hc3 & Hw2).
    2: { pose proof (iobuf_line_fits iofd msg) as Hfit.
         apply orb_false_iff in Hfit as [_ Hfit%Z.leb_gt].
         rewrite Hline in Hfit. unfold sizeof_tbuf in Hfit. lia. }
    rewrite Hc2 in Hw2.
    apply write_inv in Hw1
      as (_ & _ & _ & Hfds1 & [(Hr & _)|(i' & d' & c' & Hl' & _ & Hf' & _ & Hfiles1 & Hofds1)]);
      [lia|].
    rewrite Hl in Hl'. injection Hl' as <- <-.
    rewrite Hp, Hf in Hf'. injection Hf' as <-.
    rewrite Nat2Z.id, firstn_all, Hp, Hoff, write_at_end in Hfiles1.
    assert (it <> i) as Hit.
    { intros ->. apply fd_lookup_Some in Hl as (_ & _ & Hd).
      apply fd_lookup_Some in Hlt as (_ & _ & Hdt). congruence. }
    assert (Sys.fd_lookup (sys s2) (Closure.io_fd (closure s) IOFD_TIMING)
            = Some (it, dt)) as Hlt2.
    { apply fd_lookup_Some in Hlt as (H0 & Hfdt & Hdt).
      apply fd_lookup_Some. rewrite Hfds1, Hofds1.
      by rewrite lookup_insert_ne. }
    apply write_inv in Hw2
      as (_ & _ & _ & _ & [(Hr & _)|(i' & d' & c' & Hl' & _ & Hf' & _ & Hfiles2 & _)]);
      [lia|].
    rewrite Hlt2 in Hl'. injection Hl' as <- <-.
    rewrite Hfiles1, Hpt, lookup_insert_ne in Hf' by done.
    rewrite Hft in Hf'. injection Hf' as <-.
    rewrite Nat2Z.id, firstn_all, Hpt, Hofft, write_at_end in Hfiles2.
    by rewrite Hfiles2, Hfiles1.
Qed.

(** The first scenario of the specification: 8 bytes on stdout after
    half a second leave [1 0.500000000 8] in the timing file. *)
Lemma store_iobuf_order_witness :
  w_files (sys (snd (store_iobuf 1
     (mk_IoBuffer (mk_TimeSpec 0 500000000) (chars "total 0" ++ [NL]))
     Example.opened))) !! (Example.session_dir +:+ "/timing")
  = Some (chars "1 0.500000000 8" ++ [NL])
  /\ tv_nsec (elapsed_time (closure (snd (store_iobuf 1
        (mk_IoBuffer (mk_TimeSpec 0 500000000) (chars "total 0" ++ [NL]))
        Example.opened))))
     = (tv_nsec (elapsed_time (closure Example.opened)) + 500000000)
         mod NSEC_PER_SEC.
Proof.
  pose proof (store_iobuf_order 1
     (mk_IoBuffer (mk_TimeSpec 0 500000000) (chars "total 0" ++ [NL]))
     Example.opened 0
     (snd (store_iobuf 1
        (mk_IoBuffer (mk_TimeSpec 0 500000000) (chars "total 0" ++ [NL]))
        Example.opened))) as H.
  destruct H as [H _].
  - vm_compute. split; discriminate.
  - vm_compute. repeat split; try discriminate; reflexivity.
  - vm_compute. reflexivity.
  - destruct (H eq_refl) as (_ & _ & Hfiles & Hel). split.
    + rewrite (Hfiles (Example.session_dir +:+ "/stdout") []
                 (Example.session_dir +:+ "/timing") []).
      * rewrite lookup_insert_eq. reflexivity.
      * vm_compute. discriminate.
      * eexists _, _. vm_compute. split_and!; reflexivity.
      * eexists _, _. vm_compute. split_and!; reflexivity.
      * vm_compute. discriminate.
    + apply Hel.
      * vm_compute. split; [discriminate|reflexivity].
      * vm_compute. discriminate.
Defined.

(** ** The restart engine: reading the timing file *)

(** What [fgets] does when the environment lets the read through: NULL
    with the end-of-file mark when no character is left at the offset,
    and otherwise the characters up to the first newline, or up to the
    size of the buffer, or up to the end of the file. *)
Lemma fgets_healthy size fp w i d content :
  healthy w ->
  Sys.fd_lookup w (Sys.fp_fd fp) = Some (i, d) -> ofd_rd d = true ->
  w_files w !! ofd_path d = Some content ->
  let got := Sys.line_prefix (Z.to_nat (size - 1))
               (drop (Z.to_nat (ofd_off d)) content) in
  exists fp' w',
    Sys.fgets size fp w = (if got is [] then None else Some got, fp', w')
    /\ Sys.feof fp' = (if got is [] then true else Sys.fp_eof fp)
    /\ w_files w' = w_files w /\ w_dirs w' = w_dirs w /\ w_fds w' = w_fds w
    /\ w_debug w' = w_debug w
    /\ w_ofds w' =
         if got is [] then w_ofds w
         else <[i := Sys.set_off (ofd_off d + Z.of_nat (length got)) d]>
                (w_ofds w).
Proof.
  intros Hh Hfd Hrd Hf got.
  unfold healthy in Hh. unfold Sys.fgets, Sys.next_outcome.
  assert (forall v, Sys.fd_lookup (Sys.set_script v w) (Sys.fp_fd fp)
                    = Sys.fd_lookup w (Sys.fp_fd fp)) as Hl by done.
  destruct (w_script w) as [|[|e|n|sf] rest]; try done; simpl;
    rewrite ?Hl, Hfd, Hrd; simpl; rewrite Hf; fold got;
    destruct got; eexists _, _; split_and!; done.
Qed.

(** C9, as the code has it.  On a read the environment lets through,
    [read_timing_record] returns 1 (EOF) exactly when no character is left
    in the timing file.  Whatever is left, with or without a final
    newline, is cut at the first newline and handed to [parse_timing]:
    the result is 0 with the record when it parses and -1 otherwise.  A
    trailing line that lacks its newline is thus read, not skipped. *)
Theorem read_timing_record_eof fp w i d content :
  healthy w ->
  Sys.fd_lookup w (Sys.fp_fd fp) = Some (i, d) -> ofd_rd d = true ->
  w_files w !! ofd_path d = Some content ->
  let rest := drop (Z.to_nat (ofd_off d)) content in
  let got := Sys.line_prefix 2047 rest in
  let line := take (strcspn (c_str got) NL) (c_str got) in
  (rest = [] ->
   fst (fst (fst (read_timing_record fp w))) = 1
   /\ snd (fst (fst (read_timing_record fp w))) = None)
  /\ (rest <> [] ->
      fst (fst (fst (read_timing_record fp w))) =
        (if parse_timing line is Some _ then 0 else -1)
      /\ snd (fst (fst (read_timing_record fp w))) = parse_timing line).
Proof.
  intros Hh Hfd Hrd Hf rest got line.
  destruct (fgets_healthy Sys.LINE_MAX fp w i d content Hh Hfd Hrd Hf)
    as (fp' & w' & Hg & Heof & _).
  change (Z.to_nat (Sys.LINE_MAX - 1)) with 2047%nat in Hg, Heof.
  fold rest in Hg, Heof. fold got in Hg, Heof.
  unfold read_timing_record. rewrite Hg.
  split; intros Hrest.
  - assert (got = []) as Hgot by (subst got; by rewrite Hrest).
    rewrite Hgot in *. rewrite Heof. done.
  - assert (got <> []) as Hgot.
    { subst got. destruct rest as [|c rest']; [done|]. simpl.
      by destruct (Ascii.eqb c NL). }
    destruct got as [|c got'] eqn:Egot; [done|].
    fold line. by destruct (parse_timing line).
Qed.

Lemma read_timing_record_eof_witness :
  fst (fst (fst (read_timing_record Example.timing_stream
                   Example.timing_world))) = 0.
Proof.
  pose proof (read_timing_record_eof Example.timing_stream
                Example.timing_world 0%nat
                (mk_ofd "/log/timing" 0 true false false)
                (chars "1 0.500000000 8")) as H.
  destruct H as [_ H].
  - vm_compute. exact I.
  - vm_compute. reflexivity.
  - reflexivity.
  - vm_compute. reflexivity.
  - destruct H as [H _]; [vm_compute; discriminate|].
    rewrite H. vm_compute. reflexivity.
Defined.

(** C9, as stated, fails on a timing file that ends in [1 0.500000000 8]
    without a newline: the read is not an end of file, it yields the
    record; and a restart to 0.5 s succeeds on that record. *)
Lemma unterminated_line_is_a_record :
  fst (fst (read_timing_record Example.timing_stream Example.timing_world))
  = (0, Some (mk_timing 1 (mk_timespec 0 500000000) (Bytes 8)))
  /\ fst (iolog_restart (mk_RestartMessage "/log" (mk_TimeSpec 0 500000000))
            (mk_state Example.closure0 Example.unterminated)) = true.
Proof. split; vm_compute; reflexivity. Qed.

(** ** System calls, continued *)

Lemma fd_lookup_script v w fd :
  Sys.fd_lookup (Sys.set_script v w) fd = Sys.fd_lookup w fd.
Proof. done. Qed.

(** A lookup depends on the two tables only. *)
Lemma fd_lookup_ext w w' fd :
  w_fds w' = w_fds w -> w_ofds w' = w_ofds w ->
  Sys.fd_lookup w' fd = Sys.fd_lookup w fd.
Proof. unfold Sys.fd_lookup. by intros -> ->. Qed.

Ltac sys_script w :=
  unfold Sys.next_outcome, Sys.failed;
  destruct (w_script w) as [|[|?e|?n|?sf] ?rest]; simpl;
  rewrite ?fd_lookup_script.

Lemma lseek_inv fd off wh w r w' :
  Sys.lseek fd off wh w = (r, w') ->
  w_debug w' = w_debug w /\ w_dirs w' = w_dirs w /\ w_fds w' = w_fds w
  /\ w_files w' = w_files w
  /\ ((r = -1 /\ w_ofds w' = w_ofds w)
      \/ exists i d,
           Sys.fd_lookup w fd = Some (i, d)
           /\ r = match wh with
                  | SEEK_SET => off
                  | SEEK_CUR => ofd_off d + off
                  end
           /\ 0 <= r
           /\ w_ofds w' = <[i := Sys.set_off r d]> (w_ofds w)).
Proof.
  unfold Sys.lseek. sys_script w.
  all: destruct (Sys.fd_lookup w fd) as [[i d]|] eqn:Hfd; simpl;
    try (intros [= <- <-]; simpl; split_and!; try done; by left).
  all: match goal with
       | |- context [if ?b then _ else _] => destruct b eqn:Hpos
       end; intros [= <- <-]; simpl; split_and!; try done;
    try (by left).
  all: apply orb_false_iff in Hpos as [Hpos%Z.ltb_ge _];
    right; exists i, d; split_and!; done.
Qed.

Lemma ftruncate_inv fd len w r w' :
  Sys.ftruncate fd len w = (r, w') ->
  w_debug w' = w_debug w /\ w_dirs w' = w_dirs w /\ w_fds w' = w_fds w
  /\ w_ofds w' = w_ofds w
  /\ ((r = -1 /\ w_files w' = w_files w)
      \/ exists i d content,
           Sys.fd_lookup w fd = Some (i, d) /\ ofd_wr d = true /\ 0 <= len
           /\ w_files w !! ofd_path d = Some content /\ r = 0
           /\ w_files w' =
                <[ofd_path d := resize (Z.to_nat len) NUL content]> (w_files w)).
Proof.
  unfold Sys.ftruncate. sys_script w.
  all: destruct (Sys.fd_lookup w fd) as [[i d]|] eqn:Hfd; simpl;
    try (intros [= <- <-]; simpl; split_and!; try done; by left).
  all: destruct (negb (ofd_wr d) || (len <? 0)) eqn:Hg; simpl;
    try (intros [= <- <-]; simpl; split_and!; try done; by left).
  all: destruct (w_files w !! ofd_path d) as [content|] eqn:Hf; simpl;
    intros [= <- <-]; simpl; split_and!; try done; try (by left).
  all: apply orb_false_iff in Hg as [Hwr%negb_false_iff Hlen%Z.ltb_ge];
    right; exists i, d, content; split_and!; done.
Qed.

Lemma line_prefix_nonempty n c l :
  Sys.line_prefix (S n) (c :: l) <> [].
Proof. simpl. by destruct (Ascii.eqb c NL). Qed.

Lemma fgets_inv size fp w got fp' w' :
  Sys.fgets size fp w = (got, fp', w') ->
  w_debug w' = w_debug w /\ w_dirs w' = w_dirs w /\ w_fds w' = w_fds w
  /\ w_files w' = w_files w
  /\ Sys.fp_fd fp' = Sys.fp_fd fp /\ Sys.fp_buf fp' = Sys.fp_buf fp
  /\ match got with
     | None => w_ofds w' = w_ofds w
     | Some g =>
         fp' = fp
         /\ exists i d content,
              Sys.fd_lookup w (Sys.fp_fd fp) = Some (i, d)
              /\ w_files w !! ofd_path d = Some content
              /\ g = Sys.line_prefix (Z.to_nat (size - 1))
                       (drop (Z.to_nat (ofd_off d)) content)
              /\ g <> []
              /\ w_ofds w' =
                   <[i := Sys.set_off (ofd_off d + Z.of_nat (length g)) d]>
                     (w_ofds w)
     end.
Proof.
  unfold Sys.fgets. sys_script w.
  all: try (intros [= <- <- <-]; simpl; split_and!; done).
  all: destruct (Sys.fd_lookup w (Sys.fp_fd fp)) as [[i d]|] eqn:Hfd; simpl;
    try (intros [= <- <- <-]; simpl; split_and!; done).
  all: destruct (ofd_rd d); simpl;
    try (intros [= <- <- <-]; simpl; split_and!; done).
  all: destruct (w_files w !! ofd_path d) as [content|] eqn:Hf; simpl;
    try (intros [= <- <- <-]; simpl; split_and!; done).
  all: destruct (Sys.line_prefix _ _) as [|c g] eqn:Hg;
    intros [= <- <- <-]; simpl; split_and!; try done.
  all: exists i, d, content; split_and!; done.
Qed.

Lemma dup_inv fd w r w' :
  Sys.dup fd w = (r, w') ->
  w_debug w' = w_debug w /\ w_dirs w' = w_dirs w /\ w_files w' = w_files w
  /\ w_ofds w' = w_ofds w
  /\ ((r = -1 /\ w_fds w' = w_fds w)
      \/ exists i d,
           Sys.fd_lookup w fd = Some (i, d)
           /\ r = Z.of_nat (fresh (dom (w_fds w)))
           /\ w_fds w' = <[fresh (dom (w_fds w)) := i]> (w_fds w)).
Proof.
  unfold Sys.dup. sys_script w.
  all: destruct (Sys.fd_lookup w fd) as [[i d]|] eqn:Hfd; simpl;
    intros [= <- <-]; simpl; split_and!; try done; try (by left).
  all: right; exists i, d; split_and!; done.
Qed.

Lemma fdopen_inv fd w fp w' :
  Sys.fdopen fd w = (fp, w') ->
  w_debug w' = w_debug w /\ w_dirs w' = w_dirs w /\ w_files w' = w_files w
  /\ w_ofds w' = w_ofds w /\ w_fds w' = w_fds w
  /\ (fp = None \/ fp = Some (Sys.mk_FILE fd false false [])).
Proof.
  unfold Sys.fdopen. sys_script w.
  all: destruct (Sys.fd_lookup w fd) as [[i d]|] eqn:Hfd; simpl;
    intros [= <- <-]; simpl; split_and!; try done; try (by left); by right.
Qed.

Lemma close_inv fd w r w' :
  Sys.close fd w = (r, w') ->
  w_debug w' = w_debug w /\ w_dirs w' = w_dirs w /\ w_files w' = w_files w
  /\ w_ofds w' = w_ofds w
  /\ forall fd2, fd2 <> fd -> Sys.fd_lookup w' fd2 = Sys.fd_lookup w fd2.
Proof.
  unfold Sys.close, Sys.failed.
  destruct (Sys.fd_lookup w fd) as [[i d]|] eqn:Hfd; simpl;
    intros [= <- <-]; simpl; split_and!; try done.
  intros fd2 Hne. unfold Sys.fd_lookup; simpl.
  destruct (fd2 <? 0) eqn:H2; [done|]. apply Z.ltb_ge in H2.
  apply fd_lookup_Some in Hfd as (H0 & _).
  rewrite lookup_delete_ne by lia. done.
Qed.

Lemma fclose_inv fp w :
  Sys.fp_buf fp = [] ->
  w_debug (Sys.fclose fp w) = w_debug w
  /\ w_dirs (Sys.fclose fp w) = w_dirs w
  /\ w_files (Sys.fclose fp w) = w_files w
  /\ w_ofds (Sys.fclose fp w) = w_ofds w
  /\ forall fd2, fd2 <> Sys.fp_fd fp ->
       Sys.fd_lookup (Sys.fclose fp w) fd2 = Sys.fd_lookup w fd2.
Proof.
  intros Hbuf. unfold Sys.fclose, Sys.fflush. rewrite Hbuf.
  destruct (Sys.close (Sys.fp_fd fp) w) as [r w'] eqn:Hc. simpl.
  by apply close_inv in Hc.
Qed.

Lemma ftello_inv fp w r w' :
  Sys.ftello fp w = (r, w') ->
  w_debug w' = w_debug w /\ w_dirs w' = w_dirs w /\ w_files w' = w_files w
  /\ w_ofds w' = w_ofds w /\ w_fds w' = w_fds w
  /\ (r = -1
      \/ exists i d, Sys.fd_lookup w (Sys.fp_fd fp) = Some (i, d)
                     /\ r = ofd_off d).
Proof.
  unfold Sys.ftello. sys_script w.
  all: destruct (Sys.fd_lookup w (Sys.fp_fd fp)) as [[i d]|] eqn:Hfd; simpl;
    intros [= <- <-]; simpl; split_and!; try done; try (by left).
  all: right; exists i, d; done.
Qed.

Lemma strdup_inv str w r w' :
  Sys.strdup str w = (r, w') ->
  w_debug w' = w_debug w /\ w_dirs w' = w_dirs w /\ w_files w' = w_files w
  /\ w_ofds w' = w_ofds w /\ w_fds w' = w_fds w
  /\ w_trace w' = w_trace w ++ [Strdup str r]
  /\ (r = None \/ r = Some str).
Proof.
  unfold Sys.strdup. sys_script w.
  all: intros [= <- <-]; simpl; split_and!; try done; try (by left); by right.
Qed.

(** Installing a description keeps the descriptors that are open. *)
Lemma fd_lookup_install w w' fd i d k e :
  Sys.fd_lookup w fd = Some (i, d) ->
  w_fds w' = <[fresh (dom (w_fds w)) := k]> (w_fds w) ->
  (w_ofds w' = <[fresh (dom (w_ofds w)) := e]> (w_ofds w)
   \/ w_ofds w' = w_ofds w) ->
  Sys.fd_lookup w' fd = Some (i, d).
Proof.
  intros Hl Hfds Hofds. apply fd_lookup_Some in Hl as (H0 & Hfd & Hd).
  apply fd_lookup_Some. split; [done|]. rewrite Hfds. split.
  - rewrite lookup_insert_ne; [done|]. intros Heq.
    pose proof (is_fresh (dom (w_fds w))) as Hfresh. rewrite Heq in Hfresh.
    apply Hfresh, elem_of_dom. eauto.
  - destruct Hofds as [->| ->]; [|done].
    rewrite lookup_insert_ne; [done|]. intros Heq.
    pose proof (is_fresh (dom (w_ofds w))) as Hfresh. rewrite Heq in Hfresh.
    apply Hfresh, elem_of_dom. eauto.
Qed.

(** The descriptor a successful [open] or [dup] returns. *)
Lemma fd_lookup_fresh w w' i d :
  w_fds w' = <[fresh (dom (w_fds w)) := i]> (w_fds w) ->
  w_ofds w' !! i = Some d ->
  Sys.fd_lookup w' (Z.of_nat (fresh (dom (w_fds w)))) = Some (i, d).
Proof.
  intros Hfds Hd. apply fd_lookup_Some. split; [lia|].
  rewrite Nat2Z.id, Hfds, lookup_insert_eq. done.
Qed.

Lemma next_outcome_frame w o w1 :
  Sys.next_outcome w = (o, w1) ->
  w_debug w1 = w_debug w /\ w_dirs w1 = w_dirs w /\ w_files w1 = w_files w
  /\ w_ofds w1 = w_ofds w /\ w_fds w1 = w_fds w /\ w_trace w1 = w_trace w.
Proof.
  unfold Sys.next_outcome. destruct (w_script w); intros [= <- <-]; done.
Qed.

Lemma ofd_eta d p o r wr dr :
  ofd_path d = p -> ofd_off d = o -> ofd_rd d = r -> ofd_wr d = wr ->
  ofd_dir d = dr -> d = mk_ofd p o r wr dr.
Proof. destruct d; simpl; by intros -> -> -> -> ->. Qed.

(** Opening an existing file of a directory for reading and writing. *)
Lemma openat_rdwr_inv dirfd name w r w' :
  Sys.openat dirfd name Sys.O_RDWR 384 w = (r, w') ->
  w_debug w' = w_debug w /\ w_dirs w' = w_dirs w /\ w_files w' = w_files w
  /\ ((r = -1 /\ w_fds w' = w_fds w /\ w_ofds w' = w_ofds w)
      \/ exists j dd,
           Sys.fd_lookup w dirfd = Some (j, dd) /\ ofd_dir dd = true
           /\ r = Z.of_nat (fresh (dom (w_fds w)))
           /\ is_Some (w_files w !! (ofd_path dd +:+ "/" +:+ name))
           /\ w_fds w' =
                <[fresh (dom (w_fds w)) := fresh (dom (w_ofds w))]> (w_fds w)
           /\ w_ofds w' =
                <[fresh (dom (w_ofds w)) :=
                    mk_ofd (ofd_path dd +:+ "/" +:+ name) 0 true true false]>
                  (w_ofds w)).
Proof.
  unfold Sys.openat.
  destruct (Sys.next_outcome w) as [o w1] eqn:Hn.
  apply next_outcome_frame in Hn as (Hd1 & Hdir1 & Hf1 & Hofds1 & Hfds1 & _).
  assert (Sys.fd_lookup w1 dirfd = Sys.fd_lookup w dirfd) as Hl
    by by apply fd_lookup_ext.
  match goal with
  | |- (let '(_, _) := ?c in _) = _ -> _ => destruct c as [r0 w0] eqn:Hcore
  end.
  intros [= <- <-]; simpl.
  assert (r0 = -1 /\ w_debug w0 = w_debug w1 /\ w_dirs w0 = w_dirs w1
          /\ w_files w0 = w_files w1 /\ w_fds w0 = w_fds w1
          /\ w_ofds w0 = w_ofds w1
          \/ exists j dd, Sys.fd_lookup w1 dirfd = Some (j, dd)
                /\ ofd_dir dd = true
                /\ Sys.open_path (ofd_path dd +:+ "/" +:+ name) Sys.O_RDWR w1
                   = (r0, w0)) as [Hfail|(j & dd & Hdl & Hdd & Hop)].
  { unfold Sys.failed in Hcore.
    destruct o; try (left; by injection Hcore as <- <-);
      (destruct (Sys.fd_lookup w1 dirfd) as [[j dd]|];
       [destruct (ofd_dir dd) eqn:Hdd;
        [right; by exists j, dd|]|];
       left; by injection Hcore as <- <-). }
  { destruct Hfail as (-> & -> & -> & -> & -> & ->).
    split_and!; try done. by left. }
  apply open_path_inv in Hop
    as (_ & -> & -> & _ & [(-> & -> & -> & ->)|(d & -> & Hp & Ho & -> & -> & Hk)]).
  { split_and!; try done. by left. }
  destruct Hk as [(_ & _ & _ & Hw & _)|(_ & Hdir & Hrd & Hwr & Hk)]; [done|].
  destruct Hk as [(Hsome & _ & ->)|(_ & Hc & _)]; [|done].
  split_and!; try done. right. exists j, dd.
  rewrite <- Hl, Hfds1, Hofds1, <- Hf1.
  rewrite (ofd_eta d _ _ _ _ _ Hp Ho Hrd Hwr Hdir).
  split_and!; done.
Qed.

(** Creating a file of a directory with [O_CREAT|O_EXCL|O_WRONLY]. *)
Lemma openat_creat_inv dirfd name w r w' :
  Sys.openat dirfd name O_CREAT_EXCL_WRONLY 384 w = (r, w') ->
  w_debug w' = w_debug w /\ w_dirs w' = w_dirs w
  /\ ((r = -1 /\ w_files w' = w_files w /\ w_fds w' = w_fds w
       /\ w_ofds w' = w_ofds w)
      \/ exists j dd,
           Sys.fd_lookup w dirfd = Some (j, dd) /\ ofd_dir dd = true
           /\ r = Z.of_nat (fresh (dom (w_fds w)))
           /\ w_files w !! (ofd_path dd +:+ "/" +:+ name) = None
           /\ w_files w' =
                <[ofd_path dd +:+ "/" +:+ name := []]> (w_files w)
           /\ w_fds w' =
                <[fresh (dom (w_fds w)) := fresh (dom (w_ofds w))]> (w_fds w)
           /\ w_ofds w' =
                <[fresh (dom (w_ofds w)) :=
                    mk_ofd (ofd_path dd +:+ "/" +:+ name) 0 false true false]>
                  (w_ofds w)).
Proof.
  unfold Sys.openat.
  destruct (Sys.next_outcome w) as [o w1] eqn:Hn.
  apply next_outcome_frame in Hn as (Hd1 & Hdir1 & Hf1 & Hofds1 & Hfds1 & _).
  assert (Sys.fd_lookup w1 dirfd = Sys.fd_lookup w dirfd) as Hl
    by by apply fd_lookup_ext.
  match goal with
  | |- (let '(_, _) := ?c in _) = _ -> _ => destruct c as [r0 w0] eqn:Hcore
  end.
  intros [= <- <-]; simpl.
  assert (r0 = -1 /\ w_debug w0 = w_debug w1 /\ w_dirs w0 = w_dirs w1
          /\ w_files w0 = w_files w1 /\ w_fds w0 = w_fds w1
          /\ w_ofds w0 = w_ofds w1
          \/ exists j dd, Sys.fd_lookup w1 dirfd = Some (j, dd)
                /\ ofd_dir dd = true
                /\ Sys.open_path (ofd_path dd +:+ "/" +:+ name)
                     O_CREAT_EXCL_WRONLY w1
                   = (r0, w0)) as [Hfail|(j & dd & Hdl & Hdd & Hop)].
  { unfold Sys.failed in Hcore.
    destruct o; try (left; by injection Hcore as <- <-);
      (destruct (Sys.fd_lookup w1 dirfd) as [[j dd]|];
       [destruct (ofd_dir dd) eqn:Hdd;
        [right; by exists j, dd|]|];
       left; by injection Hcore as <- <-). }
  { destruct Hfail as (-> & -> & -> & -> & -> & ->).
    split_and!; try done. by left. }
  apply open_path_inv in Hop
    as (_ & -> & -> & _ & [(-> & -> & -> & ->)|(d & -> & Hp & Ho & -> & -> & Hk)]).
  { split_and!; try done. by left. }
  destruct Hk as [(_ & _ & _ & Hw & _)|(_ & Hdir & Hrd & Hwr & Hk)]; [done|].
  destruct Hk as [(_ & Hx & _)|(Hnone & _ & _ & ->)]; [done|].
  split_and!; try done. right. exists j, dd.
  rewrite <- Hl, Hfds1, Hofds1, <- Hf1.
  rewrite (ofd_eta d _ _ _ _ _ Hp Ho Hrd Hwr Hdir).
  split_and!; done.
Qed.

(** Opening a path read-only. *)
Lemma open_rdonly_inv path w r w' :
  Sys.open path Sys.O_RDONLY w = (r, w') ->
  w_debug w' = w_debug w /\ w_dirs w' = w_dirs w /\ w_files w' = w_files w
  /\ w_trace w' = w_trace w ++ [Open path Sys.O_RDONLY r]
  /\ ((r = -1 /\ w_fds w' = w_fds w /\ w_ofds w' = w_ofds w)
      \/ exists d,
           r = Z.of_nat (fresh (dom (w_fds w)))
           /\ ofd_path d = path /\ ofd_off d = 0
           /\ (path ∈ w_dirs w -> ofd_dir d = true)
           /\ w_fds w' =
                <[fresh (dom (w_fds w)) := fresh (dom (w_ofds w))]> (w_fds w)
           /\ w_ofds w' = <[fresh (dom (w_ofds w)) := d]> (w_ofds w)).
Proof.
  unfold Sys.open.
  destruct (Sys.next_outcome w) as [o w1] eqn:Hn.
  apply next_outcome_frame in Hn as (Hd1 & Hdir1 & Hf1 & Hofds1 & Hfds1 & Ht1).
  match goal with
  | |- (let '(_, _) := ?c in _) = _ -> _ => destruct c as [r0 w0] eqn:Hcore
  end.
  intros [= <- <-]; simpl.
  assert (r0 = -1 /\ w_debug w0 = w_debug w1 /\ w_dirs w0 = w_dirs w1
          /\ w_files w0 = w_files w1 /\ w_fds w0 = w_fds w1
          /\ w_ofds w0 = w_ofds w1 /\ w_trace w0 = w_trace w1
          \/ Sys.open_path path Sys.O_RDONLY w1 = (r0, w0)) as [Hfail|Hop].
  { unfold Sys.failed in Hcore.
    destruct o; try (by right); left; by injection Hcore as <- <-. }
  { destruct Hfail as (-> & -> & -> & -> & -> & -> & ->).
    rewrite Ht1. split_and!; try done. by left. }
  apply open_path_inv in Hop
    as (-> & -> & -> & _ & [(-> & -> & -> & ->)|(d & -> & Hp & Ho & -> & -> & Hk)]).
  { rewrite Ht1. split_and!; try done. by left. }
  rewrite Ht1, Hfds1, Hofds1.
  destruct Hk as [(Hin & Hdir & Hwr & _ & ->)|(Hnin & _ & _ & _ & Hk)].
  - split_and!; try done. right. exists d. split_and!; done.
  - destruct Hk as [(_ & _ & ->)|(_ & Hc & _)]; [|done].
    split_and!; try done. right. exists d. split_and!; try done.
    intros Hin. by rewrite <- Hdir1 in Hin.
Qed.

(** ** Paths and names *)

Lemma append_inj_l (p a b : string) : p +:+ a = p +:+ b -> a = b.
Proof. induction p as [|c p IH]; simpl; [done|]. intros [= H]. auto. Qed.

Lemma path_inj dir a b : dir +:+ "/" +:+ a = dir +:+ "/" +:+ b -> a = b.
Proof. intros H. apply append_inj_l in H. by injection H. Qed.

Lemma iolog_names_inj n m a :
  iolog_names !! n = Some a -> iolog_names !! m = Some a -> n = m.
Proof.
  assert (NoDup iolog_names) as Hnd.
  { unfold iolog_names. compute_done. }
  intros Hn Hm. eapply NoDup_lookup; eauto.
Qed.

Lemma iolog_names_timing n name :
  (n < 5)%nat -> iolog_names !! n = Some name -> name <> "timing"%string.
Proof.
  intros Hn Hname ->.
  assert (n = 5%nat); [|lia].
  eapply iolog_names_inj; [exact Hname|done].
Qed.

(** ** Descriptors and descriptions *)

Lemma lookup_path_ne w fd1 fd2 i1 i2 d1 d2 :
  Sys.fd_lookup w fd1 = Some (i1, d1) ->
  Sys.fd_lookup w fd2 = Some (i2, d2) ->
  ofd_path d1 <> ofd_path d2 -> i1 <> i2.
Proof.
  intros (_ & _ & H1)%fd_lookup_Some (_ & _ & H2)%fd_lookup_Some Hne ->.
  congruence.
Qed.

Lemma fd_lookup_insert_ne w w' fd i d j e :
  Sys.fd_lookup w fd = Some (i, d) ->
  w_fds w' = w_fds w -> w_ofds w' = <[j := e]> (w_ofds w) -> i <> j ->
  Sys.fd_lookup w' fd = Some (i, d).
Proof.
  intros (H0 & Hfd & Hd)%fd_lookup_Some Hfds Hofds Hne.
  apply fd_lookup_Some. rewrite Hfds, Hofds, lookup_insert_ne; done.
Qed.

Lemma fd_lookup_insert_eq w w' fd i d e :
  Sys.fd_lookup w fd = Some (i, d) ->
  w_fds w' = w_fds w -> w_ofds w' = <[i := e]> (w_ofds w) ->
  Sys.fd_lookup w' fd = Some (i, e).
Proof.
  intros (H0 & Hfd & Hd)%fd_lookup_Some Hfds Hofds.
  apply fd_lookup_Some. rewrite Hfds, Hofds, lookup_insert_eq; done.
Qed.

(** ** The timing codec *)

Lemma span_digits_digits l :
  Forall (fun c => is_digit c = true) (fst (Codec.span_digits l)).
Proof.
  induction l as [|c l IH]; simpl; [constructor|].
  destruct (is_digit c) eqn:Hc; [|constructor].
  destruct (Codec.span_digits l) as [ds r]. simpl in *. by constructor.
Qed.

Lemma dec_value_nonneg ds :
  Forall (fun c => is_digit c = true) ds -> 0 <= dec_value ds.
Proof.
  unfold dec_value.
  assert (forall a, 0 <= a ->
            Forall (fun c => is_digit c = true) ds ->
            0 <= fold_left (fun a c => 10 * a + digit_value c) ds a) as Hgen.
  { induction ds as [|c ds IH]; intros a Ha Hds; simpl; [done|].
    inversion Hds as [|? ? Hc Hds']; subst. apply IH; [|done].
    unfold is_digit in Hc. apply andb_true_iff in Hc as [Hc%Z.leb_le _]. lia. }
  intros Hds. by apply Hgen.
Qed.

Lemma scan_number_nonneg l v rest :
  Codec.scan_number l = Some (v, rest) -> 0 <= v.
Proof.
  unfold Codec.scan_number.
  pose proof (span_digits_digits l) as Hd.
  destruct (Codec.span_digits l) as [ds r]. simpl in Hd.
  intros Hs.
  assert (v = dec_value ds) as ->.
  { destruct ds as [|c ds']; [done|].
    destruct c as [[] [] [] [] [] [] [] []]; try (by injection Hs as <- _);
      destruct ds'; try done; by injection Hs as <- _. }
  by apply dec_value_nonneg.
Qed.

(** A decoded record has an event kind from 0 to 5. *)
Lemma parse_timing_event line t :
  parse_timing line = Some t -> 0 <= event t <= IOFD_TIMING.
Proof.
  unfold parse_timing.
  destruct (Codec.scan_number _) as [[ev l]|] eqn:Hev; [|done].
  apply scan_number_nonneg in Hev.
  destruct (IOFD_TIMING <? ev) eqn:Hle; [done|]. apply Z.ltb_ge in Hle.
  repeat (match goal with
          | |- context [match ?x with _ => _ end] => destruct x
          end; try done).
  intros [= <-]. simpl. done.
Qed.

(** ** Records and sums *)

Lemma line_prefix_is_prefix n l :
  exists rest, l = Sys.line_prefix n l ++ rest.
Proof.
  revert l. induction n as [|n IH]; intros [|c l]; simpl; try by eexists.
  destruct (Ascii.eqb c NL); [by exists l|].
  destruct (IH l) as [rest Hrest]. exists rest. simpl. by f_equal.
Qed.

Lemma line_prefix_length n l : (length (Sys.line_prefix n l) <= length l)%nat.
Proof.
  destruct (line_prefix_is_prefix n l) as [rest Hrest].
  rewrite Hrest at 2. rewrite length_app. lia.
Qed.

Lemma read_records_S k content :
  read_records (S k) content =
    match Sys.line_prefix 2047 content with
    | [] => None
    | got =>
        match parse_timing (take (strcspn (c_str got) NL) (c_str got)) with
        | None => None
        | Some r =>
            match read_records k (drop (length got) content) with
            | None => None
            | Some (rs, n) => Some (r :: rs, (length got + n)%nat)
            end
        end
    end.
Proof. reflexivity. Qed.

Lemma read_records_snoc k : forall content recs pos got r,
  read_records k content = Some (recs, pos) ->
  Sys.line_prefix 2047 (drop pos content) = got -> got <> [] ->
  parse_timing (take (strcspn (c_str got) NL) (c_str got)) = Some r ->
  read_records (S k) content = Some (recs ++ [r], (pos + length got)%nat).
Proof.
  induction k as [|k IH]; intros content recs pos got r Hk Hgot Hne Hparse.
  - injection Hk as <- <-. rewrite drop_0 in Hgot.
    rewrite read_records_S, Hgot. destruct got as [|c got']; [done|].
    cbv beta iota zeta. rewrite Hparse. simpl read_records. cbv beta iota zeta.
    by rewrite Nat.add_0_r.
  - rewrite read_records_S in Hk.
    destruct (Sys.line_prefix 2047 content) as [|c0 g0] eqn:Hg0; [done|].
    cbv beta iota zeta in Hk.
    destruct (parse_timing (take (strcspn (c_str (c0 :: g0)) NL)
                              (c_str (c0 :: g0)))) as [r0|] eqn:Hp0; [|done].
    destruct (read_records k (drop (length (c0 :: g0)) content))
      as [[rs n]|] eqn:Hrest; [|done].
    injection Hk as <- <-.
    assert (Sys.line_prefix 2047
              (drop n (drop (length (c0 :: g0)) content)) = got) as Hgot'.
    { rewrite <- Hgot. f_equal. rewrite drop_drop. f_equal. }
    specialize (IH _ _ _ _ _ Hrest Hgot' Hne Hparse).
    rewrite read_records_S, Hg0. cbv beta iota zeta. rewrite Hp0, IH.
    cbv beta iota zeta. simpl. do 2 f_equal. lia.
Qed.

Lemma stream_bytes_snoc iofd recs t :
  stream_bytes iofd (recs ++ [t]) =
    stream_bytes iofd recs + (if event t =? iofd then int64 (u_nbytes t) else 0).
Proof.
  unfold stream_bytes. rewrite filter_app, map_app, foldr_app.
  assert (forall l a, foldr Z.add a l = foldr Z.add 0 l + a) as Hf.
  { induction l as [|x l IH]; intros a; simpl; [lia|]. rewrite IH. lia. }
  rewrite Hf. f_equal.
  rewrite filter_cons, filter_nil.
  destruct (event t =? iofd) eqn:He.
  - apply Z.eqb_eq in He. rewrite decide_True by done. simpl. lia.
  - apply Z.eqb_neq in He. rewrite decide_False by done. done.
Qed.

Lemma referenced_snoc iofd recs t :
  referenced iofd (recs ++ [t]) = referenced iofd recs || (event t =? iofd).
Proof. unfold referenced. rewrite existsb_app. simpl. by rewrite orb_false_r. Qed.

Lemma elapsed_after_snoc e0 recs t :
  elapsed_after e0 (recs ++ [t])
  = sudo_timespecadd (delay t) (elapsed_after e0 recs).
Proof. unfold elapsed_after. by rewrite fold_left_app. Qed.

(** ** The replay loop *)

Arguments Sys.line_prefix : simpl never.

Lemma fclose_debug fp w : w_debug (Sys.fclose fp w) = w_debug w.
Proof.
  unfold Sys.fclose, Sys.fflush.
  destruct (Sys.fp_buf fp) as [|c buf].
  - destruct (Sys.close _ w) as [r w'] eqn:Hc. simpl.
    by apply close_inv in Hc as (? & _).
  - destruct (Sys.write _ _ w) as [n w1] eqn:Hw.
    destruct (Sys.close _ w1) as [r w'] eqn:Hc. simpl.
    apply close_inv in Hc as (-> & _). by apply write_inv in Hw as (_ & ? & _).
Qed.

Lemma read_timing_record_inv fp w rc t fp1 w1 :
  read_timing_record fp w = (rc, t, fp1, w1) ->
  (rc = 0
   /\ exists r got,
        t = Some r
        /\ Sys.fgets Sys.LINE_MAX fp w = (Some got, fp1, w1)
        /\ parse_timing (take (strcspn (c_str got) NL) (c_str got)) = Some r)
  \/ (rc <> 0
      /\ (w_debug w1 = w_debug w
          \/ exists m, w_debug w1 = w_debug w ++ [dbg_text m])).
Proof.
  unfold read_timing_record.
  destruct (Sys.fgets Sys.LINE_MAX fp w) as [[got fp0] w0] eqn:Hg.
  pose proof (fgets_inv _ _ _ _ _ _ Hg) as (Hd & _).
  destruct got as [got|].
  - destruct (parse_timing _) as [r|] eqn:Hp; intros [= <- <- <- <-].
    + left. split; [done|]. by exists r, got.
    + right. split; [done|]. right. eexists. simpl. by rewrite Hd.
  - destruct (Sys.feof fp0); intros [= <- <- <- <-]; right;
      (split; [done|]); [by left|right]. eexists. simpl. by rewrite Hd.
Qed.

Lemma replaying_say dir timing files0 e0 fp s recs pos m :
  replaying dir timing files0 e0 fp s recs pos ->
  replaying dir timing files0 e0 fp (say m s) recs pos.
Proof. intros []. by constructor. Qed.

(** One round of the loop that reads a record and lets it through: the
    record joins the replayed ones. *)
Lemma replay_step dir timing files0 e0 fp s recs pos got t w1 ok s2 :
  replaying dir timing files0 e0 fp s recs pos ->
  Sys.fgets Sys.LINE_MAX fp (sys s) = (Some got, fp, w1) ->
  parse_timing (take (strcspn (c_str got) NL) (c_str got)) = Some t ->
  seek_and_truncate t
    (with_closure
       (fun c => Closure.set_elapsed_time
                   (sudo_timespecadd (delay t) (elapsed_time c)) c)
       (with_sys w1 s)) = (ok, s2) ->
  if ok
  then w_debug (sys s2) = w_debug (sys s)
       /\ elapsed_time (closure s2)
          = sudo_timespecadd (delay t) (elapsed_time (closure s))
       /\ got <> []
       /\ replaying dir timing files0 e0 fp s2 (recs ++ [t])
            (pos + length got)
  else exists m, w_debug (sys s2) = w_debug (sys s) ++ [m]
                 /\ forall a b, m <> dbg_resume_mismatch a b.
Proof.
  intros [Hlen Hbuf Htim (i0 & Htfd & Hfp & Hne) Hpos Hrecs Hel Hstr] Hg Hp.
  apply fgets_inv in Hg
    as (Hd1 & Hdir1 & Hfds1 & Hf1 & _ & _ & _ & i & d & content & Hl & Hc
        & Hgot & Hgne & Hofds1).
  rewrite Hfp in Hl. injection Hl as <- <-. simpl in Hc, Hgot, Hofds1.
  rewrite Htim in Hc. injection Hc as <-.
  rewrite Nat2Z.id in Hgot.
  change (Z.to_nat (Sys.LINE_MAX - 1)) with 2047%nat in Hgot.
  rewrite <- Nat2Z.inj_add in Hofds1.
  set (s1 := with_closure _ _).
  assert (forall x, Closure.io_fd (closure s1) x = Closure.io_fd (closure s) x)
    as Hio by done.
  (* the timing description after the read *)
  set (otim := mk_ofd (dir +:+ "/timing") (Z.of_nat (pos + length got))
                 true true false) in *.
  assert (Sys.fd_lookup w1 (Closure.io_fd (closure s) IOFD_TIMING)
          = Some (i0, otim)) as Htfd1
    by (eapply fd_lookup_insert_eq; eauto).
  assert (Sys.fd_lookup w1 (Sys.fp_fd fp) = Some (i0, otim)) as Hfp1
    by (eapply fd_lookup_insert_eq; eauto).
  (* the streams are not affected by the read *)
  assert (forall n name fd i o,
            (n < 5)%nat -> iolog_names !! n = Some name ->
            Sys.fd_lookup (sys s) fd
            = Some (i, mk_ofd (dir +:+ "/" +:+ name) o true true false) ->
            i <> i0
            /\ Sys.fd_lookup w1 fd
               = Some (i, mk_ofd (dir +:+ "/" +:+ name) o true true false))
    as Hkeep.
  { intros n name fd i o Hn Hname Hfd.
    assert (i <> i0) as Hi.
    { apply (lookup_path_ne _ _ _ _ _ _ _ Hfd Hfp). simpl.
      intros Heq. apply (path_inj dir name "timing") in Heq.
      by eapply iolog_names_timing. }
    split; [done|]. eapply fd_lookup_insert_ne; eauto. }
  assert ((pos + length got <= length timing)%nat) as Hpos'.
  { pose proof (line_prefix_length 2047 (drop pos timing)) as Hle.
    rewrite <- Hgot, length_drop in Hle. lia. }
  assert (read_records (length (recs ++ [t])) timing
          = Some (recs ++ [t], (pos + length got)%nat)) as Hrecs'.
  { rewrite length_app, Nat.add_1_r. eapply read_records_snoc; eauto. }
  pose proof (parse_timing_event _ _ Hp) as Hev.
  unfold seek_and_truncate.
  destruct (event t <? IOFD_TIMING) eqn:Hlt.
  2: { (* a control record *)
    apply Z.ltb_ge in Hlt. intros [= <- <-].
    split_and!; try done.
    constructor.
    - done.
    - done.
    - simpl. by rewrite Hf1.
    - exists i0. done.
    - done.
    - done.
    - simpl. by rewrite elapsed_after_snoc, Hel.
    - intros n name Hn Hname. simpl.
      destruct (Hstr n name Hn Hname) as [Hopen Hfile].
      assert ((event t =? Z.of_nat n) = false) as Hevn
        by (apply Z.eqb_neq; unfold IOFD_TIMING in *; lia).
      rewrite stream_bytes_snoc, referenced_snoc, Hevn, Z.add_0_r, orb_false_r.
      rewrite Hf1. split; [|done].
      destruct Hopen as [Hm1|(i & Hfd)]; [by left|right].
      exists i. by eapply Hkeep. }
  apply Z.ltb_lt in Hlt. unfold IOFD_TIMING in Hlt.
  rewrite Hio.
  set (n0 := Z.to_nat (event t)).
  assert (event t = Z.of_nat n0) as Hn0 by (subst n0; lia).
  assert (n0 < 5)%nat as Hn05 by lia.
  destruct (iolog_names !! n0) as [name0|] eqn:Hname0.
  2: { apply lookup_ge_None in Hname0. simpl in Hname0. lia. }
  destruct (Hstr n0 name0 Hn05 Hname0) as [Hopen0 Hfile0].
  rewrite Hn0.
  destruct (Closure.io_fd (closure s) (Z.of_nat n0) =? -1) eqn:Hfd0.
  { intros [= <- <-]. eexists. simpl. rewrite Hd1. split; [done|]. done. }
  apply Z.eqb_neq in Hfd0.
  destruct Hopen0 as [?|(in0 & Hfdn0)]; [done|].
  destruct (Hkeep _ _ _ _ _ Hn05 Hname0 Hfdn0) as [Hin0 Hfdn1].
  simpl sys.
  destruct (Sys.lseek _ _ SEEK_CUR w1) as [len w2] eqn:Hseek.
  apply lseek_inv in Hseek
    as (Hd2 & Hdir2 & Hfds2 & Hf2 & [(-> & _)|(i & d & Hl & Hlen' & Hlen0 & Hofds2)]).
  { simpl. intros [= <- <-]. eexists. simpl. rewrite Hd2, Hd1. done. }
  rewrite Hfdn1 in Hl. injection Hl as <- <-. simpl in Hlen', Hofds2.
  destruct (len =? -1) eqn:Hlen1; [apply Z.eqb_eq in Hlen1; lia|].
  simpl sys.
  destruct (Sys.ftruncate _ len w2) as [r w3] eqn:Htr.
  apply ftruncate_inv in Htr
    as (Hd3 & Hdir3 & Hfds3 & Hofds3 & [(-> & _)|(i & d & c & Hl & _ & _ & Hc & -> & Hf3)]).
  { simpl. intros [= <- <-]. eexists. simpl. rewrite Hd3, Hd2, Hd1. done. }
  assert (Sys.fd_lookup w2 (Closure.io_fd (closure s) (Z.of_nat n0))
          = Some (in0, mk_ofd (dir +:+ "/" +:+ name0) len true true false))
    as Hfdn2 by (eapply fd_lookup_insert_eq; eauto).
  rewrite Hfdn2 in Hl. injection Hl as <- <-. simpl in Hc, Hf3.
  simpl. intros [= <- <-]. simpl.
  assert (dir +:+ "/" +:+ name0 <> dir +:+ "/timing")%string as Hnt.
  { intros Heq. apply (path_inj dir name0 "timing") in Heq.
    by eapply iolog_names_timing. }
  assert (w_fds w3 = w_fds w1) as Hfds31 by by rewrite Hfds3.
  assert (w_ofds w3
          = <[in0 := mk_ofd (dir +:+ "/" +:+ name0) len true true false]>
              (w_ofds w1)) as Hofds31 by by rewrite Hofds3.
  split_and!; try done.
  { by rewrite Hd3, Hd2, Hd1. }
  constructor.
  - done.
  - done.
  - simpl. rewrite Hf3, lookup_insert_ne, Hf2, Hf1 by done. done.
  - exists i0. simpl. split_and!; try done.
    + apply (fd_lookup_insert_ne w1 _ _ _ _ _ _ Htfd1 Hfds31 Hofds31).
      by apply not_eq_sym.
    + apply (fd_lookup_insert_ne w1 _ _ _ _ _ _ Hfp1 Hfds31 Hofds31).
      by apply not_eq_sym.
  - done.
  - done.
  - simpl. by rewrite elapsed_after_snoc, Hel.
  - intros n name Hn Hname. simpl.
    destruct (Hstr n name Hn Hname) as [Hopen Hfile].
    rewrite stream_bytes_snoc, referenced_snoc, Hn0.
    destruct (decide (n = n0)) as [->|Hnn].
    + rewrite Hname0 in Hname. injection Hname as <-.
      rewrite Z.eqb_refl, orb_true_r, <- Hlen'. split.
      * right. exists in0.
        apply (fd_lookup_insert_eq w1 _ _ _ _ _ Hfdn1 Hfds31 Hofds31).
      * exists (resize (Z.to_nat len) NUL c).
        rewrite Hf3, lookup_insert_eq, length_resize. split; [done|lia].
    + assert ((Z.of_nat n0 =? Z.of_nat n) = false) as ->
        by (apply Z.eqb_neq; lia).
      rewrite Z.add_0_r, orb_false_r.
      assert (dir +:+ "/" +:+ name <> dir +:+ "/" +:+ name0)%string as Hpne.
      { intros Heq%path_inj. subst name0. apply Hnn.
        eapply iolog_names_inj; eauto. }
      split.
      * destruct Hopen as [Hm1|(i & Hfd)]; [by left|right].
        exists i. destruct (Hkeep _ _ _ _ _ Hn Hname Hfd) as [_ Hfd1].
        apply (fd_lookup_insert_ne w1 _ _ _ _ _ _ Hfd1 Hfds31 Hofds31).
        apply (lookup_path_ne _ _ _ _ _ _ _ Hfd Hfdn0). done.
      * rewrite Hf3, lookup_insert_ne, Hf2, Hf1 by done. done.
Qed.

Lemma not_mismatch_text m a b : dbg_text m <> dbg_resume_mismatch a b.
Proof. done. Qed.

(** The loop never runs out of rounds; it leaves through [Reached] with
    the elapsed time on the target and no debug message, through the
    mismatch with its message as the only one, or through another
    failure, whose messages are not the mismatch.  In the first two cases
    the replay invariant holds on exit. *)
Lemma replay_inv fuel :
  forall dir timing files0 e0 target fp s recs pos exit fp' s',
    replaying dir timing files0 e0 fp s recs pos ->
    below_target e0 target recs (S (length recs)) ->
    (length timing - pos < fuel)%nat ->
    replay fuel target fp s = (exit, fp', s') ->
    exists msgs,
      w_debug (sys s') = w_debug (sys s) ++ msgs
      /\ match exit with
         | Reached =>
             msgs = [] /\ elapsed_time (closure s') = target
             /\ exists recs' pos',
                  recs' <> []
                  /\ below_target e0 target recs' (length recs')
                  /\ replaying dir timing files0 e0 fp' s' recs' pos'
         | Bad =>
             (msgs = [dbg_resume_mismatch target (elapsed_time (closure s'))]
              /\ sudo_timespeccmp_ge (elapsed_time (closure s')) target = true
              /\ sudo_timespeccmp_eq (elapsed_time (closure s')) target = false
              /\ exists recs' pos',
                   recs' <> []
                   /\ below_target e0 target recs' (length recs')
                   /\ replaying dir timing files0 e0 fp' s' recs' pos')
             \/ (forall a b, dbg_resume_mismatch a b ∉ msgs)
         | OutOfFuel => False
         end.
Proof.
  induction fuel as [|k IH];
    intros dir timing files0 e0 target fp s recs pos exit fp' s' Hrep Hbelow
      Hfuel; [lia|].
  simpl replay.
  destruct (read_timing_record fp (sys s)) as [[[rc t] fp1] w1] eqn:Hread.
  apply read_timing_record_inv in Hread
    as [(-> & r & got & -> & Hg & Hp)|(Hrc & Hdbg)].
  2: { apply Z.eqb_neq in Hrc. rewrite Hrc. intros [= <- <- <-]. simpl.
       destruct Hdbg as [->|[m ->]].
       - exists []. rewrite app_nil_r. split; [done|]. right.
         intros a b Hin. by apply elem_of_nil in Hin.
       - exists [dbg_text m]. split; [done|]. right.
         intros a b Hin. apply list_elem_of_singleton in Hin. done. }
  pose proof (fgets_inv _ _ _ _ _ _ Hg) as (_ & _ & _ & _ & _ & _ & -> & _).
  simpl (0 =? 0). cbv iota.
  match goal with
  | |- (let '(_, _) := ?c in _) = _ -> _ => destruct c as [ok s2] eqn:Hst
  end.
  pose proof (replay_step _ _ _ _ _ _ _ _ _ _ _ _ _ Hrep Hg Hp Hst) as Hstep.
  destruct ok; simpl.
  2: { destruct Hstep as (m & Hm & Hnm). intros [= <- <- <-].
       exists [m]. split; [done|]. right.
       intros a b Hin. apply list_elem_of_singleton in Hin.
       by eapply Hnm. }
  destruct Hstep as (Hd2 & Hel2 & Hgne & Hrep2).
  assert (below_target e0 target (recs ++ [r]) (length (recs ++ [r])))
    as Hbelow2.
  { intros j Hj. rewrite length_app in Hj. simpl in Hj.
    rewrite take_app_le by lia. apply Hbelow. lia. }
  destruct (sudo_timespeccmp_ge (elapsed_time (closure s2)) target) eqn:Hge.
  - destruct (sudo_timespeccmp_eq (elapsed_time (closure s2)) target) eqn:Heq;
      intros [= <- <- <-].
    + exists []. rewrite app_nil_r. split; [done|].
      split_and!; [done|by apply sudo_timespeccmp_eq_spec|].
      exists (recs ++ [r]), (pos + length got)%nat. split_and!; try done.
      by destruct recs.
    + eexists. simpl. rewrite Hd2. split; [done|]. left.
      split_and!; try done.
      exists (recs ++ [r]), (pos + length got)%nat. split_and!.
      * by destruct recs.
      * done.
      * by apply replaying_say.
  - intros Hrest.
    apply (IH _ _ _ _ _ _ _ _ _ _ _ _ Hrep2) in Hrest.
    + destruct Hrest as (msgs & Hmsgs & Hexit). exists msgs.
      rewrite Hmsgs, Hd2. done.
    + intros j Hj.
      destruct (decide (j = length (recs ++ [r]))) as [->|Hne].
      * rewrite firstn_all.
        by rewrite <- (rp_elapsed _ _ _ _ _ _ _ _ Hrep2).
      * apply Hbelow2. lia.
    + pose proof (rp_pos _ _ _ _ _ _ _ _ Hrep2) as Hpos2.
      destruct got; [done|]. simpl length in *. lia.
Qed.

(** ** The restart engine *)

Lemma io_fd_lookup c n :
  length (io_fds c) = 6%nat -> (n < 6)%nat ->
  exists fd, io_fds c !! n = Some fd /\ Closure.io_fd c (Z.of_nat n) = fd.
Proof.
  intros Hlen Hn. unfold Closure.io_fd, IOFD_MAX.
  destruct (io_fds c !! n) as [fd|] eqn:Hfd.
  - exists fd. split; [done|].
    assert ((0 <=? Z.of_nat n) && (Z.of_nat n <? 6) = true) as ->
      by (apply andb_true_iff; split; [apply Z.leb_le|apply Z.ltb_lt]; lia).
    by rewrite Nat2Z.id, Hfd.
  - apply lookup_ge_None in Hfd. lia.
Qed.

(** The six [openat] of a restart: a file that is missing leaves -1, a
    file that is there is open for reading and writing at offset 0; no
    file changes and the descriptors that were open stay. *)
Lemma open_existing_inv names : forall dirfd w fds w' j dd,
  open_existing names dirfd w = (fds, w') ->
  Sys.fd_lookup w dirfd = Some (j, dd) ->
  length fds = length names
  /\ w_files w' = w_files w /\ w_debug w' = w_debug w
  /\ (forall fd i d, Sys.fd_lookup w fd = Some (i, d) ->
                     Sys.fd_lookup w' fd = Some (i, d))
  /\ (forall n name fd,
        names !! n = Some name -> fds !! n = Some fd ->
        fd = -1
        \/ (is_Some (w_files w !! (ofd_path dd +:+ "/" +:+ name))
            /\ exists i,
                 Sys.fd_lookup w' fd
                 = Some (i, mk_ofd (ofd_path dd +:+ "/" +:+ name) 0
                              true true false))).
Proof.
  induction names as [|name names IH]; intros dirfd w fds w' j dd; simpl.
  { intros [= <- <-] _. split_and!; try done. }
  destruct (Sys.openat dirfd name Sys.O_RDWR 384 w) as [fd w1] eqn:Ho.
  destruct (open_existing names dirfd w1) as [fds1 w2] eqn:Hrest.
  intros [= <- <-] Hdir.
  apply openat_rdwr_inv in Ho as (Hd1 & _ & Hf1 & Ho).
  assert (forall fd i d, Sys.fd_lookup w fd = Some (i, d) ->
                         Sys.fd_lookup w1 fd = Some (i, d)) as Hkeep1.
  { intros fd' i d Hl.
    destruct Ho as [(_ & Hfds & Hofds)|(j' & dd' & _ & _ & _ & _ & Hfds & Hofds)].
    - by rewrite (fd_lookup_ext w w1).
    - eapply fd_lookup_install; eauto. }
  destruct (IH _ _ _ _ _ _ Hrest (Hkeep1 _ _ _ Hdir))
    as (Hlen & Hf2 & Hd2 & Hkeep2 & Hfds2).
  split_and!.
  - simpl. by rewrite Hlen.
  - by rewrite Hf2.
  - by rewrite Hd2.
  - intros fd' i d Hl. by apply Hkeep2, Hkeep1.
  - intros [|n] name' fd' Hname Hfd'; simpl in Hname, Hfd'.
    + injection Hname as <-. injection Hfd' as <-.
      destruct Ho as [(Hm1 & _)|(j' & dd' & Hl & _ & Hr & Hsome & Hfds & Hofds)];
        [by left|right].
      subst fd. rewrite Hdir in Hl. injection Hl as <- <-.
      split; [done|]. eexists. apply Hkeep2.
      eapply fd_lookup_fresh; [done|]. by rewrite Hofds, lookup_insert_eq.
    + destruct (Hfds2 _ _ _ Hname Hfd') as [->|[Hsome Hl]]; [by left|right].
      by rewrite Hf1 in Hsome.
Qed.

Ltac other_failure msgs :=
  exists msgs; split;
  [simpl; rewrite ?fclose_debug; simpl; rewrite ?app_nil_r;
   repeat match goal with H : w_debug _ = _ |- _ => rewrite H end; done
  |right; right; split; [done|];
   let Hin := fresh "Hin" in
   intros ? ? Hin;
   first [by apply elem_of_nil in Hin
         |by apply list_elem_of_singleton in Hin]].

(** What a restart leaves, by the way it returns: success, with no debug
    message, the elapsed time on the target and the files reconciled up
    to the records replayed; the mismatch, with its message as the only
    one, the elapsed time beyond the target and the timing file as it
    was; or another failure, with other messages. *)
Lemma iolog_restart_inv msg s ok s' :
  iolog_restart msg s = (ok, s') ->
  let target := mk_timespec (msg_tv_sec (resume_point msg))
                  (msg_tv_nsec (resume_point msg)) in
  exists msgs,
    w_debug (sys s') = w_debug (sys s) ++ msgs
    /\ ((ok = true /\ msgs = []
         /\ elapsed_time (closure s') = target
         /\ exists timing recs pos,
              recs <> []
              /\ below_target (elapsed_time (closure s)) target recs
                   (length recs)
              /\ reconciled (log_id msg) true s s' timing recs pos)
        \/ (ok = false
            /\ msgs = [dbg_resume_mismatch target (elapsed_time (closure s'))]
            /\ sudo_timespeccmp_ge (elapsed_time (closure s')) target = true
            /\ sudo_timespeccmp_eq (elapsed_time (closure s')) target = false
            /\ exists timing recs pos,
                 recs <> []
                 /\ below_target (elapsed_time (closure s)) target recs
                      (length recs)
                 /\ reconciled (log_id msg) false s s' timing recs pos)
        \/ (ok = false /\ forall a b, dbg_resume_mismatch a b ∉ msgs)).
Proof.
  intros Hrun target. revert Hrun. unfold iolog_restart. fold target.
  destruct (Sys.strdup (log_id msg) (sys s)) as [copy w1] eqn:Hsd.
  apply strdup_inv in Hsd as (Hd1 & _ & Hf1 & Hofds1 & Hfds1 & _ & Hcopy).
  destruct Hcopy as [->| ->].
  { intros [= <- <-]. other_failure [dbg_text "strdup"]. }
  set (dir := log_id msg).
  simpl sys.
  destruct (Sys.open dir Sys.O_RDONLY w1) as [fd0 w2] eqn:Hop.
  apply open_rdonly_inv in Hop as (Hd2 & _ & Hf2 & _ & Hop).
  simpl closure. simpl iolog_dir_fd.
  destruct (fd0 =? -1) eqn:Hfd0.
  { intros [= <- <-]. other_failure [dbg_text "%s"]. }
  apply Z.eqb_neq in Hfd0.
  destruct Hop as [(? & _)|(d0 & Hr0 & Hp0 & _ & _ & Hfds2 & Hofds2)]; [done|].
  assert (Sys.fd_lookup w2 fd0 = Some (fresh (dom (w_ofds w1)), d0)) as Hl0.
  { subst fd0. eapply fd_lookup_fresh; [done|].
    by rewrite Hofds2, lookup_insert_eq. }
  simpl sys.
  destruct (open_existing iolog_names fd0 w2) as [fds w3] eqn:Hoe.
  apply (fun H => open_existing_inv _ _ _ _ _ _ _ H Hl0) in Hoe
    as (Hlen & Hf3 & Hd3 & Hkeep3 & Hfds).
  rewrite Hp0 in Hfds.
  set (c3 := Closure.set_io_fds fds _).
  assert (length (io_fds c3) = 6%nat) as Hlen3 by done.
  assert (elapsed_time c3 = elapsed_time (closure s)) as Hel3 by done.
  simpl closure. simpl sys.
  destruct (io_fd_lookup c3 5 Hlen3 ltac:(lia)) as (tfd & Htfd & Hio5).
  change (Z.of_nat 5) with IOFD_TIMING in Hio5. rewrite Hio5.
  destruct (tfd =? -1) eqn:Htfd1.
  { intros [= <- <-]. other_failure (@nil debug_msg). }
  apply Z.eqb_neq in Htfd1.
  destruct (Hfds 5%nat "timing"%string tfd eq_refl Htfd)
    as [?|([timing Htiming] & it & Hlt)]; [done|].
  assert (w_files (sys s) !! (dir +:+ "/timing") = Some timing) as Htim0.
  { rewrite <- Hf1, <- Hf2. exact Htiming. }
  destruct (Sys.dup tfd w3) as [fd' w4] eqn:Hdup.
  apply dup_inv in Hdup as (Hd4 & _ & Hf4 & Hofds4 & Hdup).
  destruct (fd' =? -1) eqn:Hfd'.
  { intros [= <- <-]. other_failure [dbg_text "dup"]. }
  apply Z.eqb_neq in Hfd'.
  destruct Hdup as [(? & _)|(i & d & Hl & Hr' & Hfds4)]; [done|].
  rewrite Hlt in Hl. injection Hl as <- <-.
  destruct (Sys.fdopen fd' w4) as [fp w5] eqn:Hfo.
  apply fdopen_inv in Hfo as (Hd5 & _ & Hf5 & Hofds5 & Hfds5 & Hfp).
  destruct Hfp as [->| ->].
  { intros [= <- <-]. other_failure [dbg_text "fdopen"]. }
  set (fp := Sys.mk_FILE fd' false false []).
  set (s5 := with_sys w5 _).
  assert (forall fd i d, Sys.fd_lookup w3 fd = Some (i, d) ->
                         Sys.fd_lookup w5 fd = Some (i, d)) as Hkeep5.
  { intros fd i d Hl. rewrite (fd_lookup_ext w4 w5) by done.
    apply (fd_lookup_install w3 w4 fd i d it d Hl Hfds4). by right. }
  assert (w_files w5 = w_files (sys s)) as Hfiles5
    by by rewrite Hf5, Hf4, Hf3, Hf2.
  assert (w_debug w5 = w_debug (sys s)) as Hdebug5
    by by rewrite Hd5, Hd4, Hd3, Hd2.
  assert (replaying dir timing (w_files (sys s)) (elapsed_time (closure s))
            fp s5 [] 0) as Hrep.
  { assert (closure s5 = c3) as Hc5 by done.
    assert (sys s5 = w5) as Hs5 by done.
    constructor; rewrite ?Hc5, ?Hs5.
    - done.
    - done.
    - by rewrite Hfiles5.
    - exists it. rewrite Hio5. split_and!.
      + by apply Hkeep5.
      + rewrite (fd_lookup_ext w4 w5) by done. subst fd'.
        eapply fd_lookup_fresh; [done|]. rewrite Hofds4.
        by apply fd_lookup_Some in Hlt as (_ & _ & ?).
      + simpl. intros Heq. rewrite <- Heq, Hr' in Hlt.
        apply fd_lookup_Some in Hlt as (_ & Hin & _).
        rewrite Nat2Z.id in Hin.
        pose proof (is_fresh (dom (w_fds w3))) as Hfresh.
        apply Hfresh, elem_of_dom. eauto.
    - lia.
    - done.
    - done.
    - intros n name Hn Hname.
      destruct (io_fd_lookup c3 n Hlen3 ltac:(lia)) as (fd & Hfd & Hio).
      rewrite Hio. split.
      + destruct (Hfds n name fd Hname Hfd) as [->|(_ & i & Hl)];
          [by left|right].
        exists i. by apply Hkeep5.
      + by rewrite Hfiles5. }
  assert (replay_fuel fd' w5 = S (length timing)) as ->.
  { unfold replay_fuel.
    destruct Hrep as [_ _ Ht (i & _ & Hl & _) _ _ _ _].
    change (sys s5) with w5 in Hl, Ht. change (Sys.fp_fd fp) with fd' in Hl.
    rewrite Hl. simpl ofd_path. by rewrite Ht. }
  destruct (replay (S (length timing)) target fp s5) as [[exit fp6] s6] eqn:Hloop.
  apply (replay_inv _ _ _ _ _ _ _ _ _ _ _ _ _ Hrep) in Hloop;
    [|intros k Hk; simpl in Hk; lia|lia].
  destruct Hloop as (msgs & Hd6 & Hexit).
  simpl in Hd6. rewrite Hdebug5 in Hd6.
  destruct exit.
  3: done.
  2: { (* the loop failed *)
    intros [= <- <-]. exists msgs. simpl. rewrite fclose_debug.
    split; [done|]. right.
    destruct Hexit as [(-> & Hge & Heq & recs & pos & Hne & Hbel & Hrep6)|Hno];
      [left|by right].
    split_and!; try done. exists timing, recs, pos. split_and!; [done..|].
    destruct Hrep6 as [_ Hbuf Ht _ _ Hrecs Hel Hstr].
    destruct (fclose_inv fp6 (sys s6) Hbuf) as (_ & _ & Hfc & _).
    unfold reconciled. simpl. rewrite Hfc. split_and!; try done.
    intros n name Hn Hname. by destruct (Hstr n name Hn Hname). }
  (* the target is reached *)
  destruct Hexit as (-> & Hel6 & recs & pos & Hrne & Hbel & Hrep6).
  rewrite app_nil_r in Hd6.
  destruct Hrep6 as [_ Hbuf Ht (i6 & Htl & Hfpl & Hne6) Hpos Hrecs Hel Hstr].
  destruct (Sys.ftello fp6 (sys s6)) as [len w7] eqn:Htell.
  apply ftello_inv in Htell as (Hd7 & _ & Hf7 & Hofds7 & Hfds7 & Hlen7).
  destruct (fclose_inv fp6 w7 Hbuf) as (Hd8 & _ & Hf8 & Hofds8 & Hkeep8).
  set (w8 := Sys.fclose fp6 w7) in *.
  destruct (Sys.lseek _ len SEEK_SET w8) as [r w9] eqn:Hseek.
  apply lseek_inv in Hseek as (Hd9 & _ & Hfds9 & Hf9 & Hseek).
  simpl sys.
  destruct (r =? -1) eqn:Hr.
  { intros [= <- <-]. other_failure [dbg_text "lseek(%d, %lld, SEEK_SET"]. }
  apply Z.eqb_neq in Hr.
  destruct Hseek as [(? & _)|(i & d & Hl & -> & Hlen0 & Hofds9)]; [done|].
  assert (Sys.fd_lookup w8 (Closure.io_fd (closure s6) IOFD_TIMING)
          = Some (i6, mk_ofd (dir +:+ "/timing") (Z.of_nat pos)
                        true true false)) as Htl8.
  { rewrite Hkeep8 by by apply not_eq_sym.
    by rewrite (fd_lookup_ext (sys s6) w7). }
  rewrite Htl8 in Hl. injection Hl as <- <-.
  assert (len = Z.of_nat pos) as ->.
  { destruct Hlen7 as [->|(i & d & Hl & ->)]; [lia|].
    rewrite Hfpl in Hl. by injection Hl as <- <-. }
  destruct (Sys.ftruncate _ (Z.of_nat pos) w9) as [r w10] eqn:Htr.
  apply ftruncate_inv in Htr as (Hd10 & _ & _ & _ & Htr).
  simpl sys.
  destruct (r =? -1) eqn:Hr2.
  { intros [= <- <-]. other_failure [dbg_text "ftruncate(%d, %lld)"]. }
  apply Z.eqb_neq in Hr2.
  destruct Htr as [(? & _)|(i & d & c & Hl & _ & _ & Hc & _ & Hf10)]; [done|].
  assert (Sys.fd_lookup w9 (Closure.io_fd (closure s6) IOFD_TIMING)
          = Some (i6, mk_ofd (dir +:+ "/timing") (Z.of_nat pos)
                        true true false)) as Htl9
    by (eapply fd_lookup_insert_eq; eauto).
  rewrite Htl9 in Hl. injection Hl as <- <-. simpl in Hc, Hf10.
  rewrite Hf9, Hf8, Hf7, Ht in Hc. injection Hc as <-.
  rewrite Nat2Z.id, resize_le in Hf10 by done.
  intros [= <- <-]. exists []. simpl. rewrite app_nil_r.
  split; [by rewrite Hd10, Hd9, Hd8, Hd7|]. left.
  split_and!; try done. exists timing, recs, pos.
  split_and!; [done..|].
  unfold reconciled. simpl. rewrite Hf10. split_and!; try done.
  - by rewrite lookup_insert_eq.
  - intros n name Hn Hname.
    assert (dir +:+ "/" +:+ name <> dir +:+ "/timing")%string as Hnt.
    { intros Heq. apply (path_inj dir name "timing") in Heq.
      by eapply iolog_names_timing. }
    rewrite lookup_insert_ne, Hf9, Hf8, Hf7 by done.
    by destruct (Hstr n name Hn Hname).
Qed.

Lemma stream_bytes_payload iofd recs :
  Forall (fun r => in_int64 (u_nbytes r)) recs ->
  stream_bytes iofd recs = payload_sum iofd recs.
Proof.
  unfold stream_bytes, payload_sum.
  induction 1 as [|r recs Hr _ IH]; [done|].
  rewrite filter_cons. destruct (decide (event r = iofd)); [|done].
  simpl. by rewrite IH, int64_id.
Qed.

(** C1, as the code has it.  After a restart to [T] that succeeds, the
    records preserved are the first records [recs] of the timing file,
    the shortest run whose delays bring the elapsed time to [T]; with
    [pos] the offset just past them:
    (i) the file of every byte stream that some preserved record refers
    to has the length those records add up to, whatever it held before,
    excess bytes included, and the file of a stream that no preserved
    record refers to is left as it was;
    (ii) the timing file is cut at [pos];
    (iii) the elapsed time is [T].
    The byte counts add up as [lseek] receives them, which is as written
    when they are below 2^63. *)
Theorem iolog_restart_reconciles msg s s' :
  iolog_restart msg s = (true, s') ->
  let dir := log_id msg in
  let target := mk_timespec (msg_tv_sec (resume_point msg))
                  (msg_tv_nsec (resume_point msg)) in
  exists timing recs pos,
    w_files (sys s) !! (dir +:+ "/timing") = Some timing
    /\ read_records (length recs) timing = Some (recs, pos)
    /\ recs <> []
    /\ below_target (elapsed_time (closure s)) target recs (length recs)
    /\ (forall n name, (n < 5)%nat -> iolog_names !! n = Some name ->
          if referenced (Z.of_nat n) recs
          then exists c,
                 w_files (sys s') !! (dir +:+ "/" +:+ name) = Some c
                 /\ Z.of_nat (length c) = stream_bytes (Z.of_nat n) recs
          else w_files (sys s') !! (dir +:+ "/" +:+ name)
               = w_files (sys s) !! (dir +:+ "/" +:+ name))
    /\ w_files (sys s') !! (dir +:+ "/timing") = Some (take pos timing)
    /\ elapsed_time (closure s') = target
    /\ elapsed_time (closure s') = elapsed_after (elapsed_time (closure s)) recs
    /\ (Forall (fun r => in_int64 (u_nbytes r)) recs ->
        forall iofd, stream_bytes iofd recs = payload_sum iofd recs).
Proof.
  intros Hrun dir target.
  destruct (iolog_restart_inv _ _ _ _ Hrun) as (msgs & _ & Hcase).
  destruct Hcase as [(_ & _ & Hel & timing & recs & pos & Hne & Hbel & Hrec)
                    |[(? & _)|(? & _)]]; [|done..].
  destruct Hrec as (Ht0 & Hrecs & Ht & Hela & Hstr).
  exists timing, recs, pos. split_and!; try done.
  intros Hfit iofd. by apply stream_bytes_payload.
Qed.

(** The sixth scenario of the specification: 100 bytes of excess on
    stdout, restart to 0.6 s. *)
Lemma iolog_restart_reconciles_witness :
  elapsed_time (closure (snd (Example.restart_at Example.logged_excess
                                600000000)))
  = mk_timespec 0 600000000.
Proof.
  destruct (iolog_restart_reconciles
              (mk_RestartMessage Example.session_dir (mk_TimeSpec 0 600000000))
              (mk_state Example.closure0 Example.logged_excess)
              (snd (Example.restart_at Example.logged_excess 600000000)))
    as (timing & recs & pos & _ & _ & _ & _ & _ & _ & Hel & _).
  - vm_compute. reflexivity.
  - exact Hel.
Defined.

(** In that scenario stdout is back to 4 + 8 + 16 = 28 bytes. *)
Example restart_discards_excess :
  fst (Example.restart_at Example.logged_excess 600000000) = true
  /\ option_map length
       (w_files Example.logged_excess !! (Example.session_dir +:+ "/stdout"))
     = Some 128%nat
  /\ option_map length
       (Example.file (snd (Example.restart_at Example.logged_excess 600000000))
          "stdout")
     = Some 28%nat.
Proof. split_and!; vm_compute; reflexivity. Qed.

(** C1, as stated, fails for a stream that no preserved record refers
    to: with 8 bytes logged on stdout and then 3 on stdin, half a second
    each, a restart to 0.5 s succeeds and preserves the first record
    only, yet stdin keeps its 3 bytes, not the 0 its preserved records
    add up to. *)
Lemma iolog_restart_unreferenced_stream :
  fst (Example.restart_at Example.two_streams 500000000) = true
  /\ Example.file (snd (Example.restart_at Example.two_streams 500000000))
       "timing"
     = Some (chars "1 0.500000000 8" ++ [NL])
  /\ Example.file (snd (Example.restart_at Example.two_streams 500000000))
       "stdin"
     = Some (chars "xxx").
Proof. split_and!; vm_compute; reflexivity. Qed.

(** *** The shortest run of records that reaches the target *)

Lemma read_records_length k : forall content recs pos,
  read_records k content = Some (recs, pos) -> length recs = k.
Proof.
  induction k as [|k IH]; intros content recs pos Hk.
  - by injection Hk as <- <-.
  - rewrite read_records_S in Hk.
    destruct (Sys.line_prefix 2047 content) as [|c0 g0]; [done|].
    cbv beta iota zeta in Hk.
    destruct (parse_timing _) as [r0|]; [|done].
    destruct (read_records k _) as [[rs n]|] eqn:Hrest; [|done].
    injection Hk as <- <-. simpl. f_equal. by eapply IH.
Qed.

Lemma read_records_take k : forall n content recs pos,
  read_records n content = Some (recs, pos) -> (k <= n)%nat ->
  exists pos', read_records k content = Some (take k recs, pos').
Proof.
  induction k as [|k IH]; intros n content recs pos Hn Hle.
  - exists 0%nat. by rewrite take_0.
  - destruct n as [|n]; [lia|].
    rewrite read_records_S in Hn. rewrite read_records_S.
    destruct (Sys.line_prefix 2047 content) as [|c0 g0]; [done|].
    cbv beta iota zeta in Hn. cbv beta iota zeta.
    destruct (parse_timing _) as [r0|]; [|done].
    destruct (read_records n _) as [[rs m]|] eqn:Hrest; [|done].
    injection Hn as <- <-.
    destruct (IH _ _ _ _ Hrest ltac:(lia)) as (pos' & ->).
    eexists. reflexivity.
Qed.

Lemma sudo_timespeccmp_ge_refl a : sudo_timespeccmp_ge a a = true.
Proof.
  unfold sudo_timespeccmp_ge. rewrite Z.eqb_refl. apply Z.leb_refl.
Qed.

(** The run of records that first brings the elapsed time to the target
    or beyond is unique. *)
Lemma first_reach_unique e0 target timing r1 p1 r2 p2 :
  read_records (length r1) timing = Some (r1, p1) ->
  read_records (length r2) timing = Some (r2, p2) ->
  r1 <> [] -> r2 <> [] ->
  below_target e0 target r1 (length r1) ->
  below_target e0 target r2 (length r2) ->
  sudo_timespeccmp_ge (elapsed_after e0 r1) target = true ->
  sudo_timespeccmp_ge (elapsed_after e0 r2) target = true ->
  r1 = r2 /\ p1 = p2.
Proof.
  intros H1 H2 Hn1 Hn2 Hb1 Hb2 Hg1 Hg2.
  assert (forall ra pa rb pb,
            read_records (length ra) timing = Some (ra, pa) ->
            read_records (length rb) timing = Some (rb, pb) ->
            ra <> [] ->
            below_target e0 target rb (length rb) ->
            sudo_timespeccmp_ge (elapsed_after e0 ra) target = true ->
            ~ (length ra < length rb)%nat) as Hshort.
  { intros ra pa rb pb Ha Hb Hna Hbb Hga Hlt.
    destruct (read_records_take (length ra) _ _ _ _ Hb ltac:(lia))
      as (pos' & Htake).
    rewrite Ha in Htake. injection Htake as Hra _.
    specialize (Hbb (length ra)). rewrite <- Hra, Hga in Hbb.
    assert (0 < length ra)%nat by (destruct ra; [done|simpl; lia]).
    by discriminate Hbb; lia. }
  assert (length r1 = length r2) as Hlen.
  { pose proof (Hshort _ _ _ _ H1 H2 Hn1 Hb2 Hg1).
    pose proof (Hshort _ _ _ _ H2 H1 Hn2 Hb1 Hg2). lia. }
  rewrite Hlen, H2 in H1. by injection H1 as <- <-.
Qed.

(** ** The log directory builder *)

(** [free] touches nothing but the list of released blocks. *)
Lemma free_files p w : w_files (Sys.free p w) = w_files w.
Proof. by destruct p. Qed.

Lemma free_dirs p w : w_dirs (Sys.free p w) = w_dirs w.
Proof. by destruct p. Qed.

Lemma free_trace p w : w_trace (Sys.free p w) = w_trace w.
Proof. by destruct p. Qed.

Lemma free_debug p w : w_debug (Sys.free p w) = w_debug w.
Proof. by destruct p. Qed.

Lemma free_freed p w : w_freed (Sys.free p w) = w_freed w ++ option_list p.
Proof. destruct p; simpl; [done|by rewrite app_nil_r]. Qed.

Ltac frame_freed :=
  unfold Sys.next_outcome, Sys.failed, Sys.install;
  repeat case_match; simplify_eq; simpl; try done.

Lemma mkdir_freed path mode w : w_freed (snd (Sys.mkdir path mode w)) = w_freed w.
Proof. unfold Sys.mkdir. frame_freed. Qed.

Lemma mkdtemp_freed t w : w_freed (snd (Sys.mkdtemp t w)) = w_freed w.
Proof. unfold Sys.mkdtemp. frame_freed. Qed.

Lemma strdup_freed x w : w_freed (snd (Sys.strdup x w)) = w_freed w.
Proof. unfold Sys.strdup. frame_freed. Qed.

Lemma open_path_freed path flags w :
  w_freed (snd (Sys.open_path path flags w)) = w_freed w.
Proof. unfold Sys.open_path. frame_freed. Qed.

Lemma open_freed path flags w : w_freed (snd (Sys.open path flags w)) = w_freed w.
Proof.
  unfold Sys.open, Sys.next_outcome.
  pose proof (open_path_freed path flags) as Hp.
  destruct (w_script w) as [|[|e|n|sf] rest]; simpl;
    try match goal with
        | |- context [Sys.open_path path flags ?w0] =>
            specialize (Hp w0); destruct (Sys.open_path path flags w0)
        end; simpl in *; done.
Qed.

Lemma mkdir_inv path mode w r w' :
  Sys.mkdir path mode w = (r, w') ->
  w_debug w' = w_debug w /\ w_files w' = w_files w /\ w_fds w' = w_fds w
  /\ w_ofds w' = w_ofds w
  /\ w_trace w' = w_trace w ++ [Mkdir path mode r]
  /\ ((r = -1 /\ w_dirs w' = w_dirs w)
      \/ (r = 0 /\ w_dirs w' = {[path]} ∪ w_dirs w)).
Proof.
  unfold Sys.mkdir. sys_script w.
  all: try (intros [= <- <-]; simpl; split_and!; try done; by left).
  all: unfold Sys.exists_path; simpl;
    destruct (bool_decide (path ∈ w_dirs w) || bool_decide (is_Some (w_files w !! path)));
    simpl; try (intros [= <- <-]; simpl; split_and!; try done; by left).
  all: destruct (bool_decide (Sys.dirname path ∈ w_dirs w)); simpl;
    intros [= <- <-]; simpl; split_and!; try done; try (by left); by right.
Qed.

Lemma mkdtemp_inv template w r w' :
  Sys.mkdtemp template w = (r, w') ->
  w_debug w' = w_debug w /\ w_files w' = w_files w /\ w_fds w' = w_fds w
  /\ w_ofds w' = w_ofds w
  /\ w_trace w' = w_trace w ++ [Mkdtemp template r]
  /\ match r with
     | None => w_dirs w' = w_dirs w
     | Some path =>
         w_dirs w' = {[path]} ∪ w_dirs w /\ (path ∉ w_dirs w)
         /\ exists prefix suffix,
              path = prefix +:+ suffix /\ String.length suffix = 6%nat
              /\ Sys.has_slash suffix = false
     end.
Proof.
  unfold Sys.mkdtemp. sys_script w.
  all: try (intros [= <- <-]; simpl; split_and!; done).
  all: destruct (Sys.template_prefix template) as [prefix|]; simpl;
    try (intros [= <- <-]; simpl; split_and!; done).
  all: try destruct (Sys.valid_suffix sf) eqn:Hv.
  all: match goal with
       | |- context [Sys.exists_path ?w0 ?p] =>
           destruct (Sys.exists_path w0 p) eqn:Hex
       end; try (intros [= <- <-]; simpl; split_and!; done).
  all: match goal with
       | |- context [bool_decide ?P] => destruct (bool_decide P)
       end; simpl; intros [= <- <-]; simpl; split_and!; try done.
  all: try (apply orb_false_iff in Hex as [Hex _];
            apply bool_decide_eq_false in Hex; exact Hex).
  all: eexists _, _; split_and!; try reflexivity.
  all: unfold Sys.valid_suffix in Hv; apply andb_true_iff in Hv as [H6 Hs].
  - by apply Nat.eqb_eq in H6.
  - by apply negb_true_iff in Hs.
Qed.

Lemma nothing_removed_refl w : nothing_removed w w.
Proof.
  split_and!; [done..|]. exists []. rewrite app_nil_r.
  split_and!; [done|..]; intros ? ? Hin; by apply elem_of_nil in Hin.
Qed.

Lemma nothing_removed_trans w1 w2 w3 :
  nothing_removed w1 w2 -> nothing_removed w2 w3 -> nothing_removed w1 w3.
Proof.
  intros (Hd1 & Hf1 & c1 & Ht1 & Hm1 & Hk1) (Hd2 & Hf2 & c2 & Ht2 & Hm2 & Hk2).
  split_and!.
  - set_solver.
  - by rewrite Hf2.
  - exists (c1 ++ c2). rewrite Ht2, Ht1, app_assoc. split_and!; [done|..].
    + intros p m [Hin|Hin]%elem_of_app; [apply Hd2|]; eauto.
    + intros t p [Hin|Hin]%elem_of_app; [apply Hd2|]; eauto.
Qed.

Lemma nothing_removed_debug m w : nothing_removed w (Sys.debug m w).
Proof.
  unfold nothing_removed. simpl. split_and!; [done..|].
  exists []. rewrite app_nil_r.
  split_and!; [done|..]; intros ? ? Hin; by apply elem_of_nil in Hin.
Qed.

Lemma nothing_removed_say w1 w2 c m :
  nothing_removed w1 w2 ->
  nothing_removed w1 (sys (say m (mk_state c w2))).
Proof.
  intros H. eapply nothing_removed_trans; [exact H|].
  apply nothing_removed_debug.
Qed.

Lemma nothing_removed_free p w : nothing_removed w (Sys.free p w).
Proof.
  destruct p as [block|]; [|apply nothing_removed_refl].
  unfold nothing_removed. simpl. split_and!; [done..|].
  exists []. rewrite app_nil_r.
  split_and!; [done|..]; intros ? ? Hin; by apply elem_of_nil in Hin.
Qed.

(** The failure path of [create_iolog_dir]: a debug message and the
    [free]. *)
Lemma nothing_removed_bad w1 s m :
  nothing_removed w1 (sys s) ->
  nothing_removed w1
    (sys (with_sys (Sys.free (iolog_dir (closure (say m s))) (sys (say m s)))
            (say m s))).
Proof.
  intros H. simpl sys.
  eapply nothing_removed_trans; [|apply nothing_removed_free].
  eapply nothing_removed_trans; [exact H|apply nothing_removed_debug].
Qed.

Lemma nothing_removed_mkdir path mode w r w' :
  Sys.mkdir path mode w = (r, w') -> nothing_removed w w'.
Proof.
  intros (_ & Hf & _ & _ & Ht & Hd)%mkdir_inv. split_and!.
  - destruct Hd as [(_ & ->)|(_ & ->)]; set_solver.
  - done.
  - eexists. split; [exact Ht|]. split.
    + intros p m Hin%list_elem_of_singleton. injection Hin as -> -> <-.
      destruct Hd as [(? & _)|(_ & ->)]; [done|set_solver].
    + intros t p Hin%list_elem_of_singleton. done.
Qed.

Lemma nothing_removed_mkdtemp template w r w' :
  Sys.mkdtemp template w = (r, w') -> nothing_removed w w'.
Proof.
  intros (_ & Hf & _ & _ & Ht & Hd)%mkdtemp_inv. split_and!.
  - destruct r as [path|]; [destruct Hd as (-> & _)|rewrite Hd]; set_solver.
  - done.
  - eexists. split; [exact Ht|]. split.
    + intros p m Hin%list_elem_of_singleton. done.
    + intros t p Hin%list_elem_of_singleton. injection Hin as -> <-.
      destruct Hd as (-> & _). set_solver.
Qed.

Lemma nothing_removed_strdup str w r w' :
  Sys.strdup str w = (r, w') -> nothing_removed w w'.
Proof.
  intros (_ & Hd & Hf & _ & _ & Ht & _)%strdup_inv. split_and!.
  - by rewrite Hd.
  - done.
  - eexists. split; [exact Ht|].
    split; intros ? ? Hin%list_elem_of_singleton; done.
Qed.

Lemma nothing_removed_open path w r w' :
  Sys.open path Sys.O_RDONLY w = (r, w') -> nothing_removed w w'.
Proof.
  intros (_ & Hd & Hf & Ht & _)%open_rdonly_inv. split_and!.
  - by rewrite Hd.
  - done.
  - eexists. split; [exact Ht|].
    split; intros ? ? Hin%list_elem_of_singleton; done.
Qed.

(** [create_iolog_dir] removes nothing, whether it succeeds or fails. *)
Lemma create_iolog_dir_keeps root details s ok s' :
  create_iolog_dir root details s = (ok, s') ->
  nothing_removed (sys s) (sys s').
Proof.
  unfold create_iolog_dir.
  destruct (Sys.mkdir root 493 (sys s)) as [r1 w1] eqn:H1.
  apply nothing_removed_mkdir in H1.
  destruct ((r1 =? -1) && negb (w_errno w1 =? Sys.EEXIST));
    [intros [= <- <-]; by apply nothing_removed_bad|].
  destruct (Sys.PATH_MAX <=? _); [intros [= <- <-]; by apply nothing_removed_bad|].
  simpl sys.
  destruct (Sys.mkdir _ 493 w1) as [r2 w2] eqn:H2.
  apply nothing_removed_mkdir in H2.
  pose proof (nothing_removed_trans _ _ _ H1 H2) as H12.
  destruct ((r2 =? -1) && negb (w_errno w2 =? Sys.EEXIST));
    [intros [= <- <-]; by apply nothing_removed_bad|].
  destruct (Sys.PATH_MAX <=? _); [intros [= <- <-]; by apply nothing_removed_bad|].
  simpl sys.
  destruct (Sys.mkdir _ 493 w2) as [r3 w3] eqn:H3.
  apply nothing_removed_mkdir in H3.
  pose proof (nothing_removed_trans _ _ _ H12 H3) as H13.
  destruct ((r3 =? -1) && negb (w_errno w3 =? Sys.EEXIST));
    [intros [= <- <-]; by apply nothing_removed_bad|].
  destruct (Sys.PATH_MAX <=? _); [intros [= <- <-]; by apply nothing_removed_bad|].
  simpl sys.
  destruct (Sys.mkdtemp _ w3) as [made w4] eqn:H4.
  apply nothing_removed_mkdtemp in H4.
  pose proof (nothing_removed_trans _ _ _ H13 H4) as H14.
  destruct made as [path|]; [|intros [= <- <-]; by apply nothing_removed_bad].
  simpl sys.
  destruct (Sys.strdup path w4) as [copy w5] eqn:H5.
  apply nothing_removed_strdup in H5.
  pose proof (nothing_removed_trans _ _ _ H14 H5) as H15.
  destruct copy as [dir|]; [|intros [= <- <-]; by apply nothing_removed_bad].
  simpl sys.
  destruct (Sys.open dir Sys.O_RDONLY w5) as [fd w6] eqn:H6.
  apply nothing_removed_open in H6.
  pose proof (nothing_removed_trans _ _ _ H15 H6) as H16.
  destruct (fd =? -1); intros [= <- <-];
    [by apply nothing_removed_bad|exact H16].
Qed.

Ltac no_leaf Hin :=
  repeat (apply elem_of_cons in Hin as [Hin|Hin]; [discriminate Hin|]);
  by apply elem_of_nil in Hin.

(** On its failure path [create_iolog_dir] releases what
    [closure->iolog_dir] points to and nothing else; once the leaf is
    made, that is the result of the [strdup] of its path. *)
Lemma create_iolog_dir_released root details s s' :
  create_iolog_dir root details s = (false, s') ->
  w_freed (sys s') = w_freed (sys s) ++ option_list (iolog_dir (closure s'))
  /\ forall calls t p,
       w_trace (sys s') = w_trace (sys s) ++ calls ->
       Mkdtemp t (Some p) ∈ calls ->
       Strdup p (iolog_dir (closure s')) ∈ calls.
Proof.
  unfold create_iolog_dir.
  pose proof (mkdir_freed root 493 (sys s)) as F1.
  destruct (Sys.mkdir root 493 (sys s)) as [r1 w1] eqn:H1.
  apply mkdir_inv in H1 as (_ & _ & _ & _ & T1 & _). simpl in F1.
  destruct ((r1 =? -1) && negb (w_errno w1 =? Sys.EEXIST)).
  { intros [= <-]. simpl. rewrite free_freed, free_trace. simpl.
    rewrite F1. split; [done|]. intros calls t p Hc Hin.
    rewrite T1 in Hc. apply app_inv_head in Hc. subst calls. no_leaf Hin. }
  destruct (Sys.PATH_MAX <=? _).
  { intros [= <-]. simpl. rewrite free_freed, free_trace. simpl.
    rewrite F1. split; [done|]. intros calls t p Hc Hin.
    rewrite T1 in Hc. apply app_inv_head in Hc. subst calls. no_leaf Hin. }
  simpl sys.
  match goal with
  | |- context [Sys.mkdir ?p 493 w1] =>
      pose proof (mkdir_freed p 493 w1) as F2;
      destruct (Sys.mkdir p 493 w1) as [r2 w2] eqn:H2
  end.
  apply mkdir_inv in H2 as (_ & _ & _ & _ & T2 & _). simpl in F2.
  rewrite T1, <- app_assoc in T2. rewrite F1 in F2. simpl in T2.
  destruct ((r2 =? -1) && negb (w_errno w2 =? Sys.EEXIST)).
  { intros [= <-]. simpl. rewrite free_freed, free_trace. simpl.
    rewrite F2. split; [done|]. intros calls t p Hc Hin.
    rewrite T2 in Hc. apply app_inv_head in Hc. subst calls. no_leaf Hin. }
  destruct (Sys.PATH_MAX <=? _).
  { intros [= <-]. simpl. rewrite free_freed, free_trace. simpl.
    rewrite F2. split; [done|]. intros calls t p Hc Hin.
    rewrite T2 in Hc. apply app_inv_head in Hc. subst calls. no_leaf Hin. }
  simpl sys.
  match goal with
  | |- context [Sys.mkdir ?p 493 w2] =>
      pose proof (mkdir_freed p 493 w2) as F3;
      destruct (Sys.mkdir p 493 w2) as [r3 w3] eqn:H3
  end.
  apply mkdir_inv in H3 as (_ & _ & _ & _ & T3 & _). simpl in F3.
  rewrite T2, <- app_assoc in T3. rewrite F2 in F3. simpl in T3.
  destruct ((r3 =? -1) && negb (w_errno w3 =? Sys.EEXIST)).
  { intros [= <-]. simpl. rewrite free_freed, free_trace. simpl.
    rewrite F3. split; [done|]. intros calls t p Hc Hin.
    rewrite T3 in Hc. apply app_inv_head in Hc. subst calls. no_leaf Hin. }
  destruct (Sys.PATH_MAX <=? _).
  { intros [= <-]. simpl. rewrite free_freed, free_trace. simpl.
    rewrite F3. split; [done|]. intros calls t p Hc Hin.
    rewrite T3 in Hc. apply app_inv_head in Hc. subst calls. no_leaf Hin. }
  simpl sys.
  match goal with
  | |- context [Sys.mkdtemp ?p w3] =>
      pose proof (mkdtemp_freed p w3) as F4;
      destruct (Sys.mkdtemp p w3) as [made w4] eqn:H4
  end.
  apply mkdtemp_inv in H4 as (_ & _ & _ & _ & T4 & _). simpl in F4.
  rewrite T3, <- app_assoc in T4. rewrite F3 in F4. simpl in T4.
  destruct made as [path|].
  2: { intros [= <-]. simpl. rewrite free_freed, free_trace. simpl.
    rewrite F4. split; [done|]. intros calls t p Hc Hin.
    rewrite T4 in Hc. apply app_inv_head in Hc. subst calls. no_leaf Hin. }
  simpl sys.
  pose proof (strdup_freed path w4) as F5.
  destruct (Sys.strdup path w4) as [copy w5] eqn:H5.
  apply strdup_inv in H5 as (_ & _ & _ & _ & _ & T5 & _). simpl in F5.
  rewrite T4, <- app_assoc in T5. rewrite F4 in F5. simpl in T5.
  destruct copy as [dir|].
  2: { intros [= <-]. simpl. rewrite app_nil_r.
    split; [done|]. intros calls t p Hc Hin.
    rewrite T5 in Hc. apply app_inv_head in Hc. subst calls.
    do 3 (apply elem_of_cons in Hin as [Hin|Hin]; [discriminate Hin|]).
    apply elem_of_cons in Hin as [Hin|Hin]; [|no_leaf Hin].
    injection Hin as _ <-. do 4 right. left. }
  simpl sys.
  pose proof (open_freed dir Sys.O_RDONLY w5) as F6.
  destruct (Sys.open dir Sys.O_RDONLY w5) as [fd w6] eqn:H6.
  apply open_rdonly_inv in H6 as (_ & _ & _ & T6 & _). simpl in F6.
  rewrite T5, <- app_assoc in T6. rewrite F5 in F6. simpl in T6.
  destruct (fd =? -1); [|done].
  intros [= <-]. simpl. rewrite F6.
  split; [done|]. intros calls t p Hc Hin.
  rewrite T6 in Hc. apply app_inv_head in Hc. subst calls.
  do 3 (apply elem_of_cons in Hin as [Hin|Hin]; [discriminate Hin|]).
  apply elem_of_cons in Hin as [Hin|Hin]; [|no_leaf Hin].
  injection Hin as _ <-. do 4 right. left.
Qed.

(** C4, as the code has it.  When [create_iolog_dir] fails, also after
    the unique leaf was made and the open of its descriptor failed, it
    has torn nothing down: every directory that was there is still
    there, no file has changed, and every directory its [mkdir] and
    [mkdtemp] calls made, the leaf included, is left on disk.  The only
    thing released on the failure path is the block [closure->iolog_dir]
    points to, by the [free] at [bad]; once the leaf is made that block is
    the result of the [strdup] of the leaf's path, the copy of the path. *)
Theorem create_iolog_dir_no_teardown root details s s' :
  create_iolog_dir root details s = (false, s') ->
  w_dirs (sys s) ⊆ w_dirs (sys s')
  /\ w_files (sys s') = w_files (sys s)
  /\ (exists calls,
        w_trace (sys s') = w_trace (sys s) ++ calls
        /\ (forall p m, Mkdir p m 0 ∈ calls -> p ∈ w_dirs (sys s'))
        /\ (forall t p, Mkdtemp t (Some p) ∈ calls -> p ∈ w_dirs (sys s')))
  /\ w_freed (sys s') = w_freed (sys s) ++ option_list (iolog_dir (closure s'))
  /\ (forall calls t p,
        w_trace (sys s') = w_trace (sys s) ++ calls ->
        Mkdtemp t (Some p) ∈ calls ->
        Strdup p (iolog_dir (closure s')) ∈ calls).
Proof.
  intros Hrun.
  destruct (create_iolog_dir_keeps _ _ _ _ _ Hrun) as (Hd & Hf & Hcalls).
  destruct (create_iolog_dir_released _ _ _ _ Hrun) as (Hfreed & Hcopy).
  split_and!; done.
Qed.

(** With the leaf made and its open refused, the leaf is still there and
    the block released is the copy of its path. *)
Lemma create_iolog_dir_no_teardown_witness :
  Example.session_dir
    ∈ w_dirs (sys (snd Example.leaf_unopened))
  /\ w_freed (sys (snd Example.leaf_unopened))
     = w_freed (sys (Example.state0 [Proceed; Proceed; Proceed; Proceed;
                                     Proceed; Fault Sys.EMFILE]))
         ++ option_list (iolog_dir (closure (snd Example.leaf_unopened))).
Proof.
  destruct (create_iolog_dir_no_teardown Example.root
              (fst (iolog_details_fill Example.exec_msg))
              (Example.state0 [Proceed; Proceed; Proceed; Proceed; Proceed;
                               Fault Sys.EMFILE])
              (snd Example.leaf_unopened))
    as (_ & _ & (calls & Ht & _ & Hleaf) & Hfreed & _).
  - vm_compute. reflexivity.
  - split; [|exact Hfreed].
    apply (Hleaf "/var/log/sudo-io/h1/alice/XXXXXX").
    apply (app_inv_head (w_trace (sys (Example.state0
             [Proceed; Proceed; Proceed; Proceed; Proceed;
              Fault Sys.EMFILE])))) in Ht.
    rewrite <- Ht. vm_compute. do 3 right. left.
Defined.

(** C4, as stated, fails: when the three [mkdir] calls, [mkdtemp] and
    [strdup] succeed and the open of the leaf's descriptor fails, the
    builder returns failure after exactly these six calls, none of which
    removes anything, and the leaf it made is left in place.  What it
    releases is the copy of the path, which the closure still points
    to. *)
Lemma create_iolog_dir_leaves_leaf :
  fst Example.leaf_unopened = false
  /\ w_trace (sys (snd Example.leaf_unopened))
     = [Mkdir "/var/log/sudo-io" 493 0;
        Mkdir "/var/log/sudo-io/h1" 493 0;
        Mkdir "/var/log/sudo-io/h1/alice" 493 0;
        Mkdtemp "/var/log/sudo-io/h1/alice/XXXXXX"
          (Some Example.session_dir);
        Strdup Example.session_dir (Some Example.session_dir);
        Open Example.session_dir Sys.O_RDONLY (-1)]
  /\ bool_decide (Example.session_dir
                    ∈ w_dirs (sys (snd Example.leaf_unopened))) = true
  /\ w_freed (sys (snd Example.leaf_unopened)) = [Example.session_dir]
  /\ iolog_dir (closure (snd Example.leaf_unopened))
     = Some Example.session_dir.
Proof. split_and!; vm_compute; reflexivity. Qed.

(** ** Session open *)

Lemma has_slash_app a b : Sys.has_slash (a +:+ "/" +:+ b) = true.
Proof.
  induction a as [|c a IH]; simpl; [done|].
  rewrite IH. apply orb_true_r.
Qed.

Lemma before_last_slash_app dir name :
  Sys.has_slash name = false ->
  Sys.before_last_slash (dir +:+ "/" +:+ name) = dir.
Proof.
  intros Hname. induction dir as [|c dir IH]; simpl.
  - change ("" +:+ name) with name. by rewrite Hname.
  - by rewrite has_slash_app, IH.
Qed.

Lemma dirname_app dir name :
  dir <> ""%string -> Sys.has_slash name = false ->
  Sys.dirname (dir +:+ "/" +:+ name) = dir.
Proof.
  intros Hdir Hname. unfold Sys.dirname.
  rewrite before_last_slash_app by done.
  destruct dir; [done|]. reflexivity.
Qed.

(** A directory that is not there holds no file. *)
Lemma no_file_without_dir w dir name :
  fs_wf w -> dir ∉ w_dirs w -> dir <> ""%string ->
  Sys.has_slash name = false ->
  w_files w !! (dir +:+ "/" +:+ name) = None.
Proof.
  intros Hwf Hdir Hne Hname.
  destruct (w_files w !! (dir +:+ "/" +:+ name)) as [c|] eqn:Hf; [|done].
  exfalso. apply Hdir. rewrite <- (dirname_app dir name) by done.
  apply Hwf. by rewrite Hf.
Qed.

Lemma fresh_fd_ne w fd i d :
  Sys.fd_lookup w fd = Some (i, d) ->
  fd <> Z.of_nat (fresh (dom (w_fds w))).
Proof.
  intros (H0 & Hfd & _)%fd_lookup_Some ->.
  rewrite Nat2Z.id in Hfd.
  apply (is_fresh (dom (w_fds w))), elem_of_dom. eauto.
Qed.

Lemma fresh_ofd_ne w fd i d :
  Sys.fd_lookup w fd = Some (i, d) -> i <> fresh (dom (w_ofds w)).
Proof.
  intros (_ & _ & Hd)%fd_lookup_Some ->.
  apply (is_fresh (dom (w_ofds w))), elem_of_dom. eauto.
Qed.

(** What a successful [create_iolog_dir] leaves: a new directory, its
    name in the closure and a descriptor open on it. *)
Lemma create_iolog_dir_ok root details s s' :
  create_iolog_dir root details s = (true, s') ->
  exists dir j dd,
    iolog_dir (closure s') = Some dir
    /\ Sys.fd_lookup (sys s') (iolog_dir_fd (closure s')) = Some (j, dd)
    /\ ofd_path dd = dir /\ ofd_dir dd = true
    /\ dir <> ""%string
    /\ (dir ∉ w_dirs (sys s))
    /\ w_files (sys s') = w_files (sys s)
    /\ io_fds (closure s') = io_fds (closure s)
    /\ exists calls, w_trace (sys s') = w_trace (sys s) ++ calls.
Proof.
  intros Hrun.
  pose proof (create_iolog_dir_keeps _ _ _ _ _ Hrun)
    as (_ & Hfiles & calls & Htrace & _).
  revert Hrun. unfold create_iolog_dir.
  destruct (Sys.mkdir root 493 (sys s)) as [r1 w1] eqn:H1.
  apply nothing_removed_mkdir in H1.
  destruct ((r1 =? -1) && negb (w_errno w1 =? Sys.EEXIST)); [done|].
  destruct (Sys.PATH_MAX <=? _); [done|].
  simpl sys.
  destruct (Sys.mkdir _ 493 w1) as [r2 w2] eqn:H2.
  apply nothing_removed_mkdir in H2.
  pose proof (nothing_removed_trans _ _ _ H1 H2) as H12.
  destruct ((r2 =? -1) && negb (w_errno w2 =? Sys.EEXIST)); [done|].
  destruct (Sys.PATH_MAX <=? _); [done|].
  simpl sys.
  destruct (Sys.mkdir _ 493 w2) as [r3 w3] eqn:H3.
  apply nothing_removed_mkdir in H3.
  pose proof (nothing_removed_trans _ _ _ H12 H3) as (Hsub & _).
  destruct ((r3 =? -1) && negb (w_errno w3 =? Sys.EEXIST)); [done|].
  destruct (Sys.PATH_MAX <=? _); [done|].
  simpl sys.
  destruct (Sys.mkdtemp _ w3) as [made w4] eqn:H4.
  apply mkdtemp_inv in H4 as (_ & _ & _ & _ & _ & H4).
  destruct made as [path|]; [|done].
  destruct H4 as (Hd4 & Hnew & prefix & suffix & -> & Hlen & _).
  simpl sys.
  destruct (Sys.strdup _ w4) as [copy w5] eqn:H5.
  apply strdup_inv in H5 as (_ & Hd5 & _ & _ & _ & _ & Hcopy).
  destruct copy as [dir|]; [|done].
  destruct Hcopy as [|[= ->]]; [done|].
  simpl sys.
  destruct (Sys.open _ Sys.O_RDONLY w5) as [fd w6] eqn:H6.
  apply open_rdonly_inv in H6 as (_ & _ & _ & _ & H6).
  destruct (fd =? -1) eqn:Hfd; [done|]. apply Z.eqb_neq in Hfd.
  intros [= <-]. simpl.
  destruct H6 as [(-> & _)|(d & -> & Hp & _ & Hdir & Hfds & Hofds)]; [done|].
  exists (prefix +:+ suffix), (fresh (dom (w_ofds w5))), d.
  split_and!; try done.
  - eapply fd_lookup_fresh; [exact Hfds|]. by rewrite Hofds, lookup_insert_eq.
  - apply Hdir. rewrite Hd5, Hd4. apply elem_of_union_l. by apply elem_of_singleton.
  - intros Heq. destruct prefix; [|done].
    change (suffix = ""%string) in Heq. by rewrite Heq in Hlen.
  - intros Hin. apply Hnew, Hsub, Hin.
  - by exists calls.
Qed.

(** The [log] file is written beside the streams, not over them. *)
Lemma iolog_details_write_ok details s s' dir j dd :
  iolog_details_write details s = (true, s') ->
  Sys.fd_lookup (sys s) (iolog_dir_fd (closure s)) = Some (j, dd) ->
  ofd_path dd = dir ->
  closure s' = closure s
  /\ Sys.fd_lookup (sys s') (iolog_dir_fd (closure s')) = Some (j, dd)
  /\ forall name, name <> "log"%string ->
       w_files (sys s') !! (dir +:+ "/" +:+ name)
       = w_files (sys s) !! (dir +:+ "/" +:+ name).
Proof.
  intros Hrun Hl Hdir. revert Hrun. unfold iolog_details_write.
  destruct (Sys.openat _ _ _ _ _) as [fd w1] eqn:Ho.
  apply openat_creat_inv in Ho as (_ & _ & Ho).
  destruct Ho as [(-> & _)|(j' & dd' & Hl' & _ & -> & _ & Hf1 & Hfds1 & Hofds1)].
  { simpl. done. }
  rewrite Hl in Hl'. injection Hl' as <- <-. rewrite Hdir in Hf1, Hofds1.
  set (fd := Z.of_nat (fresh (dom (w_fds (sys s))))) in *.
  set (i := fresh (dom (w_ofds (sys s)))) in *.
  set (d := mk_ofd (dir +:+ "/" +:+ "log") 0 false true false) in *.
  assert (fd <> iolog_dir_fd (closure s)) as Hfd.
  { intros Heq. by eapply fresh_fd_ne. }
  assert (j <> i) as Hji by by eapply fresh_ofd_ne.
  assert (Sys.fd_lookup w1 (iolog_dir_fd (closure s)) = Some (j, dd)) as Hl1.
  { eapply (fd_lookup_install (sys s) w1 _ j dd i d); [done|done|by left]. }
  assert (Sys.fd_lookup w1 fd = Some (i, d)) as Hfd1.
  { eapply fd_lookup_fresh; [exact Hfds1|]. by rewrite Hofds1, lookup_insert_eq. }
  assert (forall name, name <> "log"%string ->
            w_files w1 !! (dir +:+ "/" +:+ name)
            = w_files (sys s) !! (dir +:+ "/" +:+ name)) as Hother1.
  { intros name Hname. rewrite Hf1, lookup_insert_ne; [done|].
    intros Heq%path_inj. done. }
  destruct (fd =? -1) eqn:Hneg; [apply Z.eqb_eq in Hneg; subst fd; lia|].
  destruct (Sys.fdopen fd w1) as [fp w2] eqn:Hfp.
  apply fdopen_inv in Hfp as (_ & _ & Hf2 & Hofds2 & Hfds2 & Hfp).
  destruct Hfp as [-> | ->]; [done|].
  assert (forall fd', Sys.fd_lookup w2 fd' = Sys.fd_lookup w1 fd') as Hl2.
  { intros fd'. by apply fd_lookup_ext. }
  destruct (Sys.fflush _ w2) as [fp3 w3] eqn:Hflush.
  assert (Sys.fp_fd fp3 = fd /\ Sys.fp_buf fp3 = []
          /\ Sys.fd_lookup w3 (iolog_dir_fd (closure s)) = Some (j, dd)
          /\ forall name, name <> "log"%string ->
               w_files w3 !! (dir +:+ "/" +:+ name)
               = w_files (sys s) !! (dir +:+ "/" +:+ name))
    as (Hfd3 & Hbuf3 & Hl3 & Hother3).
  { revert Hflush. unfold Sys.fflush, Sys.fputs. simpl Sys.fp_buf.
    destruct (log_text details) as [|a text] eqn:Htext.
    { intros [= <- <-]. simpl. split_and!; try done.
      - by rewrite Hl2.
      - intros name Hname. rewrite Hf2. by apply Hother1. }
    simpl Sys.fp_fd.
    destruct (Sys.write fd (a :: text) w2) as [n w3'] eqn:Hw.
    intros [= <- <-]. simpl. split_and!; try done.
    - apply write_inv in Hw
        as (_ & _ & _ & Hfds3 & [(_ & _ & Hofds3)|(i' & d' & c & Hli & _ & _ & _ & _ & Hofds3)]).
      + rewrite <- Hl1, <- Hl2. by apply fd_lookup_ext.
      + rewrite Hl2, Hfd1 in Hli. injection Hli as <- <-.
        eapply fd_lookup_insert_ne; [by rewrite Hl2|done|exact Hofds3|done].
    - intros name Hname.
      apply write_inv in Hw
        as (_ & _ & _ & _ & [(_ & Hf3 & _)|(i' & d' & c & Hli & _ & _ & _ & Hf3 & _)]).
      + rewrite Hf3, Hf2. by apply Hother1.
      + rewrite Hl2, Hfd1 in Hli. injection Hli as <- <-.
        rewrite Hf3, lookup_insert_ne, Hf2; [by apply Hother1|].
        simpl. intros Heq%path_inj. done. }
  destruct (Sys.ferror fp3); simpl; intros [= <-]; simpl.
  all: split; [done|].
  all: pose proof (fclose_inv fp3 w3 Hbuf3) as (_ & _ & Hf4 & _ & Hl4).
  all: split; [rewrite Hl4; [done|by rewrite Hfd3]|].
  all: intros name Hname; rewrite Hf4; by apply Hother3.
Qed.

(** A successful [iolog_open] creates the file of its stream, empty, in
    the session directory, and nothing else. *)
Lemma iolog_open_ok iofd s s' dir j dd name :
  iolog_open iofd s = (true, s') ->
  Sys.fd_lookup (sys s) (iolog_dir_fd (closure s)) = Some (j, dd) ->
  ofd_path dd = dir ->
  iolog_names !! Z.to_nat iofd = Some name ->
  (Z.to_nat iofd < length (io_fds (closure s)))%nat ->
  iolog_dir_fd (closure s') = iolog_dir_fd (closure s)
  /\ iolog_dir (closure s') = iolog_dir (closure s)
  /\ Sys.fd_lookup (sys s') (iolog_dir_fd (closure s')) = Some (j, dd)
  /\ w_files (sys s) !! (dir +:+ "/" +:+ name) = None
  /\ w_files (sys s') = <[dir +:+ "/" +:+ name := []]> (w_files (sys s))
  /\ exists fd,
       fd <> -1
       /\ io_fds (closure s') = <[Z.to_nat iofd := fd]> (io_fds (closure s))
       /\ w_trace (sys s')
          = w_trace (sys s)
              ++ [Openat (iolog_dir_fd (closure s)) name
                    O_CREAT_EXCL_WRONLY 384 fd].
Proof.
  intros Hrun Hl Hdir Hname Hlen.
  apply iolog_open_inv in Hrun as (_ & Hdfd & Hd & Hok).
  destruct (Hok eq_refl) as (Hrange & fd & Ho & Hio & Hfd).
  rewrite Hname in Ho. simpl in Ho.
  pose proof (openat_trace _ _ _ _ _ _ _ Ho) as [Ht _].
  apply openat_creat_inv in Ho as (_ & _ & Ho).
  assert (fd <> -1) as Hne.
  { intros ->. apply Hfd. unfold Closure.io_fd.
    destruct (Z.leb_spec 0 iofd), (Z.ltb_spec iofd IOFD_MAX); try lia.
    simpl. by rewrite Hio, list_lookup_insert_eq. }
  destruct Ho as [(-> & _)|(j' & dd' & Hl' & _ & -> & Hnone & Hf1 & Hfds1 & Hofds1)];
    [done|].
  rewrite Hl in Hl'. injection Hl' as <- <-. rewrite Hdir in Hnone, Hf1, Hofds1.
  split_and!; try done.
  - rewrite Hdfd.
    eapply (fd_lookup_install (sys s) (sys s')); [done|done|by left].
  - eexists. split_and!; done.
Qed.

Lemma iolog_write_keeps iofd buf s ok s' :
  iolog_write iofd buf s = (ok, s') ->
  (exists calls, w_trace (sys s') = w_trace (sys s) ++ calls)
  /\ forall p, is_Some (w_files (sys s) !! p) ->
       is_Some (w_files (sys s') !! p).
Proof.
  unfold iolog_write.
  destruct ((iofd <? 0) || (IOFD_MAX <=? iofd)).
  { intros [= <- <-]. simpl. split; [|done]. exists []. by rewrite app_nil_r. }
  destruct (Sys.write _ _ _) as [n w'] eqn:Hw. intros [= _ <-]. simpl.
  apply write_inv in Hw
    as (Ht & _ & _ & _ & [(_ & -> & _)|(i & d & c & _ & _ & _ & _ & -> & _)]).
  - split; [eauto|done].
  - split; [eauto|]. intros p Hp.
    destruct (decide (ofd_path d = p)) as [->|Hne].
    + rewrite lookup_insert_eq. eauto.
    + by rewrite lookup_insert_ne.
Qed.

(** The first successful [store_iobuf] on a stream that is not open
    begins by creating the file of the stream. *)
Lemma store_iobuf_first iofd name msg s s' dir j dd :
  Closure.io_fd (closure s) iofd = -1 ->
  Sys.fd_lookup (sys s) (iolog_dir_fd (closure s)) = Some (j, dd) ->
  ofd_path dd = dir ->
  iolog_names !! Z.to_nat iofd = Some name ->
  (Z.to_nat iofd < length (io_fds (closure s)))%nat ->
  store_iobuf iofd msg s = (0, s') ->
  (exists fd later,
     w_trace (sys s')
     = w_trace (sys s)
         ++ Openat (iolog_dir_fd (closure s)) name O_CREAT_EXCL_WRONLY 384 fd
              :: later)
  /\ is_Some (w_files (sys s') !! (dir +:+ "/" +:+ name)).
Proof.
  intros Hfd Hl Hdir Hname Hlen. unfold store_iobuf.
  rewrite Hfd. simpl.
  destruct (iolog_open iofd s) as [ok s1] eqn:Hopen.
  destruct ok; simpl; [|done].
  eapply iolog_open_ok in Hopen
    as (_ & _ & _ & _ & Hf1 & fd & _ & _ & Ht1); [|done..].
  destruct ((Z.of_nat (length (iobuf_line iofd msg)) <? 0)
            || (sizeof_tbuf <=? Z.of_nat (length (iobuf_line iofd msg))));
    [done|].
  destruct (iolog_write iofd (ib_data msg) s1) as [ok s2] eqn:Hw1.
  destruct ok; simpl; [|done].
  destruct (iolog_write IOFD_TIMING _ s2) as [ok s3] eqn:Hw2.
  destruct ok; simpl; [|done]. intros [= <-]. simpl.
  apply iolog_write_keeps in Hw1 as ((c1 & Ht2) & Hk1).
  apply iolog_write_keeps in Hw2 as ((c2 & Ht3) & Hk2).
  split.
  - exists fd, (c1 ++ c2).
    rewrite Ht3, Ht2, Ht1, <- !app_assoc. reflexivity.
  - apply Hk2, Hk1. rewrite Hf1, lookup_insert_eq. eauto.
Qed.

(** C5, as the code has it.  A session open that succeeds ends with the
    creation, by [openat] with [O_CREAT|O_EXCL|O_WRONLY] and mode 0600,
    of the timing file and of the files of stdout, stderr and ttyout, in
    this order: none of them was there before the call, each is there,
    empty, after it, and its descriptor is in the closure.  Only stdin and
    ttyin are created lazily: after the session open their descriptor is
    -1 and their file does not exist, and the first [store_iobuf] on
    them that succeeds begins with the [openat] that creates it. *)
Theorem iolog_init_creates root msg s s' :
  fs_wf (sys s) ->
  iolog_init root msg s = (true, s') ->
  exists dir,
    iolog_dir (closure s') = Some dir
    /\ (exists earlier,
          w_trace (sys s')
          = earlier
              ++ [Openat (iolog_dir_fd (closure s')) "timing"
                    O_CREAT_EXCL_WRONLY 384
                    (Closure.io_fd (closure s') IOFD_TIMING);
                  Openat (iolog_dir_fd (closure s')) "stdout"
                    O_CREAT_EXCL_WRONLY 384
                    (Closure.io_fd (closure s') IOFD_STDOUT);
                  Openat (iolog_dir_fd (closure s')) "stderr"
                    O_CREAT_EXCL_WRONLY 384
                    (Closure.io_fd (closure s') IOFD_STDERR);
                  Openat (iolog_dir_fd (closure s')) "ttyout"
                    O_CREAT_EXCL_WRONLY 384
                    (Closure.io_fd (closure s') IOFD_TTYOUT)])
    /\ (forall iofd name,
          (iofd, name) ∈ [(IOFD_TIMING, "timing"); (IOFD_STDOUT, "stdout");
                          (IOFD_STDERR, "stderr"); (IOFD_TTYOUT, "ttyout")] ->
          Closure.io_fd (closure s') iofd <> -1
          /\ w_files (sys s) !! (dir +:+ "/" +:+ name) = None
          /\ w_files (sys s') !! (dir +:+ "/" +:+ name) = Some [])
    /\ (forall iofd name,
          (iofd, name) ∈ [(IOFD_STDIN, "stdin"); (IOFD_TTYIN, "ttyin")] ->
          Closure.io_fd (closure s') iofd = -1
          /\ w_files (sys s') !! (dir +:+ "/" +:+ name) = None
          /\ forall data s'',
               store_iobuf iofd data s' = (0, s'') ->
               (exists fd later,
                  w_trace (sys s'')
                  = w_trace (sys s')
                      ++ Openat (iolog_dir_fd (closure s')) name
                           O_CREAT_EXCL_WRONLY 384 fd :: later)
               /\ is_Some (w_files (sys s'') !! (dir +:+ "/" +:+ name))).
Proof.
  intros Hwf. unfold iolog_init.
  set (s0 := with_closure _ s).
  destruct (iolog_details_fill msg) as [details ok].
  destruct ok; simpl; [|done].
  destruct (create_iolog_dir root details s0) as [ok s1] eqn:Hdir.
  destruct ok; simpl; [|done].
  apply create_iolog_dir_ok in Hdir
    as (dir & j & dd & Hd1 & Hl1 & Hp & _ & Hne & Hnew & Hf1 & Hio1 & _).
  change (sys s0) with (sys s) in Hnew, Hf1.
  change (io_fds (closure s0)) with (replicate 6 (-1)) in Hio1.
  assert (forall name, Sys.has_slash name = false ->
            w_files (sys s1) !! (dir +:+ "/" +:+ name) = None) as Hnone1.
  { intros name Hname. rewrite Hf1. by apply no_file_without_dir. }
  destruct (iolog_details_write details s1) as [ok s2] eqn:Hlog.
  destruct ok; simpl; [|done].
  eapply iolog_details_write_ok in Hlog as (Hc2 & Hl2 & Hf2); [|done..].
  destruct (iolog_open IOFD_TIMING s2) as [ok s3] eqn:H3.
  destruct ok; simpl; [|done].
  eapply (iolog_open_ok _ _ _ dir j dd "timing") in H3
    as (Hfd3 & Hd3 & Hl3 & _ & Hf3 & f1 & Hf1ne & Hio3 & Ht3);
    [|exact Hl2|exact Hp|done|rewrite Hc2, Hio1; vm_compute; lia].
  destruct (iolog_open IOFD_STDOUT s3) as [ok s4] eqn:H4.
  destruct ok; simpl; [|done].
  eapply (iolog_open_ok _ _ _ dir j dd "stdout") in H4
    as (Hfd4 & Hd4 & Hl4 & _ & Hf4 & f2 & Hf2ne & Hio4 & Ht4);
    [|exact Hl3|exact Hp|done|rewrite Hio3, Hc2, Hio1; vm_compute; lia].
  destruct (iolog_open IOFD_STDERR s4) as [ok s5] eqn:H5.
  destruct ok; simpl; [|done].
  eapply (iolog_open_ok _ _ _ dir j dd "stderr") in H5
    as (Hfd5 & Hd5 & Hl5 & _ & Hf5 & f3 & Hf3ne & Hio5 & Ht5);
    [|exact Hl4|exact Hp|done
     |rewrite Hio4, Hio3, Hc2, Hio1; vm_compute; lia].
  destruct (iolog_open IOFD_TTYOUT s5) as [ok s6] eqn:H6.
  destruct ok; simpl; [|done].
  eapply (iolog_open_ok _ _ _ dir j dd "ttyout") in H6
    as (Hfd6 & Hd6 & Hl6 & _ & Hf6 & f4 & Hf4ne & Hio6 & Ht6);
    [|exact Hl5|exact Hp|done
     |rewrite Hio5, Hio4, Hio3, Hc2, Hio1; vm_compute; lia].
  intros [= <-].
  rewrite Hio5, Hio4, Hio3, Hc2, Hio1 in Hio6.
  assert (forall name, name <> "log"%string -> Sys.has_slash name = false ->
            w_files (sys s2) !! (dir +:+ "/" +:+ name) = None) as Hnone2.
  { intros name Hlog Hname. rewrite Hf2 by done. by apply Hnone1. }
  assert (forall i, Closure.io_fd (closure s6) i
                    = if (0 <=? i) && (i <? IOFD_MAX)
                      then default (adjacent (closure s6) i)
                             ([-1; f2; f3; -1; f4; f1] !! Z.to_nat i)
                      else adjacent (closure s6) i) as Hfds.
  { intros i. unfold Closure.io_fd. by rewrite Hio6. }
  exists dir. split_and!.
  - by rewrite Hd6, Hd5, Hd4, Hd3, Hc2.
  - exists (w_trace (sys s2)).
    rewrite Ht6, Ht5, Ht4, Ht3, !Hfds, Hfd6, Hfd5, Hfd4, Hfd3, <- !app_assoc.
    reflexivity.
  - intros iofd name Hin.
    rewrite Hf6, Hf5, Hf4, Hf3, Hfds, <- Hf1.
    repeat (apply elem_of_cons in Hin as [[= -> ->]|Hin]);
      [..|by apply elem_of_nil in Hin].
    all: split_and!; [done|by apply Hnone1|].
    + rewrite !lookup_insert_ne by (by intros ?%path_inj).
      by rewrite lookup_insert_eq.
    + rewrite !lookup_insert_ne by (by intros ?%path_inj).
      by rewrite lookup_insert_eq.
    + rewrite !lookup_insert_ne by (by intros ?%path_inj).
      by rewrite lookup_insert_eq.
    + by rewrite lookup_insert_eq.
  - intros iofd name Hin.
    assert (Closure.io_fd (closure s6) iofd = -1
            /\ iolog_names !! Z.to_nat iofd = Some name
            /\ w_files (sys s6) !! (dir +:+ "/" +:+ name) = None)
      as (Hclosed & Hname & Hnone).
    { rewrite Hf6, Hf5, Hf4, Hf3, Hfds.
      repeat (apply elem_of_cons in Hin as [[= -> ->]|Hin]);
        [..|by apply elem_of_nil in Hin].
      all: split_and!; [done|done|].
      all: rewrite !lookup_insert_ne by (by intros ?%path_inj).
      all: by apply Hnone2. }
    split_and!; [done..|].
    intros data s'' Hstore.
    eapply store_iobuf_first; [done|exact Hl6|done|exact Hname| |exact Hstore].
    rewrite Hio6. apply lookup_lt_Some in Hname. exact Hname.
Qed.

Lemma iolog_init_creates_witness :
  exists dir,
    iolog_dir (closure Example.opened) = Some dir
    /\ w_files (sys Example.opened) !! (dir +:+ "/" +:+ "stdout") = Some [].
Proof.
  destruct (iolog_init_creates Example.root Example.exec_msg
              (Example.state0 []) Example.opened)
    as (dir & Hdir & _ & Hcreated & _).
  - intros p [c Hc]. vm_compute in Hc. discriminate.
  - vm_compute. reflexivity.
  - exists dir. split; [exact Hdir|].
    apply (Hcreated IOFD_STDOUT "stdout"). right. left.
Defined.

(** C5, as stated, fails: right after a session open, before anything
    is written to any stream, the files of stdout, stderr and ttyout are
    in the session directory, empty, beside the timing file; of the five
    streams only stdin and ttyin have none. *)
Lemma iolog_init_creates_stdout :
  fst (iolog_init Example.root Example.exec_msg (Example.state0 [])) = true
  /\ Example.file Example.opened "stdout" = Some []
  /\ Example.file Example.opened "stderr" = Some []
  /\ Example.file Example.opened "ttyout" = Some []
  /\ Example.file Example.opened "timing" = Some []
  /\ Example.file Example.opened "stdin" = None
  /\ Example.file Example.opened "ttyin" = None.
Proof. split_and!; vm_compute; reflexivity. Qed.

(** ** Further properties of the session-open attributes *)

Ltac fill_cases :=
  repeat match goal with
         | |- context [if ?b then _ else _] => destruct b
         | |- context [match ?x with _ => _ end] => destruct x
         end.

(** What one entry does to a string field. *)
Lemma fill_one_string k proj d i :
  (k, proj) ∈ string_fields ->
  proj (fill_one d i) =
    if supplies k i
    then match value i with STRVAL s => Some s | _ => proj d end
    else proj d.
Proof.
  intros Hin. unfold string_fields in Hin.
  repeat (apply elem_of_cons in Hin as [[= -> ->]|Hin]);
    [..|by apply elem_of_nil in Hin].
  all: unfold fill_one, supplies; destruct i as [ki v]; simpl.
  all: match goal with
       | |- context [String.eqb ?kk ?key && _] =>
           destruct (String.eqb kk key) eqn:Hk; simpl;
           [apply String.eqb_eq in Hk; subst kk; simpl; by destruct v
           |fill_cases; done]
       end.
Qed.

Lemma fill_string k proj l :
  (k, proj) ∈ string_fields ->
  forall d,
    proj (fold_left fill_one l d) =
      match List.find (supplies k) (rev l) with
      | Some i => match value i with STRVAL s => Some s | _ => None end
      | None => proj d
      end.
Proof.
  intros Hin. induction l as [|i l IH] using rev_ind; intros d; [done|].
  rewrite fold_left_app, rev_app_distr. simpl.
  rewrite (fill_one_string k proj _ _ Hin).
  destruct (supplies k i) eqn:Hs.
  - unfold supplies in Hs. apply andb_true_iff in Hs as [_ Hs].
    by destruct (value i).
  - apply IH.
Qed.

Lemma existsb_reversed {A} (f : A -> bool) l :
  existsb f (rev l) = existsb f l.
Proof.
  induction l as [|a l IH]; [done|]. simpl.
  rewrite existsb_app, IH. simpl. rewrite orb_false_r. apply orb_comm.
Qed.

(** What one entry that is not stored does: nothing. *)
Lemma fill_one_ignored d i : stored i = false -> fill_one d i = d.
Proof.
  unfold stored, fill_one, string_fields. destruct i as [k v]; simpl.
  destruct v as [|n|s|l]; simpl.
  - intros _. fill_cases; done.
  - unfold INT_MAX.
    destruct (String.eqb k "columns") eqn:Hc;
      [apply String.eqb_eq in Hc; subst k; simpl|].
    { intros H. destruct (n <=? 0) eqn:H1, (2147483647 <? n) eqn:H2; simpl;
        try done.
      apply andb_false_iff in H as [H|H]; [apply Z.leb_gt in H|apply Z.leb_gt in H];
        lia. }
    destruct (String.eqb k "lines") eqn:Hl;
      [apply String.eqb_eq in Hl; subst k; simpl|].
    { intros H. destruct (n <=? 0) eqn:H1, (2147483647 <? n) eqn:H2; simpl;
        try done.
      apply andb_false_iff in H as [H|H]; [apply Z.leb_gt in H|apply Z.leb_gt in H];
        lia. }
    intros _. fill_cases; done.
  - intros H.
    repeat (apply orb_false_iff in H as [?H H]).
    repeat match goal with
           | Hk : String.eqb k _ = false |- _ => rewrite Hk; clear Hk
           end.
    fill_cases; done.
  - intros H. rewrite H. fill_cases; done.
Qed.

Lemma iolog_details_fill_required_eq msg :
  snd (iolog_details_fill msg)
  = existsb (supplies "submituser") (info_msgs msg)
    && existsb (supplies "submithost") (info_msgs msg)
    && existsb (supplies "command") (info_msgs msg).
Proof.
  assert (forall k proj, (k, proj) ∈ string_fields ->
            proj (details_init msg) = None ->
            (if proj (fold_left fill_one (info_msgs msg) (details_init msg))
             is None then false else true)
            = existsb (supplies k) (info_msgs msg)) as Hfield.
  { intros k proj Hin Hinit. rewrite (fill_string k proj _ Hin), Hinit.
    rewrite <- (existsb_reversed _ (info_msgs msg)).
    induction (rev (info_msgs msg)) as [|i l IH]; [done|]. simpl.
    destruct (supplies k i) eqn:Hs; [|exact IH].
    unfold supplies in Hs. apply andb_true_iff in Hs as [_ Hs].
    by destruct (value i). }
  unfold iolog_details_fill. cbv zeta. simpl snd.
  rewrite <- (Hfield "submituser"%string d_submituser),
    <- (Hfield "submithost"%string d_submithost),
    <- (Hfield "command"%string d_command); try done.
  2-4: unfold string_fields; set_solver.
  by destruct (d_submituser _), (d_submithost _), (d_command _).
Qed.

(** X1.  [iolog_details_fill] returns true exactly when the message has
    an entry with the key and a string value for each of submituser,
    submithost and command; entries of these keys that carry no string do
    not count. *)
Theorem iolog_details_fill_required msg :
  snd (iolog_details_fill msg)
  = existsb (supplies "submituser") (info_msgs msg)
    && existsb (supplies "submithost") (info_msgs msg)
    && existsb (supplies "command") (info_msgs msg).
Proof. apply iolog_details_fill_required_eq. Qed.

Lemma fill_string_kept k proj post :
  (k, proj) ∈ string_fields ->
  Forall (fun i => supplies k i = false) post ->
  forall d, proj (fold_left fill_one post d) = proj d.
Proof.
  intros Hin. induction 1 as [|i l Hi _ IH]; intros d; simpl; [done|].
  by rewrite IH, (fill_one_string k proj _ _ Hin), Hi.
Qed.

(** X2.  For each of the seven string keys (command, cwd, rungroup,
    runuser, submithost, submituser, ttyname) the field holds the string
    of the last entry that has the key and a string value: entries before
    it are overridden, and later entries of the key that carry no string
    do not clear it. *)
Theorem iolog_details_fill_last_wins msg k proj pre v post :
  (k, proj) ∈ string_fields ->
  info_msgs msg = pre ++ mk_InfoMessage k (STRVAL v) :: post ->
  Forall (fun i => supplies k i = false) post ->
  proj (fst (iolog_details_fill msg)) = Some v.
Proof.
  intros Hin Hm Hpost. unfold iolog_details_fill. simpl fst.
  rewrite Hm, fold_left_app. simpl.
  rewrite (fill_string_kept k proj post Hin Hpost).
  rewrite (fill_one_string k proj _ _ Hin).
  unfold supplies. simpl. by rewrite String.eqb_refl.
Qed.

Lemma iolog_details_fill_last_wins_witness :
  d_command (fst (iolog_details_fill
     (mk_ExecMessage (mk_TimeSpec 1000 0)
        [mk_InfoMessage "command" (STRVAL "/bin/ls");
         mk_InfoMessage "command" (STRVAL "/bin/cat");
         mk_InfoMessage "command" (NUMVAL 7)])))
  = Some "/bin/cat"%string.
Proof.
  apply (iolog_details_fill_last_wins _ "command" d_command
           [mk_InfoMessage "command" (STRVAL "/bin/ls")] "/bin/cat"
           [mk_InfoMessage "command" (NUMVAL 7)]).
  - unfold string_fields. left.
  - reflexivity.
  - repeat constructor.
Defined.

Lemma fill_one_argv d i :
  (d_argv (fill_one d i), d_argc (fill_one d i)) =
    if String.eqb (key i) "runargv"
    then match value i with
         | STRLISTVAL l => (l, int32 (size_t (Z.of_nat (length l))))
         | _ => (d_argv d, d_argc d)
         end
    else (d_argv d, d_argc d).
Proof.
  unfold fill_one. destruct i as [k v]; simpl.
  destruct (String.eqb k "runargv") eqn:Hk.
  - apply String.eqb_eq in Hk. subst k. simpl. by destruct v.
  - fill_cases; done.
Qed.

(** X3.  The argument vector is that of the last [runargv] entry that
    carries a string list: earlier lists are overridden, and later
    [runargv] entries of another kind do not clear it.  [argc] comes from
    the same entry: it is the number of its strings, a [size_t], as the
    [int] it is stored in. *)
Theorem iolog_details_fill_argv msg pre l post :
  info_msgs msg = pre ++ mk_InfoMessage "runargv" (STRLISTVAL l) :: post ->
  Forall (fun i => key i <> "runargv"%string
                   \/ forall l', value i <> STRLISTVAL l') post ->
  d_argv (fst (iolog_details_fill msg)) = l
  /\ d_argc (fst (iolog_details_fill msg))
     = int32 (size_t (Z.of_nat (length l))).
Proof.
  unfold iolog_details_fill. simpl fst.
  intros -> Hpost. rewrite fold_left_app. simpl.
  generalize (fold_left fill_one pre (details_init msg)). intros d.
  assert (forall d', (d_argv (fold_left fill_one post d'),
                      d_argc (fold_left fill_one post d'))
                     = (d_argv d', d_argc d')) as Hkeep.
  { induction Hpost as [|i p Hi _ IH]; intros d'; simpl; [done|].
    rewrite IH, fill_one_argv.
    destruct (String.eqb (key i) "runargv") eqn:Hk; [|done].
    apply String.eqb_eq in Hk.
    destruct Hi as [Hi|Hi]; [done|].
    destruct (value i) as [| | |l']; try done. by destruct (Hi l'). }
  pose proof (Hkeep (fill_one d (mk_InfoMessage "runargv" (STRLISTVAL l))))
    as Hlast.
  rewrite fill_one_argv in Hlast. simpl in Hlast.
  by injection Hlast as -> ->.
Qed.

Lemma iolog_details_fill_argv_witness :
  d_argv (fst (iolog_details_fill
     (mk_ExecMessage (mk_TimeSpec 1000 0)
        [mk_InfoMessage "runargv" (STRLISTVAL ["ls"]);
         mk_InfoMessage "runargv" (STRLISTVAL ["cat"; "-n"]);
         mk_InfoMessage "runargv" (STRVAL "id");
         mk_InfoMessage "command" (STRVAL "/bin/cat")])))
  = ["cat"; "-n"]%string
  /\ d_argc (fst (iolog_details_fill
     (mk_ExecMessage (mk_TimeSpec 1000 0)
        [mk_InfoMessage "runargv" (STRLISTVAL ["ls"]);
         mk_InfoMessage "runargv" (STRLISTVAL ["cat"; "-n"]);
         mk_InfoMessage "runargv" (STRVAL "id");
         mk_InfoMessage "command" (STRVAL "/bin/cat")])))
     = int32 (size_t (Z.of_nat (length ["cat"; "-n"]%string))).
Proof.
  apply (iolog_details_fill_argv _
           [mk_InfoMessage "runargv" (STRLISTVAL ["ls"])] ["cat"; "-n"]%string
           [mk_InfoMessage "runargv" (STRVAL "id");
            mk_InfoMessage "command" (STRVAL "/bin/cat")]).
  - reflexivity.
  - constructor; [right; intros l'; simpl; discriminate|].
    constructor; [left; simpl; discriminate|]. constructor.
Defined.

(** X4.  Entries that [iolog_details_fill] does not store (an unknown
    key, a value of another kind than the key takes, a number of lines or
    columns outside [1, INT_MAX]) have no effect: the result is that of
    the message without them. *)
Theorem iolog_details_fill_ignores msg :
  iolog_details_fill
    (mk_ExecMessage (start_time msg) (List.filter stored (info_msgs msg)))
  = iolog_details_fill msg.
Proof.
  unfold iolog_details_fill. simpl info_msgs.
  change (details_init (mk_ExecMessage (start_time msg)
            (List.filter stored (info_msgs msg))))
    with (details_init msg).
  assert (forall d, fold_left fill_one (List.filter stored (info_msgs msg)) d
                    = fold_left fill_one (info_msgs msg) d) as ->; [|done].
  induction (info_msgs msg) as [|i l IH]; intros d; simpl; [done|].
  destruct (stored i) eqn:Hs; simpl; [apply IH|].
  by rewrite IH, fill_one_ignored.
Qed.



(** ** Further properties of the log directory builder *)

Lemma string_app_nil (b : string) : "" +:+ b = b.
Proof. reflexivity. Qed.

Lemma string_app_cons x (a b : string) : String x a +:+ b = String x (a +:+ b).
Proof. reflexivity. Qed.

Lemma string_app_assoc (a b c : string) : (a +:+ b) +:+ c = a +:+ b +:+ c.
Proof.
  induction a as [|x a IH]; [done|]. rewrite !string_app_cons. by f_equal.
Qed.

Lemma string_app_length (a b : string) :
  String.length (a +:+ b) = (String.length a + String.length b)%nat.
Proof.
  induction a as [|x a IH]; [done|]. rewrite string_app_cons. simpl.
  by rewrite IH.
Qed.

Lemma substring_app_l (a b : string) :
  substring 0 (String.length a) (a +:+ b) = a.
Proof.
  induction a as [|x a IH]; [by destruct b|]. rewrite string_app_cons. simpl.
  by rewrite IH.
Qed.

Lemma substring_app_r (a b : string) n :
  substring (String.length a) n (a +:+ b) = substring 0 n b.
Proof.
  induction a as [|x a IH]; [done|]. rewrite string_app_cons. exact IH.
Qed.

Lemma template_prefix_app p : Sys.template_prefix (p +:+ "XXXXXX") = Some p.
Proof.
  unfold Sys.template_prefix. rewrite string_app_length. simpl String.length.
  replace (String.length p + 6 - 6)%nat with (String.length p) by lia.
  rewrite substring_app_r, substring_app_l.
  assert ((6 <=? String.length p + 6)%nat = true) as ->
    by (apply Nat.leb_le; lia).
  reflexivity.
Qed.

(** The directory a successful [mkdtemp] makes. *)
Lemma mkdtemp_made p w path w' :
  Sys.mkdtemp (p +:+ "XXXXXX") w = (Some path, w') ->
  exists suffix,
    path = p +:+ suffix /\ String.length suffix = 6%nat
    /\ Sys.has_slash suffix = false
    /\ (path ∉ w_dirs w) /\ w_files w !! path = None
    /\ Sys.dirname path ∈ w_dirs w.
Proof.
  unfold Sys.mkdtemp. rewrite template_prefix_app. sys_script w.
  all: try done.
  all: try destruct (Sys.valid_suffix sf) eqn:Hv.
  all: match goal with
       | |- context [Sys.exists_path ?w0 ?q] =>
           destruct (Sys.exists_path w0 q) eqn:Hex
       end; try done.
  all: match goal with
       | |- context [bool_decide ?P] => destruct (bool_decide P) eqn:Hpar
       end; simpl; try done; intros [= <- <-].
  all: apply bool_decide_eq_true in Hpar.
  all: apply orb_false_iff in Hex
         as [Hdir%bool_decide_eq_false Hfile%bool_decide_eq_false].
  all: simpl in Hfile; apply eq_None_not_Some in Hfile.
  all: eexists; split_and!; try done.
  all: unfold Sys.valid_suffix in Hv; apply andb_true_iff in Hv as [H6 Hs].
  - by apply Nat.eqb_eq in H6.
  - by apply negb_true_iff in Hs.
Qed.

(** What a successful [create_iolog_dir] leaves. *)
Lemma create_iolog_dir_success root details s s' :
  create_iolog_dir root details s = (true, s') ->
  let parent := root +:+ "/" +:+ str (d_submithost details)
                  +:+ "/" +:+ str (d_submituser details) in
  exists suffix j dd,
    String.length suffix = 6%nat /\ Sys.has_slash suffix = false
    /\ iolog_dir (closure s') = Some (parent +:+ "/" +:+ suffix)
    /\ (parent +:+ "/" +:+ suffix ∉ w_dirs (sys s))
    /\ w_files (sys s) !! (parent +:+ "/" +:+ suffix) = None
    /\ parent ∈ w_dirs (sys s')
    /\ parent +:+ "/" +:+ suffix ∈ w_dirs (sys s')
    /\ Z.of_nat (String.length (parent +:+ "/" +:+ suffix)) < Sys.PATH_MAX
    /\ Sys.fd_lookup (sys s') (iolog_dir_fd (closure s')) = Some (j, dd)
    /\ ofd_path dd = parent +:+ "/" +:+ suffix /\ ofd_dir dd = true.
Proof.
  intros Hrun parent. revert Hrun. unfold create_iolog_dir.
  destruct (Sys.mkdir root 493 (sys s)) as [r1 w1] eqn:H1.
  apply nothing_removed_mkdir in H1.
  destruct ((r1 =? -1) && negb (w_errno w1 =? Sys.EEXIST)); [done|].
  destruct (Sys.PATH_MAX <=? _); [done|].
  simpl sys.
  destruct (Sys.mkdir _ 493 w1) as [r2 w2] eqn:H2.
  apply nothing_removed_mkdir in H2.
  pose proof (nothing_removed_trans _ _ _ H1 H2) as H12.
  destruct ((r2 =? -1) && negb (w_errno w2 =? Sys.EEXIST)); [done|].
  destruct (Sys.PATH_MAX <=? _); [done|].
  simpl sys.
  destruct (Sys.mkdir _ 493 w2) as [r3 w3] eqn:H3.
  apply nothing_removed_mkdir in H3.
  pose proof (nothing_removed_trans _ _ _ H12 H3) as (Hsub & Hfiles3 & _).
  destruct ((r3 =? -1) && negb (w_errno w3 =? Sys.EEXIST)); [done|].
  destruct (Sys.PATH_MAX <=? _) eqn:Hmax; [done|]. apply Z.leb_gt in Hmax.
  simpl sys.
  assert (root +:+ "/" +:+ str (d_submithost details) +:+ "/"
            +:+ str (d_submituser details) +:+ "/XXXXXX"
          = (parent +:+ "/") +:+ "XXXXXX") as Htemplate.
  { unfold parent. by rewrite !string_app_assoc. }
  rewrite Htemplate in Hmax. rewrite Htemplate.
  destruct (Sys.mkdtemp _ w3) as [made w4] eqn:H4.
  destruct made as [path|]; [|done].
  pose proof (mkdtemp_inv _ _ _ _ H4) as (_ & _ & _ & _ & _ & Hd4 & _).
  apply mkdtemp_made in H4
    as (suffix & -> & Hlen & Hslash & Hnew & Hnofile & Hparent).
  rewrite string_app_assoc in *.
  change ("/" +:+ suffix) with (String "/" suffix) in *.
  change (String "/" suffix) with ("/" +:+ suffix) in *.
  simpl sys.
  destruct (Sys.strdup _ w4) as [copy w5] eqn:H5.
  apply strdup_inv in H5 as (_ & Hd5 & _ & _ & _ & _ & Hcopy).
  destruct copy as [dir|]; [|done].
  destruct Hcopy as [|[= ->]]; [done|].
  simpl sys.
  destruct (Sys.open _ Sys.O_RDONLY w5) as [fd w6] eqn:H6.
  apply open_rdonly_inv in H6 as (_ & Hd6 & _ & _ & H6).
  destruct (fd =? -1) eqn:Hfd; [done|]. apply Z.eqb_neq in Hfd.
  intros [= <-]. simpl.
  destruct H6 as [(-> & _)|(d & -> & Hp & _ & Hdir & Hfds & Hofds)]; [done|].
  assert (parent <> ""%string) as Hne by (unfold parent; by destruct root).
  rewrite dirname_app in Hparent by done.
  exists suffix, (fresh (dom (w_ofds w5))), d.
  split_and!; try done.
  - intros Hin. apply Hnew, Hsub, Hin.
  - by rewrite <- Hfiles3.
  - rewrite Hd6, Hd5, Hd4. by apply elem_of_union_r.
  - rewrite Hd6, Hd5, Hd4. apply elem_of_union_l. by apply elem_of_singleton.
  - rewrite !string_app_length in Hmax. rewrite !string_app_length, Hlen.
    simpl String.length in *. lia.
  - eapply fd_lookup_fresh; [exact Hfds|]. by rewrite Hofds, lookup_insert_eq.
  - apply Hdir. rewrite Hd5, Hd4. apply elem_of_union_l. by apply elem_of_singleton.
Qed.

(** X6.  A successful [create_iolog_dir] has made one new directory,
    [IOLOG_DIR/host/user/] followed by six characters without a slash: it
    was neither a directory nor a file before, its parent exists, its name
    is shorter than [PATH_MAX], the name is stored in the closure and
    [iolog_dir_fd] is an open descriptor on that directory. *)
Theorem create_iolog_dir_fresh root details s s' :
  create_iolog_dir root details s = (true, s') ->
  let parent := root +:+ "/" +:+ str (d_submithost details)
                  +:+ "/" +:+ str (d_submituser details) in
  exists suffix j dd,
    String.length suffix = 6%nat /\ Sys.has_slash suffix = false
    /\ iolog_dir (closure s') = Some (parent +:+ "/" +:+ suffix)
    /\ (parent +:+ "/" +:+ suffix ∉ w_dirs (sys s))
    /\ w_files (sys s) !! (parent +:+ "/" +:+ suffix) = None
    /\ parent ∈ w_dirs (sys s')
    /\ parent +:+ "/" +:+ suffix ∈ w_dirs (sys s')
    /\ Z.of_nat (String.length (parent +:+ "/" +:+ suffix)) < Sys.PATH_MAX
    /\ Sys.fd_lookup (sys s') (iolog_dir_fd (closure s')) = Some (j, dd)
    /\ ofd_path dd = parent +:+ "/" +:+ suffix /\ ofd_dir dd = true.
Proof. apply create_iolog_dir_success. Qed.

Lemma create_iolog_dir_fresh_witness :
  exists suffix j dd,
    String.length suffix = 6%nat /\ Sys.has_slash suffix = false
    /\ iolog_dir (closure (snd (create_iolog_dir Example.root
                                  (fst (iolog_details_fill Example.exec_msg))
                                  (Example.state0 []))))
       = Some ((Example.root +:+ "/"
                  +:+ str (d_submithost (fst (iolog_details_fill
                                                Example.exec_msg)))
                  +:+ "/"
                  +:+ str (d_submituser (fst (iolog_details_fill
                                                Example.exec_msg))))
                 +:+ "/" +:+ suffix)
    /\ Sys.fd_lookup
         (sys (snd (create_iolog_dir Example.root
                      (fst (iolog_details_fill Example.exec_msg))
                      (Example.state0 []))))
         (iolog_dir_fd
            (closure (snd (create_iolog_dir Example.root
                             (fst (iolog_details_fill Example.exec_msg))
                             (Example.state0 [])))))
       = Some (j, dd).
Proof.
  destruct (create_iolog_dir_fresh Example.root
              (fst (iolog_details_fill Example.exec_msg))
              (Example.state0 [])
              (snd (create_iolog_dir Example.root
                      (fst (iolog_details_fill Example.exec_msg))
                      (Example.state0 []))))
    as (suffix & j & dd & Hlen & Hslash & Hdir & _ & _ & _ & _ & _ & Hfd & _).
  - vm_compute. reflexivity.
  - exists suffix, j, dd. split_and!; [exact Hlen|exact Hslash|exact Hdir|exact Hfd].
Defined.

(** X7.  When the template [IOLOG_DIR/host/user/XXXXXX] has [PATH_MAX]
    characters or more, [create_iolog_dir] fails without reaching
    [mkdtemp]: the only system calls it has made are [mkdir] calls with
    mode 0755, and no file has changed. *)
Theorem create_iolog_dir_path_max root details s :
  Sys.PATH_MAX
  <= Z.of_nat (String.length (root +:+ "/" +:+ str (d_submithost details)
                                +:+ "/" +:+ str (d_submituser details)
                                +:+ "/XXXXXX")) ->
  fst (create_iolog_dir root details s) = false
  /\ w_files (sys (snd (create_iolog_dir root details s))) = w_files (sys s)
  /\ exists calls,
       w_trace (sys (snd (create_iolog_dir root details s)))
       = w_trace (sys s) ++ calls
       /\ forall c, c ∈ calls -> exists path r, c = Mkdir path 493 r.
Proof.
  intros Hlong.
  assert (forall w1 w2 path r c1,
            w_files w1 = w_files (sys s) ->
            w_trace w1 = w_trace (sys s) ++ c1 ->
            (forall c, c ∈ c1 -> exists path r, c = Mkdir path 493 r) ->
            Sys.mkdir path 493 w1 = (r, w2) ->
            w_files w2 = w_files (sys s)
            /\ w_trace w2 = w_trace (sys s) ++ (c1 ++ [Mkdir path 493 r])
            /\ forall c, c ∈ c1 ++ [Mkdir path 493 r] ->
                 exists path r, c = Mkdir path 493 r) as Hstep.
  { intros w1 w2 path r c1 Hf Ht Hc Hm.
    apply mkdir_inv in Hm as (_ & Hf2 & _ & _ & Ht2 & _).
    split_and!.
    - by rewrite Hf2.
    - by rewrite Ht2, Ht, app_assoc.
    - intros c [Hin|Hin%list_elem_of_singleton]%elem_of_app; [by apply Hc|].
      subst c. eauto. }
  unfold create_iolog_dir.
  destruct (Sys.mkdir root 493 (sys s)) as [r1 w1] eqn:H1.
  apply (Hstep (sys s) w1 root r1 []) in H1 as (Hf1 & Ht1 & Hc1);
    [|done|by rewrite app_nil_r|by intros c Hin%elem_of_nil].
  destruct ((r1 =? -1) && negb (w_errno w1 =? Sys.EEXIST)).
  { simpl. rewrite free_files, free_trace. simpl. split_and!; [done|done|eauto]. }
  destruct (Sys.PATH_MAX <=? _).
  { simpl. rewrite free_files, free_trace. simpl. split_and!; [done|done|eauto]. }
  simpl sys.
  destruct (Sys.mkdir _ 493 w1) as [r2 w2] eqn:H2.
  apply (Hstep w1 w2 _ r2 _ Hf1 Ht1 Hc1) in H2 as (Hf2 & Ht2 & Hc2).
  destruct ((r2 =? -1) && negb (w_errno w2 =? Sys.EEXIST)).
  { simpl. rewrite free_files, free_trace. simpl. split_and!; [done|done|eauto]. }
  destruct (Sys.PATH_MAX <=? _).
  { simpl. rewrite free_files, free_trace. simpl. split_and!; [done|done|eauto]. }
  simpl sys.
  destruct (Sys.mkdir _ 493 w2) as [r3 w3] eqn:H3.
  apply (Hstep w2 w3 _ r3 _ Hf2 Ht2 Hc2) in H3 as (Hf3 & Ht3 & Hc3).
  destruct ((r3 =? -1) && negb (w_errno w3 =? Sys.EEXIST)).
  { simpl. rewrite free_files, free_trace. simpl. split_and!; [done|done|eauto]. }
  destruct (Sys.PATH_MAX <=? _) eqn:Hmax.
  { simpl. rewrite free_files, free_trace. simpl. split_and!; [done|done|eauto]. }
  apply Z.leb_gt in Hmax. lia.
Qed.

Lemma create_iolog_dir_path_max_witness :
  fst (create_iolog_dir Example.root
         (Details.set_submituser
            (string_of_list_ascii (replicate 4096 "u"%char))
            (fst (iolog_details_fill Example.exec_msg)))
         (Example.state0 [])) = false.
Proof.
  apply (create_iolog_dir_path_max Example.root
           (Details.set_submituser
              (string_of_list_ascii (replicate 4096 "u"%char))
              (fst (iolog_details_fill Example.exec_msg)))
           (Example.state0 [])).
  vm_compute. discriminate.
Defined.

(** ** Further properties of the files of a session *)

Lemma close_fds fd w :
  w_fds (snd (Sys.close fd w))
  = match Sys.fd_lookup w fd with
    | Some _ => delete (Z.to_nat fd) (w_fds w)
    | None => w_fds w
    end.
Proof. unfold Sys.close, Sys.failed. by destruct (Sys.fd_lookup w fd). Qed.

Lemma close_frame fd w :
  w_files (snd (Sys.close fd w)) = w_files w
  /\ w_dirs (snd (Sys.close fd w)) = w_dirs w
  /\ w_ofds (snd (Sys.close fd w)) = w_ofds w
  /\ w_debug (snd (Sys.close fd w)) = w_debug w.
Proof. unfold Sys.close, Sys.failed. by destruct (Sys.fd_lookup w fd). Qed.

(** After [close(fd)] the descriptor is not open; the others are as
    they were. *)
Lemma close_lookup fd w fd2 :
  Sys.fd_lookup (snd (Sys.close fd w)) fd2
  = if decide (fd2 = fd) then None else Sys.fd_lookup w fd2.
Proof.
  destruct (Sys.close fd w) as [r w'] eqn:Hc.
  pose proof (close_fds fd w) as Hfds.
  pose proof (close_frame fd w) as (_ & _ & Hofds & _).
  rewrite Hc in Hfds, Hofds. simpl in *.
  destruct (decide (fd2 = fd)) as [->|Hne].
  - destruct (Sys.fd_lookup w fd) as [[i d]|] eqn:Hfd.
    + unfold Sys.fd_lookup. rewrite Hfds, lookup_delete_eq.
      by destruct (fd <? 0).
    + rewrite <- Hfd. by apply fd_lookup_ext.
  - by apply close_inv in Hc as (_ & _ & _ & _ & ->).
Qed.

(** What a successful [iolog_details_write] leaves. *)
Lemma iolog_details_write_success details s s' j dd :
  Sys.fd_lookup (sys s) (iolog_dir_fd (closure s)) = Some (j, dd) ->
  iolog_details_write details s = (true, s') ->
  w_files (sys s) !! (ofd_path dd +:+ "/" +:+ "log") = None
  /\ w_files (sys s')
     = <[ofd_path dd +:+ "/" +:+ "log" := log_text details]> (w_files (sys s))
  /\ w_fds (sys s') = w_fds (sys s)
  /\ w_dirs (sys s') = w_dirs (sys s)
  /\ closure s' = closure s.
Proof.
  intros Hl. unfold iolog_details_write.
  destruct (Sys.openat _ _ _ _ _) as [fd w1] eqn:Ho.
  apply openat_creat_inv in Ho as (_ & Hd1 & Ho).
  destruct Ho as [(-> & _)|(j' & dd' & Hl' & _ & -> & Hnone & Hf1 & Hfds1 & Hofds1)].
  { simpl. done. }
  rewrite Hl in Hl'. injection Hl' as <- <-.
  set (dir := ofd_path dd) in *.
  set (fd := Z.of_nat (fresh (dom (w_fds (sys s))))) in *.
  set (i := fresh (dom (w_ofds (sys s)))) in *.
  set (d := mk_ofd (dir +:+ "/" +:+ "log") 0 false true false) in *.
  assert (Sys.fd_lookup w1 fd = Some (i, d)) as Hfd1.
  { eapply fd_lookup_fresh; [exact Hfds1|]. by rewrite Hofds1, lookup_insert_eq. }
  destruct (fd =? -1) eqn:Hneg; [apply Z.eqb_eq in Hneg; subst fd; lia|].
  destruct (Sys.fdopen fd w1) as [fp w2] eqn:Hfp.
  apply fdopen_inv in Hfp as (_ & Hd2 & Hf2 & Hofds2 & Hfds2 & Hfp).
  destruct Hfp as [-> | ->]; [done|].
  assert (forall fd', Sys.fd_lookup w2 fd' = Sys.fd_lookup w1 fd') as Hl2.
  { intros fd'. by apply fd_lookup_ext. }
  destruct (Sys.fflush _ w2) as [fp3 w3] eqn:Hflush.
  assert (Sys.fp_fd fp3 = fd /\ Sys.fp_buf fp3 = []
          /\ w_fds w3 = w_fds w1 /\ w_dirs w3 = w_dirs (sys s)
          /\ Sys.fd_lookup w3 fd <> None
          /\ (Sys.ferror fp3 = false ->
              w_files w3
              = <[dir +:+ "/" +:+ "log" := log_text details]> (w_files (sys s))))
    as (Hfd3 & Hbuf3 & Hfds3 & Hd3 & Hopen3 & Hf3).
  { revert Hflush. unfold Sys.fflush, Sys.fputs. simpl Sys.fp_buf.
    destruct (log_text details) as [|a text] eqn:Htext.
    { intros [= <- <-]. simpl. split_and!; try done.
      - by rewrite Hd2.
      - by rewrite Hl2, Hfd1.
      - intros _. by rewrite Hf2, Hf1. }
    simpl Sys.fp_fd.
    destruct (Sys.write fd (a :: text) w2) as [n w3'] eqn:Hw.
    intros [= <- <-]. simpl.
    apply write_inv in Hw
      as (_ & _ & Hdw & Hfdsw & [(-> & Hfw & Hofdsw)|(i' & d' & c & Hli & _ & Hc & Hn & Hfw & Hofdsw)]).
    - split_and!; try done.
      + by rewrite Hfdsw.
      + by rewrite Hdw, Hd2.
      + by rewrite (fd_lookup_ext w2 w3' fd Hfdsw Hofdsw), Hl2, Hfd1.
    - rewrite Hl2, Hfd1 in Hli. injection Hli as <- <-.
      split_and!; try done.
      + by rewrite Hfdsw.
      + by rewrite Hdw, Hd2.
      + intros Hnone'.
        apply fd_lookup_Some in Hfd1 as (H0 & Hfdi & Hdi).
        assert (Sys.fd_lookup w3' fd
                = Some (i, Sys.set_off (ofd_off d + n) d)) as Hopen.
        { apply fd_lookup_Some. rewrite Hfdsw, Hfds2, Hofdsw.
          by rewrite lookup_insert_eq. }
        congruence.
      + intros Hok. apply negb_false_iff, Z.eqb_eq in Hok. subst n.
        rewrite Hf2, Hf1 in Hc. simpl ofd_path in Hc, Hfw.
        rewrite lookup_insert_eq in Hc. injection Hc as <-.
        rewrite Hfw, Hf2, Hf1. simpl ofd_off.
        change (S (length text)) with (length (a :: text)).
        rewrite Nat2Z.id, firstn_all.
        change 0 with (Z.of_nat (length (@nil ascii))).
        rewrite write_at_end. simpl. by rewrite insert_insert_eq. }
  pose proof (fclose_inv fp3 w3 Hbuf3) as (_ & Hd4 & Hf4 & _ & _).
  assert (w_fds (Sys.fclose fp3 w3) = w_fds (sys s)) as Hfds4.
  { unfold Sys.fclose, Sys.fflush. rewrite Hbuf3, Hfd3. simpl.
    rewrite close_fds.
    destruct (Sys.fd_lookup w3 fd); [|done].
    rewrite Hfds3, Hfds1. unfold fd. rewrite Nat2Z.id.
    apply delete_insert_id. apply not_elem_of_dom, is_fresh. }
  destruct (Sys.ferror fp3) eqn:Herr; simpl; [done|].
  intros [= <-]. simpl. split_and!; try done.
  - by rewrite Hf4, Hf3.
  - by rewrite Hd4, Hd3.
Qed.

(** X8.  For details that have a submit user and a command, which are
    the strings the code prints without a test for NULL, and an [argc]
    within [argv]: when [iolog_details_write] returns true, the file
    [log] of the session directory did not exist before, it now holds
    exactly the header text (start time, submit user, run user or
    [RUNAS_DEFAULT], run group or nothing, terminal or [unknown], lines
    and columns on the first line, the working directory or [unknown] on
    the second, the command and [argv[1]] to [argv[argc - 1]] on the
    third), no other file has changed, and the descriptor used for it is
    closed again: the descriptor table is as it was. *)
Theorem iolog_details_write_log details s s' j dd user command :
  d_submituser details = Some user ->
  d_command details = Some command ->
  d_argc details <= Z.of_nat (length (d_argv details)) ->
  Sys.fd_lookup (sys s) (iolog_dir_fd (closure s)) = Some (j, dd) ->
  iolog_details_write details s = (true, s') ->
  w_files (sys s) !! (ofd_path dd +:+ "/" +:+ "log") = None
  /\ w_files (sys s')
     = <[ofd_path dd +:+ "/" +:+ "log" :=
           fmt_d (int64 (d_start_time details)) ++ chars ":"
             ++ chars user ++ chars ":"
             ++ chars (default RUNAS_DEFAULT (d_runuser details)) ++ chars ":"
             ++ chars (default "" (d_rungroup details)) ++ chars ":"
             ++ chars (default "unknown" (d_ttyname details)) ++ chars ":"
             ++ fmt_d (d_lines details) ++ chars ":"
             ++ fmt_d (d_columns details) ++ [NL]
             ++ chars (default "unknown" (d_cwd details)) ++ [NL]
             ++ chars command
             ++ concat (map (fun a => SP :: chars a)
                          (take (Z.to_nat (d_argc details - 1))
                             (drop 1 (d_argv details))))
             ++ [NL]]> (w_files (sys s))
  /\ w_fds (sys s') = w_fds (sys s)
  /\ w_dirs (sys s') = w_dirs (sys s)
  /\ closure s' = closure s.
Proof.
  intros Huser Hcommand _ Hdir Hrun.
  destruct (iolog_details_write_success _ _ _ _ _ Hdir Hrun)
    as (Hnew & Hfiles & Hrest).
  split; [done|]. split; [|done].
  rewrite Hfiles. unfold log_text. by rewrite Huser, Hcommand.
Qed.

Lemma iolog_details_write_log_witness :
  w_files (sys (snd (iolog_details_write
                       (fst (iolog_details_fill Example.exec_msg))
                       Example.dir_made)))
    !! (Example.session_dir +:+ "/log")
  = Some (chars "1000:alice:root::unknown:24:80" ++ [NL] ++ chars "unknown"
            ++ [NL] ++ chars "/bin/ls -l" ++ [NL]).
Proof.
  destruct (iolog_details_write_log
              (fst (iolog_details_fill Example.exec_msg))
              Example.dir_made
              (snd (iolog_details_write
                      (fst (iolog_details_fill Example.exec_msg))
                      Example.dir_made))
              0%nat (mk_ofd Example.session_dir 0 true false true)
              "alice" "/bin/ls")
    as (_ & Hfiles & _).
  - vm_compute. reflexivity.
  - vm_compute. reflexivity.
  - vm_compute. discriminate.
  - vm_compute. reflexivity.
  - vm_compute. reflexivity.
  - rewrite Hfiles. rewrite lookup_insert_eq. vm_compute. reflexivity.
Defined.

(** X9.  [iolog_open] never reuses a file: when the file of the stream
    is already in the session directory, whether from an earlier open of
    the same stream or not, the call returns false, changes no file, and
    leaves -1 in the descriptor slot of the stream, whatever the slot held
    before. *)
Theorem iolog_open_exclusive iofd name s j dd :
  iolog_names !! Z.to_nat iofd = Some name -> 0 <= iofd ->
  length (io_fds (closure s)) = 6%nat ->
  Sys.fd_lookup (sys s) (iolog_dir_fd (closure s)) = Some (j, dd) ->
  is_Some (w_files (sys s) !! (ofd_path dd +:+ "/" +:+ name)) ->
  fst (iolog_open iofd s) = false
  /\ w_files (sys (snd (iolog_open iofd s))) = w_files (sys s)
  /\ w_fds (sys (snd (iolog_open iofd s))) = w_fds (sys s)
  /\ Closure.io_fd (closure (snd (iolog_open iofd s))) iofd = -1.
Proof.
  intros Hname H0 Hlen Hl Hfile.
  pose proof (lookup_lt_Some _ _ _ Hname) as Hlt. simpl in Hlt.
  unfold iolog_open, IOFD_MAX.
  destruct (Z.ltb_spec iofd 0); [lia|].
  destruct (Z.leb_spec 6 iofd); [lia|]. simpl orb. cbv iota.
  rewrite Hname. simpl default.
  destruct (Sys.openat _ _ _ _ _) as [fd w1] eqn:Ho.
  apply openat_creat_inv in Ho as (_ & _ & Ho).
  destruct Ho as [(-> & Hf & Hfds & _)
                 |(j' & dd' & Hl' & _ & _ & Hnone & _)].
  2: { rewrite Hl in Hl'. injection Hl' as <- <-.
       rewrite Hnone in Hfile. by destruct Hfile. }
  simpl.
  assert (Closure.io_fd
            (Closure.set_io_fds (<[Z.to_nat iofd:=-1]> (io_fds (closure s)))
               (closure s)) iofd = -1) as Hio.
  { unfold Closure.io_fd, IOFD_MAX.
    destruct (Z.leb_spec 0 iofd), (Z.ltb_spec iofd 6); try lia. simpl.
    rewrite list_lookup_insert_eq by lia. done. }
  rewrite Hio. done.
Qed.

(** A second open of stdout on the session just opened. *)
Lemma iolog_open_exclusive_witness :
  Closure.io_fd (closure (snd (iolog_open IOFD_STDOUT Example.opened)))
    IOFD_STDOUT = -1.
Proof.
  apply (iolog_open_exclusive IOFD_STDOUT "stdout" Example.opened 0%nat
           (mk_ofd Example.session_dir 0 true false true)).
  - reflexivity.
  - discriminate.
  - vm_compute. reflexivity.
  - vm_compute. reflexivity.
  - exists []. vm_compute. reflexivity.
Defined.

Lemma iolog_close_fold l : forall w,
  let w' := fold_left (fun w fd => if fd =? -1 then w
                                   else snd (Sys.close fd w)) l w in
  w_files w' = w_files w /\ w_dirs w' = w_dirs w /\ w_ofds w' = w_ofds w
  /\ w_debug w' = w_debug w
  /\ forall fd, Sys.fd_lookup w' fd
                = if bool_decide (fd ∈ l) then None else Sys.fd_lookup w fd.
Proof.
  induction l as [|fd0 l IH]; intros w; simpl.
  { split_and!; try done. }
  destruct (IH (if fd0 =? -1 then w else snd (Sys.close fd0 w)))
    as (Hf & Hd & Ho & Hdbg & Hl).
  assert (w_files (if fd0 =? -1 then w else snd (Sys.close fd0 w)) = w_files w
          /\ w_dirs (if fd0 =? -1 then w else snd (Sys.close fd0 w)) = w_dirs w
          /\ w_ofds (if fd0 =? -1 then w else snd (Sys.close fd0 w)) = w_ofds w
          /\ w_debug (if fd0 =? -1 then w else snd (Sys.close fd0 w))
             = w_debug w) as (Hf0 & Hd0 & Ho0 & Hdbg0).
  { destruct (fd0 =? -1); [done|]. apply close_frame. }
  split_and!; try congruence.
  intros fd. rewrite Hl.
  destruct (decide (fd ∈ l)) as [Hin|Hnin].
  { rewrite !bool_decide_eq_true_2; [done|by apply elem_of_cons; right|done]. }
  rewrite (bool_decide_eq_false_2 (fd ∈ l)) by done.
  destruct (decide (fd = fd0)) as [->|Hne].
  - rewrite bool_decide_eq_true_2 by (by apply elem_of_cons; left).
    destruct (fd0 =? -1) eqn:H1.
    + apply Z.eqb_eq in H1. by subst fd0.
    + rewrite close_lookup. by rewrite decide_True.
  - rewrite bool_decide_eq_false_2 by (by intros [?|?]%elem_of_cons).
    destruct (fd0 =? -1); [done|].
    rewrite close_lookup. by rewrite decide_False.
Qed.

(** X10.  [iolog_close] closes every descriptor the closure holds: after
    it none of the [io_fds] and not [iolog_dir_fd] is open, every other
    descriptor is as it was, and no file, directory or field of the
    closure has changed (the slots keep the numbers of the descriptors
    that are now closed). *)
Theorem iolog_close_closes s :
  closure (iolog_close s) = closure s
  /\ w_files (sys (iolog_close s)) = w_files (sys s)
  /\ w_dirs (sys (iolog_close s)) = w_dirs (sys s)
  /\ forall fd,
       Sys.fd_lookup (sys (iolog_close s)) fd
       = if bool_decide (fd ∈ io_fds (closure s))
            || bool_decide (fd = iolog_dir_fd (closure s))
         then None
         else Sys.fd_lookup (sys s) fd.
Proof.
  unfold iolog_close.
  destruct (iolog_close_fold (io_fds (closure s)) (sys s))
    as (Hf & Hd & Ho & _ & Hl).
  set (w1 := fold_left _ _ _) in *. simpl.
  split; [done|].
  destruct (iolog_dir_fd (closure s) =? -1) eqn:Hdir.
  - apply Z.eqb_eq in Hdir. split_and!; try done.
    intros fd. rewrite Hl.
    destruct (bool_decide (fd ∈ io_fds (closure s))); [done|]. simpl.
    destruct (bool_decide (fd = iolog_dir_fd (closure s))) eqn:Heq; [|done].
    apply bool_decide_eq_true in Heq. rewrite Heq, Hdir. done.
  - pose proof (close_frame (iolog_dir_fd (closure s)) w1) as (Hf2 & Hd2 & _).
    split_and!; try congruence.
    intros fd. rewrite close_lookup, Hl.
    destruct (decide (fd = iolog_dir_fd (closure s))) as [->|Hne].
    + rewrite (bool_decide_eq_true_2 (_ = _)) by done. by rewrite orb_true_r.
    + rewrite (bool_decide_eq_false_2 (fd = _)) by done. by rewrite orb_false_r.
Qed.

(** X11.  [iolog_write] on a valid stream index makes exactly one
    [write(2)] call on the descriptor of the stream with the whole
    buffer, and returns true exactly when that call wrote all of it: a
    short write is a failure and is not retried. *)
Theorem iolog_write_once iofd buf s :
  0 <= iofd < IOFD_MAX ->
  Z.of_nat (length buf) < 18446744073709551615 ->
  closure (snd (iolog_write iofd buf s)) = closure s
  /\ exists n,
       w_trace (sys (snd (iolog_write iofd buf s)))
       = w_trace (sys s) ++ [Write (Closure.io_fd (closure s) iofd) buf n]
       /\ -1 <= n <= Z.of_nat (length buf)
       /\ (fst (iolog_write iofd buf s) = true <-> n = Z.of_nat (length buf)).
Proof.
  intros Hrange Hlen. split; [apply iolog_write_closure|].
  unfold iolog_write.
  destruct (Z.ltb_spec iofd 0); [lia|].
  destruct (Z.leb_spec IOFD_MAX iofd); [lia|]. simpl orb. cbv iota.
  destruct (Sys.write _ _ _) as [n w'] eqn:Hw. simpl.
  exists n.
  apply write_inv in Hw
    as (Ht & _ & _ & _ & [(-> & _)|(i & d & c & _ & _ & _ & Hn & _)]).
  - split; [done|]. split; [lia|].
    rewrite size_t_neg1, size_t_id by (unfold in_size_t; lia).
    rewrite Z.eqb_eq. lia.
  - split; [done|]. split; [lia|].
    rewrite !size_t_id by (unfold in_size_t; lia).
    by rewrite Z.eqb_eq.
Qed.

(** A write that the environment cuts to three bytes. *)
Lemma iolog_write_once_witness :
  fst (iolog_write IOFD_STDOUT (chars "total 0")
         (with_sys (Sys.set_script [Partial 3] (sys Example.opened))
            Example.opened)) = false.
Proof.
  destruct (iolog_write_once IOFD_STDOUT (chars "total 0")
              (with_sys (Sys.set_script [Partial 3] (sys Example.opened))
                 Example.opened)) as (_ & n & Ht & _ & Hok).
  - unfold IOFD_STDOUT, IOFD_MAX. lia.
  - vm_compute. reflexivity.
  - destruct (fst (iolog_write IOFD_STDOUT (chars "total 0")
                     (with_sys (Sys.set_script [Partial 3] (sys Example.opened))
                        Example.opened))) eqn:Hr; [|reflexivity].
    exfalso.
    assert (n = 3) as ->.
    { apply app_inv_head in Ht. vm_compute in Ht. by injection Ht as <-. }
    by pose proof (proj1 Hok eq_refl).
Defined.

(** ** Further properties of the append engine *)

Lemma chars_length s : length (chars s) = String.length s.
Proof. unfold chars. induction s as [|c s IH]; simpl; [done|]. by rewrite IH. Qed.

Lemma suspend_line_length msg :
  (String.length (cs_signal msg) + 5 <= length (suspend_line msg)
   <= String.length (cs_signal msg) + 67)%nat.
Proof.
  unfold suspend_line. rewrite !length_app, chars_length. simpl.
  pose proof (fmt_delay_length (cs_delay msg)).
  pose proof (fmt_d_length IO_EVENT_SUSPEND).
  assert (1 <= length (fmt_d IO_EVENT_SUSPEND))%nat by (vm_compute; lia).
  assert (1 <= length (fmt_delay (cs_delay msg)))%nat.
  { unfold fmt_delay. rewrite !length_app. simpl. lia. }
  lia.
Qed.

(** X12.  [store_suspend] on a session whose timing file is open, in an
    environment that lets the write through, with a signal name of at
    most 956 characters: it returns 0, appends the line
    [event SP sec.nsec SP signal NL] to the timing file, with the signal
    name as given, and advances the elapsed time by the delay: from a
    normalised elapsed time and a delay with non-negative nanoseconds,
    the new nanoseconds are the sum of the two modulo 10^9 and the new
    seconds the sum of the two plus the whole seconds carried, in 64
    bits.  Its only system call is that write on the timing descriptor,
    and the only file that changes is the one behind it. *)
Theorem store_suspend_appends msg s path content :
  wf_TimeSpec (cs_delay msg) ->
  (String.length (cs_signal msg) <= 956)%nat ->
  stream_at_end s IOFD_TIMING path content ->
  healthy (sys s) ->
  exists s',
    store_suspend msg s = (0, s')
    /\ w_files (sys s') =
         <[path := content ++ fmt_d IO_EVENT_SUSPEND ++ [SP]
                     ++ fmt_d (msg_tv_sec (cs_delay msg)) ++ chars "."
                     ++ fmt_09d (msg_tv_nsec (cs_delay msg)) ++ [SP]
                     ++ chars (cs_signal msg) ++ [NL]]> (w_files (sys s))
    /\ elapsed_time (closure s') =
         update_elapsed_time (cs_delay msg) (elapsed_time (closure s))
    /\ w_trace (sys s') =
         w_trace (sys s)
           ++ [Write (Closure.io_fd (closure s) IOFD_TIMING) (suspend_line msg)
                 (Z.of_nat (length (suspend_line msg)))]
    /\ (0 <= tv_nsec (elapsed_time (closure s)) < NSEC_PER_SEC ->
        0 <= msg_tv_nsec (cs_delay msg) ->
        tv_sec (elapsed_time (closure s'))
        = int64 (tv_sec (elapsed_time (closure s))
                 + msg_tv_sec (cs_delay msg)
                 + (tv_nsec (elapsed_time (closure s))
                    + msg_tv_nsec (cs_delay msg)) / NSEC_PER_SEC)
        /\ tv_nsec (elapsed_time (closure s'))
           = (tv_nsec (elapsed_time (closure s))
              + msg_tv_nsec (cs_delay msg)) mod NSEC_PER_SEC).
Proof.
  intros [Hs Hn] Hsig (i & d & Hfd & Hwr & Hpath & Hoff & Hfile) Hh.
  subst path.
  destruct (write_healthy _ (suspend_line msg) _ _ _ _ Hh Hfd Hwr Hfile)
    as (w' & Hw & Htr & _ & _ & _ & Hfiles & _).
  pose proof (suspend_line_length msg) as [_ Hlen].
  unfold store_suspend.
  destruct (Z.ltb_spec (Z.of_nat (length (suspend_line msg))) 0); [lia|].
  destruct (Z.leb_spec sizeof_tbuf (Z.of_nat (length (suspend_line msg))));
    [unfold sizeof_tbuf in *; lia|].
  simpl orb. cbv iota.
  unfold iolog_write. simpl ((_ <? _) || _). cbv iota. rewrite Hw.
  rewrite Z.eqb_refl. simpl.
  eexists. split; [reflexivity|]. simpl. split_and!; try done.
  - rewrite Hfiles, Hoff, write_at_end. unfold suspend_line, fmt_delay.
    rewrite int64_id, int32_id by done. by rewrite <- !app_assoc.
  - intros He Hd.
    rewrite update_elapsed_time_exact; [done|done|].
    split; [done|]. apply Hn.
Qed.

(** A suspension by SIGTSTP on the session just opened. *)
Lemma store_suspend_appends_witness :
  exists s',
    store_suspend (mk_CommandSuspend (mk_TimeSpec 2 5) "TSTP") Example.opened
    = (0, s')
    /\ w_files (sys s') !! (Example.session_dir +:+ "/timing")
       = Some (fmt_d IO_EVENT_SUSPEND ++ chars " 2.000000005 TSTP" ++ [NL])
    /\ tv_nsec (elapsed_time (closure s'))
       = (tv_nsec (elapsed_time (closure Example.opened)) + 5)
           mod NSEC_PER_SEC.
Proof.
  destruct (store_suspend_appends
              (mk_CommandSuspend (mk_TimeSpec 2 5) "TSTP") Example.opened
              (Example.session_dir +:+ "/timing") [])
    as (s' & Hr & Hf & _ & _ & Hel).
  - vm_compute. repeat split; discriminate.
  - vm_compute. lia.
  - eexists _, _. vm_compute. split_and!; reflexivity.
  - vm_compute. exact I.
  - exists s'. split; [exact Hr|]. split.
    + rewrite Hf, lookup_insert_eq. reflexivity.
    + apply Hel.
      * vm_compute. split; [discriminate|reflexivity].
      * vm_compute. discriminate.
Defined.

(** X13.  A signal name of 1024 characters or more does not fit the
    timing buffer: [store_suspend] returns -1 after the debug message
    alone; it makes no system call, writes nothing and leaves the elapsed
    time as it was. *)
Theorem store_suspend_too_long msg s :
  (1024 <= String.length (cs_signal msg))%nat ->
  store_suspend msg s
  = (-1, say (dbg_text "unable to format timing buffer") s).
Proof.
  intros Hsig. pose proof (suspend_line_length msg) as [Hlen _].
  unfold store_suspend.
  destruct (Z.leb_spec sizeof_tbuf (Z.of_nat (length (suspend_line msg))));
    [|unfold sizeof_tbuf in *; lia].
  by rewrite orb_true_r.
Qed.

Lemma store_suspend_too_long_witness :
  fst (store_suspend
         (mk_CommandSuspend (mk_TimeSpec 0 0)
            (string_of_list_ascii (replicate 1024 "S"%char)))
         Example.opened) = -1.
Proof.
  rewrite (store_suspend_too_long
             (mk_CommandSuspend (mk_TimeSpec 0 0)
                (string_of_list_ascii (replicate 1024 "S"%char)))
             Example.opened).
  - reflexivity.
  - vm_compute. lia.
Defined.

(** ** Further properties of the restart *)

(** X14.  A session whose timing file is empty or absent cannot be
    restarted: [iolog_restart] returns false for every resume point, the
    zero resume point included, because the replay loop reads a record
    before it compares the elapsed time with the target. *)
Theorem iolog_restart_no_records msg s :
  default [] (w_files (sys s) !! (log_id msg +:+ "/timing")) = [] ->
  fst (iolog_restart msg s) = false.
Proof.
  intros Hempty.
  destruct (iolog_restart msg s) as [ok s'] eqn:Hrun. simpl.
  destruct (iolog_restart_inv _ _ _ _ Hrun) as (msgs & _ & Hcase).
  assert (forall timing recs pos,
            recs <> [] ->
            reconciled (log_id msg) true s s' timing recs pos
            \/ reconciled (log_id msg) false s s' timing recs pos ->
            False) as Hno.
  { intros timing recs pos Hne [(Ht & Hr & _)|(Ht & Hr & _)];
      rewrite Ht in Hempty; simpl in Hempty; subst timing;
      (destruct recs as [|r recs]; [done|]); simpl length in Hr;
      by rewrite read_records_S in Hr. }
  destruct Hcase as [(_ & _ & _ & timing & recs & pos & Hne & _ & Hrec)
                    |[(_ & _ & _ & _ & timing & recs & pos & Hne & _ & Hrec)
                     |(-> & _)]]; [| |done].
  - exfalso. eapply Hno; eauto.
  - exfalso. eapply Hno; eauto.
Qed.

(** The session just opened has no record yet: it cannot be restarted
    at time zero. *)
Lemma iolog_restart_no_records_witness :
  fst (iolog_restart (mk_RestartMessage Example.session_dir (mk_TimeSpec 0 0))
         (mk_state Example.closure0 (sys (iolog_close Example.opened))))
  = false.
Proof.
  apply (iolog_restart_no_records
           (mk_RestartMessage Example.session_dir (mk_TimeSpec 0 0))
           (mk_state Example.closure0 (sys (iolog_close Example.opened)))).
  vm_compute. reflexivity.
Defined.

(** ** The whole of a session open *)

(** The descriptor a successful [create_iolog_dir] leaves open. *)
Lemma create_iolog_dir_fds root details s s' :
  create_iolog_dir root details s = (true, s') ->
  exists k,
    iolog_dir_fd (closure s') = Z.of_nat (fresh (dom (w_fds (sys s))))
    /\ w_fds (sys s') = <[fresh (dom (w_fds (sys s))) := k]> (w_fds (sys s))
    /\ w_dirs (sys s) ⊆ w_dirs (sys s').
Proof.
  intros Hrun.
  pose proof (create_iolog_dir_keeps _ _ _ _ _ Hrun) as (Hsub & _).
  revert Hrun. unfold create_iolog_dir.
  destruct (Sys.mkdir root 493 (sys s)) as [r1 w1] eqn:H1.
  apply mkdir_inv in H1 as (_ & _ & Hfds1 & _).
  destruct ((r1 =? -1) && negb (w_errno w1 =? Sys.EEXIST)); [done|].
  destruct (Sys.PATH_MAX <=? _); [done|].
  simpl sys.
  destruct (Sys.mkdir _ 493 w1) as [r2 w2] eqn:H2.
  apply mkdir_inv in H2 as (_ & _ & Hfds2 & _).
  destruct ((r2 =? -1) && negb (w_errno w2 =? Sys.EEXIST)); [done|].
  destruct (Sys.PATH_MAX <=? _); [done|].
  simpl sys.
  destruct (Sys.mkdir _ 493 w2) as [r3 w3] eqn:H3.
  apply mkdir_inv in H3 as (_ & _ & Hfds3 & _).
  destruct ((r3 =? -1) && negb (w_errno w3 =? Sys.EEXIST)); [done|].
  destruct (Sys.PATH_MAX <=? _); [done|].
  simpl sys.
  destruct (Sys.mkdtemp _ w3) as [made w4] eqn:H4.
  apply mkdtemp_inv in H4 as (_ & _ & Hfds4 & _).
  destruct made as [path|]; [|done].
  simpl sys.
  destruct (Sys.strdup _ w4) as [copy w5] eqn:H5.
  apply strdup_inv in H5 as (_ & _ & _ & _ & Hfds5 & _).
  destruct copy as [dir|]; [|done].
  simpl sys.
  destruct (Sys.open _ Sys.O_RDONLY w5) as [fd w6] eqn:H6.
  apply open_rdonly_inv in H6 as (_ & _ & _ & _ & H6).
  destruct (fd =? -1) eqn:Hfd; [done|]. apply Z.eqb_neq in Hfd.
  intros [= <-]. simpl.
  destruct H6 as [(-> & _)|(d & -> & _ & _ & _ & Hfds & _)]; [done|].
  rewrite Hfds5, Hfds4, Hfds3, Hfds2, Hfds1 in Hfds.
  rewrite Hfds5, Hfds4, Hfds3, Hfds2, Hfds1. eauto.
Qed.

(** The descriptor a successful [iolog_open] leaves open. *)
Lemma iolog_open_fds iofd s s' :
  (Z.to_nat iofd < length (io_fds (closure s)))%nat ->
  iolog_open iofd s = (true, s') ->
  exists k d,
    io_fds (closure s')
    = <[Z.to_nat iofd := Z.of_nat (fresh (dom (w_fds (sys s))))]>
        (io_fds (closure s))
    /\ w_fds (sys s') = <[fresh (dom (w_fds (sys s))) := k]> (w_fds (sys s))
    /\ w_dirs (sys s') = w_dirs (sys s)
    /\ Sys.fd_lookup (sys s') (Z.of_nat (fresh (dom (w_fds (sys s)))))
       = Some (k, d).
Proof.
  intros Hlen Hrun.
  apply iolog_open_inv in Hrun as (_ & _ & _ & Hok).
  destruct (Hok eq_refl) as (Hrange & fd & Ho & Hio & Hfd).
  apply openat_creat_inv in Ho as (_ & Hd & Ho).
  destruct Ho as [(-> & _)|(j & dd & _ & _ & -> & _ & _ & Hfds & Hofds)].
  { exfalso. apply Hfd. unfold Closure.io_fd.
    destruct (Z.leb_spec 0 iofd), (Z.ltb_spec iofd IOFD_MAX); try lia.
    simpl. by rewrite Hio, list_lookup_insert_eq. }
  eexists _, _. split_and!; try done.
  eapply fd_lookup_fresh; [exact Hfds|].
  by rewrite Hofds, lookup_insert_eq.
Qed.

Lemma iolog_open_keeps iofd s s' fd i d :
  iolog_open iofd s = (true, s') ->
  Sys.fd_lookup (sys s) fd = Some (i, d) ->
  Sys.fd_lookup (sys s') fd = Some (i, d).
Proof.
  intros Hrun Hl.
  apply iolog_open_inv in Hrun as (_ & _ & _ & Hok).
  destruct (Hok eq_refl) as (_ & r & Ho & _ & _).
  apply openat_creat_inv in Ho as (_ & _ & Ho).
  destruct Ho as [(_ & _ & Hfds & Hofds)
                 |(j & dd & _ & _ & _ & _ & _ & Hfds & Hofds)].
  - rewrite <- Hl. by apply fd_lookup_ext.
  - eapply (fd_lookup_install (sys s) (sys s')); [done|done|by left].
Qed.

(** Five descriptors installed one after the other and then closed, in
    any order, leave the table as it was. *)
Lemma install_close_all (M : gmap nat nat) k0 k1 k2 k3 k4 :
  let n0 := fresh (dom M) in
  let M1 := <[n0 := k0]> M in
  let n1 := fresh (dom M1) in
  let M2 := <[n1 := k1]> M1 in
  let n2 := fresh (dom M2) in
  let M3 := <[n2 := k2]> M2 in
  let n3 := fresh (dom M3) in
  let M4 := <[n3 := k3]> M3 in
  let n4 := fresh (dom M4) in
  let M5 := <[n4 := k4]> M4 in
  delete n0 (delete n1 (delete n4 (delete n3 (delete n2 M5)))) = M.
Proof.
  intros n0 M1 n1 M2 n2 M3 n3 M4 n4 M5.
  assert (M !! n0 = None) as H0 by apply not_elem_of_dom, is_fresh.
  assert (M1 !! n1 = None) as H1 by apply not_elem_of_dom, is_fresh.
  assert (M2 !! n2 = None) as H2 by apply not_elem_of_dom, is_fresh.
  assert (M3 !! n3 = None) as H3 by apply not_elem_of_dom, is_fresh.
  assert (M4 !! n4 = None) as H4 by apply not_elem_of_dom, is_fresh.
  apply map_eq. intros k.
  destruct (decide (k = n0)) as [->|N0]; [by rewrite lookup_delete_eq|].
  rewrite lookup_delete_ne by done.
  destruct (decide (k = n1)) as [->|N1].
  { rewrite lookup_delete_eq. subst M1. by rewrite lookup_insert_ne in H1. }
  rewrite lookup_delete_ne by done.
  destruct (decide (k = n4)) as [->|N4].
  { rewrite lookup_delete_eq. subst M4 M3 M2 M1.
    destruct (decide (n3 = n4)) as [E|?]; [rewrite <- E in *|].
    { by rewrite lookup_insert_eq in H4. }
    rewrite lookup_insert_ne in H4 by done.
    destruct (decide (n2 = n4)) as [E|?]; [rewrite <- E in *|].
    { by rewrite lookup_insert_eq in H4. }
    rewrite lookup_insert_ne in H4 by done.
    by rewrite !lookup_insert_ne in H4 by done. }
  rewrite lookup_delete_ne by done.
  destruct (decide (k = n3)) as [->|N3].
  { rewrite lookup_delete_eq. subst M3 M2 M1.
    destruct (decide (n2 = n3)) as [E|?]; [rewrite <- E in *|].
    { by rewrite lookup_insert_eq in H3. }
    rewrite lookup_insert_ne in H3 by done.
    destruct (decide (n1 = n3)) as [E|?]; [rewrite <- E in *|].
    { by rewrite lookup_insert_eq in H3. }
    rewrite lookup_insert_ne in H3 by done.
    by rewrite lookup_insert_ne in H3 by done. }
  rewrite lookup_delete_ne by done.
  destruct (decide (k = n2)) as [->|N2].
  { rewrite lookup_delete_eq. subst M2 M1.
    destruct (decide (n1 = n2)) as [E|?]; [rewrite <- E in *|].
    { by rewrite lookup_insert_eq in H2. }
    rewrite lookup_insert_ne in H2 by done.
    by rewrite lookup_insert_ne in H2 by done. }
  rewrite lookup_delete_ne by done.
  subst M5 M4 M3 M2 M1. by rewrite !lookup_insert_ne by done.
Qed.

(** What a successful [iolog_init] leaves. *)
Lemma iolog_init_success root msg s s' :
  iolog_init root msg s = (true, s') ->
  exists dir k0 k1 k2 k3 k4,
    let M := w_fds (sys s) in
    let n0 := fresh (dom M) in
    let M1 := <[n0 := k0]> M in
    let n1 := fresh (dom M1) in
    let M2 := <[n1 := k1]> M1 in
    let n2 := fresh (dom M2) in
    let M3 := <[n2 := k2]> M2 in
    let n3 := fresh (dom M3) in
    let M4 := <[n3 := k3]> M3 in
    let n4 := fresh (dom M4) in
    iolog_dir (closure s') = Some dir
    /\ (dir ∉ w_dirs (sys s)) /\ dir ∈ w_dirs (sys s')
    /\ w_dirs (sys s) ⊆ w_dirs (sys s')
    /\ iolog_dir_fd (closure s') = Z.of_nat n0
    /\ io_fds (closure s')
       = [-1; Z.of_nat n2; Z.of_nat n3; -1; Z.of_nat n4; Z.of_nat n1]
    /\ w_fds (sys s') = <[n4 := k4]> M4
    /\ (forall n, n ∈ [n0; n1; n2; n3; n4] ->
          is_Some (Sys.fd_lookup (sys s') (Z.of_nat n)))
    /\ w_files (sys s')
       = <[dir +:+ "/" +:+ "ttyout" := []]>
           (<[dir +:+ "/" +:+ "stderr" := []]>
              (<[dir +:+ "/" +:+ "stdout" := []]>
                 (<[dir +:+ "/" +:+ "timing" := []]>
                    (<[dir +:+ "/" +:+ "log"
                         := log_text (fst (iolog_details_fill msg))]>
                       (w_files (sys s)))))).
Proof.
  unfold iolog_init.
  set (s0 := with_closure _ s).
  destruct (iolog_details_fill msg) as [details ok].
  destruct ok; simpl; [|done].
  destruct (create_iolog_dir root details s0) as [ok s1] eqn:Hdir.
  destruct ok; simpl; [|done].
  pose proof (create_iolog_dir_fds _ _ _ _ Hdir) as (k0 & Hdfd & Hfds1 & Hsub).
  pose proof (create_iolog_dir_success _ _ _ _ Hdir)
    as (sfx & _ & _ & _ & _ & Hd1' & _ & _ & _ & Hin1 & _).
  apply create_iolog_dir_ok in Hdir
    as (dir & j & dd & Hd1 & Hl1 & Hp & _ & Hne & Hnew & Hf1 & Hio1 & _).
  rewrite Hd1 in Hd1'. injection Hd1' as Hd1'. rewrite <- Hd1' in Hin1.
  change (sys s0) with (sys s) in *.
  change (io_fds (closure s0)) with (replicate 6 (-1)) in Hio1.
  destruct (iolog_details_write details s1) as [ok s2] eqn:Hlog.
  destruct ok; simpl; [|done].
  pose proof (iolog_details_write_success _ _ _ _ _ Hl1 Hlog)
    as (_ & Hf2 & Hfds2 & Hdirs2 & _).
  eapply iolog_details_write_ok in Hlog as (Hc2 & Hl2 & _); [|done..].
  rewrite Hp in Hf2.
  destruct (iolog_open IOFD_TIMING s2) as [ok s3] eqn:H3.
  destruct ok; simpl; [|done].
  pose proof (iolog_open_fds IOFD_TIMING s2 s3
                ltac:(rewrite Hc2, Hio1; vm_compute; lia) H3)
    as (k1 & d1 & Hi3 & Hfds3 & Hdirs3 & Hn1).
  pose proof (iolog_open_keeps _ _ _ _ _ _ H3 Hl2) as Hk03.
  eapply (iolog_open_ok _ _ _ dir j dd "timing") in H3
    as (Hfd3 & Hd3 & Hl3 & _ & Hf3 & _);
    [|exact Hl2|exact Hp|done|rewrite Hc2, Hio1; vm_compute; lia].
  destruct (iolog_open IOFD_STDOUT s3) as [ok s4] eqn:H4.
  destruct ok; simpl; [|done].
  pose proof (iolog_open_fds IOFD_STDOUT s3 s4
                ltac:(rewrite Hi3, Hc2, Hio1; vm_compute; lia) H4)
    as (k2 & d2 & Hi4 & Hfds4 & Hdirs4 & Hn2).
  pose proof (iolog_open_keeps _ _ _ _ _ _ H4 Hn1) as Hk14.
  eapply (iolog_open_ok _ _ _ dir j dd "stdout") in H4
    as (Hfd4 & Hd4 & Hl4 & _ & Hf4 & _);
    [|exact Hl3|exact Hp|done|rewrite Hi3, Hc2, Hio1; vm_compute; lia].
  destruct (iolog_open IOFD_STDERR s4) as [ok s5] eqn:H5.
  destruct ok; simpl; [|done].
  pose proof (iolog_open_fds IOFD_STDERR s4 s5
                ltac:(rewrite Hi4, Hi3, Hc2, Hio1; vm_compute; lia) H5)
    as (k3 & d3 & Hi5 & Hfds5 & Hdirs5 & Hn3).
  pose proof (iolog_open_keeps _ _ _ _ _ _ H5 Hk14) as Hk15.
  pose proof (iolog_open_keeps _ _ _ _ _ _ H5 Hn2) as Hk25.
  eapply (iolog_open_ok _ _ _ dir j dd "stderr") in H5
    as (Hfd5 & Hd5 & Hl5 & _ & Hf5 & _);
    [|exact Hl4|exact Hp|done
     |rewrite Hi4, Hi3, Hc2, Hio1; vm_compute; lia].
  destruct (iolog_open IOFD_TTYOUT s5) as [ok s6] eqn:H6.
  destruct ok; simpl; [|done].
  pose proof (iolog_open_fds IOFD_TTYOUT s5 s6
                ltac:(rewrite Hi5, Hi4, Hi3, Hc2, Hio1; vm_compute; lia) H6)
    as (k4 & d4 & Hi6 & Hfds6 & Hdirs6 & Hn4).
  pose proof (iolog_open_keeps _ _ _ _ _ _ H6 Hk15) as Hk16.
  pose proof (iolog_open_keeps _ _ _ _ _ _ H6 Hk25) as Hk26.
  pose proof (iolog_open_keeps _ _ _ _ _ _ H6 Hn3) as Hk36.
  eapply (iolog_open_ok _ _ _ dir j dd "ttyout") in H6
    as (Hfd6 & Hd6 & Hl6 & _ & Hf6 & _);
    [|exact Hl5|exact Hp|done
     |rewrite Hi5, Hi4, Hi3, Hc2, Hio1; vm_compute; lia].
  intros [= <-].
  rewrite Hfds2, Hfds1 in Hfds3. rewrite Hfds2, Hfds1 in Hi3, Hn1, Hk14, Hk15, Hk16.
  rewrite Hfds3 in Hfds4, Hi4, Hn2, Hk25, Hk26.
  rewrite Hfds4 in Hfds5, Hi5, Hn3, Hk36.
  rewrite Hfds5 in Hfds6, Hi6, Hn4.
  exists dir, k0, k1, k2, k3, k4. cbv zeta.
  split_and!.
  - by rewrite Hd6, Hd5, Hd4, Hd3, Hc2.
  - done.
  - by rewrite Hdirs6, Hdirs5, Hdirs4, Hdirs3, Hdirs2.
  - by rewrite Hdirs6, Hdirs5, Hdirs4, Hdirs3, Hdirs2.
  - by rewrite Hfd6, Hfd5, Hfd4, Hfd3, Hc2.
  - rewrite Hi6, Hi5, Hi4, Hi3, Hc2, Hio1. reflexivity.
  - done.
  - intros n Hn.
    repeat (apply elem_of_cons in Hn as [->|Hn]); [..|by apply elem_of_nil in Hn];
      eauto.
    rewrite <- Hdfd, <- Hc2, <- Hfd3, <- Hfd4, <- Hfd5, <- Hfd6. eauto.
  - by rewrite Hf6, Hf5, Hf4, Hf3, Hf2, Hf1.
Qed.

(** X15.  A successful [iolog_init] adds exactly five files, all in the
    session directory it has made: [log] with the header text of the
    message, and [timing], [stdout], [stderr] and [ttyout], empty.  Every
    other file is as it was, and the session directory is new. *)
Theorem iolog_init_files root msg s s' :
  iolog_init root msg s = (true, s') ->
  exists dir,
    iolog_dir (closure s') = Some dir
    /\ (dir ∉ w_dirs (sys s)) /\ dir ∈ w_dirs (sys s')
    /\ w_files (sys s')
       = <[dir +:+ "/" +:+ "ttyout" := []]>
           (<[dir +:+ "/" +:+ "stderr" := []]>
              (<[dir +:+ "/" +:+ "stdout" := []]>
                 (<[dir +:+ "/" +:+ "timing" := []]>
                    (<[dir +:+ "/" +:+ "log"
                         := log_text (fst (iolog_details_fill msg))]>
                       (w_files (sys s)))))).
Proof.
  intros Hrun.
  destruct (iolog_init_success _ _ _ _ Hrun)
    as (dir & k0 & k1 & k2 & k3 & k4 & Hd & Hnew & Hin & _ & _ & _ & _ & _ & Hf).
  exists dir. split_and!; done.
Qed.

Lemma iolog_init_files_witness :
  exists dir,
    iolog_dir (closure Example.opened) = Some dir
    /\ w_files (sys Example.opened)
       = <[dir +:+ "/" +:+ "ttyout" := []]>
           (<[dir +:+ "/" +:+ "stderr" := []]>
              (<[dir +:+ "/" +:+ "stdout" := []]>
                 (<[dir +:+ "/" +:+ "timing" := []]>
                    (<[dir +:+ "/" +:+ "log"
                         := log_text (fst (iolog_details_fill
                                             Example.exec_msg))]>
                       (w_files (sys (Example.state0 []))))))).
Proof.
  destruct (iolog_init_files Example.root Example.exec_msg
              (Example.state0 []) Example.opened)
    as (dir & Hdir & _ & _ & Hfiles).
  - vm_compute. reflexivity.
  - exists dir. split; [exact Hdir|exact Hfiles].
Defined.

Lemma iolog_close_files s : w_files (sys (iolog_close s)) = w_files (sys s).
Proof.
  unfold iolog_close.
  destruct (iolog_close_fold (io_fds (closure s)) (sys s)) as (Hf & _).
  simpl. destruct (iolog_dir_fd (closure s) =? -1); [done|].
  by destruct (close_frame (iolog_dir_fd (closure s))
                 (fold_left (fun w fd => if fd =? -1 then w
                                         else snd (Sys.close fd w))
                    (io_fds (closure s)) (sys s))) as (-> & _).
Qed.

(** X16.  A session open followed by [iolog_close] leaks no descriptor:
    the descriptor table is back to what it was before [iolog_init], the
    directory descriptor and the four stream descriptors being closed and
    the one used for the [log] file having been closed by
    [iolog_details_write].  [iolog_close] changes no file. *)
Theorem iolog_init_close_no_leak root msg s s' :
  iolog_init root msg s = (true, s') ->
  w_fds (sys (iolog_close s')) = w_fds (sys s)
  /\ w_files (sys (iolog_close s')) = w_files (sys s').
Proof.
  intros Hrun.
  destruct (iolog_init_success _ _ _ _ Hrun)
    as (dir & k0 & k1 & k2 & k3 & k4 & _ & _ & _ & _ & Hdfd & Hio & Hfds & Hopen & _).
  cbv zeta in *.
  set (M := w_fds (sys s)) in *.
  set (n0 := fresh (dom M)) in *. set (M1 := <[n0 := k0]> M) in *.
  set (n1 := fresh (dom M1)) in *. set (M2 := <[n1 := k1]> M1) in *.
  set (n2 := fresh (dom M2)) in *. set (M3 := <[n2 := k2]> M2) in *.
  set (n3 := fresh (dom M3)) in *. set (M4 := <[n3 := k3]> M3) in *.
  set (n4 := fresh (dom M4)) in *.
  assert (forall (X : gset nat) n, n ∈ X -> fresh X <> n) as Hfresh.
  { intros X n Hn E. apply (is_fresh X). by rewrite E. }
  assert (n1 <> n0 /\ n2 <> n0 /\ n2 <> n1 /\ n3 <> n0 /\ n3 <> n1
          /\ n3 <> n2 /\ n4 <> n0 /\ n4 <> n1 /\ n4 <> n2 /\ n4 <> n3)
    as (? & ? & ? & ? & ? & ? & ? & ? & ? & ?).
  { split_and!; apply Hfresh; unfold M4, M3, M2, M1; rewrite !dom_insert_L;
      repeat first [apply elem_of_union_l; by apply elem_of_singleton
                   |apply elem_of_union_r]. }
  split; [|apply iolog_close_files].
  assert (forall n, n ∈ [n0; n1; n2; n3; n4] ->
            exists x, Sys.fd_lookup (sys s') (Z.of_nat n) = Some x) as Hsome.
  { intros n Hn. destruct (Hopen n Hn) as [x Hx]. eauto. }
  destruct (Hsome n0) as [x0 Hx0]; [by left|].
  destruct (Hsome n1) as [x1 Hx1]; [by right; left|].
  destruct (Hsome n2) as [x2 Hx2]; [by do 2 right; left|].
  destruct (Hsome n3) as [x3 Hx3]; [by do 3 right; left|].
  destruct (Hsome n4) as [x4 Hx4]; [by do 4 right; left|].
  unfold iolog_close. rewrite Hio, Hdfd. simpl fold_left.
  assert (forall n : nat, (Z.of_nat n =? -1) = false) as Hneg
    by (intros n; apply Z.eqb_neq; lia).
  rewrite !Hneg. simpl sys.
  rewrite !close_fds, !close_lookup.
  rewrite !decide_False by lia.
  rewrite Hx0, Hx1, Hx2, Hx3, Hx4, !Nat2Z.id, Hfds.
  apply install_close_all.
Qed.

Lemma iolog_init_close_no_leak_witness :
  w_fds (sys (iolog_close Example.opened)) = w_fds (sys (Example.state0 [])).
Proof.
  apply (iolog_init_close_no_leak Example.root Example.exec_msg
           (Example.state0 []) Example.opened).
  vm_compute. reflexivity.
Defined.

(** ** The log of a sequence of events *)

Lemma write_calm fd buf w :
  w_script w = [] -> w_script (snd (Sys.write fd buf w)) = [] /\ healthy w.
Proof.
  intros Hs. unfold healthy, Sys.write, Sys.next_outcome, Sys.failed.
  rewrite Hs. split; [|done].
  assert (Sys.fd_lookup w fd = Sys.fd_lookup w fd) as _ by done.
  destruct (Sys.fd_lookup w fd) as [[i d]|]; simpl; [|done].
  destruct (negb (ofd_wr d)); simpl; [done|].
  by destruct (w_files w !! ofd_path d).
Qed.

(** In a calm environment, [openat] with [O_CREAT|O_EXCL] creates a file
    that is not there in a directory that is. *)
Lemma openat_creat_calm dirfd name w j dd :
  w_script w = [] ->
  Sys.fd_lookup w dirfd = Some (j, dd) -> ofd_dir dd = true ->
  (ofd_path dd +:+ "/" +:+ name ∉ w_dirs w) ->
  w_files w !! (ofd_path dd +:+ "/" +:+ name) = None ->
  Sys.dirname (ofd_path dd +:+ "/" +:+ name) ∈ w_dirs w ->
  fst (Sys.openat dirfd name O_CREAT_EXCL_WRONLY 384 w) <> -1
  /\ w_script (snd (Sys.openat dirfd name O_CREAT_EXCL_WRONLY 384 w)) = [].
Proof.
  intros Hs Hl Hdir Hnd Hnf Hpar.
  unfold Sys.openat, Sys.next_outcome. rewrite Hs, Hl, Hdir.
  unfold Sys.open_path.
  rewrite bool_decide_eq_false_2 by done. rewrite Hnf.
  change (Sys.has_flag O_CREAT_EXCL_WRONLY Sys.O_CREAT) with true. cbv iota.
  rewrite bool_decide_eq_true_2 by done.
  unfold Sys.install. simpl. split; [lia|done].
Qed.

Lemma iolog_names_no_slash n name :
  iolog_names !! n = Some name -> Sys.has_slash name = false.
Proof.
  intros Hn. apply list_elem_of_lookup_2 in Hn. unfold iolog_names in Hn.
  repeat (apply elem_of_cons in Hn as [->|Hn]); [..|by apply elem_of_nil in Hn];
    reflexivity.
Qed.

Lemma dir_not_file_path dir name : dir <> dir +:+ "/" +:+ name.
Proof.
  intros E. apply (f_equal String.length) in E.
  rewrite string_app_length in E. simpl in E. lia.
Qed.

Lemma set_file_eq n c f : set_file n c f n = Some c.
Proof. unfold set_file. by rewrite Nat.eqb_refl. Qed.

Lemma set_file_ne n m c f : m <> n -> set_file n c f m = f m.
Proof.
  intros Hne. unfold set_file.
  by destruct (Nat.eqb_spec m n).
Qed.

Lemma io_fd_insert_ne c n m fd :
  n <> m ->
  Closure.io_fd (Closure.set_io_fds (<[n := fd]> (io_fds c)) c) (Z.of_nat m)
  = Closure.io_fd c (Z.of_nat m).
Proof.
  intros Hne. unfold Closure.io_fd. simpl.
  by rewrite Nat2Z.id, list_lookup_insert_ne.
Qed.

Lemma io_fd_insert_eq c n fd :
  (n < length (io_fds c))%nat -> (n < 6)%nat ->
  Closure.io_fd (Closure.set_io_fds (<[n := fd]> (io_fds c)) c) (Z.of_nat n)
  = fd.
Proof.
  intros Hlen Hn. unfold Closure.io_fd, IOFD_MAX. simpl.
  destruct (Z.leb_spec 0 (Z.of_nat n)), (Z.ltb_spec (Z.of_nat n) 6); try lia.
  simpl. by rewrite Nat2Z.id, list_lookup_insert_eq.
Qed.

(** The lazy open of a stream whose file does not exist yet. *)
Lemma iolog_open_logging dir s f n name :
  logging dir s f ->
  iolog_names !! n = Some name -> f n = None ->
  exists s',
    iolog_open (Z.of_nat n) s = (true, s')
    /\ elapsed_time (closure s') = elapsed_time (closure s)
    /\ logging dir s' (set_file n [] f)
    /\ (forall p, outside dir p ->
          w_files (sys s') !! p = w_files (sys s) !! p).
Proof.
  intros [Hcalm Hfds Hne Hin (j & dd & Hl & Hp & Hdd) Htim Hfiles] Hname Hnone.
  pose proof (lookup_lt_Some _ _ _ Hname) as Hn.
  change (length iolog_names) with 6%nat in Hn.
  pose proof (Hfiles n name Hname) as Hslot. rewrite Hnone in Hslot.
  destruct Hslot as (Hclosed & Hnf & Hnd).
  destruct (iolog_open (Z.of_nat n) s) as [ok s'] eqn:Hopen.
  pose proof Hopen as Hopen'.
  unfold iolog_open, IOFD_MAX in Hopen'.
  destruct (Z.ltb_spec (Z.of_nat n) 0); [lia|].
  destruct (Z.leb_spec 6 (Z.of_nat n)); [lia|]. simpl orb in Hopen'.
  cbv iota in Hopen'. rewrite Nat2Z.id, Hname in Hopen'. simpl default in Hopen'.
  destruct (Sys.openat _ _ _ _ _) as [fd w1] eqn:Ho.
  destruct (openat_creat_calm (iolog_dir_fd (closure s)) name (sys s) j dd)
    as [Hok Hcalm1]; try done.
  { by rewrite Hp. }
  { by rewrite Hp. }
  { rewrite Hp, dirname_app; [done|done|]. by eapply iolog_names_no_slash. }
  rewrite Ho in Hok, Hcalm1. simpl in Hok, Hcalm1.
  apply openat_creat_inv in Ho as (_ & Hd1 & Ho).
  destruct Ho as [(-> & _)|(j' & dd' & Hl' & _ & -> & _ & Hf1 & Hfds1 & Hofds1)];
    [done|].
  rewrite Hl in Hl'. injection Hl' as <- <-. rewrite Hp in Hf1, Hofds1.
  set (fd := Z.of_nat (fresh (dom (w_fds (sys s))))) in *.
  set (i := fresh (dom (w_ofds (sys s)))) in *.
  set (d := mk_ofd (dir +:+ "/" +:+ name) 0 false true false) in *.
  injection Hopen' as Hok' <-.
  assert (Closure.io_fd
            (Closure.set_io_fds (<[n := fd]> (io_fds (closure s))) (closure s))
            (Z.of_nat n) = fd) as Hio
    by (apply io_fd_insert_eq; [rewrite Hfds|]; lia).
  simpl closure in Hok'. rewrite Hio in Hok'.
  assert (ok = true) as ->.
  { rewrite <- Hok'. apply negb_true_iff, Z.eqb_neq. done. }
  eexists. split; [reflexivity|]. split; [done|].
  split.
  2: { intros p Hout. cbn [closure sys with_closure with_sys].
       rewrite Hf1, lookup_insert_ne; [done|]. intros E.
       apply (Hout name); [by eapply list_elem_of_lookup_2|done]. }
  assert (forall fd2 i2 d2, Sys.fd_lookup (sys s) fd2 = Some (i2, d2) ->
            Sys.fd_lookup w1 fd2 = Some (i2, d2)) as Hkeep.
  { intros fd2 i2 d2 H2.
    eapply (fd_lookup_install (sys s) w1); [done|done|by left]. }
  constructor; cbn [closure sys with_closure with_sys].
  - done.
  - simpl. by rewrite length_insert.
  - done.
  - by rewrite Hd1.
  - exists j, dd. split_and!; try done. by apply Hkeep.
  - destruct (decide (5%nat = n)) as [<-|H5]; [by rewrite set_file_eq|].
    by rewrite set_file_ne.
  - intros m name' Hname'.
    destruct (decide (m = n)) as [->|Hmn].
    + rewrite set_file_eq. rewrite Hname in Hname'. injection Hname' as <-.
      exists i, d. cbn [closure sys with_closure with_sys]. rewrite Hio.
      split_and!; try done.
      * eapply fd_lookup_fresh; [exact Hfds1|].
        by rewrite Hofds1, lookup_insert_eq.
      * by rewrite Hf1, lookup_insert_eq.
    + rewrite set_file_ne by done.
      assert (name' <> name) as Hnn.
      { intros ->. apply Hmn. by eapply iolog_names_inj. }
      assert (dir +:+ "/" +:+ name <> dir +:+ "/" +:+ name') as Hpp
        by (by intros E%path_inj).
      pose proof (Hfiles m name' Hname') as Hslot.
      destruct (f m) as [c|].
      * destruct Hslot as (i2 & d2 & Hl2 & Hwr2 & Hp2 & Hoff2 & Hf2).
        exists i2, d2. cbn [closure sys with_closure with_sys].
        rewrite io_fd_insert_ne by done.
        split_and!; try done; [by apply Hkeep|].
        by rewrite Hf1, lookup_insert_ne.
      * destruct Hslot as (Hc2 & Hf2 & Hd2).
        rewrite io_fd_insert_ne by done. split_and!; try done.
        -- by rewrite Hf1, lookup_insert_ne.
        -- by rewrite Hd1.
Qed.

(** A write at the end of a file of the session that is open. *)
Lemma iolog_write_logging dir s f n name c buf :
  logging dir s f ->
  iolog_names !! n = Some name -> f n = Some c ->
  Z.of_nat (length buf) < 18446744073709551615 ->
  exists s',
    iolog_write (Z.of_nat n) buf s = (true, s')
    /\ closure s' = closure s
    /\ logging dir s' (set_file n (c ++ buf) f)
    /\ (forall p, outside dir p ->
          w_files (sys s') !! p = w_files (sys s) !! p).
Proof.
  intros [Hcalm Hfds Hne Hin (j & dd & Hl & Hp & Hdd) Htim Hfiles] Hname Hsome
    Hlen.
  pose proof (lookup_lt_Some _ _ _ Hname) as Hn.
  change (length iolog_names) with 6%nat in Hn.
  pose proof (Hfiles n name Hname) as Hslot. rewrite Hsome in Hslot.
  destruct Hslot as (i & d & Hli & Hwr & Hpi & Hoff & Hfi).
  destruct (write_calm (Closure.io_fd (closure s) (Z.of_nat n)) buf (sys s) Hcalm)
    as [Hcalm1 Hh].
  rewrite <- Hpi in Hfi.
  destruct (write_healthy _ buf _ _ _ _ Hh Hli Hwr Hfi)
    as (w' & Hw & _ & _ & Hd1 & Hfds1 & Hf1 & Hofds1).
  rewrite Hw in Hcalm1. simpl in Hcalm1.
  rewrite Hpi, Hoff, write_at_end in Hf1.
  unfold iolog_write, IOFD_MAX.
  destruct (Z.ltb_spec (Z.of_nat n) 0); [lia|].
  destruct (Z.leb_spec 6 (Z.of_nat n)); [lia|]. simpl orb. cbv iota.
  rewrite Hw, Z.eqb_refl.
  eexists. split; [reflexivity|]. split; [done|].
  split.
  2: { intros p Hout. cbn [closure sys with_closure with_sys].
       rewrite Hf1, lookup_insert_ne; [done|]. intros E.
       apply (Hout name); [by eapply list_elem_of_lookup_2|done]. }
  constructor; cbn [closure sys with_closure with_sys]; try done.
  - by rewrite Hd1.
  - exists j, dd. split_and!; try done.
    eapply fd_lookup_insert_ne; [exact Hl|done|exact Hofds1|].
    eapply lookup_path_ne; [exact Hl|exact Hli|].
    rewrite Hp, Hpi. apply dir_not_file_path.
  - destruct (decide (5%nat = n)) as [<-|H5]; [by rewrite set_file_eq|].
    by rewrite set_file_ne.
  - intros m name' Hname'.
    destruct (decide (m = n)) as [->|Hmn].
    + rewrite set_file_eq. rewrite Hname in Hname'. injection Hname' as <-.
      exists i, (Sys.set_off (ofd_off d + Z.of_nat (length buf)) d).
      cbn [closure sys with_closure with_sys].
      split_and!; try done.
      * eapply fd_lookup_insert_eq; [exact Hli|done|exact Hofds1].
      * simpl. rewrite Hoff, length_app. lia.
      * by rewrite Hf1, lookup_insert_eq.
    + rewrite set_file_ne by done.
      assert (name' <> name) as Hnn.
      { intros ->. apply Hmn. by eapply iolog_names_inj. }
      assert (dir +:+ "/" +:+ name <> dir +:+ "/" +:+ name') as Hpp
        by (by intros E%path_inj).
      pose proof (Hfiles m name' Hname') as Hslot.
      destruct (f m) as [c2|].
      * destruct Hslot as (i2 & d2 & Hl2 & Hwr2 & Hp2 & Hoff2 & Hf2).
        exists i2, d2. cbn [closure sys with_closure with_sys].
        split_and!; try done.
        -- eapply fd_lookup_insert_ne; [exact Hl2|done|exact Hofds1|].
           eapply lookup_path_ne; [exact Hl2|exact Hli|].
           rewrite Hp2, Hpi. done.
        -- by rewrite Hf1, lookup_insert_ne.
      * destruct Hslot as (Hc2 & Hf2 & Hd2). split_and!; try done.
        -- by rewrite Hf1, lookup_insert_ne.
        -- by rewrite Hd1.
Qed.

Lemma logging_add_elapsed dir s f delta :
  logging dir s f -> logging dir (add_elapsed delta s) f.
Proof. intros [? ? ? ? ? ? ?]. by constructor. Qed.

Lemma storable_names iofd :
  0 <= iofd < IOFD_TIMING ->
  exists name, iolog_names !! Z.to_nat iofd = Some name
               /\ Z.to_nat iofd <> 5%nat.
Proof.
  unfold IOFD_TIMING. intros Hr.
  assert (Z.to_nat iofd < 5)%nat as Hlt by lia.
  destruct (iolog_names !! Z.to_nat iofd) as [name|] eqn:Hn.
  - exists name. split; [done|lia].
  - apply lookup_ge_None in Hn. change (length iolog_names) with 6%nat in Hn.
    lia.
Qed.

Lemma logging_ext dir s f g :
  (forall n, f n = g n) -> logging dir s f -> logging dir s g.
Proof.
  intros Hfg [? ? ? ? ? Htim Hfiles]. constructor; try done.
  - by rewrite <- Hfg.
  - intros n name Hn. rewrite <- Hfg. by apply Hfiles.
Qed.

(** One event. *)
Lemma store_event_logging dir s f ev :
  logging dir s f -> storable ev ->
  exists s',
    store_event ev s = (0, s')
    /\ logging dir s' (after_event ev f)
    /\ (forall p, outside dir p ->
          w_files (sys s') !! p = w_files (sys s) !! p).
Proof.
  intros Hlog Hev.
  assert (forall s1 f1 line delta,
            logging dir s1 f1 ->
            Z.of_nat (length line) < sizeof_tbuf ->
            exists s',
              (let '(ok, s2) := iolog_write IOFD_TIMING line s1 in
               if negb ok then (-1, s2) else (0, add_elapsed delta s2))
              = (0, s')
              /\ logging dir s' (set_file 5 (default [] (f1 5%nat) ++ line) f1)
              /\ (forall p, outside dir p ->
                    w_files (sys s') !! p = w_files (sys s1) !! p))
    as Htiming.
  { intros s1 f1 line delta Hlog1 Hfit.
    destruct (lg_timing _ _ _ Hlog1) as [tim Htim].
    destruct (iolog_write_logging dir s1 f1 5 "timing" tim line Hlog1)
      as (s2 & Hw & _ & Hlog2 & Hfr2);
      [done|done|unfold sizeof_tbuf in Hfit; lia|].
    change (Z.of_nat 5) with IOFD_TIMING in Hw. rewrite Hw. simpl.
    eexists. split; [reflexivity|]. rewrite Htim. simpl.
    split; [by apply logging_add_elapsed|done]. }
  destruct ev as [iofd msg|msg|msg]; unfold storable in Hev;
    unfold after_event; cbn [store_event event_line].
  - destruct Hev as [Hr Hlen].
    destruct (storable_names iofd Hr) as (name & Hname & Hn5).
    set (n := Z.to_nat iofd) in *.
    assert (Z.of_nat n = iofd) as Hnz by (unfold n; lia).
    unfold store_iobuf.
    assert (exists s1,
              (if Closure.io_fd (closure s) iofd =? -1
               then iolog_open iofd s else (true, s)) = (true, s1)
              /\ logging dir s1 (set_file n (default [] (f n)) f)
              /\ (forall p, outside dir p ->
                    w_files (sys s1) !! p = w_files (sys s) !! p))
      as (s1 & -> & Hlog1 & Hfr1).
    { pose proof (lg_files _ _ _ Hlog _ _ Hname) as Hslot.
      rewrite Hnz in Hslot.
      destruct (f n) as [c|] eqn:Hf.
      - destruct Hslot as (i & d & Hl & _).
        assert ((Closure.io_fd (closure s) iofd =? -1) = false) as ->.
        { apply Z.eqb_neq. intros E. rewrite E in Hl. done. }
        exists s. split; [done|]. simpl. split; [|done].
        eapply logging_ext; [|exact Hlog].
        intros m. destruct (decide (m = n)) as [->|Hmn].
        + by rewrite set_file_eq.
        + by rewrite set_file_ne.
      - destruct Hslot as (-> & _). simpl.
        destruct (iolog_open_logging dir s f _ name Hlog Hname Hf)
          as (s1 & Ho & _ & Hlog1 & Hfr1).
        rewrite Hnz in Ho. eauto. }
    simpl negb. cbv iota.
    rewrite iobuf_line_fits.
    destruct (iolog_write_logging dir s1 _ n name
                (default [] (f n)) (ib_data msg) Hlog1 Hname)
      as (s2 & Hw & _ & Hlog2 & Hfr2); [by rewrite set_file_eq|done|].
    rewrite Hnz in Hw. rewrite Hw. simpl negb. cbv iota.
    destruct (Htiming s2 _ (iobuf_line iofd msg) (ib_delay msg) Hlog2)
      as (s3 & Hs3 & Hlog3 & Hfr3).
    { pose proof (iobuf_line_fits iofd msg) as Hfit.
      apply orb_false_iff in Hfit as [_ Hfit%Z.leb_gt]. done. }
    exists s3. split; [exact Hs3|]. split.
    2: { intros p Hout. by rewrite Hfr3, Hfr2, Hfr1. }
    eapply logging_ext; [|exact Hlog3].
    intros m. destruct (decide (m = 5%nat)) as [->|Hm5].
    + rewrite !set_file_eq. by rewrite !(set_file_ne n 5) by done.
    + rewrite !(set_file_ne 5) by done.
      destruct (decide (m = n)) as [->|Hmn].
      * by rewrite !set_file_eq.
      * by rewrite !set_file_ne.
  - unfold store_suspend.
    destruct (Z.ltb_spec (Z.of_nat (length (suspend_line msg))) 0); [lia|].
    destruct (Z.leb_spec sizeof_tbuf (Z.of_nat (length (suspend_line msg))));
      [lia|].
    simpl orb. cbv iota. by apply Htiming.
  - unfold store_winsize. rewrite winsize_line_fits.
    apply Htiming; [done|].
    pose proof (winsize_line_fits msg) as Hfit.
    apply orb_false_iff in Hfit as [_ Hfit%Z.leb_gt]. done.
Qed.

Lemma store_all_logging dir evs : forall s f,
  logging dir s f -> Forall storable evs ->
  exists s',
    store_all evs s = Some s' /\ logging dir s' (after_events evs f)
    /\ (forall p, outside dir p ->
          w_files (sys s') !! p = w_files (sys s) !! p).
Proof.
  induction evs as [|ev evs IH]; intros s f Hlog Hevs.
  - exists s. done.
  - apply Forall_cons in Hevs as [Hev Hevs].
    destruct (store_event_logging dir s f ev Hlog Hev)
      as (s1 & Hs1 & Hlog1 & Hfr1).
    destruct (IH s1 _ Hlog1 Hevs) as (s' & Hs' & Hlog' & Hfr').
    exists s'. split_and!; [|done|].
    + simpl. by rewrite Hs1.
    + intros p Hout. by rewrite Hfr', Hfr1.
Qed.

(** The timing file after the events. *)
Lemma after_events_timing evs : forall f,
  Forall storable evs -> is_Some (f 5%nat) ->
  after_events evs f 5%nat
  = Some (default [] (f 5%nat) ++ concat (map event_line evs)).
Proof.
  induction evs as [|ev evs IH]; intros f Hevs [tim Htim].
  - simpl. by rewrite Htim, app_nil_r.
  - apply Forall_cons in Hevs as [Hev Hevs].
    change (after_events (ev :: evs) f)
      with (after_events evs (after_event ev f)).
    change (concat (map event_line (ev :: evs)))
      with (event_line ev ++ concat (map event_line evs)).
    assert (after_event ev f 5%nat
            = Some (default [] (f 5%nat) ++ event_line ev)) as Hone.
    { unfold after_event. rewrite set_file_eq. do 2 f_equal.
      destruct ev as [iofd msg| |]; try done.
      destruct Hev as [Hr _]. unfold IOFD_TIMING in Hr.
      by rewrite set_file_ne by lia. }
    rewrite IH; [|done|by rewrite Hone].
    rewrite Hone. simpl default. by rewrite <- app_assoc.
Qed.

Lemma untouched_data n evs :
  existsb (touches n) evs = false -> concat (map (event_data n) evs) = [].
Proof.
  induction evs as [|ev evs IH]; [done|]. simpl.
  intros [Hev Hevs]%orb_false_iff. rewrite IH by done.
  destruct ev as [iofd msg| |]; simpl in *; try done. by rewrite Hev.
Qed.

(** A byte stream after the events. *)
Lemma after_events_stream n evs : forall f,
  (n < 5)%nat ->
  after_events evs f n
  = if existsb (touches n) evs
    then Some (default [] (f n) ++ concat (map (event_data n) evs))
    else f n.
Proof.
  induction evs as [|ev evs IH]; intros f Hn; [done|].
  simpl. unfold after_events in IH. rewrite IH by done.
  assert (after_event ev f n
          = if touches n ev then Some (default [] (f n) ++ event_data n ev)
            else f n) as Hone.
  { unfold after_event. rewrite set_file_ne by lia.
    destruct ev as [iofd msg| |]; simpl; try done.
    destruct (Nat.eqb_spec (Z.to_nat iofd) n) as [->|Hne].
    - by rewrite set_file_eq.
    - by rewrite set_file_ne. }
  rewrite Hone.
  destruct (touches n ev) eqn:Ht; simpl.
  - destruct (existsb (touches n) evs) eqn:Hr.
    + by rewrite <- app_assoc.
    + by rewrite untouched_data, app_nil_r.
  - destruct (existsb (touches n) evs); [|done].
    assert (event_data n ev = []) as ->; [|done].
    destruct ev as [iofd msg| |]; simpl in *; try done. by rewrite Ht.
Qed.

Lemma logging_file dir s f n name :
  logging dir s f -> iolog_names !! n = Some name ->
  w_files (sys s) !! (dir +:+ "/" +:+ name) = f n.
Proof.
  intros Hlog Hname. pose proof (lg_files _ _ _ Hlog _ _ Hname) as Hslot.
  destruct (f n) as [c|].
  - by destruct Hslot as (_ & _ & _ & _ & _ & _ & ->).
  - by destruct Hslot as (_ & -> & _).
Qed.

(** X17.  The append engine logs what it is sent.  On a session that is
    ready to log (the directory and the timing file open, every existing
    stream file open at its end, the environment letting every call
    through), every sequence of storable events is stored, each call
    returning 0, and afterwards the session is ready to log again; the
    timing file holds what it held followed by the lines of the events
    in order; the file of a stream that has data events holds what it
    held, if it existed, followed by their bytes in order; the file of a
    stream without data events is as it was, absent if it was absent;
    and no file other than these six has changed. *)
Theorem store_all_log dir s f evs :
  logging dir s f -> Forall storable evs ->
  exists s',
    store_all evs s = Some s'
    /\ logging dir s' (after_events evs f)
    /\ w_files (sys s') !! (dir +:+ "/" +:+ "timing")
       = Some (default [] (f 5%nat) ++ concat (map event_line evs))
    /\ (forall n name, (n < 5)%nat -> iolog_names !! n = Some name ->
         w_files (sys s') !! (dir +:+ "/" +:+ name)
         = if existsb (touches n) evs
           then Some (default [] (w_files (sys s) !! (dir +:+ "/" +:+ name))
                        ++ concat (map (event_data n) evs))
           else w_files (sys s) !! (dir +:+ "/" +:+ name))
    /\ (forall p, outside dir p ->
          w_files (sys s') !! p = w_files (sys s) !! p).
Proof.
  intros Hlog Hevs.
  destruct (store_all_logging dir evs s f Hlog Hevs)
    as (s' & Hs' & Hlog' & Hfr).
  exists s'. split_and!; try done.
  - rewrite (logging_file dir s' _ 5 "timing" Hlog') by done.
    apply after_events_timing; [done|]. by destruct Hlog.
  - intros n name Hn Hname.
    rewrite (logging_file dir s' _ n name Hlog' Hname).
    rewrite (logging_file dir s f n name Hlog Hname).
    by apply after_events_stream.
Qed.

(** ** From the session open to the log *)

(** The directories after a successful [create_iolog_dir]: those that
    were there, the three levels above the session directory, and the
    session directory. *)
Lemma create_iolog_dir_dirs root details s s' :
  create_iolog_dir root details s = (true, s') ->
  forall p, p ∈ w_dirs (sys s') ->
    p ∈ w_dirs (sys s)
    \/ p ∈ [root;
            root +:+ "/" +:+ str (d_submithost details);
            root +:+ "/" +:+ str (d_submithost details)
              +:+ "/" +:+ str (d_submituser details)]
    \/ iolog_dir (closure s') = Some p.
Proof.
  assert (forall w1 w2 path r (l : list string),
            Sys.mkdir path 493 w1 = (r, w2) ->
            (forall p, p ∈ w_dirs w1 -> p ∈ w_dirs (sys s) \/ p ∈ l) ->
            forall p, p ∈ w_dirs w2 ->
              p ∈ w_dirs (sys s) \/ p ∈ l ++ [path]) as Hstep.
  { intros w1 w2 path r l Hm H1 p Hp.
    apply mkdir_inv in Hm as (_ & _ & _ & _ & _ & [(_ & Hd)|(_ & Hd)]);
      rewrite Hd in Hp.
    - destruct (H1 p Hp) as [?|?]; [by left|right].
      apply elem_of_app. by left.
    - apply elem_of_union in Hp as [->%elem_of_singleton|Hp].
      + right. apply elem_of_app. right. by apply list_elem_of_singleton.
      + destruct (H1 p Hp) as [?|?]; [by left|right].
        apply elem_of_app. by left. }
  unfold create_iolog_dir.
  destruct (Sys.mkdir root 493 (sys s)) as [r1 w1] eqn:H1.
  pose proof (Hstep _ _ _ _ [] H1 ltac:(by left)) as Hd1. simpl in Hd1.
  destruct ((r1 =? -1) && negb (w_errno w1 =? Sys.EEXIST)); [done|].
  destruct (Sys.PATH_MAX <=? _); [done|].
  simpl sys.
  destruct (Sys.mkdir _ 493 w1) as [r2 w2] eqn:H2.
  pose proof (Hstep _ _ _ _ _ H2 Hd1) as Hd2. simpl in Hd2.
  destruct ((r2 =? -1) && negb (w_errno w2 =? Sys.EEXIST)); [done|].
  destruct (Sys.PATH_MAX <=? _); [done|].
  simpl sys.
  destruct (Sys.mkdir _ 493 w2) as [r3 w3] eqn:H3.
  pose proof (Hstep _ _ _ _ _ H3 Hd2) as Hd3. simpl in Hd3.
  destruct ((r3 =? -1) && negb (w_errno w3 =? Sys.EEXIST)); [done|].
  destruct (Sys.PATH_MAX <=? _); [done|].
  simpl sys.
  destruct (Sys.mkdtemp _ w3) as [made w4] eqn:H4.
  apply mkdtemp_inv in H4 as (_ & _ & _ & _ & _ & Hd4).
  destruct made as [path|]; [|done].
  destruct Hd4 as (Hd4 & _).
  simpl sys.
  destruct (Sys.strdup path w4) as [copy w5] eqn:H5.
  apply strdup_inv in H5 as (_ & Hd5 & _ & _ & _ & _ & Hcopy).
  destruct copy as [dir|]; [|done].
  destruct Hcopy as [|[= ->]]; [done|].
  simpl sys.
  destruct (Sys.open _ Sys.O_RDONLY w5) as [fd w6] eqn:H6.
  apply open_rdonly_inv in H6 as (_ & Hd6 & _).
  destruct (fd =? -1); [done|].
  intros [= <-] p Hp. simpl in *.
  rewrite Hd6, Hd5, Hd4 in Hp.
  apply elem_of_union in Hp as [->%elem_of_singleton|Hp]; [by right; right|].
  destruct (Hd3 p Hp); eauto.
Qed.

(** Every call uses up one entry of the script. *)
Lemma openat_script dirfd name flags mode w :
  w_script (snd (Sys.openat dirfd name flags mode w)) = tail (w_script w).
Proof.
  unfold Sys.openat, Sys.next_outcome.
  destruct (w_script w) as [|o rest] eqn:Hs; simpl; rewrite ?fd_lookup_script.
  all: try destruct o; simpl.
  all: try (unfold Sys.failed; simpl; done).
  all: destruct (Sys.fd_lookup w dirfd) as [[i d]|]; simpl; try done.
  all: try match goal with
           | |- context [ofd_dir ?x] => destruct (ofd_dir x)
           end; simpl; try done.
  all: unfold Sys.open_path, Sys.failed, Sys.install; simpl.
  all: repeat case_match; simpl; try done.
  all: try match goal with
           | H : (_, _) = (_, _) |- _ => by injection H as <- <-
           end.
Qed.

Lemma iolog_open_adjacent iofd s :
  adjacent (closure (snd (iolog_open iofd s))) = adjacent (closure s).
Proof.
  unfold iolog_open. destruct ((iofd <? 0) || (IOFD_MAX <=? iofd)); [done|].
  by destruct (Sys.openat _ _ _ _ _).
Qed.

(** A stream file that a successful [iolog_open] has just created is
    open at its end; those that were open at their end still are. *)
Lemma iolog_open_stream iofd s s' dir j dd name :
  iolog_open iofd s = (true, s') ->
  Sys.fd_lookup (sys s) (iolog_dir_fd (closure s)) = Some (j, dd) ->
  ofd_path dd = dir ->
  iolog_names !! Z.to_nat iofd = Some name ->
  (Z.to_nat iofd < length (io_fds (closure s)))%nat ->
  stream_at_end s' iofd (dir +:+ "/" +:+ name) []
  /\ w_script (sys s') = tail (w_script (sys s))
  /\ forall m p c,
       Z.to_nat m <> Z.to_nat iofd -> p <> dir +:+ "/" +:+ name ->
       stream_at_end s m p c -> stream_at_end s' m p c.
Proof.
  intros Hrun Hl Hdir Hname Hlen.
  pose proof (iolog_open_adjacent iofd s) as Hadj. rewrite Hrun in Hadj.
  simpl in Hadj.
  assert (forall fd2 i2 d2, Sys.fd_lookup (sys s) fd2 = Some (i2, d2) ->
            Sys.fd_lookup (sys s') fd2 = Some (i2, d2)) as Hkeep
    by (intros; by eapply iolog_open_keeps).
  pose proof (iolog_open_ok _ _ _ _ _ _ _ Hrun Hl Hdir Hname Hlen)
    as (_ & _ & _ & _ & Hfiles & _).
  apply iolog_open_inv in Hrun as (_ & _ & _ & Hok).
  destruct (Hok eq_refl) as (Hrange & fd & Ho & Hio & Hfd).
  rewrite Hname in Ho. simpl in Ho.
  assert (w_script (sys s') = tail (w_script (sys s))) as Hscript.
  { rewrite <- (openat_script (iolog_dir_fd (closure s)) name
                  O_CREAT_EXCL_WRONLY 384). by rewrite Ho. }
  apply openat_creat_inv in Ho as (_ & _ & Ho).
  assert (Closure.io_fd (closure s') iofd = fd) as Hfd'.
  { unfold Closure.io_fd.
    destruct (Z.leb_spec 0 iofd), (Z.ltb_spec iofd IOFD_MAX); try lia.
    simpl. by rewrite Hio, list_lookup_insert_eq. }
  destruct Ho as [(-> & _)|(j' & dd' & Hl' & _ & -> & _ & _ & Hfds & Hofds)].
  { by rewrite Hfd' in Hfd. }
  rewrite Hl in Hl'. injection Hl' as <- <-. rewrite Hdir in Hofds.
  split_and!; [|done|].
  - eexists _, _. rewrite Hfd'. split_and!.
    + eapply fd_lookup_fresh; [exact Hfds|]. by rewrite Hofds, lookup_insert_eq.
    + done.
    + done.
    + done.
    + by rewrite Hfiles, lookup_insert_eq.
  - intros m p c Hm Hp (i2 & d2 & Hl2 & Hwr2 & Hp2 & Hoff2 & Hf2).
    assert (Closure.io_fd (closure s') m = Closure.io_fd (closure s) m) as Hsame.
    { unfold Closure.io_fd. rewrite Hio, Hadj.
      by rewrite list_lookup_insert_ne by done. }
    exists i2, d2. rewrite Hsame. split_and!; try done.
    + by apply Hkeep.
    + by rewrite Hfiles, lookup_insert_ne.
Qed.

(** A session that [iolog_init] has opened is ready to log, once the
    script of the environment is exhausted. *)
Lemma iolog_init_ready root msg s s' :
  fs_wf (sys s) -> dirs_wf (sys s) ->
  iolog_init root msg s = (true, s') ->
  w_script (sys s') = [] ->
  exists dir,
    iolog_dir (closure s') = Some dir /\ logging dir s' opened_files.
Proof.
  intros Hwf Hdwf. unfold iolog_init.
  set (s0 := with_closure _ s).
  destruct (iolog_details_fill msg) as [details ok].
  destruct ok; simpl; [|done].
  destruct (create_iolog_dir root details s0) as [ok s1] eqn:Hdir.
  destruct ok; simpl; [|done].
  pose proof (create_iolog_dir_dirs _ _ _ _ Hdir) as Hdirs1.
  pose proof (create_iolog_dir_success _ _ _ _ Hdir)
    as (sfx & _ & _ & Hsfx & _ & Hform & _ & _ & _ & Hin1 & _).
  apply create_iolog_dir_ok in Hdir
    as (dir & j & dd & Hd1 & Hl1 & Hp & Hdd & Hne & Hnew & Hf1 & Hio1 & _).
  rewrite Hd1 in Hform. injection Hform as Hform. rewrite <- Hform in Hin1.
  change (sys s0) with (sys s) in *.
  change (io_fds (closure s0)) with (replicate 6 (-1)) in Hio1.
  assert (forall name, Sys.has_slash name = false ->
            w_files (sys s1) !! (dir +:+ "/" +:+ name) = None) as Hnone1.
  { intros name Hname. rewrite Hf1. by apply no_file_without_dir. }
  assert (forall name, Sys.has_slash name = false ->
            dir +:+ "/" +:+ name ∉ w_dirs (sys s1)) as Hnodir1.
  { intros name Hname Hin.
    destruct (Hdirs1 _ Hin) as [Hold|[Hup|Hself]].
    - apply Hnew. rewrite <- (dirname_app dir name) by done. by apply Hdwf.
    - assert (forall q, (String.length q
                         <= String.length
                              (root +:+ "/" +:+ str (d_submithost details)
                                 +:+ "/" +:+ str (d_submituser details)))%nat ->
                        q <> dir +:+ "/" +:+ name) as Hshort.
      { intros q Hq E. rewrite E, Hform in Hq.
        rewrite !string_app_length in Hq. simpl in Hq. lia. }
      repeat (apply elem_of_cons in Hup as [Hup|Hup]);
        [..|by apply elem_of_nil in Hup];
        symmetry in Hup; revert Hup; apply Hshort;
        rewrite !string_app_length; simpl; lia.
    - rewrite Hd1 in Hself. injection Hself as Hself.
      by apply (dir_not_file_path dir name). }
  destruct (iolog_details_write details s1) as [ok s2] eqn:Hlog.
  destruct ok; simpl; [|done].
  pose proof (iolog_details_write_success _ _ _ _ _ Hl1 Hlog)
    as (_ & _ & _ & Hdirs2 & _).
  eapply iolog_details_write_ok in Hlog as (Hc2 & Hl2 & Hf2); [|done..].
  destruct (iolog_open IOFD_TIMING s2) as [ok s3] eqn:H3.
  destruct ok; simpl; [|done].
  assert (Z.to_nat IOFD_TIMING < length (io_fds (closure s2)))%nat as Hlen2
    by (rewrite Hc2, Hio1; vm_compute; lia).
  pose proof (iolog_open_fds IOFD_TIMING s2 s3 Hlen2 H3)
    as (_ & _ & _ & _ & Hdirs3 & _).
  pose proof (iolog_open_stream _ _ _ dir j dd "timing" H3 Hl2 Hp eq_refl Hlen2)
    as (Hst3 & _ & _).
  eapply (iolog_open_ok _ _ _ dir j dd "timing") in H3
    as (Hfd3 & Hdd3 & Hl3 & _ & Hf3 & f1 & _ & Hio3 & _);
    [|exact Hl2|exact Hp|done|exact Hlen2].
  destruct (iolog_open IOFD_STDOUT s3) as [ok s4] eqn:H4.
  destruct ok; simpl; [|done].
  assert (Z.to_nat IOFD_STDOUT < length (io_fds (closure s3)))%nat as Hlen3
    by (rewrite Hio3, Hc2, Hio1; vm_compute; lia).
  pose proof (iolog_open_fds IOFD_STDOUT s3 s4 Hlen3 H4)
    as (_ & _ & _ & _ & Hdirs4 & _).
  pose proof (iolog_open_stream _ _ _ dir j dd "stdout" H4 Hl3 Hp eq_refl Hlen3)
    as (Hst4 & _ & Hk4).
  eapply (iolog_open_ok _ _ _ dir j dd "stdout") in H4
    as (Hfd4 & Hdd4 & Hl4 & _ & Hf4 & f2 & _ & Hio4 & _);
    [|exact Hl3|exact Hp|done|exact Hlen3].
  destruct (iolog_open IOFD_STDERR s4) as [ok s5] eqn:H5.
  destruct ok; simpl; [|done].
  assert (Z.to_nat IOFD_STDERR < length (io_fds (closure s4)))%nat as Hlen4
    by (rewrite Hio4, Hio3, Hc2, Hio1; vm_compute; lia).
  pose proof (iolog_open_fds IOFD_STDERR s4 s5 Hlen4 H5)
    as (_ & _ & _ & _ & Hdirs5 & _).
  pose proof (iolog_open_stream _ _ _ dir j dd "stderr" H5 Hl4 Hp eq_refl Hlen4)
    as (Hst5 & _ & Hk5).
  eapply (iolog_open_ok _ _ _ dir j dd "stderr") in H5
    as (Hfd5 & Hdd5 & Hl5 & _ & Hf5 & f3 & _ & Hio5 & _);
    [|exact Hl4|exact Hp|done|exact Hlen4].
  destruct (iolog_open IOFD_TTYOUT s5) as [ok s6] eqn:H6.
  destruct ok; simpl; [|done].
  assert (Z.to_nat IOFD_TTYOUT < length (io_fds (closure s5)))%nat as Hlen5
    by (rewrite Hio5, Hio4, Hio3, Hc2, Hio1; vm_compute; lia).
  pose proof (iolog_open_fds IOFD_TTYOUT s5 s6 Hlen5 H6)
    as (_ & _ & _ & _ & Hdirs6 & _).
  pose proof (iolog_open_stream _ _ _ dir j dd "ttyout" H6 Hl5 Hp eq_refl Hlen5)
    as (Hst6 & _ & Hk6).
  pose proof (iolog_open_adjacent IOFD_TTYOUT s5) as Hadj. rewrite H6 in Hadj.
  eapply (iolog_open_ok _ _ _ dir j dd "ttyout") in H6
    as (Hfd6 & Hdd6 & Hl6 & _ & Hf6 & f4 & _ & Hio6 & _);
    [|exact Hl5|exact Hp|done|exact Hlen5].
  intros [= <-] Hcalm.
  assert (w_dirs (sys s6) = w_dirs (sys s1)) as Hdirs
    by (by rewrite Hdirs6, Hdirs5, Hdirs4, Hdirs3, Hdirs2).
  assert (forall name, name <> "log"%string -> Sys.has_slash name = false ->
            w_files (sys s2) !! (dir +:+ "/" +:+ name) = None) as Hnone2.
  { intros name Hlog Hname. rewrite Hf2 by done. by apply Hnone1. }
  assert (forall i, Closure.io_fd (closure s6) i
                    = if (0 <=? i) && (i <? IOFD_MAX)
                      then default (adjacent (closure s6) i)
                             ([-1; f2; f3; -1; f4; f1] !! Z.to_nat i)
                      else adjacent (closure s6) i) as Hfds.
  { intros i. unfold Closure.io_fd.
    by rewrite Hio6, Hio5, Hio4, Hio3, Hc2, Hio1. }
  exists dir. split.
  { by rewrite Hdd6, Hdd5, Hdd4, Hdd3, Hc2. }
  constructor.
  - done.
  - rewrite Hio6, Hio5, Hio4, Hio3, Hc2, Hio1. reflexivity.
  - done.
  - by rewrite Hdirs.
  - exists j, dd. done.
  - by exists [].
  - intros n name Hname.
    destruct n as [|[|[|[|[|[|n]]]]]]; [..|done]; injection Hname as <-.
    + change (opened_files 0%nat) with (@None (list ascii)).
      split_and!.
      * by rewrite Hfds.
      * rewrite Hf6, Hf5, Hf4, Hf3.
        rewrite !lookup_insert_ne by (by intros ?%path_inj).
        by apply Hnone2.
      * rewrite Hdirs. by apply Hnodir1.
    + change (opened_files 1%nat) with (Some (@nil ascii)).
      apply Hk6; [vm_compute; lia|by intros ?%path_inj|].
      apply Hk5; [vm_compute; lia|by intros ?%path_inj|].
      exact Hst4.
    + change (opened_files 2%nat) with (Some (@nil ascii)).
      apply Hk6; [vm_compute; lia|by intros ?%path_inj|].
      exact Hst5.
    + change (opened_files 3%nat) with (@None (list ascii)).
      split_and!.
      * by rewrite Hfds.
      * rewrite Hf6, Hf5, Hf4, Hf3.
        rewrite !lookup_insert_ne by (by intros ?%path_inj).
        by apply Hnone2.
      * rewrite Hdirs. by apply Hnodir1.
    + change (opened_files 4%nat) with (Some (@nil ascii)).
      exact Hst6.
    + change (opened_files 5%nat) with (Some (@nil ascii)).
      apply Hk6; [vm_compute; lia|by intros ?%path_inj|].
      apply Hk5; [vm_compute; lia|by intros ?%path_inj|].
      apply Hk4; [vm_compute; lia|by intros ?%path_inj|].
      exact Hst3.
Qed.

Lemma example_world_wf : fs_wf (sys (Example.state0 []))
                         /\ dirs_wf (sys (Example.state0 [])).
Proof.
  split.
  - intros p [c Hc]. vm_compute in Hc. discriminate.
  - intros p Hp. simpl in Hp. unfold Example.world0 in Hp. simpl in Hp.
    apply elem_of_union in Hp as [Hp|Hp%elem_of_singleton].
    + apply elem_of_union in Hp as [Hp%elem_of_singleton|Hp%elem_of_singleton];
        subst p; apply (bool_decide_unpack _); vm_compute; exact I.
    + subst p. apply (bool_decide_unpack _). vm_compute. exact I.
Qed.

Lemma example_opened_logging :
  logging Example.session_dir Example.opened opened_files.
Proof.
  destruct example_world_wf as [Hwf Hdwf].
  destruct (iolog_init_ready Example.root Example.exec_msg (Example.state0 [])
              Example.opened Hwf Hdwf) as (dir & Hdir & Hlog).
  - vm_compute. reflexivity.
  - vm_compute. reflexivity.
  - vm_compute in Hdir. injection Hdir as <-. exact Hlog.
Qed.

(** Four bytes on stdout, a window change, three bytes on stdin. *)
Lemma store_all_log_witness :
  exists s',
    store_all [Data 1 (Example.chunk 100000000 4);
               Winsize (mk_ChangeWindowSize (mk_TimeSpec 0 5) 24 80);
               Data 0 (Example.chunk 200000000 3)] Example.opened
    = Some s'
    /\ w_files (sys s') !! (Example.session_dir +:+ "/" +:+ "timing")
       = Some (default [] (opened_files 5%nat)
                 ++ concat (map event_line
                      [Data 1 (Example.chunk 100000000 4);
                       Winsize (mk_ChangeWindowSize (mk_TimeSpec 0 5) 24 80);
                       Data 0 (Example.chunk 200000000 3)])).
Proof.
  destruct (store_all_log Example.session_dir Example.opened opened_files
              [Data 1 (Example.chunk 100000000 4);
               Winsize (mk_ChangeWindowSize (mk_TimeSpec 0 5) 24 80);
               Data 0 (Example.chunk 200000000 3)])
    as (s' & Hs' & _ & Htiming & _).
  - exact example_opened_logging.
  - repeat constructor; vm_compute; try discriminate; reflexivity.
  - exists s'. split; [exact Hs'|exact Htiming].
Defined.

(** X18.  From the session open to the log.  After a successful
    [iolog_init] on a file system that is a tree, once the environment
    lets every call through, every sequence of storable events is stored
    with each call returning 0, and then the timing file of the session
    directory holds exactly the lines of the events in order, the file of
    each byte stream that has data events holds exactly their bytes in
    order, stdout, stderr and ttyout without data events are empty, stdin
    and ttyin without data events do not exist, and the [log] file still
    holds the header text of the message. *)
Theorem iolog_init_store_all root msg s s1 evs :
  fs_wf (sys s) -> dirs_wf (sys s) ->
  iolog_init root msg s = (true, s1) ->
  w_script (sys s1) = [] ->
  Forall storable evs ->
  exists dir s2,
    iolog_dir (closure s1) = Some dir
    /\ store_all evs s1 = Some s2
    /\ w_files (sys s2) !! (dir +:+ "/" +:+ "timing")
       = Some (concat (map event_line evs))
    /\ (forall n name, (n < 5)%nat -> iolog_names !! n = Some name ->
          w_files (sys s2) !! (dir +:+ "/" +:+ name)
          = if existsb (touches n) evs
            then Some (concat (map (event_data n) evs))
            else opened_files n)
    /\ w_files (sys s2) !! (dir +:+ "/" +:+ "log")
       = Some (log_text (fst (iolog_details_fill msg))).
Proof.
  intros Hwf Hdwf Hinit Hcalm Hevs.
  destruct (iolog_init_ready _ _ _ _ Hwf Hdwf Hinit Hcalm) as (dir & Hdir & Hlog).
  destruct (iolog_init_success _ _ _ _ Hinit)
    as (dir' & k0 & k1 & k2 & k3 & k4 & Hdir' & _ & _ & _ & _ & _ & _ & _ & Hf).
  rewrite Hdir in Hdir'. injection Hdir' as <-.
  destruct (store_all_logging dir evs s1 _ Hlog Hevs)
    as (s2 & Hs2 & Hlog2 & Hfr).
  exists dir, s2. split_and!; try done.
  - rewrite (logging_file dir s2 _ 5 "timing" Hlog2) by done.
    rewrite after_events_timing; [done|done|by exists []].
  - intros n name Hn Hname.
    rewrite (logging_file dir s2 _ n name Hlog2 Hname).
    rewrite after_events_stream by done.
    destruct (existsb (touches n) evs); [|done].
    destruct n as [|[|[|[|[|n]]]]]; try lia; reflexivity.
  - rewrite Hfr.
    + rewrite Hf. rewrite !lookup_insert_ne by (by intros ?%path_inj).
      by rewrite lookup_insert_eq.
    + intros name Hin E%path_inj. subst name. unfold iolog_names in Hin.
      repeat (apply elem_of_cons in Hin as [Hin|Hin]); try done.
      by apply elem_of_nil in Hin.
Qed.

Lemma iolog_init_store_all_witness :
  exists dir s2,
    iolog_dir (closure Example.opened) = Some dir
    /\ store_all [Data 1 (Example.chunk 100000000 4)] Example.opened = Some s2
    /\ w_files (sys s2) !! (dir +:+ "/" +:+ "timing")
       = Some (concat (map event_line [Data 1 (Example.chunk 100000000 4)])).
Proof.
  destruct example_world_wf as [Hwf Hdwf].
  destruct (iolog_init_store_all Example.root Example.exec_msg
              (Example.state0 []) Example.opened
              [Data 1 (Example.chunk 100000000 4)] Hwf Hdwf)
    as (dir & s2 & Hdir & Hs2 & Htiming & _).
  - vm_compute. reflexivity.
  - vm_compute. reflexivity.
  - repeat constructor; vm_compute; try discriminate; reflexivity.
  - exists dir, s2. split_and!; [exact Hdir|exact Hs2|exact Htiming].
Defined.

(** ** Where a restart leaves the descriptors *)

Lemma lseek_trace fd off wh w :
  w_trace (snd (Sys.lseek fd off wh w))
  = w_trace w ++ [Lseek fd off wh (fst (Sys.lseek fd off wh w))].
Proof.
  unfold Sys.lseek. sys_script w.
  all: destruct (Sys.fd_lookup w fd) as [[i d]|]; simpl; try done.
  all: match goal with
       | |- context [if ?b then _ else _] => destruct b
       end; done.
Qed.

Lemma ftruncate_trace fd len w :
  w_trace (snd (Sys.ftruncate fd len w))
  = w_trace w ++ [Ftruncate fd len (fst (Sys.ftruncate fd len w))].
Proof.
  unfold Sys.ftruncate. sys_script w.
  all: destruct (Sys.fd_lookup w fd) as [[i d]|]; simpl; try done.
  all: destruct (negb (ofd_wr d) || (len <? 0)); simpl; try done.
  all: by destruct (w_files w !! ofd_path d).
Qed.

Lemma iolog_restart_success msg s s' :
  iolog_restart msg s = (true, s') ->
  let dir := log_id msg in
  let target := mk_timespec (msg_tv_sec (resume_point msg))
                  (msg_tv_nsec (resume_point msg)) in
  exists timing recs pos,
    w_files (sys s) !! (dir +:+ "/timing") = Some timing
    /\ read_records (length recs) timing = Some (recs, pos)
    /\ stream_at_end s' IOFD_TIMING (dir +:+ "/timing") (take pos timing)
    /\ (exists before,
          w_trace (sys s')
          = before
              ++ [Lseek (Closure.io_fd (closure s') IOFD_TIMING)
                    (Z.of_nat pos) SEEK_SET (Z.of_nat pos);
                  Ftruncate (Closure.io_fd (closure s') IOFD_TIMING)
                    (Z.of_nat pos) 0])
    /\ forall n name, (n < 5)%nat -> iolog_names !! n = Some name ->
         Closure.io_fd (closure s') (Z.of_nat n) = -1
         \/ exists i,
              Sys.fd_lookup (sys s') (Closure.io_fd (closure s') (Z.of_nat n))
              = Some (i, mk_ofd (dir +:+ "/" +:+ name)
                           (stream_bytes (Z.of_nat n) recs) true true false)
              /\ (referenced (Z.of_nat n) recs = true ->
                  exists c,
                    w_files (sys s') !! (dir +:+ "/" +:+ name) = Some c
                    /\ Z.of_nat (length c) = stream_bytes (Z.of_nat n) recs).
Proof.
  intros Hrun dir0 target. revert Hrun. unfold iolog_restart. fold target.
  subst dir0.
  destruct (Sys.strdup (log_id msg) (sys s)) as [copy w1] eqn:Hsd.
  apply strdup_inv in Hsd as (Hd1 & _ & Hf1 & Hofds1 & Hfds1 & _ & Hcopy).
  destruct Hcopy as [->| ->].
  { done. }
  set (dir := log_id msg).
  simpl sys.
  destruct (Sys.open dir Sys.O_RDONLY w1) as [fd0 w2] eqn:Hop.
  apply open_rdonly_inv in Hop as (Hd2 & _ & Hf2 & _ & Hop).
  simpl closure. simpl iolog_dir_fd.
  destruct (fd0 =? -1) eqn:Hfd0.
  { done. }
  apply Z.eqb_neq in Hfd0.
  destruct Hop as [(? & _)|(d0 & Hr0 & Hp0 & _ & _ & Hfds2 & Hofds2)]; [done|].
  assert (Sys.fd_lookup w2 fd0 = Some (fresh (dom (w_ofds w1)), d0)) as Hl0.
  { subst fd0. eapply fd_lookup_fresh; [done|].
    by rewrite Hofds2, lookup_insert_eq. }
  simpl sys.
  destruct (open_existing iolog_names fd0 w2) as [fds w3] eqn:Hoe.
  apply (fun H => open_existing_inv _ _ _ _ _ _ _ H Hl0) in Hoe
    as (Hlen & Hf3 & Hd3 & Hkeep3 & Hfds).
  rewrite Hp0 in Hfds.
  set (c3 := Closure.set_io_fds fds _).
  assert (length (io_fds c3) = 6%nat) as Hlen3 by done.
  assert (elapsed_time c3 = elapsed_time (closure s)) as Hel3 by done.
  simpl closure. simpl sys.
  destruct (io_fd_lookup c3 5 Hlen3 ltac:(lia)) as (tfd & Htfd & Hio5).
  change (Z.of_nat 5) with IOFD_TIMING in Hio5. rewrite Hio5.
  destruct (tfd =? -1) eqn:Htfd1.
  { done. }
  apply Z.eqb_neq in Htfd1.
  destruct (Hfds 5%nat "timing"%string tfd eq_refl Htfd)
    as [?|([timing Htiming] & it & Hlt)]; [done|].
  assert (w_files (sys s) !! (dir +:+ "/timing") = Some timing) as Htim0.
  { rewrite <- Hf1, <- Hf2. exact Htiming. }
  destruct (Sys.dup tfd w3) as [fd' w4] eqn:Hdup.
  apply dup_inv in Hdup as (Hd4 & _ & Hf4 & Hofds4 & Hdup).
  destruct (fd' =? -1) eqn:Hfd'.
  { done. }
  apply Z.eqb_neq in Hfd'.
  destruct Hdup as [(? & _)|(i & d & Hl & Hr' & Hfds4)]; [done|].
  rewrite Hlt in Hl. injection Hl as <- <-.
  destruct (Sys.fdopen fd' w4) as [fp w5] eqn:Hfo.
  apply fdopen_inv in Hfo as (Hd5 & _ & Hf5 & Hofds5 & Hfds5 & Hfp).
  destruct Hfp as [->| ->].
  { done. }
  set (fp := Sys.mk_FILE fd' false false []).
  set (s5 := with_sys w5 _).
  assert (forall fd i d, Sys.fd_lookup w3 fd = Some (i, d) ->
                         Sys.fd_lookup w5 fd = Some (i, d)) as Hkeep5.
  { intros fd i d Hl. rewrite (fd_lookup_ext w4 w5) by done.
    apply (fd_lookup_install w3 w4 fd i d it d Hl Hfds4). by right. }
  assert (w_files w5 = w_files (sys s)) as Hfiles5
    by by rewrite Hf5, Hf4, Hf3, Hf2.
  assert (w_debug w5 = w_debug (sys s)) as Hdebug5
    by by rewrite Hd5, Hd4, Hd3, Hd2.
  assert (replaying dir timing (w_files (sys s)) (elapsed_time (closure s))
            fp s5 [] 0) as Hrep.
  { assert (closure s5 = c3) as Hc5 by done.
    assert (sys s5 = w5) as Hs5 by done.
    constructor; rewrite ?Hc5, ?Hs5.
    - done.
    - done.
    - by rewrite Hfiles5.
    - exists it. rewrite Hio5. split_and!.
      + by apply Hkeep5.
      + rewrite (fd_lookup_ext w4 w5) by done. subst fd'.
        eapply fd_lookup_fresh; [done|]. rewrite Hofds4.
        by apply fd_lookup_Some in Hlt as (_ & _ & ?).
      + simpl. intros Heq. rewrite <- Heq, Hr' in Hlt.
        apply fd_lookup_Some in Hlt as (_ & Hin & _).
        rewrite Nat2Z.id in Hin.
        pose proof (is_fresh (dom (w_fds w3))) as Hfresh.
        apply Hfresh, elem_of_dom. eauto.
    - lia.
    - done.
    - done.
    - intros n name Hn Hname.
      destruct (io_fd_lookup c3 n Hlen3 ltac:(lia)) as (fd & Hfd & Hio).
      rewrite Hio. split.
      + destruct (Hfds n name fd Hname Hfd) as [->|(_ & i & Hl)];
          [by left|right].
        exists i. by apply Hkeep5.
      + by rewrite Hfiles5. }
  assert (replay_fuel fd' w5 = S (length timing)) as ->.
  { unfold replay_fuel.
    destruct Hrep as [_ _ Ht (i & _ & Hl & _) _ _ _ _].
    change (sys s5) with w5 in Hl, Ht. change (Sys.fp_fd fp) with fd' in Hl.
    rewrite Hl. simpl ofd_path. by rewrite Ht. }
  destruct (replay (S (length timing)) target fp s5) as [[exit fp6] s6] eqn:Hloop.
  apply (replay_inv _ _ _ _ _ _ _ _ _ _ _ _ _ Hrep) in Hloop;
    [|intros k Hk; simpl in Hk; lia|lia].
  destruct Hloop as (msgs & Hd6 & Hexit).
  simpl in Hd6. rewrite Hdebug5 in Hd6.
  destruct exit.
  3: done.
  2: done.
  (* the target is reached *)
  destruct Hexit as (-> & Hel6 & recs & pos & Hrne & Hbel & Hrep6).
  rewrite app_nil_r in Hd6.
  destruct Hrep6 as [_ Hbuf Ht (i6 & Htl & Hfpl & Hne6) Hpos Hrecs Hel Hstr].
  destruct (Sys.ftello fp6 (sys s6)) as [len w7] eqn:Htell.
  apply ftello_inv in Htell as (Hd7 & _ & Hf7 & Hofds7 & Hfds7 & Hlen7).
  destruct (fclose_inv fp6 w7 Hbuf) as (Hd8 & _ & Hf8 & Hofds8 & Hkeep8).
  set (w8 := Sys.fclose fp6 w7) in *.
  match goal with
  | |- context [Sys.lseek ?fd len SEEK_SET w8] =>
      pose proof (lseek_trace fd len SEEK_SET w8) as Ht9
  end.
  destruct (Sys.lseek _ len SEEK_SET w8) as [r w9] eqn:Hseek.
  simpl in Ht9.
  apply lseek_inv in Hseek as (Hd9 & _ & Hfds9 & Hf9 & Hseek).
  simpl sys.
  destruct (r =? -1) eqn:Hr.
  { done. }
  apply Z.eqb_neq in Hr.
  destruct Hseek as [(? & _)|(i & d & Hl & -> & Hlen0 & Hofds9)]; [done|].
  assert (Sys.fd_lookup w8 (Closure.io_fd (closure s6) IOFD_TIMING)
          = Some (i6, mk_ofd (dir +:+ "/timing") (Z.of_nat pos)
                        true true false)) as Htl8.
  { rewrite Hkeep8 by by apply not_eq_sym.
    by rewrite (fd_lookup_ext (sys s6) w7). }
  rewrite Htl8 in Hl. injection Hl as <- <-.
  assert (len = Z.of_nat pos) as ->.
  { destruct Hlen7 as [->|(i & d & Hl & ->)]; [lia|].
    rewrite Hfpl in Hl. by injection Hl as <- <-. }
  match goal with
  | |- context [Sys.ftruncate ?fd (Z.of_nat pos) w9] =>
      pose proof (ftruncate_trace fd (Z.of_nat pos) w9) as Ht10
  end.
  destruct (Sys.ftruncate _ (Z.of_nat pos) w9) as [r w10] eqn:Htr.
  simpl in Ht10.
  apply ftruncate_inv in Htr as (Hd10 & _ & Hfds10 & Hofds10 & Htr).
  simpl sys.
  destruct (r =? -1) eqn:Hr2.
  { done. }
  apply Z.eqb_neq in Hr2.
  destruct Htr as [(? & _)|(i & d & c & Hl & _ & _ & Hc & -> & Hf10)]; [done|].
  assert (Sys.fd_lookup w9 (Closure.io_fd (closure s6) IOFD_TIMING)
          = Some (i6, mk_ofd (dir +:+ "/timing") (Z.of_nat pos)
                        true true false)) as Htl9
    by (eapply fd_lookup_insert_eq; eauto).
  rewrite Htl9 in Hl. injection Hl as <- <-. simpl in Hc, Hf10.
  rewrite Hf9, Hf8, Hf7, Ht in Hc. injection Hc as <-.
  rewrite Nat2Z.id, resize_le in Hf10 by done.
  intros [= <-]. simpl.
  assert (forall fd i d,
            fd <> Sys.fp_fd fp6 -> i <> i6 ->
            Sys.fd_lookup (sys s6) fd = Some (i, d) ->
            Sys.fd_lookup w10 fd = Some (i, d)) as Hkeep10.
  { intros fd i d Hfd Hi Hl.
    rewrite (fd_lookup_ext w9 w10) by done.
    eapply (fd_lookup_insert_ne w8 w9); [|done|exact Hofds9|done].
    rewrite Hkeep8 by done. by rewrite (fd_lookup_ext (sys s6) w7). }
  exists timing, recs, pos. split_and!; try done.
  - exists i6, (Sys.set_off (Z.of_nat pos)
                  (mk_ofd (dir +:+ "/timing") (Z.of_nat pos) true true false)).
    simpl. split_and!; try done.
    + rewrite (fd_lookup_ext w9 w10) by done.
      exact Htl9.
    + rewrite length_take. lia.
    + by rewrite Hf10, lookup_insert_eq.
  - exists (w_trace w8). by rewrite Ht10, Ht9, <- app_assoc.
  - intros n name Hn Hname.
    destruct (Hstr n name Hn Hname) as [[Hclosed|(i & Hl)] Hfile]; [by left|].
    right.
    assert (dir +:+ "/" +:+ name <> dir +:+ "/timing")%string as Hnt.
    { intros Heq. apply (path_inj dir name "timing") in Heq.
      by eapply iolog_names_timing. }
    exists i. split.
    + apply Hkeep10; [| |exact Hl].
      * intros Heq. rewrite Heq, Hfpl in Hl. by injection Hl.
      * eapply lookup_path_ne; [exact Hl|exact Htl|done].
    + intros Href. rewrite Href in Hfile. destruct Hfile as (c & Hc & Hlenc).
      exists c. by rewrite Hf10, lookup_insert_ne, Hf9, Hf8, Hf7.
Qed.

(** X19.  After a successful restart the next append lands where the
    preserved log ends.  With [recs] the preserved records, those the
    timing file has been cut to, and [pos] the offset just past them: the
    last two system calls of the restart are
    [lseek(io_fds[IOFD_TIMING], pos, SEEK_SET)], which returns [pos], and
    [ftruncate(io_fds[IOFD_TIMING], pos)], so the timing descriptor has
    been put at the end of the timing file.  Every byte-stream descriptor
    that is open stands at the sum of the byte counts of the records of
    [recs] for its stream, where the [lseek(SEEK_CUR)] of the loop have
    brought it from offset 0, and that is the end of the stream's file
    whenever some preserved record refers to the stream.  (For an open
    stream that no preserved record refers to the sum is 0: its
    descriptor stands at the start of the file, whatever the file
    holds.) *)
Theorem iolog_restart_positions msg s s' :
  iolog_restart msg s = (true, s') ->
  let dir := log_id msg in
  exists timing recs pos,
    w_files (sys s) !! (dir +:+ "/timing") = Some timing
    /\ read_records (length recs) timing = Some (recs, pos)
    /\ w_files (sys s') !! (dir +:+ "/timing") = Some (take pos timing)
    /\ (exists before,
          w_trace (sys s')
          = before
              ++ [Lseek (Closure.io_fd (closure s') IOFD_TIMING)
                    (Z.of_nat pos) SEEK_SET (Z.of_nat pos);
                  Ftruncate (Closure.io_fd (closure s') IOFD_TIMING)
                    (Z.of_nat pos) 0])
    /\ forall n name, (n < 5)%nat -> iolog_names !! n = Some name ->
         Closure.io_fd (closure s') (Z.of_nat n) = -1
         \/ exists i,
              Sys.fd_lookup (sys s') (Closure.io_fd (closure s') (Z.of_nat n))
              = Some (i, mk_ofd (dir +:+ "/" +:+ name)
                           (stream_bytes (Z.of_nat n) recs) true true false)
              /\ (referenced (Z.of_nat n) recs = true ->
                  exists c,
                    w_files (sys s') !! (dir +:+ "/" +:+ name) = Some c
                    /\ Z.of_nat (length c) = stream_bytes (Z.of_nat n) recs).
Proof.
  intros Hrun dir.
  destruct (iolog_restart_success _ _ _ Hrun)
    as (timing & recs & pos & Ht & Hrecs & Hend & Hlast & Hstr).
  exists timing, recs, pos. split_and!; try done.
  destruct Hend as (i & d & _ & _ & _ & _ & Hfile). exact Hfile.
Qed.

(** The sixth scenario of the specification again: after the restart to
    0.6 s over 100 bytes of excess, stdout is open at the end of its
    file. *)
Lemma iolog_restart_positions_witness :
  exists recs,
    Closure.io_fd
      (closure (snd (Example.restart_at Example.logged_excess 600000000))) 1
    = -1
    \/ exists i,
         Sys.fd_lookup
           (sys (snd (Example.restart_at Example.logged_excess 600000000)))
           (Closure.io_fd
              (closure (snd (Example.restart_at Example.logged_excess
                               600000000))) 1)
         = Some (i, mk_ofd (Example.session_dir +:+ "/" +:+ "stdout")
                      (stream_bytes 1 recs) true true false).
Proof.
  destruct (iolog_restart_positions
              (mk_RestartMessage Example.session_dir (mk_TimeSpec 0 600000000))
              (mk_state Example.closure0 Example.logged_excess)
              (snd (Example.restart_at Example.logged_excess 600000000)))
    as (timing & recs & pos & _ & _ & _ & _ & Hstr).
  - vm_compute. reflexivity.
  - exists recs.
    destruct (Hstr 1%nat "stdout"%string ltac:(lia) eq_refl)
      as [Hclosed|(i & Hl & _)]; [by left|right].
    exists i. exact Hl.
Defined.

(** ** What the append engine does when the environment fails *)

Lemma write_script fd buf w :
  w_script (snd (Sys.write fd buf w)) = tail (w_script w).
Proof.
  unfold Sys.write, Sys.next_outcome.
  destruct (w_script w) as [|o rest] eqn:Hs; simpl; rewrite ?fd_lookup_script.
  all: try destruct o; simpl.
  all: try (unfold Sys.failed; simpl; done).
  all: destruct (Sys.fd_lookup w fd) as [[i d]|]; simpl; try done.
  all: destruct (negb (ofd_wr d)); simpl; try done.
  all: by destruct (w_files w !! ofd_path d).
Qed.

Lemma write_fault fd buf w e rest :
  w_script w = Fault e :: rest ->
  fst (Sys.write fd buf w) = -1
  /\ w_files (snd (Sys.write fd buf w)) = w_files w
  /\ w_trace (snd (Sys.write fd buf w)) = w_trace w ++ [Write fd buf (-1)].
Proof.
  intros Hs. unfold Sys.write, Sys.next_outcome. rewrite Hs. done.
Qed.

(** X20.  [store_iobuf] is not atomic.  When the write of the bytes goes
    through and the write of the timing line fails, the call returns -1
    and leaves the elapsed time as it was, but the bytes stay at the end
    of the stream file with no timing record for them: nothing is rolled
    back. *)
Theorem store_iobuf_not_atomic iofd msg s p c e rest :
  0 <= iofd < IOFD_MAX ->
  Z.of_nat (length (ib_data msg)) < 18446744073709551615 ->
  stream_at_end s iofd p c ->
  w_script (sys s) = Proceed :: Fault e :: rest ->
  exists s',
    store_iobuf iofd msg s = (-1, s')
    /\ w_files (sys s') = <[p := c ++ ib_data msg]> (w_files (sys s))
    /\ elapsed_time (closure s') = elapsed_time (closure s)
    /\ w_trace (sys s')
       = w_trace (sys s)
           ++ [Write (Closure.io_fd (closure s) iofd) (ib_data msg)
                 (Z.of_nat (length (ib_data msg)));
               Write (Closure.io_fd (closure s) IOFD_TIMING)
                 (iobuf_line iofd msg) (-1)].
Proof.
  intros Hr Hlen (i & d & Hl & Hwr & Hp & Hoff & Hf) Hs.
  assert (healthy (sys s)) as Hh by (unfold healthy; by rewrite Hs).
  rewrite <- Hp in Hf.
  destruct (write_healthy _ (ib_data msg) _ _ _ _ Hh Hl Hwr Hf)
    as (w1 & Hw & Ht1 & _ & _ & _ & Hf1 & _).
  pose proof (write_script (Closure.io_fd (closure s) iofd) (ib_data msg) (sys s))
    as Hs1.
  rewrite Hw, Hs in Hs1. simpl in Hs1.
  destruct (write_fault (Closure.io_fd (closure s) IOFD_TIMING)
              (iobuf_line iofd msg) w1 e rest Hs1) as (Hr2 & Hf2 & Ht2).
  rewrite Hp, Hoff, write_at_end in Hf1.
  unfold store_iobuf.
  assert ((Closure.io_fd (closure s) iofd =? -1) = false) as ->.
  { apply Z.eqb_neq. intros E. rewrite E in Hl. done. }
  simpl negb. cbv iota. rewrite iobuf_line_fits.
  unfold iolog_write.
  destruct (Z.ltb_spec iofd 0); [lia|].
  destruct (Z.leb_spec IOFD_MAX iofd); [lia|]. simpl orb. cbv iota.
  rewrite Hw, Z.eqb_refl. simpl negb. cbv iota.
  simpl ((_ <? _) || _). cbv iota.
  cbn [closure sys with_sys].
  destruct (Sys.write (Closure.io_fd (closure s) IOFD_TIMING)
              (iobuf_line iofd msg) w1) as [n w2] eqn:Hw2.
  simpl in Hr2, Hf2, Ht2. subst n.
  assert ((size_t (-1) =? size_t (Z.of_nat (length (iobuf_line iofd msg))))
          = false) as ->.
  { apply Z.eqb_neq. rewrite size_t_neg1.
    pose proof (iobuf_line_fits iofd msg) as Hfit.
    apply orb_false_iff in Hfit as [_ Hfit%Z.leb_gt].
    unfold sizeof_tbuf in Hfit.
    rewrite size_t_id by (unfold in_size_t; lia). lia. }
  simpl. eexists. split; [reflexivity|]. simpl. split_and!.
  - by rewrite Hf2, Hf1.
  - done.
  - by rewrite Ht2, Ht1, <- app_assoc.
Qed.

(** Eight bytes on stdout when the second write hits a full disk. *)
Lemma store_iobuf_not_atomic_witness :
  exists s',
    store_iobuf IOFD_STDOUT (Example.chunk 500000000 8)
      (with_sys (Sys.set_script [Proceed; Fault 28] (sys Example.opened))
         Example.opened) = (-1, s')
    /\ w_files (sys s')
       = <[Example.session_dir +:+ "/stdout"
             := [] ++ ib_data (Example.chunk 500000000 8)]>
           (w_files (sys (with_sys (Sys.set_script [Proceed; Fault 28]
                                      (sys Example.opened))
                            Example.opened))).
Proof.
  destruct (store_iobuf_not_atomic IOFD_STDOUT (Example.chunk 500000000 8)
              (with_sys (Sys.set_script [Proceed; Fault 28] (sys Example.opened))
                 Example.opened)
              (Example.session_dir +:+ "/stdout") [] 28 [])
    as (s' & Hr & Hf & _).
  - unfold IOFD_STDOUT, IOFD_MAX. lia.
  - vm_compute. reflexivity.
  - eexists _, _. vm_compute. split_and!; reflexivity.
  - reflexivity.
  - exists s'. split; [exact Hr|exact Hf].
Defined.

(** ** What a restart never does *)

Lemma same_names_refl w : same_names w w.
Proof. done. Qed.

Lemma same_names_trans w1 w2 w3 :
  same_names w1 w2 -> same_names w2 w3 -> same_names w1 w3.
Proof. intros [Hd1 Hf1] [Hd2 Hf2]. split; congruence. Qed.

Lemma same_names_eq w w' :
  w_dirs w' = w_dirs w -> w_files w' = w_files w -> same_names w w'.
Proof. intros Hd Hf. split; [done|by rewrite Hf]. Qed.

Lemma same_names_debug m w : same_names w (Sys.debug m w).
Proof. done. Qed.

Lemma write_names fd buf w : same_names w (snd (Sys.write fd buf w)).
Proof.
  destruct (Sys.write fd buf w) as [r w'] eqn:Hw. simpl.
  apply write_inv in Hw
    as (_ & _ & Hd & _ & [(_ & Hf & _)|(i & d & c & _ & _ & Hc & _ & Hf & _)]).
  - by apply same_names_eq.
  - split; [done|]. rewrite Hf. apply dom_insert_lookup_L. by rewrite Hc.
Qed.

Lemma ftruncate_names fd len w : same_names w (snd (Sys.ftruncate fd len w)).
Proof.
  destruct (Sys.ftruncate fd len w) as [r w'] eqn:Ht. simpl.
  apply ftruncate_inv in Ht
    as (_ & Hd & _ & _ & [(_ & Hf)|(i & d & c & _ & _ & _ & Hc & _ & Hf)]).
  - by apply same_names_eq.
  - split; [done|]. rewrite Hf. apply dom_insert_lookup_L. by rewrite Hc.
Qed.

Lemma lseek_names fd off wh w : same_names w (snd (Sys.lseek fd off wh w)).
Proof.
  destruct (Sys.lseek fd off wh w) as [r w'] eqn:Hl. simpl.
  apply lseek_inv in Hl as (_ & Hd & _ & Hf & _). by apply same_names_eq.
Qed.

Lemma close_names fd w : same_names w (snd (Sys.close fd w)).
Proof.
  destruct (close_frame fd w) as (Hf & Hd & _). by apply same_names_eq.
Qed.

Lemma fclose_names fp w : same_names w (Sys.fclose fp w).
Proof.
  unfold Sys.fclose, Sys.fflush.
  destruct (Sys.fp_buf fp) as [|a buf]; simpl; [apply close_names|].
  pose proof (write_names (Sys.fp_fd fp) (a :: buf) w) as Hw.
  destruct (Sys.write _ _ _) as [n w'] eqn:Hwr. simpl in *.
  eapply same_names_trans; [exact Hw|apply close_names].
Qed.

Lemma open_existing_names names : forall dirfd w,
  same_names w (snd (open_existing names dirfd w)).
Proof.
  induction names as [|name names IH]; intros dirfd w; simpl; [done|].
  destruct (Sys.openat dirfd name Sys.O_RDWR 384 w) as [fd w1] eqn:Ho.
  pose proof (IH dirfd w1) as H1.
  destruct (open_existing names dirfd w1) as [fds w2]. simpl in *.
  apply openat_rdwr_inv in Ho as (_ & Hd & Hf & _).
  eapply same_names_trans; [|exact H1]. by apply same_names_eq.
Qed.

Lemma read_timing_record_names fp w :
  same_names w (snd (read_timing_record fp w)).
Proof.
  unfold read_timing_record.
  destruct (Sys.fgets Sys.LINE_MAX fp w) as [[got fp'] w'] eqn:Hg.
  apply fgets_inv in Hg as (_ & Hd & _ & Hf & _).
  assert (same_names w w') as H by by apply same_names_eq.
  destruct got as [buf|].
  - by destruct (parse_timing _).
  - by destruct (Sys.feof fp').
Qed.

Lemma seek_and_truncate_names t s :
  same_names (sys s) (sys (snd (seek_and_truncate t s))).
Proof.
  unfold seek_and_truncate.
  destruct (event t <? IOFD_TIMING); [|done].
  destruct (Closure.io_fd (closure s) (event t) =? -1); [done|].
  pose proof (lseek_names (Closure.io_fd (closure s) (event t))
                (int64 (u_nbytes t)) SEEK_CUR (sys s)) as H1.
  destruct (Sys.lseek _ _ _ _) as [len w1]. simpl in H1.
  destruct (len =? -1); [done|]. simpl sys.
  pose proof (ftruncate_names (Closure.io_fd (closure s) (event t)) len w1)
    as H2.
  destruct (Sys.ftruncate _ _ _) as [r w2]. simpl in H2.
  assert (same_names (sys s) w2) as H12 by by eapply same_names_trans.
  by destruct (r =? -1).
Qed.

Lemma replay_names fuel : forall target fp s,
  same_names (sys s) (sys (snd (replay fuel target fp s))).
Proof.
  induction fuel as [|k IH]; intros target fp s; [done|].
  simpl replay.
  pose proof (read_timing_record_names fp (sys s)) as H1.
  destruct (read_timing_record fp (sys s)) as [[[rc t] fp1] w1]. simpl in H1.
  destruct (rc =? 0); [|done].
  destruct t as [t|]; [|done].
  match goal with
  | |- context [seek_and_truncate t ?s0] =>
      pose proof (seek_and_truncate_names t s0) as H2;
      destruct (seek_and_truncate t s0) as [ok s2]
  end.
  simpl in H2.
  assert (same_names (sys s) (sys s2)) as H12 by by eapply same_names_trans.
  destruct ok; simpl; [|done].
  destruct (sudo_timespeccmp_ge _ _).
  - by destruct (sudo_timespeccmp_eq _ _).
  - eapply same_names_trans; [exact H12|apply IH].
Qed.

(** X21.  A restart never creates or removes anything, whether it
    succeeds or fails: after [iolog_restart] the directories are those
    there were and the files have the names they had; only the contents
    of files that were there can have changed. *)
Theorem iolog_restart_same_names msg s :
  w_dirs (sys (snd (iolog_restart msg s))) = w_dirs (sys s)
  /\ dom (w_files (sys (snd (iolog_restart msg s)))) = dom (w_files (sys s)).
Proof.
  change (same_names (sys s) (sys (snd (iolog_restart msg s)))).
  unfold iolog_restart.
  destruct (Sys.strdup (log_id msg) (sys s)) as [copy w1] eqn:Hsd.
  apply strdup_inv in Hsd as (_ & Hd1 & Hf1 & _).
  assert (same_names (sys s) w1) as N1 by by apply same_names_eq.
  destruct copy as [dir|]; [|done].
  cbn [closure sys with_closure with_sys].
  destruct (Sys.open dir Sys.O_RDONLY w1) as [fd0 w2] eqn:Hop.
  apply open_rdonly_inv in Hop as (_ & Hd2 & Hf2 & _).
  assert (same_names (sys s) w2) as N2.
  { eapply same_names_trans; [exact N1|by apply same_names_eq]. }
  cbn [closure sys with_closure with_sys].
  destruct (fd0 =? -1); [done|].
  match goal with
  | |- context [open_existing iolog_names ?d w2] =>
      pose proof (open_existing_names iolog_names d w2) as H3;
      destruct (open_existing iolog_names d w2) as [fds w3]
  end.
  simpl in H3.
  assert (same_names (sys s) w3) as N3 by by eapply same_names_trans.
  cbn [closure sys with_closure with_sys].
  match goal with
  | |- context [if ?b then _ else _] => destruct b; [done|]
  end.
  match goal with
  | |- context [Sys.dup ?d w3] =>
      destruct (Sys.dup d w3) as [fd' w4] eqn:Hdup
  end.
  apply dup_inv in Hdup as (_ & Hd4 & Hf4 & _).
  assert (same_names (sys s) w4) as N4.
  { eapply same_names_trans; [exact N3|by apply same_names_eq]. }
  cbn [closure sys with_closure with_sys].
  destruct (fd' =? -1); [done|].
  destruct (Sys.fdopen fd' w4) as [fp w5] eqn:Hfo.
  apply fdopen_inv in Hfo as (_ & Hd5 & Hf5 & _).
  assert (same_names (sys s) w5) as N5.
  { eapply same_names_trans; [exact N4|by apply same_names_eq]. }
  cbn [closure sys with_closure with_sys].
  destruct fp as [fp|]; [|done].
  match goal with
  | |- context [replay ?fuel ?target fp ?s0] =>
      pose proof (replay_names fuel target fp s0) as H6;
      destruct (replay fuel target fp s0) as [[exit fp6] s6]
  end.
  cbn [closure sys with_closure with_sys snd] in H6.
  assert (same_names (sys s) (sys s6)) as N6 by by eapply same_names_trans.
  assert (same_names (sys s) (Sys.fclose fp6 (sys s6))) as N6c.
  { eapply same_names_trans; [exact N6|apply fclose_names]. }
  destruct exit; [|done..].
  destruct (Sys.ftello fp6 (sys s6)) as [len w7] eqn:Htell.
  apply ftello_inv in Htell as (_ & Hd7 & Hf7 & _).
  assert (same_names (sys s) w7) as N7.
  { eapply same_names_trans; [exact N6|by apply same_names_eq]. }
  assert (same_names (sys s) (Sys.fclose fp6 w7)) as N8.
  { eapply same_names_trans; [exact N7|apply fclose_names]. }
  match goal with
  | |- context [Sys.lseek ?fd len SEEK_SET ?w] =>
      pose proof (lseek_names fd len SEEK_SET w) as H9;
      destruct (Sys.lseek fd len SEEK_SET w) as [r w9]
  end.
  simpl in H9.
  assert (same_names (sys s) w9) as N9 by by eapply same_names_trans.
  cbn [closure sys with_closure with_sys].
  destruct (r =? -1).
  { cbn [closure sys with_closure with_sys snd say].
    eapply same_names_trans; [|apply fclose_names].
    eapply same_names_trans; [exact N9|apply same_names_debug]. }
  match goal with
  | |- context [Sys.ftruncate ?fd len ?w] =>
      pose proof (ftruncate_names fd len w) as H10;
      destruct (Sys.ftruncate fd len w) as [r2 w10]
  end.
  simpl in H10.
  assert (same_names (sys s) w10) as N10 by by eapply same_names_trans.
  cbn [closure sys with_closure with_sys].
  destruct (r2 =? -1); [|done].
  cbn [closure sys with_closure with_sys snd say].
  eapply same_names_trans; [|apply fclose_names].
  eapply same_names_trans; [exact N10|apply same_names_debug].
Qed.

(** ** Calls that the environment lets through *)

(** When the script is exhausted every call runs on its merits: it fails
    only for a reason of its own, and the script stays exhausted. *)
Lemma strdup_calm x w r w' :
  w_script w = [] -> Sys.strdup x w = (r, w') ->
  r = Some x /\ w_script w' = [].
Proof.
  intros Hs. unfold Sys.strdup, Sys.next_outcome. rewrite Hs. simpl.
  by intros [= <- <-].
Qed.

Lemma open_dir_calm path w r w' :
  w_script w = [] -> path ∈ w_dirs w ->
  Sys.open path Sys.O_RDONLY w = (r, w') ->
  r <> -1 /\ w_script w' = [].
Proof.
  intros Hs Hdir. unfold Sys.open, Sys.next_outcome. rewrite Hs. simpl.
  unfold Sys.open_path. rewrite bool_decide_eq_true_2 by done. simpl.
  intros [= <- <-]. simpl. split; [lia|done].
Qed.

Lemma openat_rdwr_calm dirfd name w j dd r w' :
  w_script w = [] ->
  Sys.fd_lookup w dirfd = Some (j, dd) -> ofd_dir dd = true ->
  Sys.openat dirfd name Sys.O_RDWR 384 w = (r, w') ->
  w_script w' = []
  /\ (is_Some (w_files w !! (ofd_path dd +:+ "/" +:+ name)) ->
      (ofd_path dd +:+ "/" +:+ name ∉ w_dirs w) -> r <> -1).
Proof.
  intros Hs Hl Hdir Hrun.
  split.
  { pose proof (openat_script dirfd name Sys.O_RDWR 384 w) as Hscr.
    rewrite Hrun, Hs in Hscr. exact Hscr. }
  intros [c Hc] Hnd. revert Hrun.
  unfold Sys.openat, Sys.next_outcome. rewrite Hs. simpl.
  rewrite Hl, Hdir. unfold Sys.open_path.
  rewrite bool_decide_eq_false_2 by done. rewrite Hc. simpl.
  intros [= <- <-]. lia.
Qed.

Lemma dup_calm fd w i d r w' :
  w_script w = [] -> Sys.fd_lookup w fd = Some (i, d) ->
  Sys.dup fd w = (r, w') -> r <> -1 /\ w_script w' = [].
Proof.
  intros Hs Hl. unfold Sys.dup, Sys.next_outcome. rewrite Hs. simpl.
  rewrite Hl. intros [= <- <-]. simpl. split; [lia|done].
Qed.

Lemma fdopen_calm fd w i d fp w' :
  w_script w = [] -> Sys.fd_lookup w fd = Some (i, d) ->
  Sys.fdopen fd w = (fp, w') -> fp <> None /\ w_script w' = [].
Proof.
  intros Hs Hl. unfold Sys.fdopen, Sys.next_outcome. rewrite Hs. simpl.
  rewrite Hl. by intros [= <- <-].
Qed.

Lemma fgets_calm size fp w i d content got fp' w' :
  w_script w = [] ->
  Sys.fd_lookup w (Sys.fp_fd fp) = Some (i, d) -> ofd_rd d = true ->
  w_files w !! ofd_path d = Some content ->
  Sys.fgets size fp w = (got, fp', w') ->
  w_script w' = []
  /\ (Sys.line_prefix (Z.to_nat (size - 1))
        (drop (Z.to_nat (ofd_off d)) content) <> [] ->
      got = Some (Sys.line_prefix (Z.to_nat (size - 1))
                    (drop (Z.to_nat (ofd_off d)) content))).
Proof.
  intros Hs Hl Hrd Hc. unfold Sys.fgets, Sys.next_outcome. rewrite Hs.
  cbv beta iota zeta. rewrite Hl, Hrd, Hc.
  destruct (Sys.line_prefix _ _) as [|c g]; intros [= <- <- <-]; done.
Qed.

Lemma lseek_calm fd off wh w i d r w' :
  w_script w = [] -> Sys.fd_lookup w fd = Some (i, d) ->
  0 <= match wh with SEEK_SET => off | SEEK_CUR => ofd_off d + off end
    <= 9223372036854775807 ->
  Sys.lseek fd off wh w = (r, w') -> r <> -1 /\ w_script w' = [].
Proof.
  intros Hs Hl Hpos. unfold Sys.lseek, Sys.next_outcome. rewrite Hs. simpl.
  rewrite Hl.
  destruct (Z.ltb_spec (match wh with
                        | SEEK_SET => off
                        | SEEK_CUR => ofd_off d + off
                        end) 0); [lia|].
  destruct (Z.ltb_spec 9223372036854775807
              (match wh with
               | SEEK_SET => off
               | SEEK_CUR => ofd_off d + off
               end)); [lia|].
  simpl. intros [= <- <-]. simpl. split; [lia|done].
Qed.

Lemma ftruncate_calm fd len w i d r w' :
  w_script w = [] -> Sys.fd_lookup w fd = Some (i, d) ->
  ofd_wr d = true -> 0 <= len -> is_Some (w_files w !! ofd_path d) ->
  Sys.ftruncate fd len w = (r, w') -> r <> -1 /\ w_script w' = [].
Proof.
  intros Hs Hl Hwr Hlen [c Hc]. unfold Sys.ftruncate, Sys.next_outcome.
  rewrite Hs. simpl. rewrite Hl, Hwr, Hc.
  destruct (Z.ltb_spec len 0); [lia|]. simpl.
  by intros [= <- <-].
Qed.

(** ** A restart that the environment lets through *)

Lemma read_records_last k : forall content recs pos t pos',
  read_records k content = Some (recs, pos) ->
  read_records (S k) content = Some (recs ++ [t], pos') ->
  Sys.line_prefix 2047 (drop pos content) <> []
  /\ parse_timing
       (take (strcspn (c_str (Sys.line_prefix 2047 (drop pos content))) NL)
          (c_str (Sys.line_prefix 2047 (drop pos content)))) = Some t.
Proof.
  induction k as [|k IH]; intros content recs pos t pos' Hk HSk.
  - injection Hk as <- <-. rewrite drop_0.
    rewrite read_records_S in HSk.
    destruct (Sys.line_prefix 2047 content) as [|c0 g0]; [done|].
    cbv beta iota zeta in HSk.
    destruct (parse_timing _) as [r0|]; [|done].
    simpl read_records in HSk. cbv beta iota zeta in HSk.
    injection HSk as -> _. done.
  - rewrite read_records_S in Hk.
    rewrite (read_records_S (S k)) in HSk.
    destruct (Sys.line_prefix 2047 content) as [|c0 g0] eqn:Hg0; [done|].
    cbv beta iota zeta in Hk, HSk.
    destruct (parse_timing _) as [r0|]; [|done].
    destruct (read_records k _) as [[rs n]|] eqn:Hrest; [|done].
    destruct (read_records (S k) _) as [[rs' n']|] eqn:Hrest'; [|done].
    injection Hk as <- <-. injection HSk as -> _.
    destruct (IH _ _ _ _ _ Hrest Hrest') as [Hne Hp].
    rewrite drop_drop in Hne, Hp. done.
Qed.

Lemma take_app_S {A} (l : list A) x rest :
  take (S (length l)) (l ++ x :: rest) = l ++ [x].
Proof.
  rewrite take_app_ge by lia.
  replace (S (length l) - length l)%nat with 1%nat by lia. done.
Qed.

(** The next line of the timing file is the next record. *)
Lemma read_records_next timing done t rest pos pos_end :
  read_records (length done) timing = Some (done, pos) ->
  read_records (length (done ++ t :: rest)) timing
  = Some (done ++ t :: rest, pos_end) ->
  Sys.line_prefix 2047 (drop pos timing) <> []
  /\ parse_timing
       (take (strcspn (c_str (Sys.line_prefix 2047 (drop pos timing))) NL)
          (c_str (Sys.line_prefix 2047 (drop pos timing)))) = Some t.
Proof.
  intros Hdone Hall.
  destruct (read_records_take (S (length done)) _ _ _ _ Hall) as (pos' & Hk).
  { rewrite length_app. simpl. lia. }
  rewrite take_app_S in Hk.
  by eapply read_records_last.
Qed.

(** A record whose stream is open within the range of an [off_t], on a
    file that is there, is let through. *)
Lemma seek_and_truncate_calm t s :
  w_script (sys s) = [] ->
  (event t < IOFD_TIMING ->
   Closure.io_fd (closure s) (event t) <> -1
   /\ exists i d,
        Sys.fd_lookup (sys s) (Closure.io_fd (closure s) (event t))
        = Some (i, d)
        /\ ofd_wr d = true
        /\ is_Some (w_files (sys s) !! ofd_path d)
        /\ 0 <= ofd_off d + int64 (u_nbytes t) <= 9223372036854775807) ->
  exists s2,
    seek_and_truncate t s = (true, s2)
    /\ w_script (sys s2) = [] /\ closure s2 = closure s.
Proof.
  intros Hs Hopen. unfold seek_and_truncate.
  destruct (event t <? IOFD_TIMING) eqn:Hev; [|by exists s].
  apply Z.ltb_lt in Hev.
  destruct (Hopen Hev) as (Hfd & i & d & Hl & Hwr & Hfile & Hoff).
  apply Z.eqb_neq in Hfd. rewrite Hfd.
  destruct (Sys.lseek _ _ SEEK_CUR (sys s)) as [len w1] eqn:Hseek.
  destruct (lseek_calm _ (int64 (u_nbytes t)) SEEK_CUR _ _ _ _ _ Hs Hl Hoff
              Hseek) as [Hlen Hs1].
  apply lseek_inv in Hseek
    as (_ & _ & Hfds1 & Hf1 & [(? & _)|(i' & d' & Hl' & _ & Hlen0 & Hofds1)]);
    [done|].
  rewrite Hl in Hl'. injection Hl' as <- <-.
  apply Z.eqb_neq in Hlen. rewrite Hlen. simpl sys.
  destruct (Sys.ftruncate _ len w1) as [r w2] eqn:Htr.
  assert (Sys.fd_lookup w1 (Closure.io_fd (closure s) (event t))
          = Some (i, Sys.set_off len d)) as Hl1
    by (eapply fd_lookup_insert_eq; eauto).
  assert (r <> -1 /\ w_script w2 = []) as [Hr Hs2].
  { apply (ftruncate_calm _ len _ _ _ r w2 Hs1 Hl1); [done|done| |done].
    simpl. by rewrite Hf1. }
  apply Z.eqb_neq in Hr. rewrite Hr. simpl.
  by eexists.
Qed.

Lemma referenced_in iofd recs t :
  t ∈ recs -> event t = iofd -> referenced iofd recs = true.
Proof.
  intros Hin Hev. unfold referenced. apply existsb_exists.
  exists t. split; [by apply list_elem_of_In|by apply Z.eqb_eq].
Qed.

(** In an environment that lets every call through, the loop replays
    the records of a timing file whose streams are open on files that
    are there, within the range of an [off_t]: when the elapsed time
    first reaches the target beyond it, the loop is left through the
    mismatch, with its message. *)
Lemma replay_calm fuel :
  forall dir timing files0 e0 target fp s done pos todo pos_end,
    replaying dir timing files0 e0 fp s done pos ->
    w_script (sys s) = [] ->
    todo <> [] ->
    read_records (length (done ++ todo)) timing
    = Some (done ++ todo, pos_end) ->
    (forall n name, (n < 5)%nat -> iolog_names !! n = Some name ->
       referenced (Z.of_nat n) (done ++ todo) = true ->
       Closure.io_fd (closure s) (Z.of_nat n) <> -1
       /\ is_Some (files0 !! (dir +:+ "/" +:+ name))) ->
    (forall k n,
       0 <= stream_bytes n (take k (done ++ todo)) <= 9223372036854775807) ->
    below_target e0 target (done ++ todo) (length (done ++ todo)) ->
    sudo_timespeccmp_ge (elapsed_after e0 (done ++ todo)) target = true ->
    sudo_timespeccmp_eq (elapsed_after e0 (done ++ todo)) target = false ->
    (length timing - pos < fuel)%nat ->
    exists fp' s',
      replay fuel target fp s = (Bad, fp', s')
      /\ w_debug (sys s')
         = w_debug (sys s)
             ++ [dbg_resume_mismatch target (elapsed_after e0 (done ++ todo))].
Proof.
  induction fuel as [|fuel IH];
    intros dir timing files0 e0 target fp s done pos todo pos_end Hrep Hs
      Htodo Hall Hopen Hbytes Hbelow Hge Hneq Hfuel; [lia|].
  destruct todo as [|t rest]; [done|]. clear Htodo.
  pose proof Hrep as [Hlen Hbuf Htim (i0 & Htfd & Hfp & Hne) Hpos Hrecs Hel Hstr].
  destruct (read_records_next _ _ _ _ _ _ Hrecs Hall) as [Hgne Hparse].
  set (got := Sys.line_prefix 2047 (drop pos timing)) in *.
  simpl replay. unfold read_timing_record.
  destruct (Sys.fgets Sys.LINE_MAX fp (sys s)) as [[g fp1] w1] eqn:Hg.
  destruct (fgets_calm _ _ _ _ _ timing _ _ _ Hs Hfp eq_refl Htim Hg)
    as [Hs1 Hgot].
  simpl ofd_off in Hgot. rewrite Nat2Z.id in Hgot.
  change (Z.to_nat (Sys.LINE_MAX - 1)) with 2047%nat in Hgot.
  specialize (Hgot Hgne). subst g.
  pose proof (fgets_inv _ _ _ _ _ _ Hg)
    as (_ & _ & Hfds1 & Hf1 & _ & _ & -> & _ & _ & _ & _ & _ & _ & _ & _).
  cbv beta iota zeta. fold got. rewrite Hparse.
  simpl (0 =? 0). cbv iota.
  set (s1 := with_closure _ _).
  assert (forall x, Closure.io_fd (closure s1) x = Closure.io_fd (closure s) x)
    as Hio by done.
  pose proof (parse_timing_event _ _ Hparse) as Hev.
  assert (t ∈ done ++ t :: rest) as Hin
    by (apply elem_of_app; right; left).
  destruct (seek_and_truncate_calm t s1) as (s2 & Hst & Hs2 & Hc2).
  { exact Hs1. }
  { intros Hlt. unfold IOFD_TIMING in Hlt.
    set (n0 := Z.to_nat (event t)).
    assert (event t = Z.of_nat n0) as Hn0 by (subst n0; lia).
    assert (n0 < 5)%nat as Hn05 by lia.
    destruct (iolog_names !! n0) as [name0|] eqn:Hname0.
    2: { apply lookup_ge_None in Hname0. simpl in Hname0. lia. }
    destruct (Hopen n0 name0 Hn05 Hname0) as [Hfd0 Hfile0].
    { by apply (referenced_in _ _ t). }
    destruct (Hstr n0 name0 Hn05 Hname0) as [[?|(in0 & Hfdn0)] Hfile]; [done|].
    assert (0 <= stream_bytes (Z.of_nat n0) done + int64 (u_nbytes t)
            <= 9223372036854775807) as Hb.
    { pose proof (Hbytes (S (length done)) (Z.of_nat n0)) as Hb.
      by rewrite take_app_S, stream_bytes_snoc, <- Hn0, Z.eqb_refl, Hn0
        in Hb. }
    rewrite Hio, Hn0. split; [done|].
    exists in0, (mk_ofd (dir +:+ "/" +:+ name0)
                   (stream_bytes (Z.of_nat n0) done) true true false).
    split_and!.
    - pose proof (fgets_inv _ _ _ _ _ _ Hg)
        as (_ & _ & _ & _ & _ & _ & _ & i & d & content & Hl & _ & _ & _ & Hofds1).
      rewrite Hfp in Hl. injection Hl as <- <-.
      eapply fd_lookup_insert_ne; [exact Hfdn0|exact Hfds1|exact Hofds1|].
      apply (lookup_path_ne _ _ _ _ _ _ _ Hfdn0 Hfp). simpl.
      intros Heq. apply (path_inj dir name0 "timing") in Heq.
      by eapply iolog_names_timing.
    - done.
    - simpl. change (sys s1) with w1. rewrite Hf1.
      destruct (referenced (Z.of_nat n0) done).
      + destruct Hfile as (c & -> & _). by eexists.
      + by rewrite Hfile.
    - simpl. lia.
    - simpl. lia. }
  rewrite Hst. simpl negb. cbv iota.
  pose proof (replay_step _ _ _ _ _ _ _ _ _ _ _ _ _ Hrep Hg Hparse Hst)
    as (Hd2 & _ & _ & Hrep2).
  pose proof (rp_elapsed _ _ _ _ _ _ _ _ Hrep2) as Hel2.
  destruct rest as [|t' rest'].
  - rewrite Hel2, Hge, Hneq.
    eexists _, _. split; [reflexivity|]. simpl. by rewrite Hd2.
  - assert (sudo_timespeccmp_ge (elapsed_time (closure s2)) target = false)
      as ->.
    { rewrite Hel2, <- (take_app_S done t (t' :: rest')).
      apply Hbelow. rewrite length_app. simpl. lia. }
    assert (done ++ t :: t' :: rest' = (done ++ [t]) ++ t' :: rest') as Hsplit
      by by rewrite <- app_assoc.
    rewrite Hsplit in *.
    destruct (IH _ _ _ _ target _ _ _ _ (t' :: rest') pos_end Hrep2 Hs2)
      as (fp' & s' & Hrun & Hdbg); try done.
    + intros n name Hn Hname Href. rewrite Hc2, Hio. by apply Hopen.
    + pose proof (line_prefix_length 2047 (drop pos timing)) as Hle.
      fold got in Hle. rewrite length_drop in Hle.
      assert (0 < length got)%nat
        by (destruct got; [done|simpl; lia]).
      unfold got in *. lia.
    + exists fp', s'. split; [exact Hrun|]. by rewrite Hdbg, Hd2.
Qed.

Lemma open_existing_calm names : forall dirfd w fds w' j dd,
  w_script w = [] ->
  Sys.fd_lookup w dirfd = Some (j, dd) -> ofd_dir dd = true ->
  open_existing names dirfd w = (fds, w') ->
  w_script w' = []
  /\ forall n name fd,
       names !! n = Some name -> fds !! n = Some fd ->
       is_Some (w_files w !! (ofd_path dd +:+ "/" +:+ name)) ->
       (ofd_path dd +:+ "/" +:+ name ∉ w_dirs w) -> fd <> -1.
Proof.
  induction names as [|name names IH]; intros dirfd w fds w' j dd Hs Hl Hdir;
    simpl.
  { intros [= <- <-]. split; [done|]. intros n name fd Hn. done. }
  destruct (Sys.openat dirfd name Sys.O_RDWR 384 w) as [fd w1] eqn:Ho.
  destruct (open_existing names dirfd w1) as [fds1 w2] eqn:Hrest.
  intros [= <- <-].
  destruct (openat_rdwr_calm _ _ _ _ _ _ _ Hs Hl Hdir Ho) as [Hs1 Hfd].
  apply openat_rdwr_inv in Ho as (_ & Hd1 & Hf1 & Ho).
  assert (Sys.fd_lookup w1 dirfd = Some (j, dd)) as Hl1.
  { destruct Ho as [(_ & Hfds & Hofds)|(j' & dd' & _ & _ & _ & _ & Hfds & Hofds)].
    - by rewrite (fd_lookup_ext w w1).
    - eapply fd_lookup_install; eauto. }
  destruct (IH _ _ _ _ _ _ Hs1 Hl1 Hdir Hrest) as [Hs2 Hfds2].
  split; [done|].
  intros [|n] name' fd' Hname Hfd'; simpl in Hname, Hfd'.
  - injection Hname as <-. injection Hfd' as <-. exact Hfd.
  - intros Hsome Hnd. apply (Hfds2 n name' fd' Hname Hfd').
    + by rewrite Hf1.
    + by rewrite Hd1.
Qed.

(** In an environment that lets every call through, a restart over a
    session directory whose timing file and referenced stream files are
    there fails with the resume-point mismatch when the records first
    bring the elapsed time beyond the target. *)
Lemma iolog_restart_calm msg s timing recs pos :
  let dir := log_id msg in
  let target := mk_timespec (msg_tv_sec (resume_point msg))
                  (msg_tv_nsec (resume_point msg)) in
  w_script (sys s) = [] ->
  dir ∈ w_dirs (sys s) ->
  w_files (sys s) !! (dir +:+ "/timing") = Some timing ->
  (forall name, name ∈ iolog_names ->
     dir +:+ "/" +:+ name ∉ w_dirs (sys s)) ->
  (forall n name, (n < 5)%nat -> iolog_names !! n = Some name ->
     referenced (Z.of_nat n) recs = true ->
     is_Some (w_files (sys s) !! (dir +:+ "/" +:+ name))) ->
  (forall k n, 0 <= stream_bytes n (take k recs) <= 9223372036854775807) ->
  read_records (length recs) timing = Some (recs, pos) ->
  recs <> [] ->
  below_target (elapsed_time (closure s)) target recs (length recs) ->
  sudo_timespeccmp_ge (elapsed_after (elapsed_time (closure s)) recs) target
  = true ->
  sudo_timespeccmp_eq (elapsed_after (elapsed_time (closure s)) recs) target
  = false ->
  exists s',
    iolog_restart msg s = (false, s')
    /\ w_debug (sys s')
       = w_debug (sys s)
           ++ [dbg_resume_mismatch target
                 (elapsed_after (elapsed_time (closure s)) recs)].
Proof.
  intros dir0 target Hs Hdirin Htiming0 Hnodir Hfiles Hbytes Hrecs Hne Hbelow
    Hge Hneq.
  unfold iolog_restart. fold target. subst dir0.
  destruct (Sys.strdup (log_id msg) (sys s)) as [copy w1] eqn:Hsd.
  destruct (strdup_calm _ _ _ _ Hs Hsd) as [-> Hs1].
  apply strdup_inv in Hsd as (Hd1 & Hdirs1 & Hf1 & Hofds1 & Hfds1 & _ & _).
  set (dir := log_id msg) in *.
  simpl sys.
  destruct (Sys.open dir Sys.O_RDONLY w1) as [fd0 w2] eqn:Hop.
  destruct (open_dir_calm _ _ _ _ Hs1 ltac:(by rewrite Hdirs1) Hop)
    as [Hfd0 Hs2].
  apply open_rdonly_inv in Hop as (Hd2 & Hdirs2 & Hf2 & _ & Hop).
  simpl closure. simpl iolog_dir_fd.
  apply Z.eqb_neq in Hfd0. rewrite Hfd0. apply Z.eqb_neq in Hfd0.
  destruct Hop as [(? & _)|(d0 & Hr0 & Hp0 & _ & Hisdir & Hfds2 & Hofds2)];
    [done|].
  assert (Sys.fd_lookup w2 fd0 = Some (fresh (dom (w_ofds w1)), d0)) as Hl0.
  { subst fd0. eapply fd_lookup_fresh; [done|].
    by rewrite Hofds2, lookup_insert_eq. }
  assert (ofd_dir d0 = true) as Hd0dir by (apply Hisdir; by rewrite Hdirs1).
  simpl sys.
  destruct (open_existing iolog_names fd0 w2) as [fds w3] eqn:Hoe.
  destruct (open_existing_calm _ _ _ _ _ _ _ Hs2 Hl0 Hd0dir Hoe)
    as [Hs3 Hopened].
  apply (fun H => open_existing_inv _ _ _ _ _ _ _ H Hl0) in Hoe
    as (Hlen & Hf3 & Hd3 & Hkeep3 & Hfds).
  rewrite Hp0 in Hfds, Hopened.
  assert (w_files w2 = w_files (sys s)) as Hfiles2 by by rewrite Hf2.
  assert (w_dirs w2 = w_dirs (sys s)) as Hdirsw2 by by rewrite Hdirs2.
  set (c3 := Closure.set_io_fds fds _).
  assert (length (io_fds c3) = 6%nat) as Hlen3 by done.
  assert (elapsed_time c3 = elapsed_time (closure s)) as Hel3 by done.
  simpl closure. simpl sys.
  destruct (io_fd_lookup c3 5 Hlen3 ltac:(lia)) as (tfd & Htfd & Hio5).
  change (Z.of_nat 5) with IOFD_TIMING in Hio5. rewrite Hio5.
  assert (tfd <> -1) as Htfd1.
  { apply (Hopened 5%nat "timing"%string tfd eq_refl Htfd).
    - rewrite Hfiles2. change (dir +:+ "/" +:+ "timing") with (dir +:+ "/timing").
      by rewrite Htiming0.
    - rewrite Hdirsw2. apply Hnodir. compute_done. }
  apply Z.eqb_neq in Htfd1. rewrite Htfd1. apply Z.eqb_neq in Htfd1.
  destruct (Hfds 5%nat "timing"%string tfd eq_refl Htfd)
    as [?|([timing' Htiming] & it & Hlt)]; [done|].
  assert (timing' = timing) as ->.
  { rewrite Hfiles2 in Htiming.
    change (dir +:+ "/" +:+ "timing") with (dir +:+ "/timing") in Htiming.
    rewrite Htiming0 in Htiming. by injection Htiming. }
  destruct (Sys.dup tfd w3) as [fd' w4] eqn:Hdup.
  destruct (dup_calm _ _ _ _ _ _ Hs3 Hlt Hdup) as [Hfd' Hs4].
  apply dup_inv in Hdup as (Hd4 & _ & Hf4 & Hofds4 & Hdup).
  apply Z.eqb_neq in Hfd'. rewrite Hfd'. apply Z.eqb_neq in Hfd'.
  destruct Hdup as [(? & _)|(i & d & Hl & Hr' & Hfds4)]; [done|].
  rewrite Hlt in Hl. injection Hl as <- <-.
  simpl sys.
  assert (Sys.fd_lookup w4 fd'
          = Some (it, mk_ofd (dir +:+ "/" +:+ "timing") 0 true true false))
    as Hl4.
  { subst fd'. eapply fd_lookup_fresh; [done|]. rewrite Hofds4.
    by apply fd_lookup_Some in Hlt as (_ & _ & ?). }
  destruct (Sys.fdopen fd' w4) as [fp w5] eqn:Hfo.
  destruct (fdopen_calm _ _ _ _ _ _ Hs4 Hl4 Hfo) as [Hfpne Hs5].
  apply fdopen_inv in Hfo as (Hd5 & _ & Hf5 & Hofds5 & Hfds5 & Hfp).
  destruct Hfp as [->| ->]; [done|].
  set (fp := Sys.mk_FILE fd' false false []).
  set (s5 := with_sys w5 _).
  assert (forall fd i d, Sys.fd_lookup w3 fd = Some (i, d) ->
                         Sys.fd_lookup w5 fd = Some (i, d)) as Hkeep5.
  { intros fd i d Hl. rewrite (fd_lookup_ext w4 w5) by done.
    apply (fd_lookup_install w3 w4 fd i d it d Hl Hfds4). by right. }
  assert (w_files w5 = w_files (sys s)) as Hfiles5
    by by rewrite Hf5, Hf4, Hf3, Hf2.
  assert (w_debug w5 = w_debug (sys s)) as Hdebug5
    by by rewrite Hd5, Hd4, Hd3, Hd2.
  assert (replaying dir timing (w_files (sys s)) (elapsed_time (closure s))
            fp s5 [] 0) as Hrep.
  { assert (closure s5 = c3) as Hc5 by done.
    assert (sys s5 = w5) as Hs5' by done.
    constructor; rewrite ?Hc5, ?Hs5'.
    - done.
    - done.
    - by rewrite Hfiles5.
    - exists it. rewrite Hio5. split_and!.
      + by apply Hkeep5.
      + by rewrite (fd_lookup_ext w4 w5).
      + simpl. intros Heq. rewrite <- Heq, Hr' in Hlt.
        apply fd_lookup_Some in Hlt as (_ & Hin & _).
        rewrite Nat2Z.id in Hin.
        pose proof (is_fresh (dom (w_fds w3))) as Hfresh.
        apply Hfresh, elem_of_dom. eauto.
    - lia.
    - done.
    - done.
    - intros n name Hn Hname.
      destruct (io_fd_lookup c3 n Hlen3 ltac:(lia)) as (fd & Hfd & Hio).
      rewrite Hio. split.
      + destruct (Hfds n name fd Hname Hfd) as [->|(_ & i & Hl)];
          [by left|right].
        exists i. by apply Hkeep5.
      + by rewrite Hfiles5. }
  assert (replay_fuel fd' w5 = S (length timing)) as ->.
  { unfold replay_fuel.
    destruct Hrep as [_ _ Ht (i & _ & Hl & _) _ _ _ _].
    change (sys s5) with w5 in Hl, Ht. change (Sys.fp_fd fp) with fd' in Hl.
    rewrite Hl. simpl ofd_path. by rewrite Ht. }
  destruct (replay_calm (S (length timing)) dir timing (w_files (sys s))
              (elapsed_time (closure s)) target fp s5 [] 0%nat recs pos Hrep)
    as (fp6 & s6 & Hloop & Hd6); try done.
  { intros n name Hn Hname Href. simpl in Href.
    pose proof (Hfiles n name Hn Hname Href) as Hsome.
    split; [|done].
    destruct (io_fd_lookup c3 n Hlen3 ltac:(lia)) as (fd & Hfd & Hio).
    change (closure s5) with c3. rewrite Hio.
    apply (Hopened n name fd Hname Hfd).
    - by rewrite Hfiles2.
    - rewrite Hdirsw2. apply Hnodir. by eapply list_elem_of_lookup_2. }
  { simpl. lia. }
  simpl app in Hloop, Hd6. rewrite Hloop.
  eexists. split; [reflexivity|]. simpl.
  rewrite fclose_debug, Hd6. change (sys s5) with w5. by rewrite Hdebug5.
Qed.

(** *** Byte counts *)

Lemma parse_timing_nbytes line t :
  parse_timing line = Some t -> 0 <= u_nbytes t.
Proof.
  unfold parse_timing.
  destruct (Codec.scan_number _) as [[ev l]|]; [|done].
  destruct (IOFD_TIMING <? ev); [done|].
  destruct (Codec.expect SP l) as [l1|]; [|done].
  destruct (Codec.scan_number l1) as [[sec l2]|]; [|done].
  destruct (9223372036854775807 <? sec); [done|].
  destruct (Codec.expect "."%char l2) as [l3|]; [|done].
  destruct (Codec.scan_nsec l3) as [[nsec l4]|]; [|done].
  destruct (Codec.expect SP l4) as [l5|]; [|done].
  destruct (Codec.scan_payload ev l5) as [p|] eqn:Hp; [|done].
  intros [= <-]. unfold u_nbytes. simpl.
  destruct p as [n| |]; try done.
  revert Hp. unfold Codec.scan_payload.
  destruct (ev <? IOFD_TIMING).
  - destruct (Codec.scan_number l5) as [[n' l6]|] eqn:Hn; [|done].
    apply scan_number_nonneg in Hn.
    destruct l6; [|done]. destruct (n' <=? _); [|done]. by intros [= <-].
  - repeat case_match; done.
Qed.

Lemma read_records_nbytes k : forall content recs pos,
  read_records k content = Some (recs, pos) ->
  Forall (fun r => 0 <= u_nbytes r) recs.
Proof.
  induction k as [|k IH]; intros content recs pos Hk.
  - injection Hk as <- <-. constructor.
  - rewrite read_records_S in Hk.
    destruct (Sys.line_prefix 2047 content) as [|c0 g0]; [done|].
    cbv beta iota zeta in Hk.
    destruct (parse_timing _) as [r0|] eqn:Hp; [|done].
    destruct (read_records k _) as [[rs n]|] eqn:Hrest; [|done].
    injection Hk as <- <-. constructor.
    + by eapply parse_timing_nbytes.
    + by eapply IH.
Qed.

Lemma payload_sum_cons iofd r recs :
  payload_sum iofd (r :: recs)
  = (if decide (event r = iofd) then u_nbytes r else 0) + payload_sum iofd recs.
Proof.
  unfold payload_sum. rewrite filter_cons.
  by destruct (decide (event r = iofd)).
Qed.

Lemma payload_sum_nonneg iofd recs :
  Forall (fun r => 0 <= u_nbytes r) recs -> 0 <= payload_sum iofd recs.
Proof.
  induction 1 as [|r recs Hr _ IH]; [done|].
  rewrite payload_sum_cons. destruct (decide (event r = iofd)); lia.
Qed.

Lemma payload_sum_take iofd recs :
  Forall (fun r => 0 <= u_nbytes r) recs ->
  forall k, 0 <= payload_sum iofd (take k recs) <= payload_sum iofd recs.
Proof.
  induction 1 as [|r recs Hr Hrecs IH]; intros k.
  - by rewrite take_nil.
  - destruct k as [|k]; simpl take.
    + split; [done|]. apply payload_sum_nonneg. by constructor.
    + rewrite !payload_sum_cons. specialize (IH k).
      destruct (decide (event r = iofd)); lia.
Qed.

Lemma payload_in_range recs :
  Forall (fun r => 0 <= u_nbytes r) recs ->
  (forall iofd, payload_sum iofd recs <= 9223372036854775807) ->
  Forall (fun r => in_int64 (u_nbytes r)) recs.
Proof.
  induction 1 as [|r recs Hr Hrecs IH]; intros Hsum; [constructor|].
  constructor.
  - specialize (Hsum (event r)). rewrite payload_sum_cons in Hsum.
    rewrite decide_True in Hsum by done.
    pose proof (payload_sum_nonneg (event r) recs Hrecs).
    unfold in_int64. lia.
  - apply IH. intros iofd. specialize (Hsum iofd).
    rewrite payload_sum_cons in Hsum.
    destruct (decide (event r = iofd)); lia.
Qed.

(** When the byte counts of each stream add up within an [off_t], every
    offset the replay seeks to is one. *)
Lemma stream_bytes_in_range recs :
  Forall (fun r => 0 <= u_nbytes r) recs ->
  (forall iofd, payload_sum iofd recs <= 9223372036854775807) ->
  forall k n, 0 <= stream_bytes n (take k recs) <= 9223372036854775807.
Proof.
  intros Hpos Hsum k n.
  rewrite stream_bytes_payload.
  - pose proof (payload_sum_take n recs Hpos k). specialize (Hsum n). lia.
  - apply Forall_take. by apply payload_in_range.
Qed.

(** C3, as the code has it.  Take a session directory that is in place:
    the directory and its timing file are there, so is the file of every
    byte stream the records refer to, none of the six names is a
    directory, and the environment lets every call through.  Let the run
    [recs] of the first records of the timing file be the shortest that
    brings the elapsed time to the target [T] or beyond, let it bring it
    strictly beyond, and let the byte counts of each stream add up within
    an [off_t].  Then a restart to [T] fails with the resume-point
    mismatch: it returns false and its one debug message is the mismatch,
    with [T] and the elapsed time after [recs].  The timing file is as it
    was at the call.  The byte streams are not: the file of every stream
    that a record of [recs] refers to, the overshooting record included,
    has been cut or extended to the length those records add up to; only
    the file of a stream that none refers to is left as it was. *)
Theorem iolog_restart_mismatch msg s ok s' timing recs pos :
  let dir := log_id msg in
  let target := mk_timespec (msg_tv_sec (resume_point msg))
                  (msg_tv_nsec (resume_point msg)) in
  w_script (sys s) = [] ->
  dir ∈ w_dirs (sys s) ->
  w_files (sys s) !! (dir +:+ "/timing") = Some timing ->
  (forall name, name ∈ iolog_names ->
     dir +:+ "/" +:+ name ∉ w_dirs (sys s)) ->
  (forall n name, (n < 5)%nat -> iolog_names !! n = Some name ->
     referenced (Z.of_nat n) recs = true ->
     is_Some (w_files (sys s) !! (dir +:+ "/" +:+ name))) ->
  (forall iofd, payload_sum iofd recs <= 9223372036854775807) ->
  read_records (length recs) timing = Some (recs, pos) ->
  recs <> [] ->
  below_target (elapsed_time (closure s)) target recs (length recs) ->
  sudo_timespeccmp_ge (elapsed_after (elapsed_time (closure s)) recs) target
  = true ->
  sudo_timespeccmp_eq (elapsed_after (elapsed_time (closure s)) recs) target
  = false ->
  iolog_restart msg s = (ok, s') ->
  ok = false
  /\ w_debug (sys s')
     = w_debug (sys s)
         ++ [dbg_resume_mismatch target
               (elapsed_after (elapsed_time (closure s)) recs)]
  /\ w_files (sys s') !! (dir +:+ "/timing") = Some timing
  /\ forall n name, (n < 5)%nat -> iolog_names !! n = Some name ->
       if referenced (Z.of_nat n) recs
       then exists c,
              w_files (sys s') !! (dir +:+ "/" +:+ name) = Some c
              /\ Z.of_nat (length c) = payload_sum (Z.of_nat n) recs
       else w_files (sys s') !! (dir +:+ "/" +:+ name)
            = w_files (sys s) !! (dir +:+ "/" +:+ name).
Proof.
  intros dir target Hcalm Hdir Htiming Hnodir Hfiles Hsum Hrecs Hne Hbelow
    Hge Hneq Hrun.
  pose proof (read_records_nbytes _ _ _ _ Hrecs) as Hpos.
  destruct (iolog_restart_calm msg s timing recs pos Hcalm Hdir Htiming Hnodir
              Hfiles (stream_bytes_in_range recs Hpos Hsum) Hrecs Hne Hbelow
              Hge Hneq) as (s1 & Hrun1 & Hdbg).
  rewrite Hrun in Hrun1. injection Hrun1 as -> <-.
  split; [done|]. split; [exact Hdbg|].
  destruct (iolog_restart_inv _ _ _ _ Hrun) as (msgs & Hmsgs & Hcase).
  fold target in Hcase, Hdbg.
  rewrite Hdbg in Hmsgs. apply app_inv_head in Hmsgs. subst msgs.
  destruct Hcase as [(? & _)
                    |[(_ & _ & Hge' & _ & timing' & recs' & pos' & Hne' & Hbel' & Hrec)
                     |(_ & Hno)]]; [done| |].
  - destruct Hrec as (Ht0 & Hrecs' & Ht & Hela & Hstr).
    fold dir in Ht0, Ht, Hstr. rewrite Htiming in Ht0. injection Ht0 as <-.
    rewrite Hela in Hge'.
    destruct (first_reach_unique _ target _ _ _ _ _ Hrecs Hrecs' Hne Hne'
                Hbelow Hbel' Hge Hge') as [<- _].
    split; [done|]. intros n name Hn Hname.
    specialize (Hstr n name Hn Hname).
    rewrite stream_bytes_payload in Hstr by by apply payload_in_range.
    exact Hstr.
  - exfalso. apply (Hno target (elapsed_after (elapsed_time (closure s)) recs)).
    by apply list_elem_of_singleton.
Qed.

(** The fifth scenario of the specification: restart to 0.25 s, between
    the first two records.  The restart fails with the mismatch at
    0.3 s. *)
Lemma iolog_restart_mismatch_witness :
  w_debug (sys (snd (Example.restart_at Example.logged 250000000)))
  = w_debug (sys (mk_state Example.closure0 Example.logged))
      ++ [dbg_resume_mismatch (mk_timespec 0 250000000)
            (elapsed_after (elapsed_time Example.closure0)
               [mk_timing 1 (mk_timespec 0 100000000) (Bytes 4);
                mk_timing 1 (mk_timespec 0 200000000) (Bytes 8)])].
Proof.
  destruct (iolog_restart_mismatch
              (mk_RestartMessage Example.session_dir (mk_TimeSpec 0 250000000))
              (mk_state Example.closure0 Example.logged)
              false
              (snd (Example.restart_at Example.logged 250000000))
              (chars "1 0.100000000 4" ++ [NL] ++ chars "1 0.200000000 8"
                 ++ [NL] ++ chars "1 0.300000000 16" ++ [NL])
              [mk_timing 1 (mk_timespec 0 100000000) (Bytes 4);
               mk_timing 1 (mk_timespec 0 200000000) (Bytes 8)]
              32%nat)
    as (_ & Hdbg & _).
  - vm_compute. reflexivity.
  - apply (bool_decide_unpack _). vm_compute. exact I.
  - vm_compute. reflexivity.
  - intros name Hin Hd. apply (bool_decide_pack _) in Hd. revert Hd.
    unfold iolog_names in Hin.
    repeat (apply elem_of_cons in Hin as [->|Hin]; [vm_compute; intros []|]).
    intros _. exact (proj1 (elem_of_nil name) Hin).
  - intros n name Hn Hname Href.
    destruct n as [|[|n]]; [vm_compute in Href; discriminate| |].
    + injection Hname as <-. apply (bool_decide_unpack _). vm_compute.
      exact I.
    + exfalso. unfold referenced in Href. cbn [existsb event] in Href.
      assert ((1 =? Z.of_nat (S (S n))) = false) as Hn1
        by (apply Z.eqb_neq; lia).
      rewrite Hn1 in Href. discriminate Href.
  - intros iofd. rewrite !payload_sum_cons. cbn [event u_nbytes u].
    change (payload_sum iofd []) with 0.
    destruct (decide (1 = iofd)); lia.
  - vm_compute. reflexivity.
  - discriminate.
  - intros k Hk. assert (k = 1%nat) as -> by (simpl in Hk; lia).
    vm_compute. reflexivity.
  - vm_compute. reflexivity.
  - vm_compute. reflexivity.
  - vm_compute. reflexivity.
  - exact Hdbg.
Defined.

(** C3, as stated, fails in that scenario: the restart fails with the
    mismatch, but stdout, 28 bytes at the call, is left with 12, the 4
    bytes of the first record and 8 zero bytes for the second. *)
Lemma iolog_restart_mismatch_truncates :
  fst (Example.restart_at Example.logged 250000000) = false
  /\ w_debug (sys (snd (Example.restart_at Example.logged 250000000)))
     = [dbg_resume_mismatch (mk_timespec 0 250000000)
          (mk_timespec 0 300000000)]
  /\ w_files Example.logged !! (Example.session_dir +:+ "/stdout")
     = Some (replicate 28 "x"%char)
  /\ Example.file (snd (Example.restart_at Example.logged 250000000)) "stdout"
     = Some (replicate 4 "x"%char ++ replicate 8 NUL).
Proof. split_and!; vm_compute; reflexivity. Qed.
